(** * Flights of Xe/yoke-stuff: decoding, validation and resource builders

    A shallow embedding of the custom-resource types of the repository
    (App, Valkey, Postgres), of their JSON hooks ([MarshalJSON],
    [UnmarshalJSON]) and of the three flight programs that turn a decoded
    spec into a list of Kubernetes objects.

    Conventions.
    - A Go [string] is a [string] (a sequence of bytes); [int], [int32] and
      [int64] are [Z] with the range checks and the wrap-around of the
      conversions written out ([int] is 64 bits wide on the wasm target the
      flights are built for).
    - A Go slice is a [list] and a Go [map[string]string] is a
      [gmap string string]: the nil slice and the empty slice are both [[]],
      the nil map and the empty map are both [∅]. Every use in the flights
      ([append], [range], [maps.Copy], the [!= nil] test on [Env] that only
      guards an [append]) treats the two alike.
    - A pointer to a struct is an [option].
    - A function that returns [(T, error)] returns a [result T]; a panic is
      an outcome of its own. *)

From Stdlib Require Import ZArith Ascii String.
From stdpp Require Import base option list strings gmap fin_maps sorting pretty.

Local Open Scope string_scope.
Local Open Scope Z_scope.
Local Open Scope list_scope.

(** ** Errors and results *)

Inductive error :=
  (** [io.EOF]: the input holds no document. *)
  | EOF
  (** [yaml.YAMLSyntaxError{err}]: the wrapper the YAML-to-JSON decoder puts
      around whatever made it fail, a syntax error or the error of a hook. *)
  | YAMLSyntaxError (cause : error)
  (** [json.UnmarshalTypeError]: a JSON value of kind [value] does not fit
      the Go type [type]. *)
  | UnmarshalTypeError (value : string) (type : string)
  (** An error built by [fmt.Errorf], with its text. *)
  | Errorf (msg : string).

Inductive result (A : Type) :=
  | Ok (a : A)
  | Err (e : error).
Arguments Ok {A} a.
Arguments Err {A} e.

(** ** JSON documents

    The tree the decoder of [encoding/json] walks. An object keeps its
    members in document order, duplicates included. A number is either an
    integer literal or some other literal (a fraction, an exponent), which
    no integer field accepts. *)

Unset Elimination Schemes.
Inductive json :=
  | JNull
  | JBool (b : bool)
  | JNum (n : Z)
  | JFloat (literal : string)
  | JStr (s : string)
  | JArr (items : list json)
  | JObj (members : list (string * json)).
Set Elimination Schemes.

Definition jsonKind (j : json) : string :=
  match j with
  | JNull => "null"
  | JBool _ => "bool"
  | JNum _ | JFloat _ => "number"
  | JStr _ => "string"
  | JArr _ => "array"
  | JObj _ => "object"
  end.

(** ** The decode state of [json.Unmarshal]

    One call of [json.Unmarshal] either runs to the end of the value,
    keeping the earliest type mismatch as its saved error ([d.saveError])
    while it completes the rest as best it can, or is aborted by the error
    of an [UnmarshalJSON] hook ([d.object] and [d.array] return it at
    once). *)

Inductive Dec (A : Type) :=
  | Done (v : A) (savedError : option error)
  | Abort (e : error).
Arguments Done {A} v savedError.
Arguments Abort {A} e.

Definition firstError (s1 s2 : option error) : option error :=
  match s1 with
  | Some e => Some e
  | None => s2
  end.

#[export] Instance Dec_ret : MRet Dec := λ A v, Done v None.
#[export] Instance Dec_bind : MBind Dec := λ A B f m,
  match m with
  | Done v s =>
      match f v with
      | Done w s' => Done w (firstError s s')
      | Abort e => Abort e
      end
  | Abort e => Abort e
  end.

Definition saveError {A} (e : error) (v : A) : Dec A := Done v (Some e).

(** What the caller of [json.Unmarshal] sees. *)
Definition Unmarshal {A} (d : Dec A) : result A :=
  match d with
  | Done v None => Ok v
  | Done _ (Some e) => Err e
  | Abort e => Err e
  end.

(** The result of a hook, seen from the decoder that called it. *)
Definition hook {A} (r : result A) : Dec A :=
  match r with
  | Ok v => Done v None
  | Err e => Abort e
  end.

(** [foldM] runs the decoder over the members of an object (or any list) in
    order, threading the value decoded so far. *)
Fixpoint foldM {A B} (f : B → A → Dec A) (cur : A) (l : list B) : Dec A :=
  match l with
  | [] => mret cur
  | b :: l' => cur' ← f b cur; foldM f cur' l'
  end.

(** *** Field names

    [foldName] of [encoding/json]: a key names a field when both fold to
    the same string. ASCII letters fold to upper case; of the other runes
    only the long s (U+017F, bytes C5 BF) and the Kelvin sign (U+212A,
    bytes E2 84 AA) fold to an ASCII letter. No two fields of one struct of
    this repository fold to the same name, so the preference for an exact
    match never decides. *)

Definition upper (c : ascii) : ascii :=
  let n := N_of_ascii c in
  if ((97 <=? n) && (n <=? 122))%N then ascii_of_N (n - 32) else c.

Fixpoint foldName (s : string) : string :=
  match s with
  | "" => ""
  | String c s' =>
      match s' with
      | String c1 s1 =>
          if (N_of_ascii c =? 197)%N && (N_of_ascii c1 =? 191)%N
          then String "S" (foldName s1)
          else
            match s1 with
            | String c2 s2 =>
                if (N_of_ascii c =? 226)%N && (N_of_ascii c1 =? 132)%N
                   && (N_of_ascii c2 =? 170)%N
                then String "K" (foldName s2)
                else String (upper c) (foldName s')
            | "" => String (upper c) (foldName s')
            end
      | "" => String (upper c) ""
      end
  end.

Definition fieldIs (tag key : string) : bool :=
  String.eqb (foldName key) (foldName tag).

(** *** Decoders of the basic types

    Each takes the current value of the target and the JSON value. [null]
    leaves a scalar or a struct as it is and sets a pointer, a slice or a
    map to nil; a value of the wrong kind is a saved type error and the
    target stays as it is. *)

Definition typeError {A} (j : json) (type : string) (cur : A) : Dec A :=
  saveError (UnmarshalTypeError (jsonKind j) type) cur.

Definition decString (cur : string) (j : json) : Dec string :=
  match j with
  | JStr s => mret s
  | JNull => mret cur
  | _ => typeError j "string" cur
  end.

Definition decBool (cur : bool) (j : json) : Dec bool :=
  match j with
  | JBool b => mret b
  | JNull => mret cur
  | _ => typeError j "bool" cur
  end.

Definition inRange (bits : Z) (n : Z) : bool :=
  (- 2 ^ (bits - 1) <=? n) && (n <? 2 ^ (bits - 1)).

Definition decInt (bits : Z) (type : string) (cur : Z) (j : json) : Dec Z :=
  match j with
  | JNum n => if inRange bits n then mret n else typeError j type cur
  | JNull => mret cur
  | _ => typeError j type cur
  end.

(** [int] on the wasm target. *)
Definition intBits : Z := 64.

(** A struct without a hook: its members in order, unknown keys skipped by
    [setField]. *)
Definition decStruct {T} (type : string) (setField : string * json → T → Dec T)
    (cur : T) (j : json) : Dec T :=
  match j with
  | JObj members => foldM setField cur members
  | JNull => mret cur
  | _ => typeError j type cur
  end.

(** A pointer field: [null] sets it to nil; any other value is decoded into
    the struct it points to, allocated when the pointer is nil. *)
Definition decPtr {T} (zero : T) (dec : T → json → Dec T)
    (cur : option T) (j : json) : Dec (option T) :=
  match j with
  | JNull => mret None
  | _ => v ← dec (default zero cur) j; mret (Some v)
  end.

(** A slice: element [i] of the array is decoded into element [i] of the
    current slice when there is one, into a zero value otherwise; the
    result is as long as the array. (Elements left over in the capacity of
    a slice that an earlier duplicate key had made longer are not
    modelled.) *)
Fixpoint decArray {T} (zero : T) (dec : T → json → Dec T)
    (cur : list T) (items : list json) : Dec (list T) :=
  match items with
  | [] => mret []
  | j :: items' =>
      v ← dec (hd zero cur) j;
      vs ← decArray zero dec (tl cur) items';
      mret (v :: vs)
  end.

Definition decSlice {T} (type : string) (zero : T) (dec : T → json → Dec T)
    (cur : list T) (j : json) : Dec (list T) :=
  match j with
  | JArr items => decArray zero dec cur items
  | JNull => mret []
  | _ => typeError j type cur
  end.

(** A [map[string]string]: every member is stored under its exact key. *)
Definition decMap (cur : gmap string string) (j : json)
    : Dec (gmap string string) :=
  match j with
  | JObj members =>
      foldM (λ '(k, v) m, s ← decString "" v; mret (<[k := s]> m)) cur members
  | JNull => mret ∅
  | _ => typeError j "map[string]string" cur
  end.

(** *** Encoding

    [json.Marshal] writes the fields of a struct in declaration order and
    leaves out a field tagged [omitempty] when it is empty (false, 0, the
    empty string, a nil pointer, a slice or map of length 0). *)

Definition omitempty (empty : bool) (tag : string) (v : json)
    : list (string * json) :=
  if empty then [] else [(tag, v)].

Definition encPtr {T} (enc : T → json) (p : option T) : json :=
  match p with
  | Some v => enc v
  | None => JNull
  end.

Definition encStrings (l : list string) : json := JArr (JStr <$> l).

(** The keys of a Go map are written in increasing byte order. *)
Definition keyLe (a b : string * string) : Prop := String.leb a.1 b.1 = true.

#[export] Instance keyLe_dec a b : Decision (keyLe a b) :=
  decide (String.leb a.1 b.1 = true).

Definition encMap (m : gmap string string) : json :=
  JObj (prod_map id JStr <$> merge_sort keyLe (map_to_list m)).

Definition isNil {T} (p : option T) : bool :=
  match p with
  | Some _ => false
  | None => true
  end.

Definition isEmpty {T} (l : list T) : bool :=
  match l with
  | [] => true
  | _ => false
  end.

#[export] Instance result_ret : MRet result := λ A v, Ok v.
#[export] Instance result_bind : MBind result := λ A B f m,
  match m with
  | Ok v => f v
  | Err e => Err e
  end.

(** ** The Kubernetes libraries

    What the repository takes from [k8s.io/apimachinery] and [k8s.io/api]
    without looking inside: the quantity parser and the source of an
    environment variable. [ParseQuantity] rejects the empty string with
    [ErrFormatWrong]; [EnvVarSource] is a struct, so its encoding is never
    [null], and it survives encoding and decoding. *)

Definition ErrFormatWrong : string :=
  "quantities must match the regular expression '^([+-]?[0-9.]+)([eEinumkKMGTP]*[-+]?[0-9]*)$'".

Class K8sLibrary := {
  Quantity : Type;
  ParseQuantity : string → Quantity + string;
  ParseQuantity_empty : ParseQuantity "" = inr ErrFormatWrong;
  EnvVarSource : Type;
  EnvVarSource_zero : EnvVarSource;
  (** [&corev1.EnvVarSource{SecretKeyRef: &corev1.SecretKeySelector{...}}] *)
  EnvVarSource_SecretKeyRef (name key : string) (optional : option bool) : EnvVarSource;
  EnvVarSource_dec : EnvVarSource → json → Dec EnvVarSource;
  EnvVarSource_enc : EnvVarSource → json;
  EnvVarSource_enc_not_null : ∀ x, EnvVarSource_enc x ≠ JNull;
  EnvVarSource_roundtrip :
    ∀ x, EnvVarSource_dec EnvVarSource_zero (EnvVarSource_enc x) = mret x;
}.

(** ** k8s.io/apimachinery/pkg/apis/meta/v1

    [TypeMeta] and the fields of [ObjectMeta] the flights read or write.
    The other fields of [ObjectMeta] (uid, generation, owner references and
    so on) are read by no flight and are left out. *)

Module metav1.

Record TypeMeta := {
  Kind : string;        (* json:"kind,omitempty" *)
  APIVersion : string;  (* json:"apiVersion,omitempty" *)
}.

Record ObjectMeta := {
  Name : string;                      (* json:"name,omitempty" *)
  Namespace : string;                 (* json:"namespace,omitempty" *)
  Labels : gmap string string;        (* json:"labels,omitempty" *)
  Annotations : gmap string string;   (* json:"annotations,omitempty" *)
}.

Definition ObjectMeta_zero : ObjectMeta :=
  {| Name := ""; Namespace := ""; Labels := ∅; Annotations := ∅ |}.

Definition ObjectMeta_setField '((k, v) : string * json) (m : ObjectMeta)
    : Dec ObjectMeta :=
  let '(Build_ObjectMeta name ns labels annotations) := m in
  if fieldIs "name" k then x ← decString name v; mret (Build_ObjectMeta x ns labels annotations)
  else if fieldIs "namespace" k then x ← decString ns v; mret (Build_ObjectMeta name x labels annotations)
  else if fieldIs "labels" k then x ← decMap labels v; mret (Build_ObjectMeta name ns x annotations)
  else if fieldIs "annotations" k then x ← decMap annotations v; mret (Build_ObjectMeta name ns labels x)
  else mret m.

Definition ObjectMeta_dec : ObjectMeta → json → Dec ObjectMeta :=
  decStruct "ObjectMeta" ObjectMeta_setField.

Definition ObjectMeta_enc (m : ObjectMeta) : json :=
  JObj (omitempty (bool_decide (Name m = "")) "name" (JStr (Name m))
     ++ omitempty (bool_decide (Namespace m = "")) "namespace" (JStr (Namespace m))
     ++ omitempty (bool_decide (Labels m = ∅)) "labels" (encMap (Labels m))
     ++ omitempty (bool_decide (Annotations m = ∅)) "annotations" (encMap (Annotations m))).

End metav1.

(** ** k8s.io/api/rbac/v1 *)

Module rbacv1.

Record PolicyRule := {
  Verbs : list string;            (* json:"verbs" *)
  APIGroups : list string;        (* json:"apiGroups,omitempty" *)
  Resources : list string;        (* json:"resources,omitempty" *)
  ResourceNames : list string;    (* json:"resourceNames,omitempty" *)
  NonResourceURLs : list string;  (* json:"nonResourceURLs,omitempty" *)
}.

Definition PolicyRule_zero : PolicyRule :=
  {| Verbs := []; APIGroups := []; Resources := []; ResourceNames := [];
     NonResourceURLs := [] |}.

Definition decStrings : list string → json → Dec (list string) :=
  decSlice "[]string" "" decString.

Definition PolicyRule_setField '((k, v) : string * json) (r : PolicyRule)
    : Dec PolicyRule :=
  let '(Build_PolicyRule verbs groups resources names urls) := r in
  if fieldIs "verbs" k then x ← decStrings verbs v; mret (Build_PolicyRule x groups resources names urls)
  else if fieldIs "apiGroups" k then x ← decStrings groups v; mret (Build_PolicyRule verbs x resources names urls)
  else if fieldIs "resources" k then x ← decStrings resources v; mret (Build_PolicyRule verbs groups x names urls)
  else if fieldIs "resourceNames" k then x ← decStrings names v; mret (Build_PolicyRule verbs groups resources x urls)
  else if fieldIs "nonResourceURLs" k then x ← decStrings urls v; mret (Build_PolicyRule verbs groups resources names x)
  else mret r.

Definition PolicyRule_dec : PolicyRule → json → Dec PolicyRule :=
  decStruct "PolicyRule" PolicyRule_setField.

Definition PolicyRule_enc (r : PolicyRule) : json :=
  JObj ([("verbs", encStrings (Verbs r))]
     ++ omitempty (isEmpty (APIGroups r)) "apiGroups" (encStrings (APIGroups r))
     ++ omitempty (isEmpty (Resources r)) "resources" (encStrings (Resources r))
     ++ omitempty (isEmpty (ResourceNames r)) "resourceNames" (encStrings (ResourceNames r))
     ++ omitempty (isEmpty (NonResourceURLs r)) "nonResourceURLs" (encStrings (NonResourceURLs r))).

(** [SchemeGroupVersion.Identifier()] and [GroupName] *)
Definition SchemeGroupVersion : string := "rbac.authorization.k8s.io/v1".
Definition GroupName : string := "rbac.authorization.k8s.io".

Record Role := {
  Role_TypeMeta : metav1.TypeMeta;
  Role_ObjectMeta : metav1.ObjectMeta;
  Role_Rules : list PolicyRule;
}.

Record Subject := {
  Subject_Kind : string;
  Subject_Name : string;
  Subject_Namespace : string;
}.

Record RoleRef := {
  RoleRef_APIGroup : string;
  RoleRef_Kind : string;
  RoleRef_Name : string;
}.

Record RoleBinding := {
  RoleBinding_TypeMeta : metav1.TypeMeta;
  RoleBinding_ObjectMeta : metav1.ObjectMeta;
  RoleBinding_Subjects : list Subject;
  RoleBinding_RoleRef : RoleRef;
}.

End rbacv1.

(** ** k8s.io/api/core/v1: environment variables *)

Module corev1.
Section corev1.
Context `{K8sLibrary}.

Record EnvVar := {
  EnvVar_Name : string;                     (* json:"name" *)
  EnvVar_Value : string;                    (* json:"value,omitempty" *)
  EnvVar_ValueFrom : option EnvVarSource;   (* json:"valueFrom,omitempty" *)
}.

Definition EnvVar_zero : EnvVar :=
  {| EnvVar_Name := ""; EnvVar_Value := ""; EnvVar_ValueFrom := None |}.

Definition EnvVar_setField '((k, v) : string * json) (e : EnvVar) : Dec EnvVar :=
  let '(Build_EnvVar name value from) := e in
  if fieldIs "name" k then x ← decString name v; mret (Build_EnvVar x value from)
  else if fieldIs "value" k then x ← decString value v; mret (Build_EnvVar name x from)
  else if fieldIs "valueFrom" k then
    x ← decPtr EnvVarSource_zero EnvVarSource_dec from v; mret (Build_EnvVar name value x)
  else mret e.

Definition EnvVar_dec : EnvVar → json → Dec EnvVar :=
  decStruct "EnvVar" EnvVar_setField.

Definition EnvVar_enc (e : EnvVar) : json :=
  JObj ([("name", JStr (EnvVar_Name e))]
     ++ omitempty (bool_decide (EnvVar_Value e = "")) "value" (JStr (EnvVar_Value e))
     ++ omitempty (isNil (EnvVar_ValueFrom e)) "valueFrom" (encPtr EnvVarSource_enc (EnvVar_ValueFrom e))).

(** [SchemeGroupVersion.Identifier()] of the core group *)
Definition SchemeGroupVersion : string := "v1".

(** [intstr.FromInt(val)] keeps [int32(val)]. *)
Definition int32 (n : Z) : Z := (n + 2 ^ 31) mod 2 ^ 32 - 2 ^ 31.

Inductive IntOrString :=
  | IntVal (n : Z)
  | StrVal (s : string).

Definition FromInt (val : Z) : IntOrString := IntVal (int32 val).

Record SecurityContext := {
  RunAsUser : option Z;
  RunAsGroup : option Z;
  RunAsNonRoot : option bool;
  AllowPrivilegeEscalation : option bool;
  Capabilities_Drop : list string;
  SeccompProfile_Type : string;
}.

Record PodSecurityContext := {
  FSGroup : option Z;
}.

Record ContainerPort := {
  ContainerPort_Name : string;
  ContainerPort_Protocol : string;
  ContainerPort_ContainerPort : Z;
}.

Record VolumeMount := {
  VolumeMount_Name : string;
  VolumeMount_MountPath : string;
}.

Record HTTPHeader := {
  HTTPHeader_Name : string;
  HTTPHeader_Value : string;
}.

(** The handler of a probe; the flights set exactly one of its pointers. *)
Inductive ProbeHandler :=
  | HTTPGet (path : string) (port : IntOrString) (headers : list HTTPHeader)
  | GRPC (port : Z)
  | TCPSocket (port : IntOrString)
  | Exec (command : list string).

Record Probe := {
  InitialDelaySeconds : Z;
  PeriodSeconds : Z;
  Probe_Handler : ProbeHandler;
}.

(** [EnvFromSource{SecretRef: &SecretEnvSource{LocalObjectReference{Name}}}] *)
Record EnvFromSource := {
  SecretRef_Name : string;
}.

(** The source of a volume: none set, a secret, or a claim. *)
Inductive VolumeSource :=
  | NoSource
  | SecretVolumeSource (secretName : string)
  | PersistentVolumeClaimVolumeSource (claimName : string).

Record Volume := {
  Volume_Name : string;
  Volume_Source : VolumeSource;
}.

Record Container := {
  Container_Name : string;
  Container_Image : string;
  ImagePullPolicy : string;
  Container_SecurityContext : option SecurityContext;
  Container_Env : list EnvVar;
  EnvFrom : list EnvFromSource;
  Ports : list ContainerPort;
  VolumeMounts : list VolumeMount;
  LivenessProbe : option Probe;
  ReadinessProbe : option Probe;
}.

Record PodSpec := {
  Pod_SecurityContext : option PodSecurityContext;
  ServiceAccountName : string;
  Containers : list Container;
  Volumes : list Volume;
  Pod_ImagePullSecrets : list string;
}.

Record PodTemplateSpec := {
  Template_Labels : gmap string string;
  Template_Spec : PodSpec;
}.

Record ServicePort := {
  ServicePort_Protocol : string;
  ServicePort_Port : Z;
  ServicePort_TargetPort : IntOrString;
  ServicePort_Name : string;
}.

Record Service := {
  Service_TypeMeta : metav1.TypeMeta;
  Service_ObjectMeta : metav1.ObjectMeta;
  Service_Selector : gmap string string;
  Service_Type : string;
  Service_Ports : list ServicePort;
}.

Record ServiceAccount := {
  ServiceAccount_TypeMeta : metav1.TypeMeta;
  ServiceAccount_ObjectMeta : metav1.ObjectMeta;
  AutomountServiceAccountToken : option bool;
}.

Record PersistentVolumeClaim := {
  PVC_TypeMeta : metav1.TypeMeta;
  PVC_ObjectMeta : metav1.ObjectMeta;
  AccessModes : list string;
  (** [Resources.Requests], a list of resource name and quantity *)
  Requests : list (string * Quantity);
  StorageClassName : option string;
  VolumeMode : option string;
}.

Record Secret := {
  Secret_TypeMeta : metav1.TypeMeta;
  Secret_ObjectMeta : metav1.ObjectMeta;
  Data : gmap string string;
  StringData : gmap string string;
  Secret_Type : string;
}.

End corev1.
End corev1.

(** ** k8s.io/api/apps/v1 *)

Module appsv1.
Section appsv1.
Context `{K8sLibrary}.

Definition SchemeGroupVersion : string := "apps/v1".

Record Deployment := {
  TypeMeta : metav1.TypeMeta;
  ObjectMeta : metav1.ObjectMeta;
  Replicas : option Z;
  Strategy_Type : string;
  (** [Selector.MatchLabels] *)
  MatchLabels : gmap string string;
  Template : corev1.PodTemplateSpec;
}.

End appsv1.
End appsv1.

(** ** k8s.io/api/networking/v1 *)

Module networkingv1.

Definition SchemeGroupVersion : string := "networking.k8s.io/v1".

Record ServiceBackendPort := {
  Port_Name : string;
  Port_Number : Z;
}.

Record IngressServiceBackend := {
  Backend_Name : string;
  Backend_Port : ServiceBackendPort;
}.

Record IngressBackend := {
  Backend_Service : option IngressServiceBackend;
}.

Record HTTPIngressPath := {
  PathType : option string;
  Path : string;
  Backend : IngressBackend;
}.

Record IngressRule := {
  Host : string;
  (** [IngressRuleValue.HTTP.Paths] *)
  HTTP_Paths : list HTTPIngressPath;
}.

Record IngressTLS := {
  Hosts : list string;
  SecretName : string;
}.

Record Ingress := {
  TypeMeta : metav1.TypeMeta;
  ObjectMeta : metav1.ObjectMeta;
  IngressClassName : option string;
  TLS : list IngressTLS;
  Rules : list IngressRule;
}.

End networkingv1.

(** ** github.com/1Password/onepassword-operator/api/v1 *)

Module onepasswordv1.

Definition GroupVersion : string := "onepassword.com/v1".

Record OnePasswordItem := {
  TypeMeta : metav1.TypeMeta;
  ObjectMeta : metav1.ObjectMeta;
  ItemPath : string;
}.

End onepasswordv1.

(** ** github.com/bugfest/tor-controller/apis/tor/v1alpha2 *)

Module onionv1alpha2.

Definition GroupVersion : string := "tor.k8s.torproject.org/v1alpha2".

Record ServiceRule := {
  Rule_Port : networkingv1.ServiceBackendPort;
  Rule_Backend : networkingv1.IngressBackend;
}.

Record OnionService := {
  TypeMeta : metav1.TypeMeta;
  ObjectMeta : metav1.ObjectMeta;
  Version : Z;
  Rules : list ServiceRule;
  (** [Template.ObjectMeta.Labels]; the template has no containers *)
  Template_Labels : gmap string string;
  ExtraConfig : string;
  (** [Status.Hostname], set by the controller *)
  Status_Hostname : string;
}.

End onionv1alpha2.

(** ** What a flight emits, and what it runs on *)

Section Flight.
Context `{K8sLibrary}.

(** An element of the [[]any] a flight encodes to its standard output. *)
Inductive Resource :=
  | ROnePasswordItem (r : onepasswordv1.OnePasswordItem)
  | RDeployment (r : appsv1.Deployment)
  | RService (r : corev1.Service)
  | RServiceAccount (r : corev1.ServiceAccount)
  | RIngress (r : networkingv1.Ingress)
  | ROnionService (r : onionv1alpha2.OnionService)
  | RPersistentVolumeClaim (r : corev1.PersistentVolumeClaim)
  | RRole (r : rbacv1.Role)
  | RRoleBinding (r : rbacv1.RoleBinding)
  | RSecret (r : corev1.Secret).

(** How a run ends: the list is written and the exit code is 0; [main]
    prints the error and exits with code 1; or a builder panics. Nothing is
    written in the last two cases, the list being encoded in one piece at
    the end of [run]. *)
Inductive Outcome :=
  | Emitted (result : list Resource)
  | Exit1 (err : error)
  | Panic (msg : string).

End Flight.

(** The standard input as the YAML-to-JSON decoder finds it: no document,
    something that is not YAML, or a document, given as the JSON it
    converts to. The conversion goes through a map, so the decoder meets
    the members of a mapping sorted by key, whatever their order in the
    YAML source. *)
Inductive Stdin :=
  | EndOfInput
  | Malformed (cause : string)
  | Document (j : json).

(** [k8s.ResourceIdentifier] of the yoke host: what a flight names when it
    asks the cluster for an object. *)
Record ResourceIdentifier := {
  Identifier_Name : string;
  Identifier_Namespace : string;
  Identifier_Kind : string;
  Identifier_ApiVersion : string;
}.

(** What [k8s.Lookup[T]] of the yoke host answers: the object, a not-found
    error ([k8s.IsErrNotFound]), or another error. The pointer it returns
    is nil unless the error is. *)
Inductive Lookup (T : Type) :=
  | Found (obj : T)
  | ErrNotFound (msg : string)
  | ErrOther (msg : string).
Arguments Found {T} obj.
Arguments ErrNotFound {T} msg.
Arguments ErrOther {T} msg.

Definition Lookup_obj {T} (l : Lookup T) : option T :=
  match l with
  | Found obj => Some obj
  | _ => None
  end.

Definition Lookup_err {T} (l : Lookup T) : option string :=
  match l with
  | Found _ => None
  | ErrNotFound msg | ErrOther msg => Some msg
  end.

Definition IsErrNotFound {T} (l : Lookup T) : bool :=
  match l with
  | ErrNotFound _ => true
  | _ => false
  end.

(** [YAMLToJSONDecoder.Decode(into)]: the target as the call leaves it and
    the error it returns. With no document it returns [io.EOF] and leaves
    the target alone; otherwise the document goes to the JSON decoder, that
    is to the hook of the target type, and a failure comes back wrapped.
    The JSON decoder is given a pointer to an interface that holds the
    target: for a document that is [null] (written [null] or [~], or a
    document of blank lines and comments) it stores nil in the interface,
    the hook is not called, the target is left alone and no error comes
    back. (A hook that fails may have changed part of the target; every
    flight returns at once in that case, so the target is given back as it
    was.) *)
Definition Decode {T} (UnmarshalJSON : T → json → result T)
    (stdin : Stdin) (into : T) : T * option error :=
  match stdin with
  | EndOfInput => (into, Some EOF)
  | Malformed cause => (into, Some (YAMLSyntaxError (Errorf cause)))
  | Document data =>
      match data with
      | JNull => (into, None)
      | _ =>
          match UnmarshalJSON into data with
          | Ok v => (v, None)
          | Err e => (into, Some (YAMLSyntaxError e))
          end
      end
  end.

(** A builder that may panic. *)
Inductive OrPanic (A : Type) :=
  | Returns (a : A)
  | Panics (msg : string).
Arguments Returns {A} a.
Arguments Panics {A} msg.

(** Shorthands for the literals every builder writes: an [ObjectMeta], a
    [TypeMeta], a [Probe]. *)
Definition meta (name namespace : string) (labels annotations : gmap string string)
    : metav1.ObjectMeta :=
  {| metav1.Name := name; metav1.Namespace := namespace;
     metav1.Labels := labels; metav1.Annotations := annotations |}.

Definition typeMeta (apiVersion kind : string) : metav1.TypeMeta :=
  {| metav1.APIVersion := apiVersion; metav1.Kind := kind |}.

Definition probe (delay period : Z) (h : corev1.ProbeHandler) : corev1.Probe :=
  {| corev1.InitialDelaySeconds := delay; corev1.PeriodSeconds := period;
     corev1.Probe_Handler := h |}.

(** ** Pieces of the Go standard library the flights call *)

(** [cmp.Or(a, b)]: the first argument that is not the zero value. *)
Definition cmp_Or_int (a b : Z) : Z := if bool_decide (a = 0) then b else a.
Definition cmp_Or_string (a b : string) : string :=
  if bool_decide (a = "") then b else a.

(** [maps.Copy(dst, src)]: every entry of [src] is written into [dst]. *)
Definition maps_Copy (dst src : gmap string string) : gmap string string :=
  src ∪ dst.

(** [strconv.Itoa] and the verb [%d]. *)
Definition Itoa (n : Z) : string := pretty n.

(** [strings.ReplaceAll(s, old, new)] for a pattern [old] of one byte, the
    only kind the flights pass. *)
Fixpoint ReplaceAll (s : string) (old : ascii) (new : string) : string :=
  match s with
  | "" => ""
  | String c s' =>
      (if bool_decide (c = old) then new else String c "") +:+ ReplaceAll s' old new
  end.

(** The line feed [fmt.Fprintln] ends a line with, and the double quote. *)
Definition LF : string := String (ascii_of_nat 10) "".
Definition QUOTE : string := String (ascii_of_nat 34) "".

(** The text of an error, as [%v] and [%w] print it. *)
Fixpoint Error (e : error) : string :=
  match e with
  | EOF => "EOF"
  | YAMLSyntaxError cause => Error cause
  | UnmarshalTypeError value type =>
      "json: cannot unmarshal " +:+ value +:+ " into Go value of type " +:+ type
  | Errorf msg => msg
  end.

(** ** within-website-app/v1: the App type and its hooks

    The type declarations and hooks of the later snapshot of [app.go], the
    one the later flight is written against. *)

Module app_v1.
Section app_v1.
Context `{K8sLibrary}.

Definition APIVersion : string := "x.within.website/v1".
Definition KindApp : string := "App".

(** Modelled from the spec: the snapshot of the declaration of
    [Healthcheck] has no [Kind] field, which the flight reads
    ([backend.Spec.Healthcheck.Kind]); the spec lists the attributes of the
    block as enabled, path, port and kind (http or grpc). It is taken as a
    string field decoded from the key [kind], left out of the encoding when
    empty like its neighbours. *)
Record Healthcheck := {
  Healthcheck_Enabled : bool;   (* json:"enabled" *)
  Healthcheck_Path : string;    (* json:"path,omitempty" *)
  Healthcheck_Port : Z;         (* json:"port,omitempty", int *)
  Healthcheck_Kind : string;    (* json:"kind,omitempty" *)
}.

Definition Healthcheck_zero : Healthcheck :=
  {| Healthcheck_Enabled := false; Healthcheck_Path := ""; Healthcheck_Port := 0;
     Healthcheck_Kind := "" |}.

Definition Healthcheck_setField '((k, v) : string * json) (h : Healthcheck)
    : Dec Healthcheck :=
  let '(Build_Healthcheck enabled path port kind) := h in
  if fieldIs "enabled" k then x ← decBool enabled v; mret (Build_Healthcheck x path port kind)
  else if fieldIs "path" k then x ← decString path v; mret (Build_Healthcheck enabled x port kind)
  else if fieldIs "port" k then x ← decInt intBits "int" port v; mret (Build_Healthcheck enabled path x kind)
  else if fieldIs "kind" k then x ← decString kind v; mret (Build_Healthcheck enabled path port x)
  else mret h.

Definition Healthcheck_UnmarshalJSON (h : Healthcheck) (data : json)
    : result Healthcheck :=
  h ← Unmarshal (decStruct "HealthcheckAlt" Healthcheck_setField h data);
  if Healthcheck_Enabled h && bool_decide (Healthcheck_Path h = "")
  then Ok (Build_Healthcheck (Healthcheck_Enabled h) "/" (Healthcheck_Port h) (Healthcheck_Kind h))
  else Ok h.

Definition Healthcheck_enc (h : Healthcheck) : json :=
  JObj ([("enabled", JBool (Healthcheck_Enabled h))]
     ++ omitempty (bool_decide (Healthcheck_Path h = "")) "path" (JStr (Healthcheck_Path h))
     ++ omitempty (bool_decide (Healthcheck_Port h = 0)) "port" (JNum (Healthcheck_Port h))
     ++ omitempty (bool_decide (Healthcheck_Kind h = "")) "kind" (JStr (Healthcheck_Kind h))).

Record Ingress := {
  Ingress_Enabled : bool;                     (* json:"enabled" *)
  Ingress_Kind : string;                      (* json:"kind" *)
  Ingress_Host : string;                      (* json:"host" *)
  Ingress_ClusterIssuer : string;             (* json:"clusterIssuer,omitempty" *)
  Ingress_ClassName : string;                 (* json:"className,omitempty" *)
  Ingress_EnableCoreRules : bool;             (* json:"enableCoreRules,omitempty" *)
  Ingress_Annotations : gmap string string;   (* json:"annotations,omitempty" *)
}.

Definition Ingress_zero : Ingress :=
  {| Ingress_Enabled := false; Ingress_Kind := ""; Ingress_Host := "";
     Ingress_ClusterIssuer := ""; Ingress_ClassName := "";
     Ingress_EnableCoreRules := false; Ingress_Annotations := ∅ |}.

Definition Ingress_setField '((k, v) : string * json) (i : Ingress) : Dec Ingress :=
  let '(Build_Ingress enabled kind host issuer class rules annotations) := i in
  if fieldIs "enabled" k then x ← decBool enabled v; mret (Build_Ingress x kind host issuer class rules annotations)
  else if fieldIs "kind" k then x ← decString kind v; mret (Build_Ingress enabled x host issuer class rules annotations)
  else if fieldIs "host" k then x ← decString host v; mret (Build_Ingress enabled kind x issuer class rules annotations)
  else if fieldIs "clusterIssuer" k then x ← decString issuer v; mret (Build_Ingress enabled kind host x class rules annotations)
  else if fieldIs "className" k then x ← decString class v; mret (Build_Ingress enabled kind host issuer x rules annotations)
  else if fieldIs "enableCoreRules" k then x ← decBool rules v; mret (Build_Ingress enabled kind host issuer class x annotations)
  else if fieldIs "annotations" k then x ← decMap annotations v; mret (Build_Ingress enabled kind host issuer class rules x)
  else mret i.

Definition Ingress_UnmarshalJSON (i : Ingress) (data : json) : result Ingress :=
  i ← Unmarshal (decStruct "IngressAlt" Ingress_setField i data);
  if Ingress_Enabled i && bool_decide (Ingress_Host i = "")
  then Err (Errorf "host is required when ingress is enabled")
  else
    let '(Build_Ingress enabled kind host issuer class rules annotations) := i in
    let issuer := if enabled && bool_decide (issuer = "") then "letsencrypt-prod" else issuer in
    let class := if enabled && bool_decide (class = "") then "nginx" else class in
    Ok (Build_Ingress enabled kind host issuer class rules annotations).

Definition Ingress_enc (i : Ingress) : json :=
  JObj ([("enabled", JBool (Ingress_Enabled i));
         ("kind", JStr (Ingress_Kind i));
         ("host", JStr (Ingress_Host i))]
     ++ omitempty (bool_decide (Ingress_ClusterIssuer i = "")) "clusterIssuer" (JStr (Ingress_ClusterIssuer i))
     ++ omitempty (bool_decide (Ingress_ClassName i = "")) "className" (JStr (Ingress_ClassName i))
     ++ omitempty (negb (Ingress_EnableCoreRules i)) "enableCoreRules" (JBool (Ingress_EnableCoreRules i))
     ++ omitempty (bool_decide (Ingress_Annotations i = ∅)) "annotations" (encMap (Ingress_Annotations i))).

Record Secret := {
  Secret_Name : string;        (* json:"name" *)
  Secret_ItemPath : string;    (* json:"itemPath" *)
  Secret_Environment : bool;   (* json:"environment,omitempty" *)
  Secret_Folder : bool;        (* json:"folder,omitempty" *)
}.

Definition Secret_zero : Secret :=
  {| Secret_Name := ""; Secret_ItemPath := ""; Secret_Environment := false;
     Secret_Folder := false |}.

Definition Secret_setField '((k, v) : string * json) (s : Secret) : Dec Secret :=
  let '(Build_Secret name itemPath environment folder) := s in
  if fieldIs "name" k then x ← decString name v; mret (Build_Secret x itemPath environment folder)
  else if fieldIs "itemPath" k then x ← decString itemPath v; mret (Build_Secret name x environment folder)
  else if fieldIs "environment" k then x ← decBool environment v; mret (Build_Secret name itemPath x folder)
  else if fieldIs "folder" k then x ← decBool folder v; mret (Build_Secret name itemPath environment x)
  else mret s.

Definition Secret_UnmarshalJSON (s : Secret) (data : json) : result Secret :=
  s ← Unmarshal (decStruct "SecretAlt" Secret_setField s data);
  if bool_decide (Secret_ItemPath s = "") then Err (Errorf "itemPath is required")
  else if Secret_Environment s && Secret_Folder s
  then Err (Errorf "cannot set environment and folder at the same time")
  else Ok s.

Definition Secret_enc (s : Secret) : json :=
  JObj ([("name", JStr (Secret_Name s)); ("itemPath", JStr (Secret_ItemPath s))]
     ++ omitempty (negb (Secret_Environment s)) "environment" (JBool (Secret_Environment s))
     ++ omitempty (negb (Secret_Folder s)) "folder" (JBool (Secret_Folder s))).

Record Onion := {
  Onion_Enabled : bool;              (* json:"enabled" *)
  Onion_NonAnonymous : bool;         (* json:"nonAnonymous,omitempty" *)
  Onion_Haproxy : bool;              (* json:"haproxy,omitempty" *)
  Onion_ProofOfWorkDefense : bool;   (* json:"proofOfWorkDefense,omitempty" *)
}.

Definition Onion_zero : Onion :=
  {| Onion_Enabled := false; Onion_NonAnonymous := false; Onion_Haproxy := false;
     Onion_ProofOfWorkDefense := false |}.

Definition Onion_setField '((k, v) : string * json) (o : Onion) : Dec Onion :=
  let '(Build_Onion enabled nonAnonymous haproxy pow) := o in
  if fieldIs "enabled" k then x ← decBool enabled v; mret (Build_Onion x nonAnonymous haproxy pow)
  else if fieldIs "nonAnonymous" k then x ← decBool nonAnonymous v; mret (Build_Onion enabled x haproxy pow)
  else if fieldIs "haproxy" k then x ← decBool haproxy v; mret (Build_Onion enabled nonAnonymous x pow)
  else if fieldIs "proofOfWorkDefense" k then x ← decBool pow v; mret (Build_Onion enabled nonAnonymous haproxy x)
  else mret o.

Definition Onion_UnmarshalJSON (o : Onion) (data : json) : result Onion :=
  Unmarshal (decStruct "OnionAlt" Onion_setField o data).

Definition Onion_enc (o : Onion) : json :=
  JObj ([("enabled", JBool (Onion_Enabled o))]
     ++ omitempty (negb (Onion_NonAnonymous o)) "nonAnonymous" (JBool (Onion_NonAnonymous o))
     ++ omitempty (negb (Onion_Haproxy o)) "haproxy" (JBool (Onion_Haproxy o))
     ++ omitempty (negb (Onion_ProofOfWorkDefense o)) "proofOfWorkDefense" (JBool (Onion_ProofOfWorkDefense o))).

Record Storage := {
  Storage_Enabled : bool;                  (* json:"enabled" *)
  Storage_Path : string;                   (* json:"path" *)
  Storage_Size : string;                   (* json:"size" *)
  Storage_StorageClass : option string;    (* json:"storageClass,omitempty", *string *)
}.

Definition Storage_zero : Storage :=
  {| Storage_Enabled := false; Storage_Path := ""; Storage_Size := "";
     Storage_StorageClass := None |}.

Definition Storage_setField '((k, v) : string * json) (s : Storage) : Dec Storage :=
  let '(Build_Storage enabled path size class) := s in
  if fieldIs "enabled" k then x ← decBool enabled v; mret (Build_Storage x path size class)
  else if fieldIs "path" k then x ← decString path v; mret (Build_Storage enabled x size class)
  else if fieldIs "size" k then x ← decString size v; mret (Build_Storage enabled path x class)
  else if fieldIs "storageClass" k then x ← decPtr "" decString class v; mret (Build_Storage enabled path size x)
  else mret s.

Definition Storage_UnmarshalJSON (s : Storage) (data : json) : result Storage :=
  s ← Unmarshal (decStruct "StorageAlt" Storage_setField s data);
  if Storage_Enabled s && bool_decide (Storage_Path s = "")
  then Err (Errorf "path is required when storage is enabled")
  else if Storage_Enabled s && bool_decide (Storage_Size s = "")
  then Err (Errorf "size is required when storage is enabled")
  else
    match ParseQuantity (Storage_Size s) with
    | inr err => Err (Errorf ("invalid size: " +:+ err))
    | inl _ => Ok s
    end.

Definition Storage_enc (s : Storage) : json :=
  JObj ([("enabled", JBool (Storage_Enabled s));
         ("path", JStr (Storage_Path s));
         ("size", JStr (Storage_Size s))]
     ++ omitempty (isNil (Storage_StorageClass s)) "storageClass" (encPtr JStr (Storage_StorageClass s))).

Record Role := {
  Role_Enabled : bool;                    (* json:"enabled" *)
  Role_Rules : list rbacv1.PolicyRule;    (* json:"rules,omitempty" *)
}.

Definition Role_zero : Role := {| Role_Enabled := false; Role_Rules := [] |}.

Definition Role_setField '((k, v) : string * json) (r : Role) : Dec Role :=
  let '(Build_Role enabled rules) := r in
  if fieldIs "enabled" k then x ← decBool enabled v; mret (Build_Role x rules)
  else if fieldIs "rules" k then
    x ← decSlice "[]v1.PolicyRule" rbacv1.PolicyRule_zero rbacv1.PolicyRule_dec rules v;
    mret (Build_Role enabled x)
  else mret r.

Definition Role_dec : Role → json → Dec Role := decStruct "Role" Role_setField.

Definition Role_enc (r : Role) : json :=
  JObj ([("enabled", JBool (Role_Enabled r))]
     ++ omitempty (isEmpty (Role_Rules r)) "rules" (JArr (rbacv1.PolicyRule_enc <$> Role_Rules r))).

Record AnubisSettings := {
  Settings_Difficulty : Z;          (* json:"difficulty", int *)
  Settings_ServeRobotsTxt : bool;   (* json:"serveRobotsTXT" *)
}.

Record Anubis := {
  Anubis_Enabled : bool;              (* json:"enabled" *)
  Anubis_Settings : AnubisSettings;   (* json:"settings,omitempty,omitzero" *)
}.

Definition Anubis_zero : Anubis :=
  {| Anubis_Enabled := false;
     Anubis_Settings := {| Settings_Difficulty := 0; Settings_ServeRobotsTxt := false |} |}.

Definition AnubisSettings_setField '((k, v) : string * json) (s : AnubisSettings)
    : Dec AnubisSettings :=
  let '(Build_AnubisSettings difficulty robots) := s in
  if fieldIs "difficulty" k then x ← decInt intBits "int" difficulty v; mret (Build_AnubisSettings x robots)
  else if fieldIs "serveRobotsTXT" k then x ← decBool robots v; mret (Build_AnubisSettings difficulty x)
  else mret s.

Definition Anubis_setField '((k, v) : string * json) (a : Anubis) : Dec Anubis :=
  let '(Build_Anubis enabled settings) := a in
  if fieldIs "enabled" k then x ← decBool enabled v; mret (Build_Anubis x settings)
  else if fieldIs "settings" k then
    x ← decStruct "struct" AnubisSettings_setField settings v; mret (Build_Anubis enabled x)
  else mret a.

Definition Anubis_dec : Anubis → json → Dec Anubis := decStruct "Anubis" Anubis_setField.

Definition AnubisSettings_isZero (s : AnubisSettings) : bool :=
  bool_decide (Settings_Difficulty s = 0) && negb (Settings_ServeRobotsTxt s).

Definition Anubis_enc (a : Anubis) : json :=
  JObj ([("enabled", JBool (Anubis_Enabled a))]
     ++ omitempty (AnubisSettings_isZero (Anubis_Settings a)) "settings"
          (JObj [("difficulty", JNum (Settings_Difficulty (Anubis_Settings a)));
                 ("serveRobotsTXT", JBool (Settings_ServeRobotsTxt (Anubis_Settings a)))])).

Record AppSpec := {
  AutoUpdate : bool;                  (* json:"autoUpdate,omitempty" *)
  Image : string;                     (* json:"image" *)
  ImagePullSecrets : list string;     (* json:"imagePullSecrets,omitempty" *)
  LogLevel : string;                  (* json:"logLevel,omitempty" *)
  Replicas : Z;                       (* json:"replicas,omitempty", int32 *)
  Port : Z;                           (* json:"port,omitempty", int *)
  RunAsRoot : bool;                   (* json:"runAsRoot,omitempty" *)
  Env : list corev1.EnvVar;           (* json:"env,omitempty" *)
  Healthcheck_ : option Healthcheck;  (* json:"healthcheck,omitempty" *)
  Ingress_ : option Ingress;          (* json:"ingress,omitempty" *)
  Onion_ : option Onion;              (* json:"onion,omitempty" *)
  Storage_ : option Storage;          (* json:"storage,omitempty" *)
  Role_ : option Role;                (* json:"role,omitempty" *)
  Anubis_ : option Anubis;            (* json:"anubis,omitempty" *)
  Secrets : list Secret;              (* json:"secrets,omitempty" *)
}.

Definition AppSpec_zero : AppSpec :=
  {| AutoUpdate := false; Image := ""; ImagePullSecrets := []; LogLevel := "";
     Replicas := 0; Port := 0; RunAsRoot := false; Env := [];
     Healthcheck_ := None; Ingress_ := None; Onion_ := None; Storage_ := None;
     Role_ := None; Anubis_ := None; Secrets := [] |}.

Definition AppSpec_setField '((k, v) : string * json) (s : AppSpec) : Dec AppSpec :=
  let '(Build_AppSpec autoUpdate image pullSecrets logLevel replicas port runAsRoot env healthcheck ingress onion storage role anubis secrets) := s in
  if fieldIs "autoUpdate" k then
    x ← decBool autoUpdate v;
    mret (Build_AppSpec x image pullSecrets logLevel replicas port runAsRoot env healthcheck ingress onion storage role anubis secrets)
  else if fieldIs "image" k then
    x ← decString image v;
    mret (Build_AppSpec autoUpdate x pullSecrets logLevel replicas port runAsRoot env healthcheck ingress onion storage role anubis secrets)
  else if fieldIs "imagePullSecrets" k then
    x ← decSlice "[]string" "" decString pullSecrets v;
    mret (Build_AppSpec autoUpdate image x logLevel replicas port runAsRoot env healthcheck ingress onion storage role anubis secrets)
  else if fieldIs "logLevel" k then
    x ← decString logLevel v;
    mret (Build_AppSpec autoUpdate image pullSecrets x replicas port runAsRoot env healthcheck ingress onion storage role anubis secrets)
  else if fieldIs "replicas" k then
    x ← decInt 32 "int32" replicas v;
    mret (Build_AppSpec autoUpdate image pullSecrets logLevel x port runAsRoot env healthcheck ingress onion storage role anubis secrets)
  else if fieldIs "port" k then
    x ← decInt intBits "int" port v;
    mret (Build_AppSpec autoUpdate image pullSecrets logLevel replicas x runAsRoot env healthcheck ingress onion storage role anubis secrets)
  else if fieldIs "runAsRoot" k then
    x ← decBool runAsRoot v;
    mret (Build_AppSpec autoUpdate image pullSecrets logLevel replicas port x env healthcheck ingress onion storage role anubis secrets)
  else if fieldIs "env" k then
    x ← decSlice "[]v1.EnvVar" corev1.EnvVar_zero corev1.EnvVar_dec env v;
    mret (Build_AppSpec autoUpdate image pullSecrets logLevel replicas port runAsRoot x healthcheck ingress onion storage role anubis secrets)
  else if fieldIs "healthcheck" k then
    x ← decPtr Healthcheck_zero (λ c d, hook (Healthcheck_UnmarshalJSON c d)) healthcheck v;
    mret (Build_AppSpec autoUpdate image pullSecrets logLevel replicas port runAsRoot env x ingress onion storage role anubis secrets)
  else if fieldIs "ingress" k then
    x ← decPtr Ingress_zero (λ c d, hook (Ingress_UnmarshalJSON c d)) ingress v;
    mret (Build_AppSpec autoUpdate image pullSecrets logLevel replicas port runAsRoot env healthcheck x onion storage role anubis secrets)
  else if fieldIs "onion" k then
    x ← decPtr Onion_zero (λ c d, hook (Onion_UnmarshalJSON c d)) onion v;
    mret (Build_AppSpec autoUpdate image pullSecrets logLevel replicas port runAsRoot env healthcheck ingress x storage role anubis secrets)
  else if fieldIs "storage" k then
    x ← decPtr Storage_zero (λ c d, hook (Storage_UnmarshalJSON c d)) storage v;
    mret (Build_AppSpec autoUpdate image pullSecrets logLevel replicas port runAsRoot env healthcheck ingress onion x role anubis secrets)
  else if fieldIs "role" k then
    x ← decPtr Role_zero Role_dec role v;
    mret (Build_AppSpec autoUpdate image pullSecrets logLevel replicas port runAsRoot env healthcheck ingress onion storage x anubis secrets)
  else if fieldIs "anubis" k then
    x ← decPtr Anubis_zero Anubis_dec anubis v;
    mret (Build_AppSpec autoUpdate image pullSecrets logLevel replicas port runAsRoot env healthcheck ingress onion storage role x secrets)
  else if fieldIs "secrets" k then
    x ← decSlice "[]v1.Secret" Secret_zero (λ c d, hook (Secret_UnmarshalJSON c d)) secrets v;
    mret (Build_AppSpec autoUpdate image pullSecrets logLevel replicas port runAsRoot env healthcheck ingress onion storage role anubis x)
  else mret s.

Definition AppSpec_enc (s : AppSpec) : json :=
  JObj (omitempty (negb (AutoUpdate s)) "autoUpdate" (JBool (AutoUpdate s))
     ++ [("image", JStr (Image s))]
     ++ omitempty (isEmpty (ImagePullSecrets s)) "imagePullSecrets" (encStrings (ImagePullSecrets s))
     ++ omitempty (bool_decide (LogLevel s = "")) "logLevel" (JStr (LogLevel s))
     ++ omitempty (bool_decide (Replicas s = 0)) "replicas" (JNum (Replicas s))
     ++ omitempty (bool_decide (Port s = 0)) "port" (JNum (Port s))
     ++ omitempty (negb (RunAsRoot s)) "runAsRoot" (JBool (RunAsRoot s))
     ++ omitempty (isEmpty (Env s)) "env" (JArr (corev1.EnvVar_enc <$> Env s))
     ++ omitempty (isNil (Healthcheck_ s)) "healthcheck" (encPtr Healthcheck_enc (Healthcheck_ s))
     ++ omitempty (isNil (Ingress_ s)) "ingress" (encPtr Ingress_enc (Ingress_ s))
     ++ omitempty (isNil (Onion_ s)) "onion" (encPtr Onion_enc (Onion_ s))
     ++ omitempty (isNil (Storage_ s)) "storage" (encPtr Storage_enc (Storage_ s))
     ++ omitempty (isNil (Role_ s)) "role" (encPtr Role_enc (Role_ s))
     ++ omitempty (isNil (Anubis_ s)) "anubis" (encPtr Anubis_enc (Anubis_ s))
     ++ omitempty (isEmpty (Secrets s)) "secrets" (JArr (Secret_enc <$> Secrets s))).

(** [App] embeds [metav1.TypeMeta] (its fields are members of the document
    itself) and [metav1.ObjectMeta] (under [metadata]). *)
Record App := {
  TypeMeta : metav1.TypeMeta;       (* json:",inline" *)
  ObjectMeta : metav1.ObjectMeta;   (* json:"metadata,omitempty" *)
  Spec : AppSpec;                   (* json:"spec" *)
}.

Definition App_zero : App :=
  {| TypeMeta := {| metav1.Kind := ""; metav1.APIVersion := "" |};
     ObjectMeta := metav1.ObjectMeta_zero;
     Spec := AppSpec_zero |}.

Definition App_setField '((k, v) : string * json) (app : App) : Dec App :=
  let '(Build_App (metav1.Build_TypeMeta kind apiVersion) meta spec) := app in
  if fieldIs "kind" k then
    x ← decString kind v; mret (Build_App (metav1.Build_TypeMeta x apiVersion) meta spec)
  else if fieldIs "apiVersion" k then
    x ← decString apiVersion v; mret (Build_App (metav1.Build_TypeMeta kind x) meta spec)
  else if fieldIs "metadata" k then
    x ← metav1.ObjectMeta_dec meta v; mret (Build_App (metav1.Build_TypeMeta kind apiVersion) x spec)
  else if fieldIs "spec" k then
    x ← decStruct "AppSpec" AppSpec_setField spec v;
    mret (Build_App (metav1.Build_TypeMeta kind apiVersion) meta x)
  else mret app.

Definition setReplicas (n : Z) (s : AppSpec) : AppSpec :=
  let '(Build_AppSpec autoUpdate image pullSecrets logLevel replicas port runAsRoot env healthcheck ingress onion storage role anubis secrets) := s in
  Build_AppSpec autoUpdate image pullSecrets logLevel n port runAsRoot env healthcheck ingress onion storage role anubis secrets.

(** Custom Marshalling Logic so that users do not need to explicity fill
    out the Kind and ApiVersion. *)
Definition App_MarshalJSON (app : App) : json :=
  JObj ([("kind", JStr KindApp); ("apiVersion", JStr APIVersion);
         ("metadata", metav1.ObjectMeta_enc (ObjectMeta app));
         ("spec", AppSpec_enc (Spec app))]).

(** Custom Unmarshalling to raise an error if the ApiVersion or Kind does
    not match. *)
Definition App_UnmarshalJSON (app : App) (data : json) : result App :=
  app ← Unmarshal (decStruct "AppAlt" App_setField app data);
  if bool_decide (metav1.APIVersion (TypeMeta app) ≠ APIVersion) then
    Err (Errorf ("unexpected api version: expected " +:+ APIVersion +:+ " but got "
                 +:+ metav1.APIVersion (TypeMeta app)))
  else if bool_decide (metav1.Kind (TypeMeta app) ≠ KindApp) then
    Err (Errorf ("unexpected kind: expected " +:+ KindApp +:+ " but got "
                 +:+ metav1.Kind (TypeMeta app)))
  else if bool_decide (Replicas (Spec app) = 0) then
    Ok (Build_App (TypeMeta app) (ObjectMeta app) (setReplicas 1 (Spec app)))
  else Ok app.

End app_v1.
End app_v1.

(** ** within-website-app/v1/flight: the App flight

    The later of the two snapshots of [main.go], the one with the service
    account, the onion service, the storage claim and the role. *)

Module app_flight.
Section app_flight.
Context `{K8sLibrary}.
Import app_v1.

Abbreviation Name app := (metav1.Name (ObjectMeta app)).
Abbreviation Namespace app := (metav1.Namespace (ObjectMeta app)).
Abbreviation Labels app := (metav1.Labels (ObjectMeta app)).

(** Our selector for our backend application. Independent from the regular
    labels passed in the backend spec. *)
Definition selector (backend : App) : gmap string string :=
  {[ "app.kubernetes.io/name" := Name backend ]}.

Definition X_Kubernetes : list corev1.HTTPHeader :=
  [ {| corev1.HTTPHeader_Name := "X-Kubernetes";
       corev1.HTTPHeader_Value := "is kinda okay" |} ].

(** The body of the loop over [backend.Spec.Secrets] in [createDeployment],
    on the [EnvFrom] and [VolumeMounts] of the container and the [Volumes]
    of the pod. *)
Definition mountSecret (backendName : string)
    (acc : list corev1.EnvFromSource * list corev1.Volume * list corev1.VolumeMount)
    (sec : Secret)
    : list corev1.EnvFromSource * list corev1.Volume * list corev1.VolumeMount :=
  let '(envFrom, volumes, mounts) := acc in
  let name := backendName +:+ "-" +:+ Secret_Name sec in
  let envFrom :=
    if Secret_Environment sec
    then (envFrom ++ [ {| corev1.SecretRef_Name := name |} ])%list
    else envFrom in
  if Secret_Folder sec
  then (envFrom,
        (volumes ++ [ {| corev1.Volume_Name := Secret_Name sec;
                         corev1.Volume_Source := corev1.SecretVolumeSource name |} ])%list,
        (mounts ++ [ {| corev1.VolumeMount_Name := name;
                        corev1.VolumeMount_MountPath := "/run/secrets/" +:+ Secret_Name sec |} ])%list)
  else (envFrom, volumes, mounts).

Definition createDeployment (backend : App) : appsv1.Deployment :=
  let spec := Spec backend in
  (* result.Annotations *)
  let annotations : gmap string string := ∅ in
  let annotations :=
    if AutoUpdate spec
    then maps_Copy annotations
           {[ "keel.sh/policy" := "all"; "keel.sh/trigger" := "all";
              "keel.sh/pollSchedule" := "@hourly" ]}
    else annotations in
  (* Containers[0].Env *)
  let env :=
    [ {| corev1.EnvVar_Name := "PORT"; corev1.EnvVar_Value := Itoa (Port spec);
         corev1.EnvVar_ValueFrom := None |};
      {| corev1.EnvVar_Name := "BIND"; corev1.EnvVar_Value := ":" +:+ Itoa (Port spec);
         corev1.EnvVar_ValueFrom := None |};
      {| corev1.EnvVar_Name := "SLOG_LEVEL";
         corev1.EnvVar_Value := cmp_Or_string (LogLevel spec) "info";
         corev1.EnvVar_ValueFrom := None |} ] in
  let env := (env ++ Env spec)%list in
  (* Template.Spec.ImagePullSecrets *)
  let pullSecrets := ImagePullSecrets spec in
  (* the probes *)
  let probes :=
    match Healthcheck_ spec with
    | Some hc =>
        if Healthcheck_Enabled hc then
          let port := if bool_decide (Healthcheck_Port hc = 0) then Port spec
                      else Healthcheck_Port hc in
          if bool_decide (Healthcheck_Kind hc = "http") then
            let h := corev1.HTTPGet (Healthcheck_Path hc) (corev1.FromInt port) X_Kubernetes in
            (Some (probe 3 10 h), Some (probe 3 10 h))
          else if bool_decide (Healthcheck_Kind hc = "grpc") then
            (Some (probe 3 10 (corev1.GRPC (corev1.int32 port))),
             Some (probe 0 10 (corev1.GRPC (corev1.int32 port))))
          else (None, None)
        else (None, None)
    | None => (None, None)
    end in
  let liveness := probes.1 in
  let readiness := probes.2 in
  (* the security contexts, dropped when running as root *)
  let containerSecurity :=
    if RunAsRoot spec then None
    else Some {| corev1.RunAsUser := Some 1000; corev1.RunAsGroup := Some 1000;
                 corev1.RunAsNonRoot := Some true;
                 corev1.AllowPrivilegeEscalation := Some false;
                 corev1.Capabilities_Drop := ["ALL"];
                 corev1.SeccompProfile_Type := "RuntimeDefault" |} in
  let podSecurity :=
    if RunAsRoot spec then None else Some {| corev1.FSGroup := Some 1000 |} in
  (* the secrets *)
  let mounted :=
    foldl (mountSecret (Name backend)) ([], [], []) (Secrets spec) in
  let envFrom := mounted.1.1 in
  let volumes := mounted.1.2 in
  let mounts := mounted.2 in
  (* the storage *)
  let stored :=
    match Storage_ spec with
    | Some st =>
        if Storage_Enabled st
        then ((volumes ++ [ {| corev1.Volume_Name := "storage";
                               corev1.Volume_Source :=
                                 corev1.PersistentVolumeClaimVolumeSource
                                   (Name backend +:+ "-storage") |} ])%list,
              (mounts ++ [ {| corev1.VolumeMount_Name := "storage";
                              corev1.VolumeMount_MountPath := Storage_Path st |} ])%list)
        else (volumes, mounts)
    | None => (volumes, mounts)
    end in
  let volumes := stored.1 in
  let mounts := stored.2 in
  {| appsv1.TypeMeta := typeMeta appsv1.SchemeGroupVersion "Deployment";
     appsv1.ObjectMeta := meta (Name backend) (Namespace backend) (Labels backend) annotations;
     appsv1.Replicas := Some (Replicas spec);
     appsv1.Strategy_Type := "RollingUpdate";
     appsv1.MatchLabels := selector backend;
     appsv1.Template :=
       {| corev1.Template_Labels := Labels backend;
          corev1.Template_Spec :=
            {| corev1.Pod_SecurityContext := podSecurity;
               corev1.ServiceAccountName := Name backend;
               corev1.Containers :=
                 [ {| corev1.Container_Name := Name backend;
                      corev1.Container_Image := Image spec;
                      corev1.ImagePullPolicy := "Always";
                      corev1.Container_SecurityContext := containerSecurity;
                      corev1.Container_Env := env;
                      corev1.EnvFrom := envFrom;
                      corev1.Ports :=
                        [ {| corev1.ContainerPort_Name := Name backend;
                             corev1.ContainerPort_Protocol := "TCP";
                             corev1.ContainerPort_ContainerPort := corev1.int32 (Port spec) |} ];
                      corev1.VolumeMounts := mounts;
                      corev1.LivenessProbe := liveness;
                      corev1.ReadinessProbe := readiness |} ];
               corev1.Volumes := volumes;
               corev1.Pod_ImagePullSecrets := pullSecrets |} |} |}.

Definition createService (backend : App) : corev1.Service :=
  let annotations : gmap string string := ∅ in
  let annotations :=
    match Ingress_ (Spec backend) with
    | Some i =>
        if Ingress_Enabled i && bool_decide (Ingress_Kind i = "grpc")
        then maps_Copy annotations
               {[ "traefik.ingress.kubernetes.io/service.serversscheme" := "h2c" ]}
        else annotations
    | None => annotations
    end in
  {| corev1.Service_TypeMeta := typeMeta corev1.SchemeGroupVersion "Service";
     corev1.Service_ObjectMeta :=
       meta (Name backend) (Namespace backend) (Labels backend) annotations;
     corev1.Service_Selector := selector backend;
     corev1.Service_Type := "ClusterIP";
     corev1.Service_Ports :=
       [ {| corev1.ServicePort_Protocol := "TCP";
            corev1.ServicePort_Port := 80;
            corev1.ServicePort_TargetPort := corev1.FromInt (Port (Spec backend));
            corev1.ServicePort_Name := "http" |} ] |}.

(** In the builders below [i], [o], [st] and [r] stand for
    [*app.Spec.Ingress], [*app.Spec.Onion], [*app.Spec.Storage] and
    [*app.Spec.Role], which [run] has found non-nil before the call. *)

Definition mkTLSSecretName (i : Ingress) : string :=
  ReplaceAll (Ingress_Host i) "." "-" +:+ "-public-tls".

Definition createIngress (lookup : Lookup onionv1alpha2.OnionService)
    (app : App) (i : Ingress) : result networkingv1.Ingress :=
  let annotations : gmap string string :=
    {[ "cert-manager.io/cluster-issuer" := Ingress_ClusterIssuer i;
       "nginx.ingress.kubernetes.io/ssl-redirect" := "true" ]} in
  let annotations := maps_Copy annotations (Ingress_Annotations i) in
  let annotations :=
    if Ingress_EnableCoreRules i
    then <["nginx.ingress.kubernetes.io/modsecurity-transaction-id" := "$request_id"]>
           (<["nginx.ingress.kubernetes.io/enable-modsecurity" := "true"]>
              (<["nginx.ingress.kubernetes.io/enable-owasp-core-rules" := "true"]>
                 annotations))
    else annotations in
  let annotations :=
    if bool_decide (Ingress_Kind i = "grpc")
    then maps_Copy annotations
           {[ "nginx.ingress.kubernetes.io/backend-protocol" := "GRPC" ]}
    else annotations in
  (* The onion service is looked up and a snippet is built from its host
     name; the lines that would store the snippet are commented out. *)
  let configSnippet :=
    match Onion_ (Spec app) with
    | Some o =>
        if Onion_Enabled o then
          match lookup with
          | Found onionSvc =>
              if bool_decide (onionv1alpha2.Status_Hostname onionSvc ≠ "")
              then "more_set_headers " +:+ QUOTE +:+ "Onion-Location http://"
                   +:+ onionv1alpha2.Status_Hostname onionSvc +:+ "$request_uri;"
                   +:+ QUOTE +:+ LF
              else ""
          | _ => ""
          end
        else ""
    | None => ""
    end in
  Ok {| networkingv1.TypeMeta := typeMeta networkingv1.SchemeGroupVersion "Ingress";
        networkingv1.ObjectMeta :=
          meta (Name app) (Namespace app) (Labels app) annotations;
        networkingv1.IngressClassName := Some (Ingress_ClassName i);
        networkingv1.TLS :=
          [ {| networkingv1.Hosts := [Ingress_Host i];
               networkingv1.SecretName := mkTLSSecretName i |} ];
        networkingv1.Rules :=
          [ {| networkingv1.Host := Ingress_Host i;
               networkingv1.HTTP_Paths :=
                 [ {| networkingv1.PathType := Some "Prefix";
                      networkingv1.Path := "/";
                      networkingv1.Backend :=
                        {| networkingv1.Backend_Service :=
                             Some {| networkingv1.Backend_Name := Name app;
                                     networkingv1.Backend_Port :=
                                       {| networkingv1.Port_Name := "http";
                                          networkingv1.Port_Number := 0 |} |} |} |} ] |} ] |}.

Definition createOnepasswordSecret (app : App) (sec : Secret)
    : onepasswordv1.OnePasswordItem :=
  let genName := Name app +:+ "-" +:+ Secret_Name sec in
  {| onepasswordv1.TypeMeta := typeMeta onepasswordv1.GroupVersion "OnePasswordItem";
     onepasswordv1.ObjectMeta := meta genName (Namespace app) (Labels app) ∅;
     onepasswordv1.ItemPath := Secret_ItemPath sec |}.

Definition createOnion (app : App) (o : Onion) : onionv1alpha2.OnionService :=
  let http80 := {| networkingv1.Port_Name := "http"; networkingv1.Port_Number := 80 |} in
  let cfg := "" in
  let cfg :=
    if Onion_Haproxy o then cfg +:+ "HiddenServiceExportCircuitID haproxy" +:+ LF else cfg in
  let cfg :=
    if Onion_NonAnonymous o
    then cfg +:+ "HiddenServiceNonAnonymousMode 1" +:+ LF
             +:+ "HiddenServiceSingleHopMode 1" +:+ LF
    else cfg in
  let cfg :=
    if Onion_ProofOfWorkDefense o
    then cfg +:+ "HiddenServicePoWDefensesEnabled 1" +:+ LF
             +:+ "HiddenServicePoWQueueRate 1" +:+ LF
             +:+ "HiddenServicePoWQueueBurst 10" +:+ LF
    else cfg in
  {| onionv1alpha2.TypeMeta := typeMeta onionv1alpha2.GroupVersion "OnionService";
     onionv1alpha2.ObjectMeta := meta (Name app) (Namespace app) (Labels app) ∅;
     onionv1alpha2.Version := 3;
     onionv1alpha2.Rules :=
       [ {| onionv1alpha2.Rule_Port := http80;
            onionv1alpha2.Rule_Backend :=
              {| networkingv1.Backend_Service :=
                   Some {| networkingv1.Backend_Name := Name app;
                           networkingv1.Backend_Port := http80 |} |} |} ];
     onionv1alpha2.Template_Labels := {[ "app" := Name app ]};
     onionv1alpha2.ExtraConfig := cfg;
     onionv1alpha2.Status_Hostname := "" |}.

Definition createStorage (app : App) (st : Storage)
    : OrPanic corev1.PersistentVolumeClaim :=
  match ParseQuantity (Storage_Size st) with
  | inr err => Panics err
  | inl size =>
      Returns
        {| corev1.PVC_TypeMeta := typeMeta corev1.SchemeGroupVersion "PersistentVolumeClaim";
           corev1.PVC_ObjectMeta :=
             meta (Name app +:+ "-storage") (Namespace app) (Labels app) ∅;
           corev1.AccessModes := ["ReadWriteOnce"];
           corev1.Requests := [("storage", size)];
           corev1.StorageClassName := Storage_StorageClass st;
           corev1.VolumeMode := None |}
  end.

Definition createRole (app : App) (r : Role) : rbacv1.Role :=
  {| rbacv1.Role_TypeMeta := typeMeta rbacv1.SchemeGroupVersion "Role";
     rbacv1.Role_ObjectMeta := meta (Name app) (Namespace app) (Labels app) ∅;
     rbacv1.Role_Rules := Role_Rules r |}.

Definition createRoleBinding (app : App) : rbacv1.RoleBinding :=
  {| rbacv1.RoleBinding_TypeMeta := typeMeta rbacv1.SchemeGroupVersion "RoleBinding";
     rbacv1.RoleBinding_ObjectMeta := meta (Name app) (Namespace app) (Labels app) ∅;
     rbacv1.RoleBinding_Subjects :=
       [ {| rbacv1.Subject_Kind := "ServiceAccount";
            rbacv1.Subject_Name := Name app;
            rbacv1.Subject_Namespace := Namespace app |} ];
     rbacv1.RoleBinding_RoleRef :=
       {| rbacv1.RoleRef_APIGroup := rbacv1.GroupName;
          rbacv1.RoleRef_Kind := "Role";
          rbacv1.RoleRef_Name := Name app |} |}.

Definition createServiceAccount (app : App) : corev1.ServiceAccount :=
  {| corev1.ServiceAccount_TypeMeta := typeMeta corev1.SchemeGroupVersion "ServiceAccount";
     corev1.ServiceAccount_ObjectMeta :=
       meta (Name app) (Namespace app) (Labels app) ∅;
     corev1.AutomountServiceAccountToken := Some true |}.

(** The first lines of [run] after the decoding: the default port and the
    selector copied into the labels. *)
Definition defaults (app : App) : App :=
  let '(Build_AppSpec autoUpdate image pullSecrets logLevel replicas port runAsRoot
          env healthcheck ingress onion storage role anubis secrets) := Spec app in
  let spec :=
    Build_AppSpec autoUpdate image pullSecrets logLevel replicas (cmp_Or_int port 3000)
      runAsRoot env healthcheck ingress onion storage role anubis secrets in
  let app := Build_App (TypeMeta app) (ObjectMeta app) spec in
  Build_App (TypeMeta app)
    (meta (Name app) (Namespace app) (maps_Copy (Labels app) (selector app))
          (metav1.Annotations (ObjectMeta app)))
    (Spec app).

(** [run] from the decoded value on. *)
Definition build (lookup : Lookup onionv1alpha2.OnionService) (app : App) : Outcome :=
  let app := defaults app in
  let result : list Resource := [] in
  let result :=
    foldl (λ result sec, result ++ [ROnePasswordItem (createOnepasswordSecret app sec)])
          result (Secrets (Spec app)) in
  let result := result ++ [RDeployment (createDeployment app)] in
  let result := result ++ [RService (createService app)] in
  let result := result ++ [RServiceAccount (createServiceAccount app)] in
  let withIngress :=
    match Ingress_ (Spec app) with
    | Some i =>
        if Ingress_Enabled i then
          match createIngress lookup app i with
          | Err err => Err (Errorf ("failed to create ingress: " +:+ Error err))
          | Ok ing => Ok (result ++ [RIngress ing])
          end
        else Ok result
    | None => Ok result
    end in
  match withIngress with
  | Err err => Exit1 err
  | Ok result =>
      let result :=
        match Onion_ (Spec app) with
        | Some o => if Onion_Enabled o then result ++ [ROnionService (createOnion app o)]
                    else result
        | None => result
        end in
      let withStorage :=
        match Storage_ (Spec app) with
        | Some st =>
            if Storage_Enabled st then
              match createStorage app st with
              | Panics msg => Panics msg
              | Returns pvc => Returns (result ++ [RPersistentVolumeClaim pvc])
              end
            else Returns result
        | None => Returns result
        end in
      match withStorage with
      | Panics msg => Panic msg
      | Returns result =>
          let result :=
            match Role_ (Spec app) with
            | Some r => result ++ [RRole (createRole app r)]
                               ++ [RRoleBinding (createRoleBinding app)]
            | None => result
            end in
          Emitted result
      end
  end.

Definition run (lookup : Lookup onionv1alpha2.OnionService) (stdin : Stdin) : Outcome :=
  let '(app, err) := Decode App_UnmarshalJSON stdin App_zero in
  match err with
  | None | Some EOF => build lookup app
  | Some err => Exit1 err
  end.

End app_flight.
End app_flight.

(** ** within-website-app/v1: the earlier snapshot of the App type

    [within-website-app/v1/app.go], the snapshot the earlier flight is
    written against. Of its types only [Ingress] and [App] carry a hook;
    [Healthcheck] and [Secret] are decoded as plain structs, and the hook of
    [App] sets no default replica count. *)

Module app_v1_earlier.

Definition APIVersion : string := "x.within.website/v1".
Definition KindApp : string := "App".

Record Healthcheck := {
  Healthcheck_Enabled : bool;   (* json:"enabled" *)
  Healthcheck_Path : string;    (* json:"path,omitempty" *)
  Healthcheck_Port : Z;         (* json:"port,omitempty", int *)
}.

Definition Healthcheck_zero : Healthcheck :=
  {| Healthcheck_Enabled := false; Healthcheck_Path := ""; Healthcheck_Port := 0 |}.

Definition Healthcheck_setField '((k, v) : string * json) (h : Healthcheck)
    : Dec Healthcheck :=
  let '(Build_Healthcheck enabled path port) := h in
  if fieldIs "enabled" k then x ← decBool enabled v; mret (Build_Healthcheck x path port)
  else if fieldIs "path" k then x ← decString path v; mret (Build_Healthcheck enabled x port)
  else if fieldIs "port" k then x ← decInt intBits "int" port v; mret (Build_Healthcheck enabled path x)
  else mret h.

Definition Healthcheck_dec : Healthcheck → json → Dec Healthcheck :=
  decStruct "Healthcheck" Healthcheck_setField.

Definition Healthcheck_enc (h : Healthcheck) : json :=
  JObj ([("enabled", JBool (Healthcheck_Enabled h))]
     ++ omitempty (bool_decide (Healthcheck_Path h = "")) "path" (JStr (Healthcheck_Path h))
     ++ omitempty (bool_decide (Healthcheck_Port h = 0)) "port" (JNum (Healthcheck_Port h))).

Record Ingress := {
  Ingress_Enabled : bool;           (* json:"enabled" *)
  Ingress_Host : string;            (* json:"host" *)
  Ingress_ClusterIssuer : string;   (* json:"clusterIssuer,omitempty" *)
  Ingress_ClassName : string;       (* json:"className,omitempty" *)
}.

Definition Ingress_zero : Ingress :=
  {| Ingress_Enabled := false; Ingress_Host := ""; Ingress_ClusterIssuer := "";
     Ingress_ClassName := "" |}.

Definition Ingress_setField '((k, v) : string * json) (i : Ingress) : Dec Ingress :=
  let '(Build_Ingress enabled host issuer class) := i in
  if fieldIs "enabled" k then x ← decBool enabled v; mret (Build_Ingress x host issuer class)
  else if fieldIs "host" k then x ← decString host v; mret (Build_Ingress enabled x issuer class)
  else if fieldIs "clusterIssuer" k then x ← decString issuer v; mret (Build_Ingress enabled host x class)
  else if fieldIs "className" k then x ← decString class v; mret (Build_Ingress enabled host issuer x)
  else mret i.

Definition Ingress_UnmarshalJSON (i : Ingress) (data : json) : result Ingress :=
  i ← Unmarshal (decStruct "IngressAlt" Ingress_setField i data);
  if Ingress_Enabled i && bool_decide (Ingress_Host i = "")
  then Err (Errorf "host is required when ingress is enabled")
  else
    let '(Build_Ingress enabled host issuer class) := i in
    let issuer := if enabled && bool_decide (issuer = "") then "letsencrypt-prod" else issuer in
    let class := if enabled && bool_decide (class = "") then "nginx" else class in
    Ok (Build_Ingress enabled host issuer class).

Definition Ingress_enc (i : Ingress) : json :=
  JObj ([("enabled", JBool (Ingress_Enabled i));
         ("host", JStr (Ingress_Host i))]
     ++ omitempty (bool_decide (Ingress_ClusterIssuer i = "")) "clusterIssuer" (JStr (Ingress_ClusterIssuer i))
     ++ omitempty (bool_decide (Ingress_ClassName i = "")) "className" (JStr (Ingress_ClassName i))).

Record Secret := {
  Secret_Name : string;        (* json:"name" *)
  Secret_ItemPath : string;    (* json:"itemPath" *)
  Secret_Environment : bool;   (* json:"environment,omitempty" *)
  Secret_Folder : bool;        (* json:"folder,omitempty" *)
}.

Definition Secret_zero : Secret :=
  {| Secret_Name := ""; Secret_ItemPath := ""; Secret_Environment := false;
     Secret_Folder := false |}.

Definition Secret_setField '((k, v) : string * json) (s : Secret) : Dec Secret :=
  let '(Build_Secret name itemPath environment folder) := s in
  if fieldIs "name" k then x ← decString name v; mret (Build_Secret x itemPath environment folder)
  else if fieldIs "itemPath" k then x ← decString itemPath v; mret (Build_Secret name x environment folder)
  else if fieldIs "environment" k then x ← decBool environment v; mret (Build_Secret name itemPath x folder)
  else if fieldIs "folder" k then x ← decBool folder v; mret (Build_Secret name itemPath environment x)
  else mret s.

Definition Secret_dec : Secret → json → Dec Secret :=
  decStruct "Secret" Secret_setField.

Definition Secret_enc (s : Secret) : json :=
  JObj ([("name", JStr (Secret_Name s)); ("itemPath", JStr (Secret_ItemPath s))]
     ++ omitempty (negb (Secret_Environment s)) "environment" (JBool (Secret_Environment s))
     ++ omitempty (negb (Secret_Folder s)) "folder" (JBool (Secret_Folder s))).

Record AppSpec := {
  AutoUpdate : bool;                  (* json:"autoUpdate,omitempty" *)
  Image : string;                     (* json:"image" *)
  LogLevel : string;                  (* json:"logLevel,omitempty" *)
  Replicas : Z;                       (* json:"replicas,omitempty", int32 *)
  Port : Z;                           (* json:"port,omitempty", int *)
  Healthcheck_ : option Healthcheck;  (* json:"healthcheck,omitempty" *)
  Ingress_ : option Ingress;          (* json:"ingress,omitempty" *)
  Secrets : list Secret;              (* json:"secrets,omitempty" *)
}.

Definition AppSpec_zero : AppSpec :=
  {| AutoUpdate := false; Image := ""; LogLevel := ""; Replicas := 0; Port := 0;
     Healthcheck_ := None; Ingress_ := None; Secrets := [] |}.

Definition AppSpec_setField '((k, v) : string * json) (s : AppSpec) : Dec AppSpec :=
  let '(Build_AppSpec autoUpdate image logLevel replicas port healthcheck ingress secrets) := s in
  if fieldIs "autoUpdate" k then
    x ← decBool autoUpdate v;
    mret (Build_AppSpec x image logLevel replicas port healthcheck ingress secrets)
  else if fieldIs "image" k then
    x ← decString image v;
    mret (Build_AppSpec autoUpdate x logLevel replicas port healthcheck ingress secrets)
  else if fieldIs "logLevel" k then
    x ← decString logLevel v;
    mret (Build_AppSpec autoUpdate image x replicas port healthcheck ingress secrets)
  else if fieldIs "replicas" k then
    x ← decInt 32 "int32" replicas v;
    mret (Build_AppSpec autoUpdate image logLevel x port healthcheck ingress secrets)
  else if fieldIs "port" k then
    x ← decInt intBits "int" port v;
    mret (Build_AppSpec autoUpdate image logLevel replicas x healthcheck ingress secrets)
  else if fieldIs "healthcheck" k then
    x ← decPtr Healthcheck_zero Healthcheck_dec healthcheck v;
    mret (Build_AppSpec autoUpdate image logLevel replicas port x ingress secrets)
  else if fieldIs "ingress" k then
    x ← decPtr Ingress_zero (λ c d, hook (Ingress_UnmarshalJSON c d)) ingress v;
    mret (Build_AppSpec autoUpdate image logLevel replicas port healthcheck x secrets)
  else if fieldIs "secrets" k then
    x ← decSlice "[]v1.Secret" Secret_zero Secret_dec secrets v;
    mret (Build_AppSpec autoUpdate image logLevel replicas port healthcheck ingress x)
  else mret s.

Definition AppSpec_enc (s : AppSpec) : json :=
  JObj (omitempty (negb (AutoUpdate s)) "autoUpdate" (JBool (AutoUpdate s))
     ++ [("image", JStr (Image s))]
     ++ omitempty (bool_decide (LogLevel s = "")) "logLevel" (JStr (LogLevel s))
     ++ omitempty (bool_decide (Replicas s = 0)) "replicas" (JNum (Replicas s))
     ++ omitempty (bool_decide (Port s = 0)) "port" (JNum (Port s))
     ++ omitempty (isNil (Healthcheck_ s)) "healthcheck" (encPtr Healthcheck_enc (Healthcheck_ s))
     ++ omitempty (isNil (Ingress_ s)) "ingress" (encPtr Ingress_enc (Ingress_ s))
     ++ omitempty (isEmpty (Secrets s)) "secrets" (JArr (Secret_enc <$> Secrets s))).

Record App := {
  TypeMeta : metav1.TypeMeta;       (* json:",inline" *)
  ObjectMeta : metav1.ObjectMeta;   (* json:"metadata,omitempty" *)
  Spec : AppSpec;                   (* json:"spec" *)
}.

Definition App_zero : App :=
  {| TypeMeta := {| metav1.Kind := ""; metav1.APIVersion := "" |};
     ObjectMeta := metav1.ObjectMeta_zero;
     Spec := AppSpec_zero |}.

Definition App_setField '((k, v) : string * json) (app : App) : Dec App :=
  let '(Build_App (metav1.Build_TypeMeta kind apiVersion) meta spec) := app in
  if fieldIs "kind" k then
    x ← decString kind v; mret (Build_App (metav1.Build_TypeMeta x apiVersion) meta spec)
  else if fieldIs "apiVersion" k then
    x ← decString apiVersion v; mret (Build_App (metav1.Build_TypeMeta kind x) meta spec)
  else if fieldIs "metadata" k then
    x ← metav1.ObjectMeta_dec meta v; mret (Build_App (metav1.Build_TypeMeta kind apiVersion) x spec)
  else if fieldIs "spec" k then
    x ← decStruct "AppSpec" AppSpec_setField spec v;
    mret (Build_App (metav1.Build_TypeMeta kind apiVersion) meta x)
  else mret app.

(** Custom Marshalling Logic so that users do not need to explicity fill
    out the Kind and ApiVersion. *)
Definition App_MarshalJSON (app : App) : json :=
  JObj ([("kind", JStr KindApp); ("apiVersion", JStr APIVersion);
         ("metadata", metav1.ObjectMeta_enc (ObjectMeta app));
         ("spec", AppSpec_enc (Spec app))]).

(** Custom Unmarshalling to raise an error if the ApiVersion or Kind does
    not match. *)
Definition App_UnmarshalJSON (app : App) (data : json) : result App :=
  app ← Unmarshal (decStruct "AppAlt" App_setField app data);
  if bool_decide (metav1.APIVersion (TypeMeta app) ≠ APIVersion) then
    Err (Errorf ("unexpected api version: expected " +:+ APIVersion +:+ " but got "
                 +:+ metav1.APIVersion (TypeMeta app)))
  else if bool_decide (metav1.Kind (TypeMeta app) ≠ KindApp) then
    Err (Errorf ("unexpected kind: expected " +:+ KindApp +:+ " but got "
                 +:+ metav1.Kind (TypeMeta app)))
  else Ok app.

End app_v1_earlier.

(** ** within-website-app/v1/flight: the earlier App flight

    The earlier of the two snapshots of [main.go]: 1Password items, a
    Deployment, a Service and an Ingress. It has no service account, one
    probe, and none of its builders can fail. *)

Module app_flight_earlier.
Section app_flight_earlier.
Context `{K8sLibrary}.
Import app_v1_earlier.

Abbreviation Name app := (metav1.Name (ObjectMeta app)).
Abbreviation Namespace app := (metav1.Namespace (ObjectMeta app)).
Abbreviation Labels app := (metav1.Labels (ObjectMeta app)).

(** Our selector for our backend application. Independent from the regular
    labels passed in the backend spec. *)
Definition selector (backend : App) : gmap string string :=
  {[ "app.kubernetes.io/name" := Name backend ]}.

(** The body of the loop over [backend.Spec.Secrets] in [createDeployment],
    on the [EnvFrom] and [VolumeMounts] of the container and the [Volumes]
    of the pod. *)
Definition mountSecret (backendName : string)
    (acc : list corev1.EnvFromSource * list corev1.Volume * list corev1.VolumeMount)
    (sec : Secret)
    : list corev1.EnvFromSource * list corev1.Volume * list corev1.VolumeMount :=
  let '(envFrom, volumes, mounts) := acc in
  let name := backendName +:+ "-" +:+ Secret_Name sec in
  let envFrom :=
    if Secret_Environment sec
    then (envFrom ++ [ {| corev1.SecretRef_Name := name |} ])%list
    else envFrom in
  if Secret_Folder sec
  then (envFrom,
        (volumes ++ [ {| corev1.Volume_Name := Secret_Name sec;
                         corev1.Volume_Source := corev1.SecretVolumeSource name |} ])%list,
        (mounts ++ [ {| corev1.VolumeMount_Name := name;
                        corev1.VolumeMount_MountPath := "/run/secrets/" +:+ Secret_Name sec |} ])%list)
  else (envFrom, volumes, mounts).

Definition createDeployment (backend : App) : appsv1.Deployment :=
  let spec := Spec backend in
  (* result.Annotations *)
  let annotations : gmap string string := ∅ in
  let annotations :=
    if AutoUpdate spec
    then maps_Copy annotations
           {[ "keel.sh/policy" := "all"; "keel.sh/trigger" := "all";
              "keel.sh/pollSchedule" := "@hourly" ]}
    else annotations in
  (* Containers[0].LivenessProbe *)
  let liveness :=
    match Healthcheck_ spec with
    | Some hc =>
        if Healthcheck_Enabled hc
        then Some (probe 3 10
                     (corev1.HTTPGet (Healthcheck_Path hc)
                        (corev1.FromInt (Healthcheck_Port hc))
                        [ {| corev1.HTTPHeader_Name := "X-Kubernetes";
                             corev1.HTTPHeader_Value := "is kinda okay" |} ]))
        else None
    | None => None
    end in
  (* the secrets *)
  let mounted :=
    foldl (mountSecret (Name backend)) ([], [], []) (Secrets spec) in
  let envFrom := mounted.1.1 in
  let volumes := mounted.1.2 in
  let mounts := mounted.2 in
  {| appsv1.TypeMeta := typeMeta appsv1.SchemeGroupVersion "Deployment";
     appsv1.ObjectMeta := meta (Name backend) (Namespace backend) (Labels backend) annotations;
     appsv1.Replicas := Some (Replicas spec);
     appsv1.Strategy_Type := "RollingUpdate";
     appsv1.MatchLabels := selector backend;
     appsv1.Template :=
       {| corev1.Template_Labels := Labels backend;
          corev1.Template_Spec :=
            {| corev1.Pod_SecurityContext := Some {| corev1.FSGroup := Some 1000 |};
               corev1.ServiceAccountName := "";
               corev1.Containers :=
                 [ {| corev1.Container_Name := Name backend;
                      corev1.Container_Image := Image spec;
                      corev1.ImagePullPolicy := "Always";
                      corev1.Container_SecurityContext :=
                        Some {| corev1.RunAsUser := Some 1000;
                                corev1.RunAsGroup := Some 1000;
                                corev1.RunAsNonRoot := Some true;
                                corev1.AllowPrivilegeEscalation := Some false;
                                corev1.Capabilities_Drop := ["ALL"];
                                corev1.SeccompProfile_Type := "RuntimeDefault" |};
                      corev1.Container_Env :=
                        [ {| corev1.EnvVar_Name := "PORT";
                             corev1.EnvVar_Value := Itoa (Port spec);
                             corev1.EnvVar_ValueFrom := None |};
                          {| corev1.EnvVar_Name := "BIND";
                             corev1.EnvVar_Value := ":" +:+ Itoa (Port spec);
                             corev1.EnvVar_ValueFrom := None |};
                          {| corev1.EnvVar_Name := "SLOG_LEVEL";
                             corev1.EnvVar_Value := cmp_Or_string (LogLevel spec) "info";
                             corev1.EnvVar_ValueFrom := None |} ];
                      corev1.EnvFrom := envFrom;
                      corev1.Ports :=
                        [ {| corev1.ContainerPort_Name := Name backend;
                             corev1.ContainerPort_Protocol := "TCP";
                             corev1.ContainerPort_ContainerPort := corev1.int32 (Port spec) |} ];
                      corev1.VolumeMounts := mounts;
                      corev1.LivenessProbe := liveness;
                      corev1.ReadinessProbe := None |} ];
               corev1.Volumes := volumes;
               corev1.Pod_ImagePullSecrets := [] |} |} |}.

Definition createService (backend : App) : corev1.Service :=
  {| corev1.Service_TypeMeta := typeMeta corev1.SchemeGroupVersion "Service";
     corev1.Service_ObjectMeta :=
       meta (Name backend) (Namespace backend) (Labels backend) ∅;
     corev1.Service_Selector := selector backend;
     corev1.Service_Type := "ClusterIP";
     corev1.Service_Ports :=
       [ {| corev1.ServicePort_Protocol := "TCP";
            corev1.ServicePort_Port := 80;
            corev1.ServicePort_TargetPort := corev1.FromInt (Port (Spec backend));
            corev1.ServicePort_Name := "http" |} ] |}.

(** In the two builders below [i] stands for [*app.Spec.Ingress], which
    [run] has found non-nil before the call. *)

Definition mkTLSSecretName (i : Ingress) : string :=
  ReplaceAll (Ingress_Host i) "." "-" +:+ "-public-tls".

Definition createIngress (app : App) (i : Ingress) : networkingv1.Ingress :=
  {| networkingv1.TypeMeta := typeMeta networkingv1.SchemeGroupVersion "Ingress";
     networkingv1.ObjectMeta :=
       meta (Name app) (Namespace app) (Labels app)
            {[ "cert-manager.io/cluster-issuer" := Ingress_ClusterIssuer i ]};
     networkingv1.IngressClassName := Some (Ingress_ClassName i);
     networkingv1.TLS :=
       [ {| networkingv1.Hosts := [Ingress_Host i];
            networkingv1.SecretName := mkTLSSecretName i |} ];
     networkingv1.Rules :=
       [ {| networkingv1.Host := Ingress_Host i;
            networkingv1.HTTP_Paths :=
              [ {| networkingv1.PathType := Some "Prefix";
                   networkingv1.Path := "/";
                   networkingv1.Backend :=
                     {| networkingv1.Backend_Service :=
                          Some {| networkingv1.Backend_Name := Name app;
                                  networkingv1.Backend_Port :=
                                    {| networkingv1.Port_Name := "http";
                                       networkingv1.Port_Number := 0 |} |} |} |} ] |} ] |}.

Definition createOnepasswordSecret (app : App) (sec : Secret)
    : onepasswordv1.OnePasswordItem :=
  let genName := Name app +:+ "-" +:+ Secret_Name sec in
  {| onepasswordv1.TypeMeta := typeMeta onepasswordv1.GroupVersion "OnePasswordItem";
     onepasswordv1.ObjectMeta := meta genName (Namespace app) (Labels app) ∅;
     onepasswordv1.ItemPath := Secret_ItemPath sec |}.

(** The first lines of [run] after the decoding: the default port and the
    selector copied into the labels. *)
Definition defaults (app : App) : App :=
  let '(Build_AppSpec autoUpdate image logLevel replicas port healthcheck ingress
          secrets) := Spec app in
  let spec :=
    Build_AppSpec autoUpdate image logLevel replicas (cmp_Or_int port 3000)
      healthcheck ingress secrets in
  let app := Build_App (TypeMeta app) (ObjectMeta app) spec in
  Build_App (TypeMeta app)
    (meta (Name app) (Namespace app) (maps_Copy (Labels app) (selector app))
          (metav1.Annotations (ObjectMeta app)))
    (Spec app).

(** [run] from the decoded value on. *)
Definition build (app : App) : list Resource :=
  let app := defaults app in
  let result : list Resource := [] in
  let result :=
    foldl (λ result sec, result ++ [ROnePasswordItem (createOnepasswordSecret app sec)])
          result (Secrets (Spec app)) in
  let result := result ++ [RDeployment (createDeployment app)] in
  let result := result ++ [RService (createService app)] in
  match Ingress_ (Spec app) with
  | Some i => if Ingress_Enabled i then result ++ [RIngress (createIngress app i)]
              else result
  | None => result
  end.

Definition run (stdin : Stdin) : Outcome :=
  let '(app, err) := Decode App_UnmarshalJSON stdin App_zero in
  match err with
  | None | Some EOF => Emitted (build app)
  | Some err => Exit1 err
  end.

End app_flight_earlier.
End app_flight_earlier.

(** ** db/valkey/v1: the Valkey type and its hooks *)

Module valkey_v1.
Section valkey_v1.
Context `{K8sLibrary}.

Definition APIVersion : string := "db.x.within.website/v1".
Definition KindApp : string := "Valkey".

Record Secret := {
  Secret_Name : string;       (* json:"name" *)
  Secret_ItemPath : string;   (* json:"itemPath" *)
}.

Definition Secret_zero : Secret := {| Secret_Name := ""; Secret_ItemPath := "" |}.

Definition Secret_setField '((k, v) : string * json) (s : Secret) : Dec Secret :=
  let '(Build_Secret name itemPath) := s in
  if fieldIs "name" k then x ← decString name v; mret (Build_Secret x itemPath)
  else if fieldIs "itemPath" k then x ← decString itemPath v; mret (Build_Secret name x)
  else mret s.

Definition Secret_UnmarshalJSON (s : Secret) (data : json) : result Secret :=
  s ← Unmarshal (decStruct "SecretAlt" Secret_setField s data);
  if bool_decide (Secret_ItemPath s = "") then Err (Errorf "itemPath is required")
  else Ok s.

Definition Secret_enc (s : Secret) : json :=
  JObj [("name", JStr (Secret_Name s)); ("itemPath", JStr (Secret_ItemPath s))].

Record Storage := {
  Storage_Enabled : bool;                 (* json:"enabled" *)
  Storage_Size : string;                  (* json:"size" *)
  Storage_StorageClass : option string;   (* json:"storageClass,omitempty", *string *)
}.

Definition Storage_zero : Storage :=
  {| Storage_Enabled := false; Storage_Size := ""; Storage_StorageClass := None |}.

Definition Storage_setField '((k, v) : string * json) (s : Storage) : Dec Storage :=
  let '(Build_Storage enabled size class) := s in
  if fieldIs "enabled" k then x ← decBool enabled v; mret (Build_Storage x size class)
  else if fieldIs "size" k then x ← decString size v; mret (Build_Storage enabled x class)
  else if fieldIs "storageClass" k then x ← decPtr "" decString class v; mret (Build_Storage enabled size x)
  else mret s.

Definition Storage_UnmarshalJSON (s : Storage) (data : json) : result Storage :=
  s ← Unmarshal (decStruct "StorageAlt" Storage_setField s data);
  if Storage_Enabled s && bool_decide (Storage_Size s = "")
  then Err (Errorf "size is required when storage is enabled")
  else
    match ParseQuantity (Storage_Size s) with
    | inr err => Err (Errorf ("invalid size: " +:+ err))
    | inl _ => Ok s
    end.

Definition Storage_enc (s : Storage) : json :=
  JObj ([("enabled", JBool (Storage_Enabled s)); ("size", JStr (Storage_Size s))]
     ++ omitempty (isNil (Storage_StorageClass s)) "storageClass" (encPtr JStr (Storage_StorageClass s))).

Record ValkeySpec := {
  Env : list corev1.EnvVar;     (* json:"env,omitempty" *)
  Healthcheck : bool;           (* json:"healthcheck,omitempty" *)
  Storage_ : option Storage;    (* json:"storage,omitempty" *)
  Secrets : list Secret;        (* json:"secrets,omitempty" *)
}.

Definition ValkeySpec_zero : ValkeySpec :=
  {| Env := []; Healthcheck := false; Storage_ := None; Secrets := [] |}.

Definition ValkeySpec_setField '((k, v) : string * json) (s : ValkeySpec)
    : Dec ValkeySpec :=
  let '(Build_ValkeySpec env healthcheck storage secrets) := s in
  if fieldIs "env" k then
    x ← decSlice "[]v1.EnvVar" corev1.EnvVar_zero corev1.EnvVar_dec env v;
    mret (Build_ValkeySpec x healthcheck storage secrets)
  else if fieldIs "healthcheck" k then
    x ← decBool healthcheck v; mret (Build_ValkeySpec env x storage secrets)
  else if fieldIs "storage" k then
    x ← decPtr Storage_zero (λ c d, hook (Storage_UnmarshalJSON c d)) storage v;
    mret (Build_ValkeySpec env healthcheck x secrets)
  else if fieldIs "secrets" k then
    x ← decSlice "[]v1.Secret" Secret_zero (λ c d, hook (Secret_UnmarshalJSON c d)) secrets v;
    mret (Build_ValkeySpec env healthcheck storage x)
  else mret s.

Definition ValkeySpec_enc (s : ValkeySpec) : json :=
  JObj (omitempty (isEmpty (Env s)) "env" (JArr (corev1.EnvVar_enc <$> Env s))
     ++ omitempty (negb (Healthcheck s)) "healthcheck" (JBool (Healthcheck s))
     ++ omitempty (isNil (Storage_ s)) "storage" (encPtr Storage_enc (Storage_ s))
     ++ omitempty (isEmpty (Secrets s)) "secrets" (JArr (Secret_enc <$> Secrets s))).

Record Valkey := {
  TypeMeta : metav1.TypeMeta;       (* json:",inline" *)
  ObjectMeta : metav1.ObjectMeta;   (* json:"metadata,omitempty" *)
  Spec : ValkeySpec;                (* json:"spec" *)
}.

Definition Valkey_zero : Valkey :=
  {| TypeMeta := typeMeta "" ""; ObjectMeta := metav1.ObjectMeta_zero;
     Spec := ValkeySpec_zero |}.

Definition Valkey_setField '((k, v) : string * json) (app : Valkey) : Dec Valkey :=
  let '(Build_Valkey (metav1.Build_TypeMeta kind apiVersion) meta spec) := app in
  if fieldIs "kind" k then
    x ← decString kind v; mret (Build_Valkey (metav1.Build_TypeMeta x apiVersion) meta spec)
  else if fieldIs "apiVersion" k then
    x ← decString apiVersion v; mret (Build_Valkey (metav1.Build_TypeMeta kind x) meta spec)
  else if fieldIs "metadata" k then
    x ← metav1.ObjectMeta_dec meta v;
    mret (Build_Valkey (metav1.Build_TypeMeta kind apiVersion) x spec)
  else if fieldIs "spec" k then
    x ← decStruct "ValkeySpec" ValkeySpec_setField spec v;
    mret (Build_Valkey (metav1.Build_TypeMeta kind apiVersion) meta x)
  else mret app.

Definition Valkey_MarshalJSON (v : Valkey) : json :=
  JObj ([("kind", JStr KindApp); ("apiVersion", JStr APIVersion);
         ("metadata", metav1.ObjectMeta_enc (ObjectMeta v));
         ("spec", ValkeySpec_enc (Spec v))]).

Definition Valkey_UnmarshalJSON (v : Valkey) (data : json) : result Valkey :=
  v ← Unmarshal (decStruct "ValkeyAlt" Valkey_setField v data);
  if bool_decide (metav1.APIVersion (TypeMeta v) ≠ APIVersion) then
    Err (Errorf ("unexpected api version: expected " +:+ APIVersion +:+ " but got "
                 +:+ metav1.APIVersion (TypeMeta v)))
  else if bool_decide (metav1.Kind (TypeMeta v) ≠ KindApp) then
    Err (Errorf ("unexpected kind: expected " +:+ KindApp +:+ " but got "
                 +:+ metav1.Kind (TypeMeta v)))
  else Ok v.

End valkey_v1.
End valkey_v1.

(** ** db/valkey/v1/flight: the Valkey flight *)

Module valkey_flight.
Section valkey_flight.
Context `{K8sLibrary}.
Import valkey_v1.

Abbreviation Name app := (metav1.Name (ObjectMeta app)).
Abbreviation Namespace app := (metav1.Namespace (ObjectMeta app)).
Abbreviation Labels app := (metav1.Labels (ObjectMeta app)).

Definition selector (backend : Valkey) : gmap string string :=
  {[ "app.kubernetes.io/name" := Name backend ]}.

Definition createDeployment (backend : Valkey) : appsv1.Deployment :=
  let spec := Spec backend in
  let volumes :=
    [ {| corev1.Volume_Name := "tmp"; corev1.Volume_Source := corev1.NoSource |};
      {| corev1.Volume_Name := "logs"; corev1.Volume_Source := corev1.NoSource |};
      {| corev1.Volume_Name := "etc"; corev1.Volume_Source := corev1.NoSource |} ] in
  let mounts :=
    [ {| corev1.VolumeMount_Name := "tmp";
         corev1.VolumeMount_MountPath := "/opt/bitnami/valkey/tmp" |};
      {| corev1.VolumeMount_Name := "logs";
         corev1.VolumeMount_MountPath := "/opt/bitnami/valkey/logs" |};
      {| corev1.VolumeMount_Name := "etc";
         corev1.VolumeMount_MountPath := "/opt/bitnami/valkey/etc" |} ] in
  let env : list corev1.EnvVar := [] in
  let env := env ++ Env spec in
  let liveness :=
    if Healthcheck spec
    then Some (probe 3 10 (corev1.TCPSocket (corev1.FromInt 6379)))
    else None in
  let envFrom :=
    foldl (λ envFrom sec,
             envFrom ++ [ {| corev1.SecretRef_Name :=
                               Name backend +:+ "-" +:+ Secret_Name sec |} ])
          [] (Secrets spec) in
  let stored :=
    match Storage_ spec with
    | Some st =>
        if Storage_Enabled st
        then (volumes ++ [ {| corev1.Volume_Name := "storage";
                              corev1.Volume_Source :=
                                corev1.PersistentVolumeClaimVolumeSource
                                  (Name backend +:+ "-storage") |} ],
              mounts ++ [ {| corev1.VolumeMount_Name := "storage";
                             corev1.VolumeMount_MountPath := "/bitnami/valkey/data" |} ])
        else (volumes, mounts)
    | None => (volumes, mounts)
    end in
  let volumes := stored.1 in
  let mounts := stored.2 in
  {| appsv1.TypeMeta := typeMeta appsv1.SchemeGroupVersion "Deployment";
     appsv1.ObjectMeta :=
       meta (Name backend +:+ "-valkey") (Namespace backend) (Labels backend) ∅;
     appsv1.Replicas := Some 1;
     appsv1.Strategy_Type := "RollingUpdate";
     appsv1.MatchLabels := selector backend;
     appsv1.Template :=
       {| corev1.Template_Labels := Labels backend;
          corev1.Template_Spec :=
            {| corev1.Pod_SecurityContext := Some {| corev1.FSGroup := Some 1000 |};
               corev1.ServiceAccountName := Name backend;
               corev1.Containers :=
                 [ {| corev1.Container_Name := Name backend;
                      corev1.Container_Image := "docker.io/bitnami/valkey:latest";
                      corev1.ImagePullPolicy := "Always";
                      corev1.Container_SecurityContext :=
                        Some {| corev1.RunAsUser := Some 1000;
                                corev1.RunAsGroup := Some 1000;
                                corev1.RunAsNonRoot := Some true;
                                corev1.AllowPrivilegeEscalation := Some false;
                                corev1.Capabilities_Drop := ["ALL"];
                                corev1.SeccompProfile_Type := "RuntimeDefault" |};
                      corev1.Container_Env := env;
                      corev1.EnvFrom := envFrom;
                      corev1.Ports :=
                        [ {| corev1.ContainerPort_Name := Name backend;
                             corev1.ContainerPort_Protocol := "TCP";
                             corev1.ContainerPort_ContainerPort := 6379 |} ];
                      corev1.VolumeMounts := mounts;
                      corev1.LivenessProbe := liveness;
                      corev1.ReadinessProbe := None |} ];
               corev1.Volumes := volumes;
               corev1.Pod_ImagePullSecrets := [] |} |} |}.

Definition createService (backend : Valkey) : corev1.Service :=
  {| corev1.Service_TypeMeta := typeMeta corev1.SchemeGroupVersion "Service";
     corev1.Service_ObjectMeta :=
       meta (Name backend +:+ "-valkey") (Namespace backend) (Labels backend) ∅;
     corev1.Service_Selector := selector backend;
     corev1.Service_Type := "ClusterIP";
     corev1.Service_Ports :=
       [ {| corev1.ServicePort_Protocol := "TCP";
            corev1.ServicePort_Port := 6379;
            corev1.ServicePort_TargetPort := corev1.FromInt 6379;
            corev1.ServicePort_Name := "valkey" |} ] |}.

Definition createOnepasswordSecret (app : Valkey) (sec : Secret)
    : onepasswordv1.OnePasswordItem :=
  let genName := Name app +:+ "-valkey-" +:+ Secret_Name sec in
  {| onepasswordv1.TypeMeta := typeMeta onepasswordv1.GroupVersion "OnePasswordItem";
     onepasswordv1.ObjectMeta := meta genName (Namespace app) (Labels app) ∅;
     onepasswordv1.ItemPath := Secret_ItemPath sec |}.

(** [st] stands for [*app.Spec.Storage], which [run] has found non-nil. *)
Definition createStorage (app : Valkey) (st : Storage)
    : OrPanic corev1.PersistentVolumeClaim :=
  match ParseQuantity (Storage_Size st) with
  | inr err => Panics err
  | inl size =>
      Returns
        {| corev1.PVC_TypeMeta := typeMeta corev1.SchemeGroupVersion "PersistentVolumeClaim";
           corev1.PVC_ObjectMeta :=
             meta (Name app +:+ "-valkey-storage") (Namespace app) (Labels app) ∅;
           corev1.AccessModes := ["ReadWriteOnce"];
           corev1.Requests := [("storage", size)];
           corev1.StorageClassName := Storage_StorageClass st;
           corev1.VolumeMode := Some "Filesystem" |}
  end.

Definition createServiceAccount (app : Valkey) : corev1.ServiceAccount :=
  {| corev1.ServiceAccount_TypeMeta := typeMeta corev1.SchemeGroupVersion "ServiceAccount";
     corev1.ServiceAccount_ObjectMeta :=
       meta (Name app) (Namespace app) (Labels app) ∅;
     corev1.AutomountServiceAccountToken := Some true |}.

Definition defaults (app : Valkey) : Valkey :=
  Build_Valkey (TypeMeta app)
    (meta (Name app) (Namespace app) (maps_Copy (Labels app) (selector app))
          (metav1.Annotations (ObjectMeta app)))
    (Spec app).

(** [run] from the decoded value on. *)
Definition build (app : Valkey) : Outcome :=
  let app := defaults app in
  let result : list Resource := [] in
  let result :=
    foldl (λ result sec, result ++ [ROnePasswordItem (createOnepasswordSecret app sec)])
          result (Secrets (Spec app)) in
  let result := result ++ [RDeployment (createDeployment app)] in
  let result := result ++ [RService (createService app)] in
  let result := result ++ [RServiceAccount (createServiceAccount app)] in
  let withStorage :=
    match Storage_ (Spec app) with
    | Some st =>
        if Storage_Enabled st then
          match createStorage app st with
          | Panics msg => Panics msg
          | Returns pvc => Returns (result ++ [RPersistentVolumeClaim pvc])
          end
        else Returns result
    | None => Returns result
    end in
  match withStorage with
  | Panics msg => Panic msg
  | Returns result => Emitted result
  end.

Definition run (stdin : Stdin) : Outcome :=
  let '(app, err) := Decode Valkey_UnmarshalJSON stdin Valkey_zero in
  match err with
  | None | Some EOF => build app
  | Some err => Exit1 err
  end.

End valkey_flight.
End valkey_flight.

(** ** db/postgres/v1: the Postgres type and its hooks

    The hooks of this package decode into a fresh value and assign it to
    the receiver only when every check has passed, so they do not read the
    current value of the receiver. *)

Module postgres_v1.
Section postgres_v1.
Context `{K8sLibrary}.

Definition APIVersion : string := "db.x.within.website/v1".
Definition KindApp : string := "Postgres".

Record Secret := {
  Secret_Name : string;       (* json:"name" *)
  Secret_ItemPath : string;   (* json:"itemPath" *)
}.

Definition Secret_zero : Secret := {| Secret_Name := ""; Secret_ItemPath := "" |}.

Definition Secret_setField '((k, v) : string * json) (s : Secret) : Dec Secret :=
  let '(Build_Secret name itemPath) := s in
  if fieldIs "name" k then x ← decString name v; mret (Build_Secret x itemPath)
  else if fieldIs "itemPath" k then x ← decString itemPath v; mret (Build_Secret name x)
  else mret s.

Definition Secret_UnmarshalJSON (s : Secret) (data : json) : result Secret :=
  alt ← Unmarshal (decStruct "SecretAlt" Secret_setField Secret_zero data);
  if bool_decide (Secret_ItemPath alt = "") then Err (Errorf "itemPath is required")
  else Ok alt.

Definition Secret_enc (s : Secret) : json :=
  JObj [("name", JStr (Secret_Name s)); ("itemPath", JStr (Secret_ItemPath s))].

Record Storage := {
  Storage_Size : string;                  (* json:"size" *)
  Storage_StorageClass : option string;   (* json:"storageClass,omitempty", *string *)
}.

Definition Storage_zero : Storage :=
  {| Storage_Size := ""; Storage_StorageClass := None |}.

Definition Storage_setField '((k, v) : string * json) (s : Storage) : Dec Storage :=
  let '(Build_Storage size class) := s in
  if fieldIs "size" k then x ← decString size v; mret (Build_Storage x class)
  else if fieldIs "storageClass" k then x ← decPtr "" decString class v; mret (Build_Storage size x)
  else mret s.

Definition Storage_UnmarshalJSON (s : Storage) (data : json) : result Storage :=
  alt ← Unmarshal (decStruct "StorageAlt" Storage_setField Storage_zero data);
  if bool_decide (Storage_Size alt = "") then Err (Errorf "size is required")
  else
    match ParseQuantity (Storage_Size alt) with
    | inr err => Err (Errorf ("invalid size: " +:+ err))
    | inl _ => Ok alt
    end.

Definition Storage_enc (s : Storage) : json :=
  JObj ([("size", JStr (Storage_Size s))]
     ++ omitempty (isNil (Storage_StorageClass s)) "storageClass" (encPtr JStr (Storage_StorageClass s))).

Record PostgresSpec := {
  Env : list corev1.EnvVar;   (* json:"env,omitempty" *)
  Healthcheck : bool;         (* json:"healthcheck,omitempty" *)
  Storage_ : Storage;         (* json:"storage,omitempty", a struct, not a pointer *)
  Secrets : list Secret;      (* json:"secrets,omitempty" *)
}.

Definition PostgresSpec_zero : PostgresSpec :=
  {| Env := []; Healthcheck := false; Storage_ := Storage_zero; Secrets := [] |}.

(** The [storage] field is a struct whose pointer has the hook: the decoder
    calls the hook on its address for any value, [null] included. *)
Definition PostgresSpec_setField '((k, v) : string * json) (s : PostgresSpec)
    : Dec PostgresSpec :=
  let '(Build_PostgresSpec env healthcheck storage secrets) := s in
  if fieldIs "env" k then
    x ← decSlice "[]v1.EnvVar" corev1.EnvVar_zero corev1.EnvVar_dec env v;
    mret (Build_PostgresSpec x healthcheck storage secrets)
  else if fieldIs "healthcheck" k then
    x ← decBool healthcheck v; mret (Build_PostgresSpec env x storage secrets)
  else if fieldIs "storage" k then
    x ← hook (Storage_UnmarshalJSON storage v);
    mret (Build_PostgresSpec env healthcheck x secrets)
  else if fieldIs "secrets" k then
    x ← decSlice "[]v1.Secret" Secret_zero (λ c d, hook (Secret_UnmarshalJSON c d)) secrets v;
    mret (Build_PostgresSpec env healthcheck storage x)
  else mret s.

(** [omitempty] never leaves out a struct: [storage] is always written. *)
Definition PostgresSpec_enc (s : PostgresSpec) : json :=
  JObj (omitempty (isEmpty (Env s)) "env" (JArr (corev1.EnvVar_enc <$> Env s))
     ++ omitempty (negb (Healthcheck s)) "healthcheck" (JBool (Healthcheck s))
     ++ [("storage", Storage_enc (Storage_ s))]
     ++ omitempty (isEmpty (Secrets s)) "secrets" (JArr (Secret_enc <$> Secrets s))).

Record Postgres := {
  TypeMeta : metav1.TypeMeta;       (* json:",inline" *)
  ObjectMeta : metav1.ObjectMeta;   (* json:"metadata,omitempty" *)
  Spec : PostgresSpec;              (* json:"spec" *)
}.

Definition Postgres_zero : Postgres :=
  {| TypeMeta := typeMeta "" ""; ObjectMeta := metav1.ObjectMeta_zero;
     Spec := PostgresSpec_zero |}.

Definition Postgres_setField '((k, v) : string * json) (app : Postgres) : Dec Postgres :=
  let '(Build_Postgres (metav1.Build_TypeMeta kind apiVersion) meta spec) := app in
  if fieldIs "kind" k then
    x ← decString kind v; mret (Build_Postgres (metav1.Build_TypeMeta x apiVersion) meta spec)
  else if fieldIs "apiVersion" k then
    x ← decString apiVersion v; mret (Build_Postgres (metav1.Build_TypeMeta kind x) meta spec)
  else if fieldIs "metadata" k then
    x ← metav1.ObjectMeta_dec meta v;
    mret (Build_Postgres (metav1.Build_TypeMeta kind apiVersion) x spec)
  else if fieldIs "spec" k then
    x ← decStruct "PostgresSpec" PostgresSpec_setField spec v;
    mret (Build_Postgres (metav1.Build_TypeMeta kind apiVersion) meta x)
  else mret app.

Definition Postgres_MarshalJSON (v : Postgres) : json :=
  JObj ([("kind", JStr KindApp); ("apiVersion", JStr APIVersion);
         ("metadata", metav1.ObjectMeta_enc (ObjectMeta v));
         ("spec", PostgresSpec_enc (Spec v))]).

Definition Postgres_UnmarshalJSON (v : Postgres) (data : json) : result Postgres :=
  alt ← Unmarshal (decStruct "PostgresAlt" Postgres_setField Postgres_zero data);
  if bool_decide (metav1.APIVersion (TypeMeta alt) ≠ APIVersion) then
    Err (Errorf ("unexpected api version: expected " +:+ APIVersion +:+ " but got "
                 +:+ metav1.APIVersion (TypeMeta alt)))
  else if bool_decide (metav1.Kind (TypeMeta alt) ≠ KindApp) then
    Err (Errorf ("unexpected kind: expected " +:+ KindApp +:+ " but got "
                 +:+ metav1.Kind (TypeMeta alt)))
  else Ok alt.

End postgres_v1.
End postgres_v1.

(** ** db/postgres/v1/flight: the Postgres flight *)

Module postgres_flight.
Section postgres_flight.
Context `{K8sLibrary}.
Import postgres_v1.

Abbreviation Name app := (metav1.Name (ObjectMeta app)).
Abbreviation Namespace app := (metav1.Namespace (ObjectMeta app)).
Abbreviation Labels app := (metav1.Labels (ObjectMeta app)).

Definition selector (backend : Postgres) : gmap string string :=
  {[ "app.kubernetes.io/name" := Name backend ]}.

(** The verb [%x] on a byte slice: two lower-case hexadecimal digits for
    each byte. *)
Definition hexDigit (n : N) : ascii :=
  if (n <? 10)%N then ascii_of_N (48 + n) else ascii_of_N (87 + n).

Fixpoint hex (buf : string) : string :=
  match buf with
  | "" => ""
  | String c buf' =>
      String (hexDigit (N_of_ascii c / 16)) (String (hexDigit (N_of_ascii c mod 16)) (hex buf'))
  end.

(** [RandomString], given the 16 bytes [rand.Read] has put in the
    buffer. *)
Definition RandomString (buf : string) : string := hex buf.

Definition secretKeyRef (name secretName key : string) : corev1.EnvVar :=
  {| corev1.EnvVar_Name := name; corev1.EnvVar_Value := "";
     corev1.EnvVar_ValueFrom := Some (EnvVarSource_SecretKeyRef secretName key (Some false)) |}.

Definition createDeployment (backend : Postgres) : appsv1.Deployment :=
  let spec := Spec backend in
  let volumes :=
    [ {| corev1.Volume_Name := "data"; corev1.Volume_Source := corev1.NoSource |} ] in
  let env :=
    [ {| corev1.EnvVar_Name := "POSTGRES_USER"; corev1.EnvVar_Value := "postgres";
         corev1.EnvVar_ValueFrom := None |};
      {| corev1.EnvVar_Name := "PGDATA";
         corev1.EnvVar_Value := "/var/lib/postgresql/data/pgdata";
         corev1.EnvVar_ValueFrom := None |} ] in
  let env := env ++ Env spec in
  (* Expose generated DB credentials from the conventionally-named secret *)
  let secretName := Name backend +:+ "-database" in
  let env := env ++ [ secretKeyRef "POSTGRES_PASSWORD" secretName "POSTGRES_PASSWORD";
                      secretKeyRef "DATABASE_URL" secretName "DATABASE_URL" ] in
  let probes :=
    if Healthcheck spec
    then (Some (probe 30 10 (corev1.TCPSocket (corev1.FromInt 5432))),
          Some (probe 5 10 (corev1.Exec ["pg_isready"; "-U"; "postgres"])))
    else (None, None) in
  let liveness := probes.1 in
  let readiness := probes.2 in
  let envFrom :=
    foldl (λ envFrom sec,
             envFrom ++ [ {| corev1.SecretRef_Name :=
                               Name backend +:+ "-" +:+ Secret_Name sec |} ])
          [] (Secrets spec) in
  (* Back the existing "data" volume with the PVC *)
  let claim :=
    corev1.PersistentVolumeClaimVolumeSource (Name backend +:+ "-postgres-storage") in
  let volumes :=
    match volumes with
    | v :: rest =>
        if bool_decide (corev1.Volume_Name v = "data")
        then {| corev1.Volume_Name := corev1.Volume_Name v;
                corev1.Volume_Source := claim |} :: rest
        else volumes ++ [ {| corev1.Volume_Name := "data"; corev1.Volume_Source := claim |} ]
    | [] => volumes ++ [ {| corev1.Volume_Name := "data"; corev1.Volume_Source := claim |} ]
    end in
  {| appsv1.TypeMeta := typeMeta appsv1.SchemeGroupVersion "Deployment";
     appsv1.ObjectMeta :=
       meta (Name backend +:+ "-postgres") (Namespace backend) (Labels backend) ∅;
     appsv1.Replicas := Some 1;
     appsv1.Strategy_Type := "RollingUpdate";
     appsv1.MatchLabels := selector backend;
     appsv1.Template :=
       {| corev1.Template_Labels := Labels backend;
          corev1.Template_Spec :=
            {| corev1.Pod_SecurityContext := Some {| corev1.FSGroup := Some 70 |};
               corev1.ServiceAccountName := Name backend;
               corev1.Containers :=
                 [ {| corev1.Container_Name := "postgres";
                      corev1.Container_Image := "docker.io/postgres:16";
                      corev1.ImagePullPolicy := "Always";
                      corev1.Container_SecurityContext :=
                        Some {| corev1.RunAsUser := Some 70;
                                corev1.RunAsGroup := Some 70;
                                corev1.RunAsNonRoot := Some true;
                                corev1.AllowPrivilegeEscalation := Some false;
                                corev1.Capabilities_Drop := ["ALL"];
                                corev1.SeccompProfile_Type := "RuntimeDefault" |};
                      corev1.Container_Env := env;
                      corev1.EnvFrom := envFrom;
                      corev1.Ports :=
                        [ {| corev1.ContainerPort_Name := Name backend;
                             corev1.ContainerPort_Protocol := "TCP";
                             corev1.ContainerPort_ContainerPort := 5432 |} ];
                      corev1.VolumeMounts :=
                        [ {| corev1.VolumeMount_Name := "data";
                             corev1.VolumeMount_MountPath := "/var/lib/postgresql/data" |} ];
                      corev1.LivenessProbe := liveness;
                      corev1.ReadinessProbe := readiness |} ];
               corev1.Volumes := volumes;
               corev1.Pod_ImagePullSecrets := [] |} |} |}.

Definition createService (backend : Postgres) : corev1.Service :=
  {| corev1.Service_TypeMeta := typeMeta corev1.SchemeGroupVersion "Service";
     corev1.Service_ObjectMeta :=
       meta (Name backend +:+ "-postgres") (Namespace backend) (Labels backend) ∅;
     corev1.Service_Selector := selector backend;
     corev1.Service_Type := "ClusterIP";
     corev1.Service_Ports :=
       [ {| corev1.ServicePort_Protocol := "TCP";
            corev1.ServicePort_Port := 5432;
            corev1.ServicePort_TargetPort := corev1.FromInt 5432;
            corev1.ServicePort_Name := "postgres" |} ] |}.

Definition createOnepasswordSecret (app : Postgres) (sec : Secret)
    : onepasswordv1.OnePasswordItem :=
  let genName := Name app +:+ "-postgres-" +:+ Secret_Name sec in
  {| onepasswordv1.TypeMeta := typeMeta onepasswordv1.GroupVersion "OnePasswordItem";
     onepasswordv1.ObjectMeta := meta genName (Namespace app) (Labels app) ∅;
     onepasswordv1.ItemPath := Secret_ItemPath sec |}.

(** [k8s_Lookup] is [k8s.Lookup[corev1.Secret]], the answer of the cluster
    for each identifier, and [buf] what [rand.Read] gives [RandomString]. *)
Definition createDatabaseSecret (k8s_Lookup : ResourceIdentifier → Lookup corev1.Secret)
    (buf : string) (app : Postgres) : OrPanic corev1.Secret :=
  (* Name the secret <app.Name>-database so consumers can find it by convention. *)
  let name := Name app +:+ "-database" in
  let svcFQDN := (Name app +:+ "-postgres") +:+ "." +:+ Namespace app +:+ ".svc" in
  (* Attempt to look up an existing secret and reuse its password if present. *)
  let secretName := Name app +:+ "-database" in
  let lookup :=
    k8s_Lookup {| Identifier_ApiVersion := "v1";
                  Identifier_Kind := "Secret";
                  Identifier_Name := secretName;
                  Identifier_Namespace := Namespace app |} in
  let existing := Lookup_obj lookup in
  let err := Lookup_err lookup in
  if negb (isNil err) && negb (IsErrNotFound lookup) then
    Panics ("failed to lookup secret: " +:+ default "" err)
  else
    let password :=
      match existing with
      | Some existing =>
          match corev1.Data existing !! "POSTGRES_PASSWORD" with
          | Some b => b
          | None => RandomString buf
          end
      | None => RandomString buf
      end in
    (* Compose final DATABASE_URL using the resolved password. *)
    let dbURL := "postgres://" +:+ "postgres" +:+ ":" +:+ password +:+ "@" +:+ svcFQDN
                 +:+ ":" +:+ Itoa 5432 +:+ "/" +:+ Name app in
    Returns
      {| corev1.Secret_TypeMeta := typeMeta corev1.SchemeGroupVersion "Secret";
         corev1.Secret_ObjectMeta := meta name (Namespace app) (Labels app) ∅;
         corev1.Data := ∅;
         corev1.StringData :=
           {[ "DATABASE_URL" := dbURL; "POSTGRES_PASSWORD" := password ]};
         corev1.Secret_Type := "Opaque" |}.

Definition createStorage (app : Postgres) : OrPanic corev1.PersistentVolumeClaim :=
  match ParseQuantity (Storage_Size (Storage_ (Spec app))) with
  | inr err => Panics err
  | inl size =>
      Returns
        {| corev1.PVC_TypeMeta := typeMeta corev1.SchemeGroupVersion "PersistentVolumeClaim";
           corev1.PVC_ObjectMeta :=
             meta (Name app +:+ "-postgres-storage") (Namespace app) (Labels app) ∅;
           corev1.AccessModes := ["ReadWriteOnce"];
           corev1.Requests := [("storage", size)];
           corev1.StorageClassName := Storage_StorageClass (Storage_ (Spec app));
           corev1.VolumeMode := Some "Filesystem" |}
  end.

Definition createServiceAccount (app : Postgres) : corev1.ServiceAccount :=
  {| corev1.ServiceAccount_TypeMeta := typeMeta corev1.SchemeGroupVersion "ServiceAccount";
     corev1.ServiceAccount_ObjectMeta :=
       meta (Name app) (Namespace app) (Labels app) ∅;
     corev1.AutomountServiceAccountToken := Some true |}.

Definition defaults (app : Postgres) : Postgres :=
  Build_Postgres (TypeMeta app)
    (meta (Name app) (Namespace app) (maps_Copy (Labels app) (selector app))
          (metav1.Annotations (ObjectMeta app)))
    (Spec app).

(** [run] from the decoded value on. *)
Definition build (k8s_Lookup : ResourceIdentifier → Lookup corev1.Secret) (buf : string)
    (app : Postgres) : Outcome :=
  let app := defaults app in
  let result : list Resource := [] in
  let result :=
    foldl (λ result sec, result ++ [ROnePasswordItem (createOnepasswordSecret app sec)])
          result (Secrets (Spec app)) in
  let result := result ++ [RDeployment (createDeployment app)] in
  let result := result ++ [RService (createService app)] in
  match createDatabaseSecret k8s_Lookup buf app with
  | Panics msg => Panic msg
  | Returns secret =>
      let result := result ++ [RSecret secret] in
      let result := result ++ [RServiceAccount (createServiceAccount app)] in
      (* Storage is present when Size is set in the spec. *)
      if bool_decide (Storage_Size (Storage_ (Spec app)) ≠ "") then
        match createStorage app with
        | Panics msg => Panic msg
        | Returns pvc => Emitted (result ++ [RPersistentVolumeClaim pvc])
        end
      else Emitted result
  end.

Definition run (k8s_Lookup : ResourceIdentifier → Lookup corev1.Secret) (buf : string)
    (stdin : Stdin) : Outcome :=
  let '(app, err) := Decode Postgres_UnmarshalJSON stdin Postgres_zero in
  match err with
  | None | Some EOF => build k8s_Lookup buf app
  | Some err => Exit1 err
  end.

End postgres_flight.
End postgres_flight.

(** ** Reading the output of a flight *)

Section Observations.
Context `{K8sLibrary}.

(** The [metadata] of an emitted object. *)
Definition metadataOf (r : Resource) : metav1.ObjectMeta :=
  match r with
  | ROnePasswordItem r => onepasswordv1.ObjectMeta r
  | RDeployment r => appsv1.ObjectMeta r
  | RService r => corev1.Service_ObjectMeta r
  | RServiceAccount r => corev1.ServiceAccount_ObjectMeta r
  | RIngress r => networkingv1.ObjectMeta r
  | ROnionService r => onionv1alpha2.ObjectMeta r
  | RPersistentVolumeClaim r => corev1.PVC_ObjectMeta r
  | RRole r => rbacv1.Role_ObjectMeta r
  | RRoleBinding r => rbacv1.RoleBinding_ObjectMeta r
  | RSecret r => corev1.Secret_ObjectMeta r
  end.

Definition asIngress (r : Resource) : option networkingv1.Ingress :=
  match r with
  | RIngress i => Some i
  | _ => None
  end.

Definition asDeployment (r : Resource) : option appsv1.Deployment :=
  match r with
  | RDeployment d => Some d
  | _ => None
  end.

Definition asPersistentVolumeClaim (r : Resource) : option corev1.PersistentVolumeClaim :=
  match r with
  | RPersistentVolumeClaim c => Some c
  | _ => None
  end.

Definition asSecret (r : Resource) : option corev1.Secret :=
  match r with
  | RSecret s => Some s
  | _ => None
  end.

(** The objects of one kind in an output list, in order. *)
Definition ingresses (out : list Resource) : list networkingv1.Ingress :=
  omap asIngress out.
Definition deployments (out : list Resource) : list appsv1.Deployment :=
  omap asDeployment out.
Definition claims (out : list Resource) : list corev1.PersistentVolumeClaim :=
  omap asPersistentVolumeClaim out.
Definition secrets (out : list Resource) : list corev1.Secret :=
  omap asSecret out.

(** The claim names the volumes called [storage] of a deployment refer
    to. *)
Definition storageClaimNames (d : appsv1.Deployment) : list string :=
  omap (λ v, if bool_decide (corev1.Volume_Name v = "storage")
             then match corev1.Volume_Source v with
                  | corev1.PersistentVolumeClaimVolumeSource claimName => Some claimName
                  | _ => None
                  end
             else None)
       (corev1.Volumes (corev1.Template_Spec (appsv1.Template d))).

(** The value the flight works on once the decoding is over: the decoded
    document, or the zero value when there was no input or the document is
    [null]. *)
Definition decoded {T} (UnmarshalJSON : T → json → result T) (zero : T)
    (stdin : Stdin) : result T :=
  match Decode UnmarshalJSON stdin zero with
  | (v, None) | (v, Some EOF) => Ok v
  | (_, Some err) => Err err
  end.

End Observations.

(** ** What the hooks of the App type guarantee

    The conditions a decoded value meets: the integers fit their Go types
    and every block has passed the checks of its hook and received its
    defaults. *)

Section Valid.
Context `{K8sLibrary}.
Import app_v1.

Definition Healthcheck_valid (h : Healthcheck) : Prop :=
  inRange intBits (Healthcheck_Port h) = true ∧
  (Healthcheck_Enabled h = true → Healthcheck_Path h ≠ "").

Definition Ingress_valid (i : Ingress) : Prop :=
  Ingress_Enabled i = true →
  Ingress_Host i ≠ "" ∧ Ingress_ClusterIssuer i ≠ "" ∧ Ingress_ClassName i ≠ "".

Definition Secret_valid (s : Secret) : Prop :=
  Secret_ItemPath s ≠ "" ∧
  ¬ (Secret_Environment s = true ∧ Secret_Folder s = true).

Definition Storage_valid (s : Storage) : Prop :=
  (Storage_Enabled s = true → Storage_Path s ≠ "" ∧ Storage_Size s ≠ "") ∧
  ∃ size, ParseQuantity (Storage_Size s) = inl size.

Definition Anubis_valid (a : Anubis) : Prop :=
  inRange intBits (Settings_Difficulty (Anubis_Settings a)) = true.

Definition AppSpec_valid (s : AppSpec) : Prop :=
  inRange 32 (Replicas s) = true ∧
  inRange intBits (Port s) = true ∧
  option_Forall Healthcheck_valid (Healthcheck_ s) ∧
  option_Forall Ingress_valid (Ingress_ s) ∧
  option_Forall Storage_valid (Storage_ s) ∧
  option_Forall Anubis_valid (Anubis_ s) ∧
  Forall Secret_valid (Secrets s).

(** What the hook of [App] adds for a document. *)
Definition App_valid (app : App) : Prop :=
  TypeMeta app = typeMeta APIVersion KindApp ∧
  Replicas (Spec app) ≠ 0 ∧
  AppSpec_valid (Spec app).

End Valid.

(** ** More of the output of a flight *)

Section Output.
Context `{K8sLibrary}.

Definition asOnePasswordItem (r : Resource) : option onepasswordv1.OnePasswordItem :=
  match r with
  | ROnePasswordItem i => Some i
  | _ => None
  end.

Definition asService (r : Resource) : option corev1.Service :=
  match r with
  | RService s => Some s
  | _ => None
  end.

Definition asServiceAccount (r : Resource) : option corev1.ServiceAccount :=
  match r with
  | RServiceAccount s => Some s
  | _ => None
  end.

Definition asOnionService (r : Resource) : option onionv1alpha2.OnionService :=
  match r with
  | ROnionService o => Some o
  | _ => None
  end.

Definition asRole (r : Resource) : option rbacv1.Role :=
  match r with
  | RRole x => Some x
  | _ => None
  end.

Definition asRoleBinding (r : Resource) : option rbacv1.RoleBinding :=
  match r with
  | RRoleBinding x => Some x
  | _ => None
  end.

Definition onePasswordItems (out : list Resource) : list onepasswordv1.OnePasswordItem :=
  omap asOnePasswordItem out.
Definition services (out : list Resource) : list corev1.Service :=
  omap asService out.
Definition serviceAccounts (out : list Resource) : list corev1.ServiceAccount :=
  omap asServiceAccount out.
Definition onionServices (out : list Resource) : list onionv1alpha2.OnionService :=
  omap asOnionService out.
Definition roles (out : list Resource) : list rbacv1.Role :=
  omap asRole out.
Definition roleBindings (out : list Resource) : list rbacv1.RoleBinding :=
  omap asRoleBinding out.

(** The pod of a deployment, and the claims its volumes refer to. *)
Definition podSpec (d : appsv1.Deployment) : corev1.PodSpec :=
  corev1.Template_Spec (appsv1.Template d).

Definition claimNames (d : appsv1.Deployment) : list string :=
  omap (λ v, match corev1.Volume_Source v with
             | corev1.PersistentVolumeClaimVolumeSource claimName => Some claimName
             | _ => None
             end)
       (corev1.Volumes (podSpec d)).

(** The backends the paths of an Ingress and the rules of an OnionService
    send the traffic to. *)
Definition ingressBackends (ing : networkingv1.Ingress)
    : list networkingv1.IngressBackend :=
  rule ← networkingv1.Rules ing; networkingv1.Backend <$> networkingv1.HTTP_Paths rule.

Definition onionBackends (o : onionv1alpha2.OnionService)
    : list networkingv1.IngressBackend :=
  onionv1alpha2.Rule_Backend <$> onionv1alpha2.Rules o.

End Output.

(** ** What the hooks of the Valkey and Postgres types guarantee *)

Section ValidDatabases.
Context `{K8sLibrary}.

(** A storage block the hook of the Valkey [Storage] accepts. *)
Definition valkey_Storage_valid (s : valkey_v1.Storage) : Prop :=
  (valkey_v1.Storage_Enabled s = true → valkey_v1.Storage_Size s ≠ "") ∧
  ∃ size, ParseQuantity (valkey_v1.Storage_Size s) = inl size.

Definition ValkeySpec_valid (s : valkey_v1.ValkeySpec) : Prop :=
  option_Forall valkey_Storage_valid (valkey_v1.Storage_ s) ∧
  Forall (λ sec, valkey_v1.Secret_ItemPath sec ≠ "") (valkey_v1.Secrets s).

(** A storage struct of Postgres: untouched, or as the hook leaves it. *)
Definition postgres_Storage_valid (s : postgres_v1.Storage) : Prop :=
  postgres_v1.Storage_Size s ≠ "" →
  ∃ size, ParseQuantity (postgres_v1.Storage_Size s) = inl size.

Definition PostgresSpec_valid (s : postgres_v1.PostgresSpec) : Prop :=
  postgres_Storage_valid (postgres_v1.Storage_ s) ∧
  Forall (λ sec, postgres_v1.Secret_ItemPath sec ≠ "") (postgres_v1.Secrets s).

End ValidDatabases.

(** ** What the hooks of the earlier App type guarantee *)

Section ValidEarlier.
Import app_v1_earlier.

Definition earlier_Ingress_valid (i : Ingress) : Prop :=
  Ingress_Enabled i = true →
  Ingress_Host i ≠ "" ∧ Ingress_ClusterIssuer i ≠ "" ∧ Ingress_ClassName i ≠ "".

Definition earlier_AppSpec_valid (s : AppSpec) : Prop :=
  inRange 32 (Replicas s) = true ∧
  inRange intBits (Port s) = true ∧
  option_Forall (λ h, inRange intBits (Healthcheck_Port h) = true) (Healthcheck_ s) ∧
  option_Forall earlier_Ingress_valid (Ingress_ s).

End ValidEarlier.

(** ** hypercloud/initialize: the configuration and its checks

    [Config] and the checks [run] makes before it builds anything. Of
    [ACME] the solvers, which no check reads, are left out. *)

Module hypercloud.

Record IP := {
  IPv4 : option string;   (* json:"ipv4,omitempty", *string *)
  IPv6 : option string;   (* json:"ipv6,omitempty", *string *)
}.

Record ACMEDirectory := {
  URL : string;    (* json:"url" *)
  Name : string;   (* json:"name" *)
}.

Record ACME := {
  Email : string;                     (* json:"email" *)
  Directories : list ACMEDirectory;   (* json:"directories" *)
}.

(** [externaldns.Values]: its declaration, generated from the chart, is not
    among the sources. [main.go] takes the length of its field [ExtraArgs]
    and appends strings to it; that field is all that is kept. *)
Record Values := {
  ExtraArgs : list string;
}.

Record Config := {
  ACME_ : option ACME;            (* json:"acme", *ACME *)
  ExternalDNS : option Values;    (* json:"externalDNS", *externaldns.Values *)
  ExternalIP : IP;                (* json:"externalIP" *)
}.

(** The text of [errors.Join(errs...)] for a list that is not empty: the
    texts of the errors, one on each line. *)
Definition Join (errs : list error) : string :=
  match errs with
  | [] => ""
  | e :: errs => foldl (λ b err, b +:+ LF +:+ Error err) (Error e) errs
  end.

Definition IP_Valid (ip : IP) : option error :=
  let errs : list error := [] in
  let errs :=
    if isNil (IPv4 ip) && isNil (IPv6 ip)
    then errs ++ [Errorf "ipv4 or ipv6 is required"] else errs in
  if negb (isEmpty errs) then Some (Errorf ("ip is invalid: " +:+ Join errs)) else None.

Definition ACMEDirectory_Valid (ad : ACMEDirectory) : option error :=
  let errs : list error := [] in
  let errs :=
    if bool_decide (URL ad = "") then errs ++ [Errorf "url is required"] else errs in
  let errs :=
    if bool_decide (Name ad = "") then errs ++ [Errorf "name is required"] else errs in
  if negb (isEmpty errs)
  then Some (Errorf ("acme directory is invalid: " +:+ Join errs)) else None.

Definition ACME_Valid (acme : ACME) : option error :=
  let errs : list error := [] in
  let errs :=
    if bool_decide (Email acme = "") then errs ++ [Errorf "email is required"] else errs in
  let errs :=
    if isEmpty (Directories acme)
    then errs ++ [Errorf "directories are required"] else errs in
  let errs :=
    foldl (λ errs directory,
             match ACMEDirectory_Valid directory with
             | Some err =>
                 errs ++ [Errorf ("directory " +:+ Name directory +:+ " is invalid: "
                                  +:+ Error err)]
             | None => errs
             end)
          errs (Directories acme) in
  if negb (isEmpty errs) then Some (Errorf ("acme is invalid: " +:+ Join errs)) else None.

(** [c.ExternalDNS.ExtraArgs] is read whether or not [c.ExternalDNS] is
    nil: with a nil pointer the check panics. *)
Definition Config_Valid (c : Config) : OrPanic (option error) :=
  let errs : list error := [] in
  let errs :=
    match ACME_ c with
    | None => errs ++ [Errorf "acme is required"]
    | Some acme =>
        match ACME_Valid acme with
        | Some err => errs ++ [Errorf ("acme is invalid: " +:+ Error err)]
        | None => errs
        end
    end in
  let errs :=
    if isNil (ExternalDNS c) then errs ++ [Errorf "externalDNS is required"] else errs in
  match ExternalDNS c with
  | None => Panics "runtime error: invalid memory address or nil pointer dereference"
  | Some values =>
      let errs :=
        if isEmpty (ExtraArgs values)
        then errs ++ [Errorf "externalDNS.extraArgs is required"] else errs in
      let errs :=
        match IP_Valid (ExternalIP c) with
        | Some err => errs ++ [Errorf ("externalIP is invalid: " +:+ Error err)]
        | None => errs
        end in
      Returns (if negb (isEmpty errs)
               then Some (Errorf ("config is invalid: " +:+ Join errs)) else None)
  end.

Section readEveryDocument.
(** [unstructured.Unstructured] and its [GetAPIVersion]. *)
Variable Unstructured : Type.
Variable GetAPIVersion : Unstructured → string.

(** The loop of [readEveryDocument] over what the successive calls of
    [dec.Decode(&doc)] give; after the last of them the decoder gives
    [io.EOF]. *)
Fixpoint readLoop (decoded : list (result Unstructured)) (read : list Unstructured)
    : result (list Unstructured) :=
  match decoded with
  | [] => Ok read
  | Err EOF :: _ => Ok read
  | Err err :: _ => Err err
  | Ok doc :: decoded =>
      if bool_decide (GetAPIVersion doc = "") then readLoop decoded read
      else readLoop decoded (read ++ [doc])
  end.

Definition readEveryDocument (decoded : list (result Unstructured))
    : result (list Unstructured) :=
  readLoop decoded [].

End readEveryDocument.

End hypercloud.

(** ** A stand-in for the Kubernetes libraries

    Used to run the flights on concrete documents. Its quantities are the
    decimal integers followed by one of the suffixes of the library (a part
    of what the library accepts); its sources of environment variables are
    kept as the members of their JSON object. *)

Module reference.

Record quantity := {
  digits : string;
  suffix : string;
}.

Definition isDigit (c : ascii) : bool :=
  let n := N_of_ascii c in ((48 <=? n) && (n <=? 57))%N.

Fixpoint span (s : string) : string * string :=
  match s with
  | "" => ("", "")
  | String c s' =>
      if isDigit c then let '(d, r) := span s' in (String c d, r) else ("", s)
  end.

Definition suffixes : list string :=
  [ ""; "Ki"; "Mi"; "Gi"; "Ti"; "Pi"; "Ei"; "n"; "u"; "m"; "k"; "M"; "G"; "T"; "P"; "E" ].

Definition parseQuantity (str : string) : quantity + string :=
  let '(d, r) := span str in
  if bool_decide (d = "") then inr ErrFormatWrong
  else if bool_decide (r ∈ suffixes) then inl {| digits := d; suffix := r |}
  else inr "unable to parse quantity's suffix".

Definition source : Type := list (string * json).

Definition secretKeyRef (name key : string) (optional : option bool) : source :=
  [ ("secretKeyRef",
     JObj ([("name", JStr name); ("key", JStr key)]
           ++ omitempty (isNil optional) "optional" (encPtr JBool optional))) ].

Definition source_dec (cur : source) (j : json) : Dec source :=
  match j with
  | JObj members => mret members
  | JNull => mret cur
  | _ => typeError j "EnvVarSource" cur
  end.

Definition library : K8sLibrary :=
  {| Quantity := quantity;
     ParseQuantity := parseQuantity;
     ParseQuantity_empty := eq_refl;
     EnvVarSource := source;
     EnvVarSource_zero := [];
     EnvVarSource_SecretKeyRef := secretKeyRef;
     EnvVarSource_dec := source_dec;
     EnvVarSource_enc := JObj;
     EnvVarSource_enc_not_null := λ x (e : JObj x = JNull),
       match e in _ = y return match y with JNull => False | _ => True end with
       | eq_refl => I
       end;
     EnvVarSource_roundtrip := λ x, eq_refl |}.

End reference.

(** ** Sample inputs

    Documents and values on which the flights are run below, with the
    stand-in library. *)

Module samples.
#[local] Existing Instance reference.library.

Definition header (apiVersion kind : string) : list (string * json) :=
  [("apiVersion", JStr apiVersion); ("kind", JStr kind)].

(** The App of the README, with a label of its own. *)
Definition stickers : json :=
  JObj (header app_v1.APIVersion app_v1.KindApp
        ++ [("metadata", JObj [("name", JStr "stickers");
                               ("labels", JObj [("team", JStr "x")])]);
            ("spec", JObj [("image", JStr "ghcr.io/xe/x/stickers:latest");
                           ("ingress", JObj [("enabled", JBool true);
                                             ("host", JStr "stickers.within.website")])])]).

Definition stickersApp : app_v1.App :=
  {| app_v1.TypeMeta := typeMeta app_v1.APIVersion app_v1.KindApp;
     app_v1.ObjectMeta := meta "stickers" "" {[ "team" := "x" ]} ∅;
     app_v1.Spec :=
       {| app_v1.AutoUpdate := false;
          app_v1.Image := "ghcr.io/xe/x/stickers:latest";
          app_v1.ImagePullSecrets := [];
          app_v1.LogLevel := "";
          app_v1.Replicas := 1;
          app_v1.Port := 0;
          app_v1.RunAsRoot := false;
          app_v1.Env := [];
          app_v1.Healthcheck_ := None;
          app_v1.Ingress_ :=
            Some {| app_v1.Ingress_Enabled := true;
                    app_v1.Ingress_Kind := "";
                    app_v1.Ingress_Host := "stickers.within.website";
                    app_v1.Ingress_ClusterIssuer := "letsencrypt-prod";
                    app_v1.Ingress_ClassName := "nginx";
                    app_v1.Ingress_EnableCoreRules := false;
                    app_v1.Ingress_Annotations := ∅ |};
          app_v1.Onion_ := None;
          app_v1.Storage_ := None;
          app_v1.Role_ := None;
          app_v1.Anubis_ := None;
          app_v1.Secrets := [] |} |}.

(** Two violations: an ingress enabled without a host, then a storage
    enabled without a size. *)
Definition noHost : string * json := ("ingress", JObj [("enabled", JBool true)]).
Definition noSize : string * json :=
  ("storage", JObj [("enabled", JBool true); ("path", JStr "/data")]).

Definition twoViolations : json :=
  JObj (header app_v1.APIVersion app_v1.KindApp ++ [("spec", JObj [noHost; noSize])]).

(** A storage block that is disabled and has no size. *)
Definition disabledStorage : json := JObj [("enabled", JBool false)].

(** A secret reference with both flags set. *)
Definition bothFlags : json :=
  JObj [("name", JStr "creds"); ("itemPath", JStr "vaults/v/items/i");
        ("environment", JBool true); ("folder", JBool true)].

(** A Valkey with storage. *)
Definition cache : valkey_v1.Valkey :=
  {| valkey_v1.TypeMeta := typeMeta valkey_v1.APIVersion valkey_v1.KindApp;
     valkey_v1.ObjectMeta := meta "cache" "default" ∅ ∅;
     valkey_v1.Spec :=
       {| valkey_v1.Env := [];
          valkey_v1.Healthcheck := false;
          valkey_v1.Storage_ :=
            Some {| valkey_v1.Storage_Enabled := true;
                    valkey_v1.Storage_Size := "1Gi";
                    valkey_v1.Storage_StorageClass := None |};
          valkey_v1.Secrets := [] |} |}.

(** A Postgres without a storage block, and the value it decodes to. *)
Definition db : json :=
  JObj (header postgres_v1.APIVersion postgres_v1.KindApp
        ++ [("metadata", JObj [("name", JStr "db"); ("namespace", JStr "prod")]);
            ("spec", JObj [])]).

Definition dbPostgres : postgres_v1.Postgres :=
  {| postgres_v1.TypeMeta := typeMeta postgres_v1.APIVersion postgres_v1.KindApp;
     postgres_v1.ObjectMeta := meta "db" "prod" ∅ ∅;
     postgres_v1.Spec := postgres_v1.PostgresSpec_zero |}.

(** A secret found in the cluster, with a password. *)
Definition stored : corev1.Secret :=
  {| corev1.Secret_TypeMeta := typeMeta corev1.SchemeGroupVersion "Secret";
     corev1.Secret_ObjectMeta := meta "db-database" "prod" ∅ ∅;
     corev1.Data := {[ "POSTGRES_PASSWORD" := "hunter2" ]};
     corev1.StringData := ∅;
     corev1.Secret_Type := "Opaque" |}.

(** A cluster that answers [answer] when it is asked for the Secret
    [db-database] in [prod], the database secret of [db], and has nothing
    else; and a cluster that has nothing at all. *)
Definition clusterWith (answer : Lookup corev1.Secret) (id : ResourceIdentifier)
    : Lookup corev1.Secret :=
  if bool_decide (Identifier_Name id = "db-database")
     && bool_decide (Identifier_Namespace id = "prod")
     && bool_decide (Identifier_Kind id = "Secret")
     && bool_decide (Identifier_ApiVersion id = "v1")
  then answer else ErrNotFound "secrets not found".

Definition emptyCluster (id : ResourceIdentifier) : Lookup corev1.Secret :=
  ErrNotFound "secrets not found".

(** An ingress block with an annotation that names another issuer. *)
Definition webIngress : app_v1.Ingress :=
  {| app_v1.Ingress_Enabled := true;
     app_v1.Ingress_Kind := "";
     app_v1.Ingress_Host := "web.within.website";
     app_v1.Ingress_ClusterIssuer := "letsencrypt-prod";
     app_v1.Ingress_ClassName := "nginx";
     app_v1.Ingress_EnableCoreRules := false;
     app_v1.Ingress_Annotations :=
       {[ "cert-manager.io/cluster-issuer" := "letsencrypt-staging" ]} |}.

(** An App with every block but Anubis: two secrets, one for the
    environment and one mounted as a folder, a storage block, and a role
    block that is not enabled. *)
Definition web : app_v1.App :=
  {| app_v1.TypeMeta := typeMeta app_v1.APIVersion app_v1.KindApp;
     app_v1.ObjectMeta := meta "web" "prod" ∅ ∅;
     app_v1.Spec :=
       {| app_v1.AutoUpdate := false;
          app_v1.Image := "ghcr.io/xe/x/web:latest";
          app_v1.ImagePullSecrets := [];
          app_v1.LogLevel := "";
          app_v1.Replicas := 2;
          app_v1.Port := 0;
          app_v1.RunAsRoot := false;
          app_v1.Env := [];
          app_v1.Healthcheck_ :=
            Some {| app_v1.Healthcheck_Enabled := true;
                    app_v1.Healthcheck_Path := "/healthz";
                    app_v1.Healthcheck_Port := 0;
                    app_v1.Healthcheck_Kind := "http" |};
          app_v1.Ingress_ := Some webIngress;
          app_v1.Onion_ :=
            Some {| app_v1.Onion_Enabled := true;
                    app_v1.Onion_NonAnonymous := false;
                    app_v1.Onion_Haproxy := false;
                    app_v1.Onion_ProofOfWorkDefense := false |};
          app_v1.Storage_ :=
            Some {| app_v1.Storage_Enabled := true;
                    app_v1.Storage_Path := "/data";
                    app_v1.Storage_Size := "1Gi";
                    app_v1.Storage_StorageClass := None |};
          app_v1.Role_ :=
            Some {| app_v1.Role_Enabled := false;
                    app_v1.Role_Rules :=
                      [ {| rbacv1.Verbs := ["get"]; rbacv1.APIGroups := [];
                           rbacv1.Resources := ["configmaps"];
                           rbacv1.ResourceNames := [];
                           rbacv1.NonResourceURLs := [] |} ] |};
          app_v1.Anubis_ := None;
          app_v1.Secrets :=
            [ {| app_v1.Secret_Name := "env";
                 app_v1.Secret_ItemPath := "vaults/v/items/env";
                 app_v1.Secret_Environment := true;
                 app_v1.Secret_Folder := false |};
              {| app_v1.Secret_Name := "files";
                 app_v1.Secret_ItemPath := "vaults/v/items/files";
                 app_v1.Secret_Environment := false;
                 app_v1.Secret_Folder := true |} ] |} |}.

(** A Valkey with a secret and the healthcheck. *)
Definition session : valkey_v1.Valkey :=
  {| valkey_v1.TypeMeta := typeMeta valkey_v1.APIVersion valkey_v1.KindApp;
     valkey_v1.ObjectMeta := meta "session" "prod" ∅ ∅;
     valkey_v1.Spec :=
       {| valkey_v1.Env := [];
          valkey_v1.Healthcheck := true;
          valkey_v1.Storage_ := None;
          valkey_v1.Secrets :=
            [ {| valkey_v1.Secret_Name := "auth";
                 valkey_v1.Secret_ItemPath := "vaults/v/items/auth" |} ] |} |}.

(** A Postgres with a storage size and a secret. *)
Definition ledger : postgres_v1.Postgres :=
  {| postgres_v1.TypeMeta := typeMeta postgres_v1.APIVersion postgres_v1.KindApp;
     postgres_v1.ObjectMeta := meta "ledger" "prod" ∅ ∅;
     postgres_v1.Spec :=
       {| postgres_v1.Env := [];
          postgres_v1.Healthcheck := false;
          postgres_v1.Storage_ :=
            {| postgres_v1.Storage_Size := "10Gi";
               postgres_v1.Storage_StorageClass := None |};
          postgres_v1.Secrets :=
            [ {| postgres_v1.Secret_Name := "init";
                 postgres_v1.Secret_ItemPath := "vaults/v/items/init" |} ] |} |}.

(** A configuration of hypercloud without the block of the external DNS
    chart, and the ACME block of it. *)
Definition acme : hypercloud.ACME :=
  {| hypercloud.Email := "me@within.website";
     hypercloud.Directories :=
       [ {| hypercloud.URL := "https://acme-v02.api.letsencrypt.org/directory";
            hypercloud.Name := "letsencrypt-prod" |} ] |}.

Definition noDNS : hypercloud.Config :=
  {| hypercloud.ACME_ := Some acme;
     hypercloud.ExternalDNS := None;
     hypercloud.ExternalIP :=
       {| hypercloud.IPv4 := Some "192.0.2.1"; hypercloud.IPv6 := None |} |}.

(** A document for the earlier App type: a healthcheck without a path or
    a port, an ingress with a host alone, and a secret with no item path
    and both flags, which the earlier decoder does not check. *)
Definition blog : json :=
  JObj (header app_v1_earlier.APIVersion app_v1_earlier.KindApp
        ++ [("metadata", JObj [("name", JStr "blog"); ("namespace", JStr "prod")]);
            ("spec", JObj [("image", JStr "ghcr.io/xe/x/blog:latest");
                           ("healthcheck", JObj [("enabled", JBool true)]);
                           ("ingress", JObj [("enabled", JBool true);
                                             ("host", JStr "blog.within.website")]);
                           ("secrets", JArr [JObj [("name", JStr "creds");
                                                   ("environment", JBool true);
                                                   ("folder", JBool true)]])])]).

Definition blogApp : app_v1_earlier.App :=
  {| app_v1_earlier.TypeMeta := typeMeta app_v1_earlier.APIVersion app_v1_earlier.KindApp;
     app_v1_earlier.ObjectMeta := meta "blog" "prod" ∅ ∅;
     app_v1_earlier.Spec :=
       {| app_v1_earlier.AutoUpdate := false;
          app_v1_earlier.Image := "ghcr.io/xe/x/blog:latest";
          app_v1_earlier.LogLevel := "";
          app_v1_earlier.Replicas := 0;
          app_v1_earlier.Port := 0;
          app_v1_earlier.Healthcheck_ :=
            Some {| app_v1_earlier.Healthcheck_Enabled := true;
                    app_v1_earlier.Healthcheck_Path := "";
                    app_v1_earlier.Healthcheck_Port := 0 |};
          app_v1_earlier.Ingress_ :=
            Some {| app_v1_earlier.Ingress_Enabled := true;
                    app_v1_earlier.Ingress_Host := "blog.within.website";
                    app_v1_earlier.Ingress_ClusterIssuer := "letsencrypt-prod";
                    app_v1_earlier.Ingress_ClassName := "nginx" |};
          app_v1_earlier.Secrets :=
            [ {| app_v1_earlier.Secret_Name := "creds";
                 app_v1_earlier.Secret_ItemPath := "";
                 app_v1_earlier.Secret_Environment := true;
                 app_v1_earlier.Secret_Folder := true |} ] |} |}.

End samples.

(** * Properties *)

Section Properties.
Context `{K8sLibrary}.

(** ** Strings and lists *)

Lemma append_cancel_l (s a b : string) : s +:+ a = s +:+ b → a = b.
Proof.
  induction s as [|c s IH]; simpl; [done|].
  intros Heq. injection Heq as Heq. by apply IH.
Qed.

Lemma append_assoc (a b c : string) : (a +:+ b) +:+ c = a +:+ (b +:+ c).
Proof.
  induction a as [|x a IH]; [done|].
  change (String x ((a +:+ b) +:+ c) = String x (a +:+ (b +:+ c))).
  by rewrite IH.
Qed.

Lemma foldl_snoc {A B} (f : B → A) (init : list A) (l : list B) :
  foldl (λ acc b, acc ++ [f b]) init l = init ++ (f <$> l).
Proof.
  revert init. induction l as [|b l IH]; intros init; simpl.
  - by rewrite app_nil_r.
  - rewrite IH. by rewrite <- app_assoc.
Qed.

Lemma omap_fmap_None {A B C} (g : B → option C) (f : A → B) (l : list A) :
  (∀ a, g (f a) = None) → omap g (f <$> l) = [].
Proof.
  intros Hnone. induction l as [|a l IH]; simpl; [done|].
  by rewrite Hnone.
Qed.

(** ** The decoder *)

Lemma Dec_bind_Done {A B} (f : A → Dec B) x s :
  Done x s ≫= f = match f x with
                  | Done w s' => Done w (firstError s s')
                  | Abort e => Abort e
                  end.
Proof. reflexivity. Qed.

Lemma Dec_bind_Abort {A B} (f : A → Dec B) e : Abort e ≫= f = Abort e.
Proof. reflexivity. Qed.

Lemma Dec_bind_ret_inv {A B} (m : Dec A) (f : A → B) v s :
  (x ← m; mret (f x)) = Done v s → ∃ x, m = Done x s ∧ v = f x.
Proof.
  destruct m as [x s'|e]; [|done]. cbn. intros [= <- <-].
  exists x. split; [|done]. by destruct s'.
Qed.

Lemma Unmarshal_Ok {A} (d : Dec A) v : Unmarshal d = Ok v → d = Done v None.
Proof. destruct d as [x [e|]|e]; cbn; congruence. Qed.

Lemma hook_Done {A} (r : result A) v s : hook r = Done v s → r = Ok v.
Proof. destruct r; cbn; congruence. Qed.

Lemma foldM_inv {A B} (P : A → Prop) (f : B → A → Dec A) l cur v s :
  (∀ b c c' s', P c → f b c = Done c' s' → P c') →
  P cur → foldM f cur l = Done v s → P v.
Proof.
  intros Hf. revert cur s. induction l as [|b l IH]; intros cur s Hcur; cbn.
  - by intros [= <- <-].
  - destruct (f b cur) as [c' s'|e] eqn:Hb; [|done].
    rewrite Dec_bind_Done.
    destruct (foldM f c' l) as [c'' s''|e] eqn:Hl; [|done].
    intros [= <- <-]. eapply IH; [|done]. by eapply Hf.
Qed.

Lemma decStruct_inv {T} (P : T → Prop) type setField cur j v s :
  (∀ m c c' s', P c → setField m c = Done c' s' → P c') →
  P cur → decStruct type setField cur j = Done v s → P v.
Proof.
  intros Hf Hcur. destruct j; cbn; try by intros [= <- <-].
  by apply foldM_inv.
Qed.

Lemma decInt_inRange bits type cur j v s :
  inRange bits cur = true → decInt bits type cur j = Done v s → inRange bits v = true.
Proof.
  intros Hcur. destruct j; cbn; try by intros [= <- <-].
  destruct (inRange bits n) eqn:Hn; by intros [= <- <-].
Qed.

Lemma decPtr_inv {T} (Q P : T → Prop) zero dec cur j v s :
  (∀ c x s', Q c → dec c j = Done x s' → P x) →
  Q zero → option_Forall Q cur → decPtr zero dec cur j = Done v s → option_Forall P v.
Proof.
  intros Hdec Hzero Hcur. unfold decPtr.
  assert (Hd : Q (default zero cur)) by (by destruct Hcur).
  destruct j; try (by intros [= <- <-]; constructor).
  all: intros (x & Hx & ->)%Dec_bind_ret_inv; constructor; by eapply Hdec.
Qed.

Lemma decArray_inv {T} (Q P : T → Prop) zero dec cur items v s :
  (∀ c j x s', Q c → dec c j = Done x s' → P x) →
  Q zero → Forall Q cur → decArray zero dec cur items = Done v s → Forall P v.
Proof.
  intros Hdec Hzero. revert cur v s.
  induction items as [|j items IH]; intros cur v s Hcur; cbn.
  - by intros [= <- <-].
  - destruct (dec (hd zero cur) j) as [x s1|e] eqn:Hx; [|done].
    rewrite Dec_bind_Done.
    destruct (decArray zero dec (tl cur) items) as [xs s2|e] eqn:Hxs; [|done].
    cbn. intros [= <- <-]. constructor.
    + eapply Hdec; [|done]. by destruct Hcur.
    + eapply IH; [|done]. by destruct Hcur.
Qed.

Lemma decSlice_inv {T} (Q P : T → Prop) type zero dec cur j v s :
  (∀ c j x s', Q c → dec c j = Done x s' → P x) →
  Q zero → Forall Q cur → Forall P cur →
  decSlice type zero dec cur j = Done v s → Forall P v.
Proof.
  intros Hdec Hzero Hcur HPcur. destruct j; cbn; try by intros [= <- <-].
  by apply decArray_inv with (Q := Q).
Qed.

Lemma option_Forall_True {T} (o : option T) : option_Forall (λ _, True) o.
Proof. destruct o; by constructor. Qed.

(** What a flight works on: the zero value when there is no document or
    the document is [null], and otherwise what the hook makes of the
    document. *)
Lemma decoded_Ok {T} (UnmarshalJSON : T → json → result T) zero stdin v :
  decoded UnmarshalJSON zero stdin = Ok v →
  (v = zero ∧ (stdin = EndOfInput ∨ stdin = Document JNull)) ∨
  ∃ data, stdin = Document data ∧ data ≠ JNull ∧ UnmarshalJSON zero data = Ok v.
Proof.
  unfold decoded, Decode. destruct stdin as [|cause|data]; [|done|].
  { intros [= <-]. left. by split; [|left]. }
  destruct data; try (intros [= <-]; left; by split; [|right]).
  all: destruct (UnmarshalJSON zero _) as [x|e] eqn:Hx; [|done].
  all: intros [= <-]; right; eexists; by repeat split.
Qed.

(** ** The hooks of the App type *)

Section app_decoding.
Import app_v1.

(** One field of a struct has been decoded: the other fields are as they
    were. *)
Ltac field_cases :=
  repeat case_match;
  try (intros (? & ? & ->)%Dec_bind_ret_inv);
  try (intros [= <- <-]).

Lemma Healthcheck_UnmarshalJSON_valid h data h' :
  inRange intBits (Healthcheck_Port h) = true →
  Healthcheck_UnmarshalJSON h data = Ok h' → Healthcheck_valid h'.
Proof.
  intros Hh. unfold Healthcheck_UnmarshalJSON.
  destruct (Unmarshal _) as [x|e] eqn:Hx; [|done]. cbn.
  apply Unmarshal_Ok in Hx.
  assert (Hport : inRange intBits (Healthcheck_Port x) = true).
  { revert Hx.
    apply (decStruct_inv (λ h, inRange intBits (Healthcheck_Port h) = true)); [|done].
    intros [k v] [] c' s' Hc. unfold Healthcheck_setField.
    field_cases; cbn in *; eauto using decInt_inRange. }
  destruct (Healthcheck_Enabled x) eqn:Hen; cbn.
  - case_bool_decide as Hpath; intros [= <-]; split; cbn; try done.
  - intros [= <-]. split; [done|]. by rewrite Hen.
Qed.

Lemma Ingress_UnmarshalJSON_valid i data i' :
  Ingress_UnmarshalJSON i data = Ok i' → Ingress_valid i'.
Proof.
  unfold Ingress_UnmarshalJSON.
  destruct (Unmarshal _) as [x|e]; [|done]. cbn.
  destruct x as [enabled kind host issuer class rules annotations]. cbn.
  destruct enabled; cbn.
  - case_bool_decide as Hhost; [done|]. intros [= <-]. intros _. cbn.
    split; [done|]. split; case_bool_decide; by subst.
  - by intros [= <-].
Qed.

Lemma Secret_UnmarshalJSON_valid s data s' :
  Secret_UnmarshalJSON s data = Ok s' → Secret_valid s'.
Proof.
  unfold Secret_UnmarshalJSON.
  destruct (Unmarshal _) as [x|e]; [|done]. cbn.
  case_bool_decide as Hpath; [done|].
  destruct (Secret_Environment x && Secret_Folder x) eqn:Hboth; [done|].
  intros [= <-]. split; [done|]. intros [He Hf]. by rewrite He, Hf in Hboth.
Qed.

Lemma Storage_UnmarshalJSON_valid s data s' :
  Storage_UnmarshalJSON s data = Ok s' → Storage_valid s'.
Proof.
  unfold Storage_UnmarshalJSON.
  destruct (Unmarshal _) as [x|e]; [|done]. cbn.
  destruct (Storage_Enabled x && bool_decide (Storage_Path x = "")) eqn:Hpath; [done|].
  destruct (Storage_Enabled x && bool_decide (Storage_Size x = "")) eqn:Hsize; [done|].
  destruct (ParseQuantity (Storage_Size x)) as [size|err] eqn:Hq; [|done].
  intros [= <-]. split; [|by exists size].
  intros Hen. rewrite Hen in Hpath, Hsize. cbn in *.
  split; intros Heq; by rewrite Heq in *.
Qed.

Lemma Anubis_dec_valid a j a' s :
  Anubis_valid a → Anubis_dec a j = Done a' s → Anubis_valid a'.
Proof.
  apply (decStruct_inv Anubis_valid). intros [k v] [enabled settings] c' s' Hc.
  unfold Anubis_setField, Anubis_valid in *. field_cases; cbn in *; try done.
  match goal with Hd : decStruct _ _ _ _ = Done _ _ |- _ => revert Hd end.
  apply (decStruct_inv (λ st, inRange intBits (Settings_Difficulty st) = true));
    [|done].
  intros [k' v'] [] c'' s'' Hc'. unfold AnubisSettings_setField.
  field_cases; cbn in *; eauto using decInt_inRange.
Qed.

Lemma AppSpec_setField_valid m s s' e :
  AppSpec_valid s → AppSpec_setField m s = Done s' e → AppSpec_valid s'.
Proof.
  destruct m as [k v], s. unfold AppSpec_setField, AppSpec_valid. cbn.
  intros (Hr & Hp & Hh & Hi & Hst & Ha & Hsec).
  field_cases; cbn; repeat split; try done.
  all: match goal with
       | Hd : decInt _ _ _ _ = Done _ _ |- _ => by eapply decInt_inRange
       | Hd : decPtr _ _ _ _ = Done _ _ |- _ => revert Hd
       | Hd : decSlice _ _ _ _ _ = Done _ _ |- _ => revert Hd
       end.
  - apply (decPtr_inv (λ h, inRange intBits (Healthcheck_Port h) = true)); [|done|].
    + intros c y s' Hc Hy%hook_Done. by eapply Healthcheck_UnmarshalJSON_valid.
    + destruct Hh as [|h [Hh _]]; by constructor.
  - apply (decPtr_inv (λ _, True)); [|done|apply option_Forall_True].
    intros c y s' _ Hy%hook_Done. by eapply Ingress_UnmarshalJSON_valid.
  - apply (decPtr_inv (λ _, True)); [|done|apply option_Forall_True].
    intros c y s' _ Hy%hook_Done. by eapply Storage_UnmarshalJSON_valid.
  - apply (decPtr_inv Anubis_valid); [|done..]. intros c y s'. apply Anubis_dec_valid.
  - apply (decSlice_inv (λ _, True)); [|done|by apply Forall_true|done].
    intros c j y s' _ Hy%hook_Done. by eapply Secret_UnmarshalJSON_valid.
Qed.

Lemma AppSpec_zero_valid : AppSpec_valid AppSpec_zero.
Proof. repeat split; by constructor. Qed.

Lemma App_setField_valid m app app' e :
  AppSpec_valid (Spec app) → App_setField m app = Done app' e → AppSpec_valid (Spec app').
Proof.
  destruct m as [k v], app as [[kind apiVersion] meta spec]. unfold App_setField. cbn.
  intros Hspec. field_cases; cbn; try done.
  match goal with Hd : decStruct _ _ _ _ = Done _ _ |- _ => revert Hd end.
  apply (decStruct_inv AppSpec_valid); [|done].
  intros m c c' s'. apply AppSpec_setField_valid.
Qed.

Lemma setReplicas_valid n s :
  inRange 32 n = true → AppSpec_valid s →
  AppSpec_valid (setReplicas n s) ∧ Replicas (setReplicas n s) = n.
Proof. destruct s. unfold AppSpec_valid. cbn. by intros Hn (_ & ?). Qed.

(** Whatever the hook of [App] accepts is valid. *)
Lemma App_UnmarshalJSON_valid app data app' :
  AppSpec_valid (Spec app) → App_UnmarshalJSON app data = Ok app' → App_valid app'.
Proof.
  intros Hspec. unfold App_UnmarshalJSON.
  destruct (Unmarshal _) as [x|e] eqn:Hx; [|done]. cbn.
  apply Unmarshal_Ok in Hx.
  assert (Hx' : AppSpec_valid (Spec x)).
  { revert Hx. apply (decStruct_inv (λ a, AppSpec_valid (Spec a))); [|done].
    intros m c c' s'. apply App_setField_valid. }
  destruct x as [[kind apiVersion] meta spec]. cbn in *.
  case_bool_decide as Hv; [done|]. case_bool_decide as Hk; [done|].
  subst.
  case_bool_decide as Hr.
  - intros [= <-]. destruct (setReplicas_valid 1 spec) as [Hs Hn]; [done..|].
    split; [done|]. cbn. split; [by rewrite Hn|done].
  - by intros [= <-].
Qed.

(** The spec the flight works on is valid, with or without input. *)
Lemma app_decoded_valid stdin app :
  decoded App_UnmarshalJSON App_zero stdin = Ok app → AppSpec_valid (Spec app).
Proof.
  intros [[-> _]|(data & _ & _ & Hx)]%decoded_Ok; [apply AppSpec_zero_valid|].
  by eapply App_UnmarshalJSON_valid, Hx; apply AppSpec_zero_valid.
Qed.

End app_decoding.

(** ** The Valkey flight *)

Section valkey.
Import valkey_v1 valkey_flight.
Abbreviation Name app := (metav1.Name (ObjectMeta app)).

(** The output of the Valkey flight when the storage claim is built. *)
Lemma valkey_build_storage (app : Valkey) (st : Storage) (size : Quantity) :
  Storage_ (Spec app) = Some st →
  Storage_Enabled st = true →
  ParseQuantity (Storage_Size st) = inl size →
  ∃ pvc,
    createStorage (defaults app) st = Returns pvc ∧
    build app =
      Emitted (((λ sec, ROnePasswordItem (createOnepasswordSecret (defaults app) sec))
                  <$> Secrets (Spec app))
               ++ [RDeployment (createDeployment (defaults app));
                   RService (createService (defaults app));
                   RServiceAccount (createServiceAccount (defaults app));
                   RPersistentVolumeClaim pvc]).
Proof.
  intros Hst Hen Hsize.
  unfold build. rewrite foldl_snoc. simpl. rewrite Hst, Hen.
  unfold createStorage. rewrite Hsize.
  eexists. split; [done|].
  by rewrite <- !app_assoc.
Qed.

(** C4. In the Valkey flight with storage enabled, the volume [storage] of
    the Deployment refers to the claim [<name>-storage] while the claim the
    flight emits is called [<name>-valkey-storage]: the two names are
    formed from the spec name and a fixed suffix, but not the same suffix,
    so the Deployment refers to a claim that is not in the list. *)
Theorem C4_valkey_claim_name_differs (app : Valkey) (st : Storage) (size : Quantity) :
  Storage_ (Spec app) = Some st →
  Storage_Enabled st = true →
  ParseQuantity (Storage_Size st) = inl size →
  ∃ out d pvc,
    build app = Emitted out ∧
    deployments out = [d] ∧
    claims out = [pvc] ∧
    storageClaimNames d = [Name app +:+ "-storage"] ∧
    metav1.Name (corev1.PVC_ObjectMeta pvc) = Name app +:+ "-valkey-storage" ∧
    storageClaimNames d ≠ [metav1.Name (corev1.PVC_ObjectMeta pvc)].
Proof.
  intros Hst Hen Hsize.
  destruct (valkey_build_storage app st size Hst Hen Hsize) as (pvc & Hpvc & Hout).
  unfold createStorage in Hpvc. rewrite Hsize in Hpvc. injection Hpvc as <-.
  eexists _, _, _. split; [exact Hout|].
  assert (Hd : storageClaimNames (createDeployment (defaults app))
               = [Name app +:+ "-storage"]).
  { unfold storageClaimNames, createDeployment. simpl. by rewrite Hst, Hen. }
  unfold deployments, claims. rewrite !omap_app.
  rewrite !omap_fmap_None by done. simpl.
  repeat split; try done.
  rewrite Hd. simpl. intros Heq. injection Heq as Heq.
  by apply append_cancel_l in Heq.
Qed.

(** Every object of the Valkey flight carries the merged labels; the
    selector of the Deployment is the selector label alone. *)
Lemma valkey_labels (app : Valkey) (out : list Resource) :
  build app = Emitted out →
  Forall (λ r, metav1.Labels (metadataOf r)
               = maps_Copy (metav1.Labels (ObjectMeta app)) (selector app)) out ∧
  Forall (λ d, appsv1.MatchLabels d = selector app ∧
               corev1.Template_Labels (appsv1.Template d)
               = maps_Copy (metav1.Labels (ObjectMeta app)) (selector app))
         (deployments out).
Proof.
  unfold build. rewrite foldl_snoc. unfold deployments.
  intros Hout. repeat case_match; simplify_eq;
    rewrite ?omap_app, ?omap_fmap_None by done;
    rewrite ?Forall_app, ?Forall_fmap;
    repeat split; repeat constructor; try (apply Forall_true; done).
  all: match goal with
       | Hc : createStorage _ _ = Returns _ |- _ =>
           unfold createStorage in Hc; case_match; [|done]; by injection Hc as <-
       end.
Qed.

End valkey.

(** ** The builders of the App flight *)

Section app.
Import app_v1 app_flight.
Abbreviation Name app := (metav1.Name (ObjectMeta app)).
Abbreviation Labels app := (metav1.Labels (ObjectMeta app)).

Lemma app_defaults_fields (app : App) :
  Name (defaults app) = Name app ∧
  Labels (defaults app) = maps_Copy (Labels app) (selector app) ∧
  Port (Spec (defaults app)) = cmp_Or_int (Port (Spec app)) 3000 ∧
  Ingress_ (Spec (defaults app)) = Ingress_ (Spec app) ∧
  Onion_ (Spec (defaults app)) = Onion_ (Spec app) ∧
  Storage_ (Spec (defaults app)) = Storage_ (Spec app) ∧
  Role_ (Spec (defaults app)) = Role_ (Spec app) ∧
  Secrets (Spec (defaults app)) = Secrets (Spec app).
Proof. by destruct app as [? ? []]. Qed.

(** [createIngress] never fails, whatever the lookup answers. *)
Lemma createIngress_Ok lookup (app : App) (i : Ingress) :
  ∃ ing,
    createIngress lookup app i = Ok ing ∧
    metav1.Labels (networkingv1.ObjectMeta ing) = Labels app ∧
    networkingv1.TLS ing =
      [ {| networkingv1.Hosts := [Ingress_Host i];
           networkingv1.SecretName :=
             ReplaceAll (Ingress_Host i) "." "-" +:+ "-public-tls" |} ] ∧
    (networkingv1.Host <$> networkingv1.Rules ing) = [Ingress_Host i].
Proof. unfold createIngress. eexists. split; [reflexivity|]. done. Qed.

Lemma createStorage_Returns (app : App) (st : Storage) pvc :
  createStorage app st = Returns pvc →
  metav1.Labels (corev1.PVC_ObjectMeta pvc) = Labels app ∧
  metav1.Name (corev1.PVC_ObjectMeta pvc) = Name app +:+ "-storage".
Proof. unfold createStorage. case_match; [|done]. by intros [= <-]. Qed.

(** The shape of the output of the App flight: the objects built for the
    secrets, the Deployment, the Service and the ServiceAccount, followed by
    what each enabled block adds. It panics only in [createStorage]. *)
Lemma app_build_shape lookup (app : App) :
  let a := defaults app in
  let base :=
    ((λ sec, ROnePasswordItem (createOnepasswordSecret a sec)) <$> Secrets (Spec app))
    ++ [RDeployment (createDeployment a); RService (createService a);
        RServiceAccount (createServiceAccount a)] in
  ∃ ingressPart onionPart rolePart,
    match Ingress_ (Spec app) with
    | Some i =>
        if Ingress_Enabled i
        then ∃ ing, createIngress lookup a i = Ok ing ∧ ingressPart = [RIngress ing]
        else ingressPart = []
    | None => ingressPart = []
    end ∧
    (onionPart = [] ∨ ∃ o, onionPart = [ROnionService (createOnion a o)]) ∧
    (rolePart = [] ∨
     ∃ r, rolePart = [RRole (createRole a r); RRoleBinding (createRoleBinding a)]) ∧
    match Storage_ (Spec app) with
    | Some st =>
        if Storage_Enabled st then
          match createStorage a st with
          | Returns pvc =>
              build lookup app =
                Emitted (base ++ ingressPart ++ onionPart
                         ++ [RPersistentVolumeClaim pvc] ++ rolePart)
          | Panics msg => build lookup app = Panic msg
          end
        else build lookup app = Emitted (base ++ ingressPart ++ onionPart ++ rolePart)
    | None => build lookup app = Emitted (base ++ ingressPart ++ onionPart ++ rolePart)
    end.
Proof.
  intros a base. subst base. unfold build. fold a. rewrite foldl_snoc.
  destruct (app_defaults_fields app) as (_ & _ & _ & Hi & Ho & Hs & Hr & Hsec).
  fold a in Hi, Ho, Hs, Hr, Hsec. rewrite Hi, Ho, Hs, Hr, Hsec. clearbody a.
  eexists (match Ingress_ (Spec app) with
           | Some i => if Ingress_Enabled i
                       then match createIngress lookup a i with
                            | Ok ing => [RIngress ing]
                            | Err _ => []
                            end
                       else []
           | None => []
           end),
          (match Onion_ (Spec app) with
           | Some o => if Onion_Enabled o then [ROnionService (createOnion a o)] else []
           | None => []
           end),
          (match Role_ (Spec app) with
           | Some r => [RRole (createRole a r); RRoleBinding (createRoleBinding a)]
           | None => []
           end).
  split; [|split; [|split]].
  - destruct (Ingress_ (Spec app)) as [i|]; [|done].
    destruct (Ingress_Enabled i); [|done].
    destruct (createIngress_Ok lookup a i) as (ing & -> & _). by exists ing.
  - destruct (Onion_ (Spec app)) as [o|]; [|by left].
    destruct (Onion_Enabled o); [right; by exists o|by left].
  - destruct (Role_ (Spec app)) as [r|]; [right; by exists r|by left].
  - destruct (Ingress_ (Spec app)) as [i|]; [destruct (Ingress_Enabled i);
      [destruct (createIngress_Ok lookup a i) as (ing & -> & _)|]|];
    (destruct (Onion_ (Spec app)) as [o|]; [destruct (Onion_Enabled o)|]);
    (destruct (Role_ (Spec app)) as [r|]);
    (destruct (Storage_ (Spec app)) as [st|];
      [destruct (Storage_Enabled st); [destruct (createStorage a st)|]|]);
    rewrite ?app_nil_r, <- ?app_assoc; reflexivity.
Qed.

(** Every object of the App flight carries the merged labels; the selector
    of the Deployment is the selector label alone. *)
Lemma app_labels lookup (app : App) (out : list Resource) :
  build lookup app = Emitted out →
  Forall (λ r, metav1.Labels (metadataOf r) = maps_Copy (Labels app) (selector app)) out ∧
  Forall (λ d, appsv1.MatchLabels d = selector app ∧
               corev1.Template_Labels (appsv1.Template d)
               = maps_Copy (Labels app) (selector app))
         (deployments out).
Proof.
  intros Hout.
  destruct (app_build_shape lookup app)
    as (ingressPart & onionPart & rolePart & Hing & Honion & Hrole & Hbuild).
  destruct (app_defaults_fields app) as (Hname & Hlabels & _).
  assert (Hsel : selector (defaults app) = selector app)
    by (unfold selector; by rewrite Hname).
  rewrite <- Hlabels, <- Hsel.
  assert (Hi : Forall (λ r, metav1.Labels (metadataOf r) = Labels (defaults app)) ingressPart
               ∧ deployments ingressPart = []).
  { destruct (Ingress_ (Spec app)) as [i|]; [|by subst].
    destruct (Ingress_Enabled i); [|by subst].
    destruct Hing as (ing & Hing & ->).
    destruct (createIngress_Ok lookup (defaults app) i) as (ing' & Hing' & Hl & _).
    rewrite Hing' in Hing. injection Hing as ->.
    split; [|done]. by repeat constructor. }
  assert (Ho : Forall (λ r, metav1.Labels (metadataOf r) = Labels (defaults app)) onionPart
               ∧ deployments onionPart = []).
  { destruct Honion as [->|(o & ->)]; [done|]. split; [|done]. by repeat constructor. }
  assert (Hr : Forall (λ r, metav1.Labels (metadataOf r) = Labels (defaults app)) rolePart
               ∧ deployments rolePart = []).
  { destruct Hrole as [->|(r & ->)]; [done|]. split; [|done]. by repeat constructor. }
  destruct Hi as [Hi1 Hi2], Ho as [Ho1 Ho2], Hr as [Hr1 Hr2].
  assert (Hout' : ∃ pvcPart,
             out = ((λ sec, ROnePasswordItem (createOnepasswordSecret (defaults app) sec))
                      <$> Secrets (Spec app))
                   ++ [RDeployment (createDeployment (defaults app));
                       RService (createService (defaults app));
                       RServiceAccount (createServiceAccount (defaults app))]
                   ++ ingressPart ++ onionPart ++ pvcPart ++ rolePart ∧
             Forall (λ r, metav1.Labels (metadataOf r) = Labels (defaults app)) pvcPart ∧
             deployments pvcPart = []).
  { destruct (Storage_ (Spec app)) as [st|].
    - destruct (Storage_Enabled st).
      + destruct (createStorage (defaults app) st) as [pvc|msg] eqn:Hpvc;
          rewrite Hbuild in Hout; [|done]. injection Hout as <-.
        exists [RPersistentVolumeClaim pvc]. rewrite <- !app_assoc.
        split; [done|]. split; [|done].
        apply createStorage_Returns in Hpvc as [Hpvc _]. by repeat constructor.
      + rewrite Hbuild in Hout. injection Hout as <-. exists [].
        by rewrite <- !app_assoc.
    - rewrite Hbuild in Hout. injection Hout as <-. exists [].
      by rewrite <- !app_assoc. }
  destruct Hout' as (pvcPart & -> & Hp1 & Hp2).
  split.
  - rewrite !Forall_app, Forall_fmap. repeat split; try done.
    + by apply Forall_true.
    + by repeat constructor.
  - unfold deployments in *. rewrite !omap_app, omap_fmap_None by done.
    rewrite Hi2, Ho2, Hp2, Hr2. by repeat constructor.
Qed.

End app.

(** ** The Postgres flight *)

(** The identifier [createDatabaseSecret] asks the cluster for: the Secret
    [<name>-database] in the namespace of the spec. *)
Abbreviation databaseSecretIdentifier app :=
  {| Identifier_ApiVersion := "v1";
     Identifier_Kind := "Secret";
     Identifier_Name := metav1.Name (postgres_v1.ObjectMeta app) +:+ "-database";
     Identifier_Namespace := metav1.Namespace (postgres_v1.ObjectMeta app) |}.

Section postgres.
Import postgres_v1 postgres_flight.
Abbreviation Name app := (metav1.Name (ObjectMeta app)).
Abbreviation Namespace app := (metav1.Namespace (ObjectMeta app)).
Abbreviation Labels app := (metav1.Labels (ObjectMeta app)).

(** The password [createDatabaseSecret] settles on. *)
Lemma createDatabaseSecret_Returns k8s_Lookup buf (app : Postgres) secret :
  createDatabaseSecret k8s_Lookup buf app = Returns secret →
  ∃ password,
    password = match k8s_Lookup (databaseSecretIdentifier app) with
               | Found existing =>
                   default (RandomString buf) (corev1.Data existing !! "POSTGRES_PASSWORD")
               | _ => RandomString buf
               end ∧
    corev1.StringData secret !! "POSTGRES_PASSWORD" = Some password ∧
    corev1.StringData secret !! "DATABASE_URL" =
      Some ("postgres://postgres:" +:+ password +:+ "@" +:+ Name app +:+ "-postgres."
            +:+ Namespace app +:+ ".svc:5432/" +:+ Name app) ∧
    metav1.Name (corev1.Secret_ObjectMeta secret) = Name app +:+ "-database" ∧
    metav1.Labels (corev1.Secret_ObjectMeta secret) = Labels app.
Proof.
  unfold createDatabaseSecret. generalize (k8s_Lookup (databaseSecretIdentifier app)).
  intros lookup.
  set (password := match Lookup_obj lookup with
                   | Some existing =>
                       match corev1.Data existing !! "POSTGRES_PASSWORD" with
                       | Some b => b
                       | None => RandomString buf
                       end
                   | None => RandomString buf
                   end).
  intros Hret. exists password. split.
  { subst password. destruct lookup as [existing| |]; simpl; [|done..].
    by destruct (corev1.Data existing !! "POSTGRES_PASSWORD"). }
  clearbody password.
  destruct (negb (isNil (Lookup_err lookup)) && negb (IsErrNotFound lookup)); [done|].
  injection Hret as <-. cbn [corev1.StringData corev1.Secret_ObjectMeta meta
                             metav1.Name metav1.Labels].
  split; [|split; [|done]].
  - rewrite lookup_insert_ne by done. apply lookup_singleton_eq.
  - rewrite lookup_insert_eq. f_equal.
    rewrite !append_assoc. reflexivity.
Qed.

Lemma createDatabaseSecret_Panics k8s_Lookup msg buf (app : Postgres) :
  k8s_Lookup (databaseSecretIdentifier app) = ErrOther msg →
  createDatabaseSecret k8s_Lookup buf app
  = Panics ("failed to lookup secret: " +:+ msg).
Proof. intros Hl. unfold createDatabaseSecret. by rewrite Hl. Qed.

Lemma createDatabaseSecret_not_fatal k8s_Lookup buf (app : Postgres) :
  (∀ msg, k8s_Lookup (databaseSecretIdentifier app) ≠ ErrOther msg) →
  ∃ secret, createDatabaseSecret k8s_Lookup buf app = Returns secret.
Proof.
  unfold createDatabaseSecret. generalize (k8s_Lookup (databaseSecretIdentifier app)).
  intros lookup Hl.
  destruct lookup as [existing|msg|msg]; simpl; [by eexists..|].
  by destruct (Hl msg).
Qed.

(** The builder asks the cluster for one identifier; no other answer of
    the cluster matters. *)
Lemma createDatabaseSecret_ext k1 k2 buf (app : Postgres) :
  k1 (databaseSecretIdentifier app) = k2 (databaseSecretIdentifier app) →
  createDatabaseSecret k1 buf app = createDatabaseSecret k2 buf app.
Proof. intros Hk. unfold createDatabaseSecret. by rewrite Hk. Qed.

(** The credential [RandomString] makes of the random bytes. *)
Lemma hexDigit_inj (a b : N) :
  (a < 16)%N → (b < 16)%N → hexDigit a = hexDigit b → a = b.
Proof.
  unfold hexDigit. intros Ha Hb Heq. apply (f_equal N_of_ascii) in Heq.
  destruct (a <? 10)%N eqn:Ea, (b <? 10)%N eqn:Eb;
    rewrite !N_ascii_embedding in Heq by lia;
    rewrite ?N.ltb_lt, ?N.ltb_ge in Ea, Eb; lia.
Qed.

Lemma RandomString_inj (buf1 buf2 : string) :
  RandomString buf1 = RandomString buf2 → buf1 = buf2.
Proof.
  unfold RandomString. revert buf2.
  induction buf1 as [|c1 buf1 IH]; intros [|c2 buf2]; cbn [hex]; try done.
  intros [= Hhi Hlo Hrest]. f_equal; [|by apply IH].
  assert (H1 : (N_of_ascii c1 < 256)%N) by apply N_ascii_bounded.
  assert (H2 : (N_of_ascii c2 < 256)%N) by apply N_ascii_bounded.
  apply hexDigit_inj in Hhi; [|apply N.Div0.div_lt_upper_bound; lia..].
  apply hexDigit_inj in Hlo; [|by apply N.mod_lt..].
  rewrite <- (ascii_N_embedding c1), <- (ascii_N_embedding c2). f_equal.
  rewrite (N.div_mod (N_of_ascii c1) 16), (N.div_mod (N_of_ascii c2) 16) by done.
  by rewrite Hhi, Hlo.
Qed.

Lemma RandomString_length (buf : string) :
  String.length (RandomString buf) = (2 * String.length buf)%nat.
Proof.
  unfold RandomString.
  induction buf as [|c buf IH]; [done|]. cbn [hex String.length]. rewrite IH. lia.
Qed.

Lemma postgres_defaults_fields (app : Postgres) :
  Name (defaults app) = Name app ∧
  Namespace (defaults app) = Namespace app ∧
  Labels (defaults app) = maps_Copy (Labels app) (selector app) ∧
  Spec (defaults app) = Spec app.
Proof. done. Qed.

(** The shape of the output of the Postgres flight. It panics only in
    [createDatabaseSecret] and [createStorage]. *)
Lemma postgres_build_shape k8s_Lookup buf (app : Postgres) :
  let a := defaults app in
  match createDatabaseSecret k8s_Lookup buf a with
  | Panics msg => build k8s_Lookup buf app = Panic msg
  | Returns secret =>
      let base :=
        ((λ sec, ROnePasswordItem (createOnepasswordSecret a sec)) <$> Secrets (Spec app))
        ++ [RDeployment (createDeployment a); RService (createService a);
            RSecret secret; RServiceAccount (createServiceAccount a)] in
      if bool_decide (Storage_Size (Storage_ (Spec app)) ≠ "") then
        match createStorage a with
        | Panics msg => build k8s_Lookup buf app = Panic msg
        | Returns pvc =>
            build k8s_Lookup buf app = Emitted (base ++ [RPersistentVolumeClaim pvc])
        end
      else build k8s_Lookup buf app = Emitted base
  end.
Proof.
  intros a. unfold build. fold a. rewrite foldl_snoc.
  change (Spec a) with (Spec app).
  destruct (createDatabaseSecret k8s_Lookup buf a) as [secret|msg]; [|done].
  cbv zeta. destruct (bool_decide _); [destruct (createStorage a)|];
    by rewrite <- ?app_assoc.
Qed.

Lemma postgres_createStorage_Returns (app : Postgres) pvc :
  createStorage app = Returns pvc →
  metav1.Labels (corev1.PVC_ObjectMeta pvc) = Labels app.
Proof. unfold createStorage. case_match; [|done]. by intros [= <-]. Qed.

(** Every object of the Postgres flight carries the merged labels; the
    selector of the Deployment is the selector label alone. *)
Lemma postgres_labels k8s_Lookup buf (app : Postgres) (out : list Resource) :
  build k8s_Lookup buf app = Emitted out →
  Forall (λ r, metav1.Labels (metadataOf r) = maps_Copy (Labels app) (selector app)) out ∧
  Forall (λ d, appsv1.MatchLabels d = selector app ∧
               corev1.Template_Labels (appsv1.Template d)
               = maps_Copy (Labels app) (selector app))
         (deployments out).
Proof.
  intros Hout. pose proof (postgres_build_shape k8s_Lookup buf app) as Hshape.
  cbv zeta in Hshape.
  destruct (createDatabaseSecret k8s_Lookup buf (defaults app)) as [secret|msg] eqn:Hsecret;
    [|by rewrite Hshape in Hout].
  apply createDatabaseSecret_Returns in Hsecret as (_ & _ & _ & _ & _ & Hsl).
  assert (Hout' : ∃ pvcPart,
             out = ((λ sec, ROnePasswordItem (createOnepasswordSecret (defaults app) sec))
                      <$> Secrets (Spec app))
                   ++ [RDeployment (createDeployment (defaults app));
                       RService (createService (defaults app));
                       RSecret secret;
                       RServiceAccount (createServiceAccount (defaults app))]
                   ++ pvcPart ∧
             Forall (λ r, metav1.Labels (metadataOf r) = Labels (defaults app)) pvcPart ∧
             deployments pvcPart = []).
  { destruct (bool_decide _).
    - destruct (createStorage (defaults app)) as [pvc|msg] eqn:Hpvc;
        rewrite Hshape in Hout; [|done]. injection Hout as <-.
      exists [RPersistentVolumeClaim pvc]. rewrite <- !app_assoc. split; [done|].
      apply postgres_createStorage_Returns in Hpvc. split; [|done]. by repeat constructor.
    - rewrite Hshape in Hout. injection Hout as <-. exists [].
      by rewrite app_nil_r. }
  destruct Hout' as (pvcPart & -> & Hp1 & Hp2).
  change (maps_Copy (Labels app) (selector app)) with (Labels (defaults app)).
  change (selector app) with (selector (defaults app)).
  split.
  - rewrite !Forall_app, Forall_fmap. repeat split; try done.
    + by apply Forall_true.
    + by repeat constructor.
  - unfold deployments in *. rewrite !omap_app, omap_fmap_None by done.
    rewrite Hp2. by repeat constructor.
Qed.

End postgres.

(** ** From the standard input to the builders *)

Lemma app_run_decoded lookup stdin :
  app_flight.run lookup stdin =
    match decoded app_v1.App_UnmarshalJSON app_v1.App_zero stdin with
    | Ok app => app_flight.build lookup app
    | Err err => Exit1 err
    end.
Proof.
  unfold app_flight.run, decoded, Decode.
  destruct stdin as [|cause|data]; [done..|].
  destruct data; try done; by destruct (app_v1.App_UnmarshalJSON _ _).
Qed.

Lemma valkey_run_decoded stdin :
  valkey_flight.run stdin =
    match decoded valkey_v1.Valkey_UnmarshalJSON valkey_v1.Valkey_zero stdin with
    | Ok app => valkey_flight.build app
    | Err err => Exit1 err
    end.
Proof.
  unfold valkey_flight.run, decoded, Decode.
  destruct stdin as [|cause|data]; [done..|].
  destruct data; try done; by destruct (valkey_v1.Valkey_UnmarshalJSON _ _).
Qed.

Lemma postgres_run_decoded k8s_Lookup buf stdin :
  postgres_flight.run k8s_Lookup buf stdin =
    match decoded postgres_v1.Postgres_UnmarshalJSON postgres_v1.Postgres_zero stdin with
    | Ok app => postgres_flight.build k8s_Lookup buf app
    | Err err => Exit1 err
    end.
Proof.
  unfold postgres_flight.run, decoded, Decode.
  destruct stdin as [|cause|data]; [done..|].
  destruct data; try done; by destruct (postgres_v1.Postgres_UnmarshalJSON _ _).
Qed.

(** C2. The database secret of the Postgres flight. The builder asks the
    cluster for the Secret named [<name>-database] in the namespace of the
    spec, and nothing but the answer for that identifier matters. When the
    answer is not-found it draws a fresh credential, the hexadecimal form
    of the random bytes: two characters for each byte, and different bytes
    give different credentials. When the answer is a secret that holds
    [POSTGRES_PASSWORD] it reproduces the stored value. Any other failure
    of the lookup makes the builder panic, and the flight then ends in that
    panic and emits nothing. *)
Theorem C2_database_secret_lookup :
  (∀ k8s_Lookup msg buf app,
      k8s_Lookup (databaseSecretIdentifier app) = ErrNotFound msg →
      ∃ secret password,
        postgres_flight.createDatabaseSecret k8s_Lookup buf app = Returns secret ∧
        corev1.StringData secret !! "POSTGRES_PASSWORD" = Some password ∧
        password = postgres_flight.RandomString buf ∧
        String.length password = (2 * String.length buf)%nat) ∧
  (∀ buf1 buf2,
      postgres_flight.RandomString buf1 = postgres_flight.RandomString buf2 →
      buf1 = buf2) ∧
  (∀ k8s_Lookup existing b buf app,
      k8s_Lookup (databaseSecretIdentifier app) = Found existing →
      corev1.Data existing !! "POSTGRES_PASSWORD" = Some b →
      ∃ secret,
        postgres_flight.createDatabaseSecret k8s_Lookup buf app = Returns secret ∧
        corev1.StringData secret !! "POSTGRES_PASSWORD" = Some b) ∧
  (∀ k8s_Lookup msg buf app,
      k8s_Lookup (databaseSecretIdentifier app) = ErrOther msg →
      postgres_flight.createDatabaseSecret k8s_Lookup buf app
      = Panics ("failed to lookup secret: " +:+ msg)) ∧
  (∀ k8s_Lookup msg buf stdin app,
      decoded postgres_v1.Postgres_UnmarshalJSON postgres_v1.Postgres_zero stdin = Ok app →
      k8s_Lookup (databaseSecretIdentifier app) = ErrOther msg →
      postgres_flight.run k8s_Lookup buf stdin
      = Panic ("failed to lookup secret: " +:+ msg)) ∧
  (∀ k1 k2 buf app,
      k1 (databaseSecretIdentifier app) = k2 (databaseSecretIdentifier app) →
      postgres_flight.createDatabaseSecret k1 buf app
      = postgres_flight.createDatabaseSecret k2 buf app).
Proof.
  split; [|split; [|split; [|split; [|split]]]].
  - intros k8s_Lookup msg buf app Hl.
    destruct (createDatabaseSecret_not_fatal k8s_Lookup buf app) as [secret Hs];
      [by rewrite Hl|].
    exists secret, (postgres_flight.RandomString buf). split; [done|].
    apply createDatabaseSecret_Returns in Hs as (pw & -> & -> & _). rewrite Hl.
    split; [done|]. split; [done|]. apply RandomString_length.
  - apply RandomString_inj.
  - intros k8s_Lookup existing b buf app Hl Hb.
    destruct (createDatabaseSecret_not_fatal k8s_Lookup buf app) as [secret Hs];
      [by rewrite Hl|].
    exists secret. split; [done|].
    apply createDatabaseSecret_Returns in Hs as (pw & -> & -> & _). by rewrite Hl, Hb.
  - intros k8s_Lookup msg buf app. apply createDatabaseSecret_Panics.
  - intros k8s_Lookup msg buf stdin app Hdec Hl. rewrite postgres_run_decoded, Hdec.
    pose proof (postgres_build_shape k8s_Lookup buf app) as Hshape.
    cbv zeta in Hshape.
    by rewrite (createDatabaseSecret_Panics k8s_Lookup msg) in Hshape.
  - intros k1 k2 buf app. apply createDatabaseSecret_ext.
Qed.

(** C10. The database Secret the Postgres flight emits is consistent: it is
    the one Secret of the output, and its [DATABASE_URL] is
    [postgres://postgres:<password>@<name>-postgres.<namespace>.svc:5432/<name>]
    with the password it stores under [POSTGRES_PASSWORD]. *)
Theorem C10_database_url k8s_Lookup buf stdin (app : postgres_v1.Postgres) out :
  decoded postgres_v1.Postgres_UnmarshalJSON postgres_v1.Postgres_zero stdin = Ok app →
  postgres_flight.run k8s_Lookup buf stdin = Emitted out →
  ∃ secret password,
    secrets out = [secret] ∧
    corev1.StringData secret !! "POSTGRES_PASSWORD" = Some password ∧
    corev1.StringData secret !! "DATABASE_URL" =
      Some ("postgres://postgres:" +:+ password +:+ "@"
            +:+ metav1.Name (postgres_v1.ObjectMeta app) +:+ "-postgres."
            +:+ metav1.Namespace (postgres_v1.ObjectMeta app) +:+ ".svc:5432/"
            +:+ metav1.Name (postgres_v1.ObjectMeta app)).
Proof.
  intros Hdec. rewrite postgres_run_decoded, Hdec. intros Hout.
  pose proof (postgres_build_shape k8s_Lookup buf app) as Hshape. cbv zeta in Hshape.
  destruct (postgres_flight.createDatabaseSecret k8s_Lookup buf
              (postgres_flight.defaults app))
    as [secret|msg] eqn:Hsecret; [|by rewrite Hshape in Hout].
  apply createDatabaseSecret_Returns in Hsecret as (pw & _ & Hpw & Hurl & _).
  exists secret, pw. split; [|done].
  unfold secrets.
  destruct (bool_decide _).
  - destruct (postgres_flight.createStorage _) as [pvc|msg];
      rewrite Hshape in Hout; [|done]. injection Hout as <-.
    by rewrite !omap_app, omap_fmap_None.
  - rewrite Hshape in Hout. injection Hout as <-.
    by rewrite !omap_app, omap_fmap_None.
Qed.

(** ** The output of the App flight *)

Section app_output.
Import app_v1 app_flight.

(** A decoded spec always makes the App flight emit a list; its Ingress
    objects and its claims are those of the enabled blocks. *)
Lemma app_run_output lookup stdin (app : App) :
  decoded App_UnmarshalJSON App_zero stdin = Ok app →
  ∃ out,
    run lookup stdin = Emitted out ∧
    ingresses out =
      match Ingress_ (Spec app) with
      | Some i =>
          if Ingress_Enabled i
          then match createIngress lookup (defaults app) i with
               | Ok ing => [ing]
               | Err _ => []
               end
          else []
      | None => []
      end ∧
    claims out =
      match Storage_ (Spec app) with
      | Some st =>
          if Storage_Enabled st
          then match createStorage (defaults app) st with
               | Returns pvc => [pvc]
               | Panics _ => []
               end
          else []
      | None => []
      end.
Proof.
  intros Hdec. rewrite app_run_decoded, Hdec.
  apply app_decoded_valid in Hdec as (_ & _ & _ & _ & Hst & _).
  destruct (app_build_shape lookup app)
    as (ingressPart & onionPart & rolePart & Hing & Honion & Hrole & Hbuild).
  cbv zeta in Hbuild.
  assert (Hi : ingresses ingressPart =
               match Ingress_ (Spec app) with
               | Some i =>
                   if Ingress_Enabled i
                   then match createIngress lookup (defaults app) i with
                        | Ok ing => [ing]
                        | Err _ => []
                        end
                   else []
               | None => []
               end ∧ claims ingressPart = []).
  { destruct (Ingress_ (Spec app)) as [i|]; [|by subst].
    destruct (Ingress_Enabled i); [|by subst].
    destruct Hing as (ing & -> & ->). done. }
  destruct Hi as [Hi1 Hi2]. rewrite <- Hi1. clear Hi1 Hing.
  assert (Ho : ingresses onionPart = [] ∧ claims onionPart = [])
    by (by destruct Honion as [->|(o & ->)]).
  assert (Hr : ingresses rolePart = [] ∧ claims rolePart = [])
    by (by destruct Hrole as [->|(r & ->)]).
  destruct Ho as [Ho1 Ho2], Hr as [Hr1 Hr2].
  unfold ingresses, claims in *.
  destruct (Storage_ (Spec app)) as [st|].
  - destruct (Storage_Enabled st).
    + inversion Hst as [|? [_ [size Hsize]]]; subst.
      unfold createStorage in *. rewrite Hsize in *.
      eexists. split; [exact Hbuild|].
      rewrite !omap_app, !omap_fmap_None by done.
      rewrite Ho1, Ho2, Hr1, Hr2, Hi2. cbn. by rewrite !app_nil_r.
    + eexists. split; [exact Hbuild|].
      rewrite !omap_app, !omap_fmap_None by done.
      rewrite Ho1, Ho2, Hr1, Hr2, Hi2. cbn. by rewrite !app_nil_r.
  - eexists. split; [exact Hbuild|].
    rewrite !omap_app, !omap_fmap_None by done.
    rewrite Ho1, Ho2, Hr1, Hr2, Hi2. cbn. by rewrite !app_nil_r.
Qed.

(** C1. For every spec the App flight decodes, the output holds no Ingress
    when the ingress block is absent or disabled, and exactly one when it
    is enabled: its one rule and its one TLS entry name the host of the
    block, and the TLS secret is named after the host, every ['.'] replaced
    by ['-'], followed by [-public-tls]. *)
Theorem C1_ingress_gate lookup stdin (app : App) :
  decoded App_UnmarshalJSON App_zero stdin = Ok app →
  ∃ out,
    run lookup stdin = Emitted out ∧
    match Ingress_ (Spec app) with
    | Some i =>
        if Ingress_Enabled i then
          ∃ ing,
            ingresses out = [ing] ∧
            (networkingv1.Host <$> networkingv1.Rules ing) = [Ingress_Host i] ∧
            networkingv1.TLS ing =
              [ {| networkingv1.Hosts := [Ingress_Host i];
                   networkingv1.SecretName :=
                     ReplaceAll (Ingress_Host i) "." "-" +:+ "-public-tls" |} ]
        else ingresses out = []
    | None => ingresses out = []
    end.
Proof.
  intros Hdec.
  destruct (app_run_output lookup stdin app Hdec) as (out & Hout & Hing & _).
  exists out. split; [done|].
  destruct (Ingress_ (Spec app)) as [i|]; [|done].
  destruct (Ingress_Enabled i); [|done].
  destruct (createIngress_Ok lookup (defaults app) i) as (ing & Hi & _ & Htls & Hrules).
  rewrite Hi in Hing. by exists ing.
Qed.

End app_output.

(** ** Labels and selectors *)

Lemma selector_subseteq (labels sel : gmap string string) :
  sel ⊆ maps_Copy labels sel.
Proof. apply map_union_subseteq_l. Qed.

(** C6 (as amended). In each of the three flights every emitted object
    carries the labels of the spec merged with the selector label
    [app.kubernetes.io/name=<name>], and so does the pod template of the
    Deployment; the selector of the Deployment (its match labels) is the
    selector label alone, which is part of the merged map. *)
Theorem C6_labels_and_selector :
  (∀ lookup (app : app_v1.App) out,
      app_flight.build lookup app = Emitted out →
      let merged := maps_Copy (metav1.Labels (app_v1.ObjectMeta app))
                              (app_flight.selector app) in
      Forall (λ r, metav1.Labels (metadataOf r) = merged) out ∧
      Forall (λ d, appsv1.MatchLabels d = app_flight.selector app ∧
                   corev1.Template_Labels (appsv1.Template d) = merged)
             (deployments out) ∧
      app_flight.selector app ⊆ merged) ∧
  (∀ (app : valkey_v1.Valkey) out,
      valkey_flight.build app = Emitted out →
      let merged := maps_Copy (metav1.Labels (valkey_v1.ObjectMeta app))
                              (valkey_flight.selector app) in
      Forall (λ r, metav1.Labels (metadataOf r) = merged) out ∧
      Forall (λ d, appsv1.MatchLabels d = valkey_flight.selector app ∧
                   corev1.Template_Labels (appsv1.Template d) = merged)
             (deployments out) ∧
      valkey_flight.selector app ⊆ merged) ∧
  (∀ k8s_Lookup buf (app : postgres_v1.Postgres) out,
      postgres_flight.build k8s_Lookup buf app = Emitted out →
      let merged := maps_Copy (metav1.Labels (postgres_v1.ObjectMeta app))
                              (postgres_flight.selector app) in
      Forall (λ r, metav1.Labels (metadataOf r) = merged) out ∧
      Forall (λ d, appsv1.MatchLabels d = postgres_flight.selector app ∧
                   corev1.Template_Labels (appsv1.Template d) = merged)
             (deployments out) ∧
      postgres_flight.selector app ⊆ merged).
Proof.
  split; [|split].
  - intros lookup app out Hout merged.
    destruct (app_labels lookup app out Hout) as [Hall Hdep].
    repeat split; [done..|apply selector_subseteq].
  - intros app out Hout merged.
    destruct (valkey_labels app out Hout) as [Hall Hdep].
    repeat split; [done..|apply selector_subseteq].
  - intros k8s_Lookup buf app out Hout merged.
    destruct (postgres_labels k8s_Lookup buf app out Hout) as [Hall Hdep].
    repeat split; [done..|apply selector_subseteq].
Qed.

(** ** No input *)

Lemma maps_Copy_empty (src : gmap string string) : maps_Copy ∅ src = src.
Proof. unfold maps_Copy. apply (right_id_L ∅ (∪)). Qed.

(** C5 (as amended). With no input at all each flight works on the zero
    value of its spec: the App flight gives it the port 3000 and every
    flight puts the selector label (with the empty name) into the labels.
    The App flight and the Valkey flight then emit the Deployment, the
    Service and the ServiceAccount. The Postgres flight emits these and the
    database Secret when the lookup of that secret finds it or reports
    not-found; when the lookup fails for another reason the flight panics
    and emits nothing. *)
Theorem C5_empty_input :
  (∀ lookup,
      let app := app_flight.defaults app_v1.App_zero in
      app_v1.Port (app_v1.Spec app) = 3000 ∧
      metav1.Labels (app_v1.ObjectMeta app) = {[ "app.kubernetes.io/name" := "" ]} ∧
      app_flight.run lookup EndOfInput =
        Emitted [ RDeployment (app_flight.createDeployment app);
                  RService (app_flight.createService app);
                  RServiceAccount (app_flight.createServiceAccount app) ]) ∧
  (let app := valkey_flight.defaults valkey_v1.Valkey_zero in
   metav1.Labels (valkey_v1.ObjectMeta app) = {[ "app.kubernetes.io/name" := "" ]} ∧
   valkey_flight.run EndOfInput =
     Emitted [ RDeployment (valkey_flight.createDeployment app);
               RService (valkey_flight.createService app);
               RServiceAccount (valkey_flight.createServiceAccount app) ]) ∧
  (∀ k8s_Lookup buf,
      let app := postgres_flight.defaults postgres_v1.Postgres_zero in
      metav1.Labels (postgres_v1.ObjectMeta app) = {[ "app.kubernetes.io/name" := "" ]} ∧
      match postgres_flight.createDatabaseSecret k8s_Lookup buf app with
      | Returns secret =>
          (∀ cause, k8s_Lookup (databaseSecretIdentifier app) ≠ ErrOther cause) ∧
          postgres_flight.run k8s_Lookup buf EndOfInput =
            Emitted [ RDeployment (postgres_flight.createDeployment app);
                      RService (postgres_flight.createService app);
                      RSecret secret;
                      RServiceAccount (postgres_flight.createServiceAccount app) ]
      | Panics msg =>
          (∃ cause, k8s_Lookup (databaseSecretIdentifier app) = ErrOther cause) ∧
          postgres_flight.run k8s_Lookup buf EndOfInput = Panic msg
      end).
Proof.
  split; [|split].
  - intros lookup app. split; [done|]. split; [|done]. apply maps_Copy_empty.
  - split; [|done]. apply maps_Copy_empty.
  - intros k8s_Lookup buf app. split; [apply maps_Copy_empty|].
    destruct (postgres_flight.createDatabaseSecret k8s_Lookup buf app)
      as [secret|msg] eqn:Hs.
    + split.
      * intros cause Hl.
        by rewrite (createDatabaseSecret_Panics k8s_Lookup cause) in Hs.
      * unfold postgres_flight.run, Decode, postgres_flight.build. cbn.
        fold app. by rewrite Hs.
    + split.
      * unfold postgres_flight.createDatabaseSecret in Hs.
        destruct (k8s_Lookup (databaseSecretIdentifier app))
          as [existing|cause|cause]; [done..|by exists cause].
      * unfold postgres_flight.run, Decode, postgres_flight.build. cbn.
        fold app. by rewrite Hs.
Qed.

(** ** Where the decoding stops *)

Lemma foldM_first_Abort {A B} (f : B → A → Dec A) pre m post cur c s err :
  foldM f cur pre = Done c s → f m c = Abort err →
  foldM f cur (pre ++ m :: post) = Abort err.
Proof.
  revert cur s. induction pre as [|b pre IH]; intros cur s; cbn.
  - intros [= <- <-] Hm. by rewrite Hm.
  - destruct (f b cur) as [c' s'|e]; [|done]. rewrite !Dec_bind_Done.
    destruct (foldM f c' pre) as [c'' s''|e] eqn:Hpre; [|done].
    intros [= <- <-] Hm. by rewrite (IH _ _ Hpre Hm).
Qed.

Lemma foldM_some_Abort {A B} (f : B → A → Dec A) pre m post cur :
  (∀ c, ∃ err, f m c = Abort err) →
  ∃ err, foldM f cur (pre ++ m :: post) = Abort err.
Proof.
  intros Hm. destruct (foldM f cur pre) as [c s|e] eqn:Hpre.
  - destruct (Hm c) as [err Herr]. exists err. by eapply foldM_first_Abort.
  - exists e. revert cur Hpre. induction pre as [|b pre IH]; intros cur; cbn; [done|].
    destruct (f b cur) as [c' s'|e']; [|by intros [= ->]].
    rewrite !Dec_bind_Done.
    destruct (foldM f c' pre) as [c'' s''|e''] eqn:Hpre; [done|].
    intros [= ->]. by rewrite (IH _ Hpre).
Qed.

Lemma decArray_some_Abort {T} zero (dec : T → json → Dec T) before j after cur :
  (∀ c, ∃ err, dec c j = Abort err) →
  ∃ err, decArray zero dec cur (before ++ j :: after) = Abort err.
Proof.
  intros Hj. revert cur. induction before as [|j' before IH]; intros cur; cbn.
  - destruct (Hj (hd zero cur)) as [err ->]. by exists err.
  - destruct (dec (hd zero cur) j') as [x s|e]; [|by exists e].
    rewrite Dec_bind_Done. destruct (IH (tl cur)) as [err ->]. by exists err.
Qed.

Section app_stops.
Import app_v1 app_flight.

Lemma App_setField_spec v (app : App) :
  App_setField ("spec", v) app =
    (x ← decStruct "AppSpec" AppSpec_setField (Spec app) v;
     mret (Build_App (TypeMeta app) (ObjectMeta app) x)).
Proof. by destruct app as [[] ? ?]. Qed.

Lemma AppSpec_setField_secrets_Abort v (s : AppSpec) err :
  decSlice "[]v1.Secret" Secret_zero (λ c d, hook (Secret_UnmarshalJSON c d))
           (Secrets s) v = Abort err →
  AppSpec_setField ("secrets", v) s = Abort err.
Proof.
  destruct s. intros Hv.
  change (AppSpec_setField ("secrets", v) _)
    with (x ← decSlice "[]v1.Secret" Secret_zero (λ c d, hook (Secret_UnmarshalJSON c d))
                       Secrets0 v;
          mret (Build_AppSpec AutoUpdate0 Image0 ImagePullSecrets0 LogLevel0 Replicas0
                  Port0 RunAsRoot0 Env0 Healthcheck_0 Ingress_0 Onion_0 Storage_0
                  Role_0 Anubis_0 x)).
  cbn in Hv. by rewrite Hv.
Qed.

(** A document whose decoding is aborted makes the flight exit with the
    error, wrapped by the decoder, and emit nothing. *)
Lemma app_run_Abort lookup members err :
  foldM App_setField App_zero members = Abort err →
  decoded App_UnmarshalJSON App_zero (Document (JObj members))
  = Err (YAMLSyntaxError err) ∧
  run lookup (Document (JObj members)) = Exit1 (YAMLSyntaxError err).
Proof.
  intros Hm.
  assert (Hd : decoded App_UnmarshalJSON App_zero (Document (JObj members))
               = Err (YAMLSyntaxError err)).
  { unfold decoded, Decode, App_UnmarshalJSON. cbn [decStruct]. by rewrite Hm. }
  split; [done|]. by rewrite app_run_decoded, Hd.
Qed.

Lemma app_run_first_Abort lookup
    (pre post spre spost : list (string * json)) (m : string * json)
    (app : App) (spec : AppSpec) (s s' : option error) (err : error) :
  foldM App_setField App_zero pre = Done app s →
  foldM AppSpec_setField (Spec app) spre = Done spec s' →
  AppSpec_setField m spec = Abort err →
  run lookup (Document (JObj (pre ++ ("spec", JObj (spre ++ m :: spost)) :: post)))
  = Exit1 (YAMLSyntaxError err).
Proof.
  intros Hpre Hspre Hm. apply app_run_Abort.
  eapply foldM_first_Abort; [exact Hpre|].
  rewrite App_setField_spec. cbn [decStruct].
  by rewrite (foldM_first_Abort _ _ _ _ _ _ _ _ Hspre Hm).
Qed.

(** C3 (as amended). The decoding of a document stops at the first member
    whose hook reports a violation: when the members before a member [m] of
    the spec decode without one and [m] is rejected with [err], the flight
    reports [err] and nothing else, whatever members follow and whatever
    they violate. (The members are those of the JSON the document converts
    to, where the keys of a mapping come sorted: which violation is the
    first does not depend on the order in the YAML source.) *)
Theorem C3_first_violation_only lookup
    (pre post spre spost : list (string * json)) (m : string * json)
    (app : App) (spec : AppSpec) (s s' : option error) (err : error) :
  foldM App_setField App_zero pre = Done app s →
  foldM AppSpec_setField (Spec app) spre = Done spec s' →
  AppSpec_setField m spec = Abort err →
  run lookup (Document (JObj (pre ++ ("spec", JObj (spre ++ m :: spost)) :: post)))
  = Exit1 (YAMLSyntaxError err).
Proof. apply app_run_first_Abort. Qed.

Lemma decPtr_not_null {T} zero (dec : T → json → Dec T) cur j :
  j ≠ JNull → decPtr zero dec cur j = (v ← dec (default zero cur) j; mret (Some v)).
Proof. by destruct j. Qed.

Lemma AppSpec_setField_storage_Abort v (s : AppSpec) err :
  decPtr Storage_zero (λ c d, hook (Storage_UnmarshalJSON c d)) (Storage_ s) v = Abort err →
  AppSpec_setField ("storage", v) s = Abort err.
Proof.
  destruct s. intros Hv.
  change (AppSpec_setField ("storage", v) _)
    with (x ← decPtr Storage_zero (λ c d, hook (Storage_UnmarshalJSON c d)) Storage_0 v;
          mret (Build_AppSpec AutoUpdate0 Image0 ImagePullSecrets0 LogLevel0 Replicas0
                  Port0 RunAsRoot0 Env0 Healthcheck_0 Ingress_0 Onion_0 x
                  Role_0 Anubis_0 Secrets0)).
  cbn in Hv. by rewrite Hv.
Qed.

(** The hook of [Storage] parses the size whether or not the block is
    enabled, and the empty string is no quantity. *)
Lemma app_Storage_disabled_empty_size cur block st :
  Unmarshal (decStruct "StorageAlt" Storage_setField cur block) = Ok st →
  Storage_Enabled st = false → Storage_Size st = "" →
  Storage_UnmarshalJSON cur block = Err (Errorf ("invalid size: " +:+ ErrFormatWrong)).
Proof.
  intros Hst Hen Hsize. unfold Storage_UnmarshalJSON. rewrite Hst. cbn.
  by rewrite Hen, Hsize, ParseQuantity_empty.
Qed.

(** A document of the App flight in which some entry of [spec.secrets]
    decodes, if it decodes at all, to a reference with both [environment]
    and [folder] true is never accepted: the decoding fails and the flight
    exits with the error, having built nothing. *)
Lemma app_secret_both_flags lookup
    (pre post spre spost : list (string * json)) (before after : list json)
    (sec : json) :
  (∀ cur s, Unmarshal (decStruct "SecretAlt" Secret_setField cur sec) = Ok s →
            Secret_Environment s = true ∧ Secret_Folder s = true) →
  let doc :=
    JObj (pre ++ ("spec", JObj (spre ++ ("secrets", JArr (before ++ sec :: after)) :: spost))
              :: post) in
  ∃ err,
    decoded App_UnmarshalJSON App_zero (Document doc) = Err err ∧
    run lookup (Document doc) = Exit1 err.
Proof.
  intros Hsec doc.
  assert (Hhook : ∀ c, ∃ err, hook (Secret_UnmarshalJSON c sec) = Abort err).
  { intros c. unfold Secret_UnmarshalJSON.
    destruct (Unmarshal _) as [x|e] eqn:Hx; [|by exists e]. cbn.
    destruct (Hsec c x Hx) as [-> ->].
    case_bool_decide; by eexists. }
  assert (Hspec : ∀ c, ∃ err,
             AppSpec_setField ("secrets", JArr (before ++ sec :: after)) c = Abort err).
  { intros c.
    destruct (decArray_some_Abort Secret_zero
                (λ c d, hook (Secret_UnmarshalJSON c d)) before sec after (Secrets c) Hhook)
      as [err Herr].
    exists err. by apply AppSpec_setField_secrets_Abort. }
  assert (Happ : ∀ a, ∃ err,
             App_setField
               ("spec", JObj (spre ++ ("secrets", JArr (before ++ sec :: after)) :: spost)) a
             = Abort err).
  { intros a. rewrite App_setField_spec. cbn [decStruct].
    destruct (foldM_some_Abort AppSpec_setField spre _ spost (Spec a) Hspec) as [err ->].
    by exists err. }
  destruct (foldM_some_Abort App_setField pre _ post App_zero Happ) as [err Herr].
  exists (YAMLSyntaxError err). by apply app_run_Abort.
Qed.

End app_stops.

(** ** The storage block when it is disabled *)

Section valkey_stops.
Import valkey_v1 valkey_flight.

Lemma Valkey_setField_spec v (app : Valkey) :
  Valkey_setField ("spec", v) app =
    (x ← decStruct "ValkeySpec" ValkeySpec_setField (Spec app) v;
     mret (Build_Valkey (TypeMeta app) (ObjectMeta app) x)).
Proof. by destruct app as [[] ? ?]. Qed.

Lemma ValkeySpec_setField_storage v (s : ValkeySpec) :
  ValkeySpec_setField ("storage", v) s =
    (x ← decPtr Storage_zero (λ c d, hook (Storage_UnmarshalJSON c d)) (Storage_ s) v;
     mret (Build_ValkeySpec (Env s) (Healthcheck s) x (Secrets s))).
Proof. by destruct s. Qed.

Lemma valkey_run_Abort members err :
  foldM Valkey_setField Valkey_zero members = Abort err →
  run (Document (JObj members)) = Exit1 (YAMLSyntaxError err).
Proof.
  intros Hm. rewrite valkey_run_decoded.
  unfold decoded, Decode, Valkey_UnmarshalJSON. cbn [decStruct]. by rewrite Hm.
Qed.

Lemma valkey_run_first_Abort
    (pre post spre spost : list (string * json)) (m : string * json)
    (app : Valkey) (spec : ValkeySpec) (s s' : option error) (err : error) :
  foldM Valkey_setField Valkey_zero pre = Done app s →
  foldM ValkeySpec_setField (Spec app) spre = Done spec s' →
  ValkeySpec_setField m spec = Abort err →
  run (Document (JObj (pre ++ ("spec", JObj (spre ++ m :: spost)) :: post)))
  = Exit1 (YAMLSyntaxError err).
Proof.
  intros Hpre Hspre Hm. apply valkey_run_Abort.
  eapply foldM_first_Abort; [exact Hpre|].
  rewrite Valkey_setField_spec. cbn [decStruct].
  by rewrite (foldM_first_Abort _ _ _ _ _ _ _ _ Hspre Hm).
Qed.

Lemma valkey_Storage_disabled_empty_size cur block st :
  Unmarshal (decStruct "StorageAlt" Storage_setField cur block) = Ok st →
  Storage_Enabled st = false → Storage_Size st = "" →
  Storage_UnmarshalJSON cur block = Err (Errorf ("invalid size: " +:+ ErrFormatWrong)).
Proof.
  intros Hst Hen Hsize. unfold Storage_UnmarshalJSON. rewrite Hst. cbn.
  by rewrite Hen, Hsize, ParseQuantity_empty.
Qed.

(** What the hook of the Valkey [Storage] accepts: a size that parses, and
    that is not empty when the block is enabled. *)
Lemma valkey_Storage_UnmarshalJSON_Ok s data s' :
  Storage_UnmarshalJSON s data = Ok s' →
  (Storage_Enabled s' = true → Storage_Size s' ≠ "") ∧
  ∃ size, ParseQuantity (Storage_Size s') = inl size.
Proof.
  unfold Storage_UnmarshalJSON.
  destruct (Unmarshal _) as [x|e]; [|done]. cbn.
  destruct (Storage_Enabled x && bool_decide (Storage_Size x = "")) eqn:Hsize; [done|].
  destruct (ParseQuantity (Storage_Size x)) as [size|err] eqn:Hq; [|done].
  intros [= <-]. split; [|by exists size].
  intros Hen. rewrite Hen in Hsize. cbn in *. intros Heq. by rewrite Heq in *.
Qed.

(** With the storage block absent or disabled the Valkey flight emits no
    claim. *)
Lemma valkey_disabled_no_claim (app : Valkey) :
  match Storage_ (Spec app) with
  | Some st => Storage_Enabled st = false
  | None => True
  end →
  ∃ out, build app = Emitted out ∧ claims out = [].
Proof.
  intros Hst. unfold build. rewrite foldl_snoc.
  change (Storage_ (Spec (defaults app))) with (Storage_ (Spec app)).
  destruct (Storage_ (Spec app)) as [st|]; [rewrite Hst|];
    (eexists; split; [done|]); unfold claims;
    by rewrite !omap_app, omap_fmap_None.
Qed.

End valkey_stops.

(** With the storage block absent or disabled the App flight emits no
    claim. *)
Lemma app_disabled_no_claim lookup stdin (app : app_v1.App) :
  decoded app_v1.App_UnmarshalJSON app_v1.App_zero stdin = Ok app →
  match app_v1.Storage_ (app_v1.Spec app) with
  | Some st => app_v1.Storage_Enabled st = false
  | None => True
  end →
  ∃ out, app_flight.run lookup stdin = Emitted out ∧ claims out = [].
Proof.
  intros Hdec Hst.
  destruct (app_run_output lookup stdin app Hdec) as (out & Hout & _ & Hclaims).
  exists out. split; [done|]. rewrite Hclaims.
  destruct (app_v1.Storage_ (app_v1.Spec app)) as [st|]; [by rewrite Hst|done].
Qed.

(** C7. A storage block that is present and disabled and has no size is
    not accepted, by the App flight or by the Valkey flight: the hook
    parses the size whatever [enabled] says, the parser rejects the empty
    string, and the flight exits with [invalid size]. *)
Theorem C7_disabled_storage_empty_size_rejected :
  (∀ lookup (pre post spre spost : list (string * json)) (block : json)
      (app : app_v1.App) (spec : app_v1.AppSpec) (s s' : option error)
      (st : app_v1.Storage),
      foldM app_v1.App_setField app_v1.App_zero pre = Done app s →
      foldM app_v1.AppSpec_setField (app_v1.Spec app) spre = Done spec s' →
      block ≠ JNull →
      Unmarshal (decStruct "StorageAlt" app_v1.Storage_setField
                   (default app_v1.Storage_zero (app_v1.Storage_ spec)) block) = Ok st →
      app_v1.Storage_Enabled st = false →
      app_v1.Storage_Size st = "" →
      app_flight.run lookup
        (Document (JObj (pre ++ ("spec", JObj (spre ++ ("storage", block) :: spost)) :: post)))
      = Exit1 (YAMLSyntaxError (Errorf ("invalid size: " +:+ ErrFormatWrong)))) ∧
  (∀ (pre post spre spost : list (string * json)) (block : json)
      (app : valkey_v1.Valkey) (spec : valkey_v1.ValkeySpec) (s s' : option error)
      (st : valkey_v1.Storage),
      foldM valkey_v1.Valkey_setField valkey_v1.Valkey_zero pre = Done app s →
      foldM valkey_v1.ValkeySpec_setField (valkey_v1.Spec app) spre = Done spec s' →
      block ≠ JNull →
      Unmarshal (decStruct "StorageAlt" valkey_v1.Storage_setField
                   (default valkey_v1.Storage_zero (valkey_v1.Storage_ spec)) block) = Ok st →
      valkey_v1.Storage_Enabled st = false →
      valkey_v1.Storage_Size st = "" →
      valkey_flight.run
        (Document (JObj (pre ++ ("spec", JObj (spre ++ ("storage", block) :: spost)) :: post)))
      = Exit1 (YAMLSyntaxError (Errorf ("invalid size: " +:+ ErrFormatWrong)))).
Proof.
  split.
  - intros lookup pre post spre spost block app spec s s' st Hpre Hspre Hnull Hst Hen Hsize.
    eapply app_run_first_Abort; [exact Hpre|exact Hspre|].
    apply AppSpec_setField_storage_Abort.
    rewrite decPtr_not_null by done.
    by rewrite (app_Storage_disabled_empty_size _ _ _ Hst Hen Hsize).
  - intros pre post spre spost block app spec s s' st Hpre Hspre Hnull Hst Hen Hsize.
    eapply valkey_run_first_Abort; [exact Hpre|exact Hspre|].
    rewrite ValkeySpec_setField_storage, decPtr_not_null by done.
    by rewrite (valkey_Storage_disabled_empty_size _ _ _ Hst Hen Hsize).
Qed.

(** ** Encoding an App and decoding it again

    The encoder writes the members of a struct in the order of its fields
    and leaves out the empty ones that are tagged [omitempty]; the decoder
    starts from the zero value, so a field that was left out keeps its
    zero value, which is the value it had. *)

Lemma foldM_cons_step {A B} (f : B → A → Dec A) cur c b l r :
  f b cur = Done c None → foldM f c l = r → foldM f cur (b :: l) = r.
Proof. intros Hb <-. cbn. rewrite Hb, Dec_bind_Done. by destruct (foldM f c l) as [? []|]. Qed.

Lemma foldM_omitempty_step {A} (f : string * json → A → Dec A) cur c (empty : bool) tag v l r :
  (if empty then c = cur else f (tag, v) cur = Done c None) →
  foldM f c l = r → foldM f cur (omitempty empty tag v ++ l) = r.
Proof.
  destruct empty; cbn [omitempty app]; [by intros ->|]. apply foldM_cons_step.
Qed.

Lemma foldM_omitempty_last {A} (f : string * json → A → Dec A) cur c (empty : bool) tag v :
  (if empty then c = cur else f (tag, v) cur = Done c None) →
  foldM f cur (omitempty empty tag v) = Done c None.
Proof.
  destruct empty; cbn [omitempty]; [by intros ->|]. intros Hc.
  by apply (foldM_cons_step _ _ c).
Qed.

Lemma Dec_bind_step {A B} (m : Dec A) (k : A → Dec B) x r :
  m = Done x None → k x = r → m ≫= k = r.
Proof. intros -> <-. rewrite Dec_bind_Done. by destruct (k x) as [? []|]. Qed.

Lemma decArray_fmap {T} zero (dec : T → json → Dec T) (enc : T → json) (l : list T) :
  (∀ x, x ∈ l → dec zero (enc x) = Done x None) →
  decArray zero dec [] (enc <$> l) = Done l None.
Proof.
  induction l as [|x l IH]; intros Hdec; [done|]. cbn.
  rewrite Hdec by left. rewrite Dec_bind_Done.
  rewrite IH; [done|]. intros y Hy. apply Hdec. by right.
Qed.

Lemma decSlice_fmap {T} type zero (dec : T → json → Dec T) (enc : T → json) (l : list T) :
  (∀ x, x ∈ l → dec zero (enc x) = Done x None) →
  decSlice type zero dec [] (JArr (enc <$> l)) = Done l None.
Proof. apply decArray_fmap. Qed.

Lemma decStrings_encStrings (l : list string) :
  decSlice "[]string" "" decString [] (encStrings l) = Done l None.
Proof. by apply decSlice_fmap. Qed.

Lemma decInt_JNum bits type cur n :
  inRange bits n = true → decInt bits type cur (JNum n) = Done n None.
Proof. intros Hn. unfold decInt. by rewrite Hn. Qed.

Lemma decPtr_encPtr {T} zero (dec : T → json → Dec T) (enc : T → json) x :
  enc x ≠ JNull → dec zero (enc x) = Done x None →
  decPtr zero dec None (encPtr enc (Some x)) = Done (Some x) None.
Proof. intros Hj Hx. cbn [encPtr]. rewrite decPtr_not_null by done. cbn. by rewrite Hx. Qed.

Lemma foldl_insert_list_to_map (l : list (string * string)) (acc : gmap string string) :
  NoDup l.*1 →
  foldl (λ m kv, <[kv.1 := kv.2]> m) acc l = list_to_map l ∪ acc.
Proof.
  revert acc. induction l as [|[k v] l IH]; intros acc Hnd; cbn.
  - by rewrite (left_id_L ∅ (∪)).
  - apply NoDup_cons in Hnd as [Hk Hnd]. rewrite IH by done.
    rewrite <- insert_union_l. symmetry. apply insert_union_r.
    by apply not_elem_of_list_to_map_1.
Qed.

Lemma decMap_members (l : list (string * string)) (acc : gmap string string) :
  foldM (λ '(k, v) m, s ← decString "" v; mret (<[k := s]> m)) acc (prod_map id JStr <$> l)
  = Done (foldl (λ m kv, <[kv.1 := kv.2]> m) acc l) None.
Proof.
  revert acc. induction l as [|[k v] l IH]; intros acc; [done|]. cbn.
  rewrite IH. done.
Qed.

Lemma decMap_encMap (m : gmap string string) : decMap ∅ (encMap m) = Done m None.
Proof.
  unfold encMap. cbn. rewrite decMap_members. f_equal.
  assert (Hperm : merge_sort keyLe (map_to_list m) ≡ₚ map_to_list m)
    by apply merge_sort_Permutation.
  rewrite foldl_insert_list_to_map.
  - rewrite (right_id_L ∅ (∪)).
    rewrite (list_to_map_proper _ (map_to_list m)); [apply list_to_map_to_list| |done].
    rewrite Hperm. apply NoDup_fst_map_to_list.
  - rewrite Hperm. apply NoDup_fst_map_to_list.
Qed.

(** One member of an encoded struct: the setter of the field named by the
    member decodes the value with the decoder of the field, which [Hdec]
    describes. *)
Ltac set_field Hdec := refine (Dec_bind_step _ _ _ _ Hdec _); reflexivity.

Lemma ObjectMeta_roundtrip (m : metav1.ObjectMeta) :
  metav1.ObjectMeta_dec metav1.ObjectMeta_zero (metav1.ObjectMeta_enc m) = Done m None.
Proof.
  destruct m as [name ns labels annotations].
  unfold metav1.ObjectMeta_dec, metav1.ObjectMeta_enc, metav1.ObjectMeta_zero.
  cbn [decStruct metav1.Name metav1.Namespace metav1.Labels metav1.Annotations].
  apply (foldM_omitempty_step _ _ (metav1.Build_ObjectMeta name "" ∅ ∅)).
  { case_bool_decide; by subst. }
  apply (foldM_omitempty_step _ _ (metav1.Build_ObjectMeta name ns ∅ ∅)).
  { case_bool_decide; by subst. }
  apply (foldM_omitempty_step _ _ (metav1.Build_ObjectMeta name ns labels ∅)).
  { case_bool_decide; [by subst|]. set_field (decMap_encMap labels). }
  apply foldM_omitempty_last.
  case_bool_decide; [by subst|]. set_field (decMap_encMap annotations).
Qed.

Section app_roundtrip.
Import app_v1.

Lemma Healthcheck_roundtrip (h : Healthcheck) :
  Healthcheck_valid h →
  Healthcheck_UnmarshalJSON Healthcheck_zero (Healthcheck_enc h) = Ok h.
Proof.
  destruct h as [enabled path port kind]. intros [Hport Hpath]. cbn in Hport, Hpath.
  unfold Healthcheck_UnmarshalJSON.
  assert (Hdec : decStruct "HealthcheckAlt" Healthcheck_setField Healthcheck_zero
                   (Healthcheck_enc (Build_Healthcheck enabled path port kind))
                 = Done (Build_Healthcheck enabled path port kind) None).
  { unfold Healthcheck_enc, Healthcheck_zero.
    cbn [decStruct Healthcheck_Enabled Healthcheck_Path Healthcheck_Port Healthcheck_Kind app].
    apply (foldM_cons_step _ _ (Build_Healthcheck enabled "" 0 "")); [done|].
    apply (foldM_omitempty_step _ _ (Build_Healthcheck enabled path 0 "")).
    { case_bool_decide; by subst. }
    apply (foldM_omitempty_step _ _ (Build_Healthcheck enabled path port "")).
    { case_bool_decide; [by subst|]. set_field (decInt_JNum intBits "int" 0 port Hport). }
    apply foldM_omitempty_last. case_bool_decide; by subst. }
  rewrite Hdec. cbn.
  destruct enabled; cbn; [|done]. case_bool_decide; [|done]. by destruct Hpath.
Qed.

Lemma Ingress_roundtrip (i : Ingress) :
  Ingress_valid i → Ingress_UnmarshalJSON Ingress_zero (Ingress_enc i) = Ok i.
Proof.
  destruct i as [enabled kind host issuer class rules annotations].
  intros Hvalid. unfold Ingress_valid in Hvalid. cbn in Hvalid.
  unfold Ingress_UnmarshalJSON.
  assert (Hdec : decStruct "IngressAlt" Ingress_setField Ingress_zero
                   (Ingress_enc (Build_Ingress enabled kind host issuer class rules annotations))
                 = Done (Build_Ingress enabled kind host issuer class rules annotations) None).
  { unfold Ingress_enc, Ingress_zero.
    cbn [decStruct Ingress_Enabled Ingress_Kind Ingress_Host Ingress_ClusterIssuer
         Ingress_ClassName Ingress_EnableCoreRules Ingress_Annotations app].
    apply (foldM_cons_step _ _ (Build_Ingress enabled "" "" "" "" false ∅)); [done|].
    apply (foldM_cons_step _ _ (Build_Ingress enabled kind "" "" "" false ∅)); [done|].
    apply (foldM_cons_step _ _ (Build_Ingress enabled kind host "" "" false ∅)); [done|].
    apply (foldM_omitempty_step _ _ (Build_Ingress enabled kind host issuer "" false ∅)).
    { case_bool_decide; by subst. }
    apply (foldM_omitempty_step _ _ (Build_Ingress enabled kind host issuer class false ∅)).
    { case_bool_decide; by subst. }
    apply (foldM_omitempty_step _ _ (Build_Ingress enabled kind host issuer class rules ∅)).
    { by destruct rules. }
    apply foldM_omitempty_last.
    case_bool_decide; [by subst|]. set_field (decMap_encMap annotations). }
  rewrite Hdec. cbn.
  destruct enabled; cbn; [|done].
  destruct Hvalid as (Hhost & Hissuer & Hclass); [done|].
  by rewrite !bool_decide_eq_false_2.
Qed.

Lemma Secret_roundtrip (s : Secret) :
  Secret_valid s → Secret_UnmarshalJSON Secret_zero (Secret_enc s) = Ok s.
Proof.
  destruct s as [name itemPath environment folder].
  intros [Hpath Hboth]. cbn in Hpath, Hboth.
  unfold Secret_UnmarshalJSON.
  assert (Hdec : decStruct "SecretAlt" Secret_setField Secret_zero
                   (Secret_enc (Build_Secret name itemPath environment folder))
                 = Done (Build_Secret name itemPath environment folder) None).
  { unfold Secret_enc, Secret_zero.
    cbn [decStruct Secret_Name Secret_ItemPath Secret_Environment Secret_Folder app].
    apply (foldM_cons_step _ _ (Build_Secret name "" false false)); [done|].
    apply (foldM_cons_step _ _ (Build_Secret name itemPath false false)); [done|].
    apply (foldM_omitempty_step _ _ (Build_Secret name itemPath environment false)).
    { by destruct environment. }
    apply foldM_omitempty_last. by destruct folder. }
  rewrite Hdec. cbn. rewrite bool_decide_eq_false_2 by done.
  destruct environment, folder; try done. by destruct Hboth.
Qed.

Lemma Onion_roundtrip (o : Onion) :
  Onion_UnmarshalJSON Onion_zero (Onion_enc o) = Ok o.
Proof.
  destruct o as [enabled nonAnonymous haproxy pow].
  unfold Onion_UnmarshalJSON.
  assert (Hdec : decStruct "OnionAlt" Onion_setField Onion_zero
                   (Onion_enc (Build_Onion enabled nonAnonymous haproxy pow))
                 = Done (Build_Onion enabled nonAnonymous haproxy pow) None).
  { unfold Onion_enc, Onion_zero.
    cbn [decStruct Onion_Enabled Onion_NonAnonymous Onion_Haproxy Onion_ProofOfWorkDefense app].
    apply (foldM_cons_step _ _ (Build_Onion enabled false false false)); [done|].
    apply (foldM_omitempty_step _ _ (Build_Onion enabled nonAnonymous false false)).
    { by destruct nonAnonymous. }
    apply (foldM_omitempty_step _ _ (Build_Onion enabled nonAnonymous haproxy false)).
    { by destruct haproxy. }
    apply foldM_omitempty_last. by destruct pow. }
  by rewrite Hdec.
Qed.

Lemma Storage_roundtrip (s : Storage) :
  Storage_valid s → Storage_UnmarshalJSON Storage_zero (Storage_enc s) = Ok s.
Proof.
  destruct s as [enabled path size class].
  intros [Hen [q Hq]]. cbn in Hen, Hq.
  unfold Storage_UnmarshalJSON.
  assert (Hdec : decStruct "StorageAlt" Storage_setField Storage_zero
                   (Storage_enc (Build_Storage enabled path size class))
                 = Done (Build_Storage enabled path size class) None).
  { unfold Storage_enc, Storage_zero.
    cbn [decStruct Storage_Enabled Storage_Path Storage_Size Storage_StorageClass app].
    apply (foldM_cons_step _ _ (Build_Storage enabled "" "" None)); [done|].
    apply (foldM_cons_step _ _ (Build_Storage enabled path "" None)); [done|].
    apply (foldM_cons_step _ _ (Build_Storage enabled path size None)); [done|].
    apply foldM_omitempty_last. by destruct class. }
  rewrite Hdec. cbn. rewrite Hq.
  destruct enabled; cbn; [|done].
  destruct Hen as [Hpath Hsize]; [done|].
  by rewrite !bool_decide_eq_false_2.
Qed.

Lemma PolicyRule_roundtrip (r : rbacv1.PolicyRule) :
  rbacv1.PolicyRule_dec rbacv1.PolicyRule_zero (rbacv1.PolicyRule_enc r) = Done r None.
Proof.
  destruct r as [verbs groups resources names urls].
  unfold rbacv1.PolicyRule_dec, rbacv1.PolicyRule_enc, rbacv1.PolicyRule_zero.
  cbn [decStruct rbacv1.Verbs rbacv1.APIGroups rbacv1.Resources rbacv1.ResourceNames
       rbacv1.NonResourceURLs app].
  apply (foldM_cons_step _ _ (rbacv1.Build_PolicyRule verbs [] [] [] [])).
  { set_field (decStrings_encStrings verbs). }
  apply (foldM_omitempty_step _ _ (rbacv1.Build_PolicyRule verbs groups [] [] [])).
  { destruct groups as [|x groups]; [done|]. set_field (decStrings_encStrings (x :: groups)). }
  apply (foldM_omitempty_step _ _ (rbacv1.Build_PolicyRule verbs groups resources [] [])).
  { destruct resources as [|x resources]; [done|].
    set_field (decStrings_encStrings (x :: resources)). }
  apply (foldM_omitempty_step _ _ (rbacv1.Build_PolicyRule verbs groups resources names [])).
  { destruct names as [|x names]; [done|]. set_field (decStrings_encStrings (x :: names)). }
  apply foldM_omitempty_last.
  destruct urls as [|x urls]; [done|]. set_field (decStrings_encStrings (x :: urls)).
Qed.

Lemma Role_roundtrip (r : Role) : Role_dec Role_zero (Role_enc r) = Done r None.
Proof.
  destruct r as [enabled rules].
  unfold Role_dec, Role_enc, Role_zero. cbn [decStruct Role_Enabled Role_Rules app].
  apply (foldM_cons_step _ _ (Build_Role enabled [])); [done|].
  apply foldM_omitempty_last.
  destruct rules as [|x rules]; [done|].
  set_field (decSlice_fmap "[]v1.PolicyRule" rbacv1.PolicyRule_zero rbacv1.PolicyRule_dec
               rbacv1.PolicyRule_enc (x :: rules) (λ r _, PolicyRule_roundtrip r)).
Qed.

Lemma AnubisSettings_roundtrip difficulty robots :
  inRange intBits difficulty = true →
  decStruct "struct" AnubisSettings_setField (Build_AnubisSettings 0 false)
    (JObj [("difficulty", JNum difficulty); ("serveRobotsTXT", JBool robots)])
  = Done (Build_AnubisSettings difficulty robots) None.
Proof.
  intros Hd. cbn [decStruct].
  apply (foldM_cons_step _ _ (Build_AnubisSettings difficulty false)).
  { set_field (decInt_JNum intBits "int" 0 difficulty Hd). }
  by apply (foldM_cons_step _ _ (Build_AnubisSettings difficulty robots)).
Qed.

Lemma Anubis_roundtrip (a : Anubis) :
  Anubis_valid a → Anubis_dec Anubis_zero (Anubis_enc a) = Done a None.
Proof.
  destruct a as [enabled [difficulty robots]]. intros Hd. unfold Anubis_valid in Hd. cbn in Hd.
  unfold Anubis_dec, Anubis_enc, Anubis_zero.
  cbn [decStruct Anubis_Enabled Anubis_Settings Settings_Difficulty Settings_ServeRobotsTxt
       app].
  apply (foldM_cons_step _ _ (Build_Anubis enabled (Build_AnubisSettings 0 false))); [done|].
  apply foldM_omitempty_last.
  destruct (AnubisSettings_isZero _) eqn:Hz.
  - apply andb_prop in Hz as [Hdifficulty Hrobots].
    apply bool_decide_eq_true in Hdifficulty. apply negb_true_iff in Hrobots.
    cbn in Hdifficulty, Hrobots. by subst.
  - set_field (AnubisSettings_roundtrip difficulty robots Hd).
Qed.

Lemma EnvVar_roundtrip (e : corev1.EnvVar) :
  corev1.EnvVar_dec corev1.EnvVar_zero (corev1.EnvVar_enc e) = Done e None.
Proof.
  destruct e as [name value from].
  unfold corev1.EnvVar_dec, corev1.EnvVar_enc, corev1.EnvVar_zero.
  cbn [decStruct corev1.EnvVar_Name corev1.EnvVar_Value corev1.EnvVar_ValueFrom app].
  apply (foldM_cons_step _ _ (corev1.Build_EnvVar name "" None)); [done|].
  apply (foldM_omitempty_step _ _ (corev1.Build_EnvVar name value None)).
  { case_bool_decide; by subst. }
  apply foldM_omitempty_last.
  destruct from as [src|]; [|done].
  set_field (decPtr_encPtr EnvVarSource_zero EnvVarSource_dec EnvVarSource_enc src
               (EnvVarSource_enc_not_null src) (EnvVarSource_roundtrip src)).
Qed.

(** A block behind a pointer, decoded by its hook. *)
Lemma decPtr_hook {T} zero (UnmarshalJSON : T → json → result T) (enc : T → json) x :
  enc x ≠ JNull → UnmarshalJSON zero (enc x) = Ok x →
  decPtr zero (λ c d, hook (UnmarshalJSON c d)) None (encPtr enc (Some x)) = Done (Some x) None.
Proof. intros Hx Hok. apply decPtr_encPtr; [done|]. by rewrite Hok. Qed.

(** A slice of blocks, each decoded by its hook. *)
Lemma decSlice_hook {T} type zero (UnmarshalJSON : T → json → result T) (enc : T → json) l :
  (∀ x, x ∈ l → UnmarshalJSON zero (enc x) = Ok x) →
  decSlice type zero (λ c d, hook (UnmarshalJSON c d)) [] (JArr (enc <$> l)) = Done l None.
Proof. intros Hl. apply decSlice_fmap. intros x Hx. by rewrite Hl. Qed.

Lemma AppSpec_roundtrip (s : AppSpec) :
  AppSpec_valid s →
  decStruct "AppSpec" AppSpec_setField AppSpec_zero (AppSpec_enc s) = Done s None.
Proof.
  destruct s as [autoUpdate image pullSecrets logLevel replicas port runAsRoot env
                 healthcheck ingress onion storage role anubis secrets].
  intros (Hreplicas & Hport & Hhealthcheck & Hingress & Hstorage & Hanubis & Hsecrets).
  cbn in Hreplicas, Hport, Hhealthcheck, Hingress, Hstorage, Hanubis, Hsecrets.
  unfold AppSpec_enc, AppSpec_zero.
  cbn [decStruct AutoUpdate Image ImagePullSecrets LogLevel Replicas Port RunAsRoot Env
       Healthcheck_ Ingress_ Onion_ Storage_ Role_ Anubis_ Secrets app].
  apply (foldM_omitempty_step _ _
           (Build_AppSpec autoUpdate "" [] "" 0 0 false []
              None None None None None None [])).
  { by destruct autoUpdate. }
  apply (foldM_cons_step _ _
           (Build_AppSpec autoUpdate image [] "" 0 0 false []
              None None None None None None [])); [done|].
  apply (foldM_omitempty_step _ _
           (Build_AppSpec autoUpdate image pullSecrets "" 0 0 false []
              None None None None None None [])).
  { destruct pullSecrets as [|x pullSecrets]; [done|].
    set_field (decStrings_encStrings (x :: pullSecrets)). }
  apply (foldM_omitempty_step _ _
           (Build_AppSpec autoUpdate image pullSecrets logLevel 0 0 false []
              None None None None None None [])).
  { case_bool_decide; by subst. }
  apply (foldM_omitempty_step _ _
           (Build_AppSpec autoUpdate image pullSecrets logLevel replicas 0 false []
              None None None None None None [])).
  { case_bool_decide; [by subst|]. set_field (decInt_JNum 32 "int32" 0 replicas Hreplicas). }
  apply (foldM_omitempty_step _ _
           (Build_AppSpec autoUpdate image pullSecrets logLevel replicas port false []
              None None None None None None [])).
  { case_bool_decide; [by subst|]. set_field (decInt_JNum intBits "int" 0 port Hport). }
  apply (foldM_omitempty_step _ _
           (Build_AppSpec autoUpdate image pullSecrets logLevel replicas port runAsRoot []
              None None None None None None [])).
  { by destruct runAsRoot. }
  apply (foldM_omitempty_step _ _
           (Build_AppSpec autoUpdate image pullSecrets logLevel replicas port runAsRoot env
              None None None None None None [])).
  { destruct env as [|x env]; [done|].
    set_field (decSlice_fmap "[]v1.EnvVar" corev1.EnvVar_zero corev1.EnvVar_dec
                 corev1.EnvVar_enc (x :: env) (λ e _, EnvVar_roundtrip e)). }
  apply (foldM_omitempty_step _ _
           (Build_AppSpec autoUpdate image pullSecrets logLevel replicas port runAsRoot env
              healthcheck None None None None None [])).
  { destruct healthcheck as [x|]; [|done]. apply option_Forall_from_option in Hhealthcheck.
    set_field (decPtr_hook Healthcheck_zero Healthcheck_UnmarshalJSON Healthcheck_enc x
                 ltac:(done) (Healthcheck_roundtrip x Hhealthcheck)). }
  apply (foldM_omitempty_step _ _
           (Build_AppSpec autoUpdate image pullSecrets logLevel replicas port runAsRoot env
              healthcheck ingress None None None None [])).
  { destruct ingress as [x|]; [|done]. apply option_Forall_from_option in Hingress.
    set_field (decPtr_hook Ingress_zero Ingress_UnmarshalJSON Ingress_enc x
                 ltac:(done) (Ingress_roundtrip x Hingress)). }
  apply (foldM_omitempty_step _ _
           (Build_AppSpec autoUpdate image pullSecrets logLevel replicas port runAsRoot env
              healthcheck ingress onion None None None [])).
  { destruct onion as [x|]; [|done].
    set_field (decPtr_hook Onion_zero Onion_UnmarshalJSON Onion_enc x
                 ltac:(done) (Onion_roundtrip x)). }
  apply (foldM_omitempty_step _ _
           (Build_AppSpec autoUpdate image pullSecrets logLevel replicas port runAsRoot env
              healthcheck ingress onion storage None None [])).
  { destruct storage as [x|]; [|done]. apply option_Forall_from_option in Hstorage.
    set_field (decPtr_hook Storage_zero Storage_UnmarshalJSON Storage_enc x
                 ltac:(done) (Storage_roundtrip x Hstorage)). }
  apply (foldM_omitempty_step _ _
           (Build_AppSpec autoUpdate image pullSecrets logLevel replicas port runAsRoot env
              healthcheck ingress onion storage role None [])).
  { destruct role as [x|]; [|done].
    set_field (decPtr_encPtr Role_zero Role_dec Role_enc x ltac:(done) (Role_roundtrip x)). }
  apply (foldM_omitempty_step _ _
           (Build_AppSpec autoUpdate image pullSecrets logLevel replicas port runAsRoot env
              healthcheck ingress onion storage role anubis [])).
  { destruct anubis as [x|]; [|done]. apply option_Forall_from_option in Hanubis.
    set_field (decPtr_encPtr Anubis_zero Anubis_dec Anubis_enc x ltac:(done)
                 (Anubis_roundtrip x Hanubis)). }
  apply foldM_omitempty_last.
  destruct secrets as [|x secrets]; [done|].
  set_field (decSlice_hook "[]v1.Secret" Secret_zero Secret_UnmarshalJSON Secret_enc
               (x :: secrets)
               (λ y Hy, Secret_roundtrip y (proj1 (Forall_forall _ _) Hsecrets y Hy))).
Qed.

(** The plain decoding of an encoded App, before the checks of the hook:
    the kind and the version are the constants that [MarshalJSON] wrote. *)
Lemma App_alt_roundtrip (app : App) :
  AppSpec_valid (Spec app) →
  decStruct "AppAlt" App_setField App_zero (App_MarshalJSON app)
  = Done (Build_App (typeMeta APIVersion KindApp) (ObjectMeta app) (Spec app)) None.
Proof.
  destruct app as [type meta spec]. cbn [Spec ObjectMeta]. intros Hvalid.
  unfold App_MarshalJSON, App_zero. cbn [decStruct Spec ObjectMeta].
  apply (foldM_cons_step _ _
           (Build_App (metav1.Build_TypeMeta KindApp "") metav1.ObjectMeta_zero AppSpec_zero));
    [done|].
  apply (foldM_cons_step _ _
           (Build_App (typeMeta APIVersion KindApp) metav1.ObjectMeta_zero AppSpec_zero));
    [done|].
  apply (foldM_cons_step _ _ (Build_App (typeMeta APIVersion KindApp) meta AppSpec_zero)).
  { set_field (ObjectMeta_roundtrip meta). }
  apply (foldM_cons_step _ _ (Build_App (typeMeta APIVersion KindApp) meta spec)); [|done].
  set_field (AppSpec_roundtrip spec Hvalid).
Qed.

(** C9 (as amended). Encoding an App whose blocks are valid and decoding
    the result gives the App back with the kind and the version of the
    type, and with a replica count of 0 replaced by the default 1: the
    defaults are applied when decoding. An App decoded from a document has
    valid blocks, the constants and a replica count other than 0, so it
    comes back equal. *)
Theorem C9_app_round_trip :
  (∀ app : App,
      AppSpec_valid (Spec app) →
      App_UnmarshalJSON App_zero (App_MarshalJSON app)
      = Ok (Build_App (typeMeta APIVersion KindApp) (ObjectMeta app)
              (if bool_decide (Replicas (Spec app) = 0)
               then setReplicas 1 (Spec app) else Spec app))) ∧
  (∀ (data : json) (app : App),
      App_UnmarshalJSON App_zero data = Ok app →
      App_UnmarshalJSON App_zero (App_MarshalJSON app) = Ok app).
Proof.
  assert (Hall : ∀ app : App,
             AppSpec_valid (Spec app) →
             App_UnmarshalJSON App_zero (App_MarshalJSON app)
             = Ok (Build_App (typeMeta APIVersion KindApp) (ObjectMeta app)
                     (if bool_decide (Replicas (Spec app) = 0)
                      then setReplicas 1 (Spec app) else Spec app))).
  { intros app Hvalid. unfold App_UnmarshalJSON.
    rewrite (App_alt_roundtrip app Hvalid). cbn.
    by destruct (bool_decide (Replicas (Spec app) = 0)). }
  split; [exact Hall|].
  intros data app Hdata.
  destruct (App_UnmarshalJSON_valid App_zero data app AppSpec_zero_valid Hdata)
    as (Htype & Hreplicas & Hvalid).
  rewrite (Hall app Hvalid), bool_decide_eq_false_2 by done.
  destruct app as [type meta spec]. cbn in Htype. by rewrite Htype.
Qed.

End app_roundtrip.

(** ** Encoding a Postgres spec and decoding it again *)

Section postgres_roundtrip.
Import postgres_v1.

Lemma Postgres_setField_spec v (app : Postgres) :
  Postgres_setField ("spec", v) app =
    (x ← decStruct "PostgresSpec" PostgresSpec_setField (Spec app) v;
     mret (Build_Postgres (TypeMeta app) (ObjectMeta app) x)).
Proof. by destruct app as [[] ? ?]. Qed.

Lemma PostgresSpec_setField_storage v (s : PostgresSpec) :
  PostgresSpec_setField ("storage", v) s =
    (x ← hook (Storage_UnmarshalJSON (Storage_ s) v);
     mret (Build_PostgresSpec (Env s) (Healthcheck s) x (Secrets s))).
Proof. by destruct s. Qed.

(** The encoding of a storage struct without a size is rejected by the
    hook of that struct. *)
Lemma Storage_enc_empty_size cur (st : Storage) :
  Storage_Size st = "" →
  Storage_UnmarshalJSON cur (Storage_enc st) = Err (Errorf "size is required").
Proof. destruct st as [size [class|]]; cbn; by intros ->. Qed.

(** The Postgres type does not give back every decoded spec: a spec
    without a storage block is accepted (the flight then builds no claim),
    its encoding always carries [storage], the tag [omitempty] having no
    effect on a struct, and the hook of the struct rejects the empty
    size. *)
Lemma postgres_without_storage_not_stable :
  (∃ p,
      Postgres_UnmarshalJSON Postgres_zero
        (JObj [("apiVersion", JStr APIVersion); ("kind", JStr KindApp);
               ("metadata", JObj [("name", JStr "db")]); ("spec", JObj [])])
      = Ok p ∧
      Postgres_UnmarshalJSON Postgres_zero (Postgres_MarshalJSON p)
      = Err (Errorf "size is required")) ∧
  (∀ p cur,
      Storage_Size (Storage_ (Spec p)) = "" →
      ∃ err, Postgres_UnmarshalJSON cur (Postgres_MarshalJSON p) = Err err).
Proof.
  split.
  - eexists. split; reflexivity.
  - intros p cur Hsize.
    assert (Hstorage : ∀ c, ∃ err,
               PostgresSpec_setField ("storage", Storage_enc (Storage_ (Spec p))) c
               = Abort err).
    { intros c. rewrite PostgresSpec_setField_storage.
      rewrite (Storage_enc_empty_size _ _ Hsize). by eexists. }
    assert (Hspec : ∀ a, ∃ err,
               Postgres_setField ("spec", PostgresSpec_enc (Spec p)) a = Abort err).
    { intros a. rewrite Postgres_setField_spec. unfold PostgresSpec_enc.
      cbn [decStruct].
      destruct (foldM_some_Abort PostgresSpec_setField
                  (omitempty (isEmpty (Env (Spec p))) "env"
                     (JArr (corev1.EnvVar_enc <$> Env (Spec p)))
                   ++ omitempty (negb (Healthcheck (Spec p))) "healthcheck"
                        (JBool (Healthcheck (Spec p))))
                  _
                  (omitempty (isEmpty (Secrets (Spec p))) "secrets"
                     (JArr (Secret_enc <$> Secrets (Spec p))))
                  (Spec a) Hstorage)
        as [err Herr].
      exists err. rewrite <- app_assoc in Herr. cbn [app]. by rewrite Herr. }
    unfold Postgres_UnmarshalJSON, Postgres_MarshalJSON. cbn [decStruct].
    destruct (foldM_some_Abort Postgres_setField
                [("kind", JStr KindApp); ("apiVersion", JStr APIVersion);
                 ("metadata", metav1.ObjectMeta_enc (ObjectMeta p))]
                _ [] Postgres_zero Hspec) as [err Herr].
    cbn [app] in Herr. rewrite Herr. by exists err.
Qed.

End postgres_roundtrip.

Lemma omap_fmap_Some {A B C} (g : B → option C) (f : A → B) (h : A → C) (l : list A) :
  (∀ a, g (f a) = Some (h a)) → omap g (f <$> l) = h <$> l.
Proof.
  intros Hsome. induction l as [|a l IH]; simpl; [done|].
  rewrite Hsome. simpl. by f_equal.
Qed.

(** ** More of the App flight *)

(** The conversion [int32(n)] of a Go [int]: it gives the number back when
    the number fits in 32 bits, and 0 exactly for the multiples of 2^32. *)
Lemma int32_inRange (n : Z) : inRange 32 n = true → corev1.int32 n = n.
Proof.
  unfold inRange, corev1.int32. intros [Hlo Hhi]%andb_prop.
  apply Z.leb_le in Hlo. apply Z.ltb_lt in Hhi.
  change (2 ^ (32 - 1)) with 2147483648 in *.
  change (2 ^ 31) with 2147483648. change (2 ^ 32) with 4294967296.
  rewrite Z.mod_small; lia.
Qed.

Lemma int32_zero (n : Z) : corev1.int32 n = 0 ↔ n mod 2 ^ 32 = 0.
Proof.
  unfold corev1.int32. change (2 ^ 31) with 2147483648. change (2 ^ 32) with 4294967296.
  Z.div_mod_to_equations. lia.
Qed.

Section app_more.
Import app_v1 app_flight.
Abbreviation Name app := (metav1.Name (ObjectMeta app)).
Abbreviation Namespace app := (metav1.Namespace (ObjectMeta app)).
Abbreviation Labels app := (metav1.Labels (ObjectMeta app)).

(** The objects every run of the App flight builds, and the ones that
    follow them. *)
Lemma app_build_base lookup (app : App) out :
  build lookup app = Emitted out →
  ∃ rest,
    out = ((λ sec, ROnePasswordItem (createOnepasswordSecret (defaults app) sec))
             <$> Secrets (Spec app))
          ++ [RDeployment (createDeployment (defaults app));
              RService (createService (defaults app));
              RServiceAccount (createServiceAccount (defaults app))]
          ++ rest ∧
    onePasswordItems rest = [] ∧ deployments rest = [] ∧ services rest = [] ∧
    serviceAccounts rest = [].
Proof.
  intros Hout.
  destruct (app_build_shape lookup app)
    as (ingressPart & onionPart & rolePart & Hing & Honion & Hrole & Hbuild).
  cbv zeta in Hbuild.
  assert (Hi : onePasswordItems ingressPart = [] ∧ deployments ingressPart = [] ∧
               services ingressPart = [] ∧ serviceAccounts ingressPart = []).
  { destruct (Ingress_ (Spec app)) as [i|]; [|by subst].
    destruct (Ingress_Enabled i); [|by subst]. by destruct Hing as (ing & _ & ->). }
  assert (Ho : onePasswordItems onionPart = [] ∧ deployments onionPart = [] ∧
               services onionPart = [] ∧ serviceAccounts onionPart = [])
    by (by destruct Honion as [->|(o & ->)]).
  assert (Hr : onePasswordItems rolePart = [] ∧ deployments rolePart = [] ∧
               services rolePart = [] ∧ serviceAccounts rolePart = [])
    by (by destruct Hrole as [->|(r & ->)]).
  destruct Hi as (Hi1 & Hi2 & Hi3 & Hi4), Ho as (Ho1 & Ho2 & Ho3 & Ho4),
    Hr as (Hr1 & Hr2 & Hr3 & Hr4).
  assert (Hrest : ∃ pvcPart,
             out = (((λ sec, ROnePasswordItem (createOnepasswordSecret (defaults app) sec))
                       <$> Secrets (Spec app))
                    ++ [RDeployment (createDeployment (defaults app));
                        RService (createService (defaults app));
                        RServiceAccount (createServiceAccount (defaults app))])
                   ++ ingressPart ++ onionPart ++ pvcPart ++ rolePart ∧
             onePasswordItems pvcPart = [] ∧ deployments pvcPart = [] ∧
             services pvcPart = [] ∧ serviceAccounts pvcPart = []).
  { destruct (Storage_ (Spec app)) as [st|];
      [destruct (Storage_Enabled st);
       [destruct (createStorage (defaults app) st) as [pvc|msg]|]|];
      rewrite Hbuild in Hout; try done; injection Hout as <-.
    - by exists [RPersistentVolumeClaim pvc].
    - by exists [].
    - by exists []. }
  destruct Hrest as (pvcPart & -> & Hp1 & Hp2 & Hp3 & Hp4).
  exists (ingressPart ++ onionPart ++ pvcPart ++ rolePart).
  split; [by rewrite <- app_assoc|].
  unfold onePasswordItems, deployments, services, serviceAccounts in *.
  rewrite !omap_app.
  by rewrite Hi1, Hi2, Hi3, Hi4, Ho1, Ho2, Ho3, Ho4, Hp1, Hp2, Hp3, Hp4, Hr1, Hr2, Hr3, Hr4.
Qed.

Lemma app_build_core lookup (app : App) out :
  build lookup app = Emitted out →
  onePasswordItems out = createOnepasswordSecret (defaults app) <$> Secrets (Spec app) ∧
  deployments out = [createDeployment (defaults app)] ∧
  services out = [createService (defaults app)] ∧
  serviceAccounts out = [createServiceAccount (defaults app)].
Proof.
  intros Hout.
  destruct (app_build_base lookup app out Hout) as (rest & -> & Hr1 & Hr2 & Hr3 & Hr4).
  unfold onePasswordItems, deployments, services, serviceAccounts in *.
  rewrite !omap_app, Hr1, Hr2, Hr3, Hr4.
  split; [|by rewrite !omap_fmap_None].
  rewrite (omap_fmap_Some _ _ (createOnepasswordSecret (defaults app))) by done.
  apply app_nil_r.
Qed.

(** What the App flight emits, kind by kind. *)
Lemma app_build_kinds lookup (app : App) out :
  build lookup app = Emitted out →
  let a := defaults app in
  ingresses out =
    match Ingress_ (Spec app) with
    | Some i => if Ingress_Enabled i
                then match createIngress lookup a i with Ok ing => [ing] | Err _ => [] end
                else []
    | None => []
    end ∧
  onionServices out =
    match Onion_ (Spec app) with
    | Some o => if Onion_Enabled o then [createOnion a o] else []
    | None => []
    end ∧
  claims out =
    match Storage_ (Spec app) with
    | Some st => if Storage_Enabled st
                 then match createStorage a st with Returns pvc => [pvc] | Panics _ => [] end
                 else []
    | None => []
    end ∧
  roles out = match Role_ (Spec app) with Some r => [createRole a r] | None => [] end ∧
  roleBindings out =
    match Role_ (Spec app) with Some r => [createRoleBinding a] | None => [] end.
Proof.
  intros Hout a. subst a. unfold build in Hout. rewrite foldl_snoc in Hout.
  destruct (app_defaults_fields app) as (_ & _ & _ & Hi & Ho & Hs & Hr & Hsec).
  rewrite Hi, Ho, Hs, Hr, Hsec in Hout. clear Hi Ho Hs Hr Hsec.
  revert Hout. generalize (defaults app). intros a Hout.
  unfold ingresses, onionServices, claims, roles, roleBindings.
  destruct (Ingress_ (Spec app)) as [i|];
    [destruct (Ingress_Enabled i); [destruct (createIngress lookup a i) as [ing|e]|]|];
    (destruct (Onion_ (Spec app)) as [o|]; [destruct (Onion_Enabled o)|]);
    (destruct (Storage_ (Spec app)) as [st|];
       [destruct (Storage_Enabled st); [destruct (createStorage a st) as [pvc|msg]|]|]);
    (destruct (Role_ (Spec app)) as [r|]);
    try discriminate Hout; injection Hout as <-;
    rewrite !omap_app, !omap_fmap_None by done; done.
Qed.

(** The loop over the secrets in [createDeployment], as three lists. *)
Lemma foldl_mountSecret name envFrom volumes mounts (l : list Secret) :
  foldl (mountSecret name) (envFrom, volumes, mounts) l =
    (envFrom ++ ((λ sec, {| corev1.SecretRef_Name := name +:+ "-" +:+ Secret_Name sec |})
                   <$> filter (λ sec, Secret_Environment sec) l),
     volumes ++ ((λ sec, {| corev1.Volume_Name := Secret_Name sec;
                            corev1.Volume_Source :=
                              corev1.SecretVolumeSource (name +:+ "-" +:+ Secret_Name sec) |})
                   <$> filter (λ sec, Secret_Folder sec) l),
     mounts ++ ((λ sec, {| corev1.VolumeMount_Name := name +:+ "-" +:+ Secret_Name sec;
                           corev1.VolumeMount_MountPath :=
                             "/run/secrets/" +:+ Secret_Name sec |})
                  <$> filter (λ sec, Secret_Folder sec) l)).
Proof.
  revert envFrom volumes mounts.
  induction l as [|sec l IH]; intros envFrom volumes mounts.
  - by rewrite !app_nil_r.
  - cbn [foldl]. unfold mountSecret at 2.
    rewrite !filter_cons.
    destruct (Secret_Environment sec), (Secret_Folder sec); rewrite IH;
      repeat case_decide; try done; by rewrite <- ?app_assoc.
Qed.

Lemma length_append (a b : string) :
  String.length (a +:+ b) = (String.length a + String.length b)%nat.
Proof.
  induction a as [|x a IH]; [done|].
  change (S (String.length (a +:+ b)) = S (String.length a + String.length b)).
  by rewrite IH.
Qed.

Lemma append_ne_r (a b : string) : a ≠ "" → a +:+ b ≠ b.
Proof.
  intros Ha Heq. apply (f_equal String.length) in Heq.
  rewrite length_append in Heq. destruct a; [done|]. cbn in Heq. lia.
Qed.

(** The 1Password items of the App flight and the references of the
    Deployment to them: one item for each secret of the spec, in order,
    named [<name>-<secret>] and carrying the item path; the container
    takes its environment from the items of the secrets marked
    [environment], under the same names. *)
Theorem X_app_secret_items lookup (app : App) out :
  build lookup app = Emitted out →
  let name sec := Name app +:+ "-" +:+ Secret_Name sec in
  ∃ d c,
    deployments out = [d] ∧
    corev1.Containers (podSpec d) = [c] ∧
    ((λ i, metav1.Name (onepasswordv1.ObjectMeta i)) <$> onePasswordItems out)
    = name <$> Secrets (Spec app) ∧
    (onepasswordv1.ItemPath <$> onePasswordItems out)
    = Secret_ItemPath <$> Secrets (Spec app) ∧
    (corev1.SecretRef_Name <$> corev1.EnvFrom c)
    = name <$> filter (λ sec, Secret_Environment sec) (Secrets (Spec app)) ∧
    (corev1.SecretRef_Name <$> corev1.EnvFrom c)
    ⊆ ((λ i, metav1.Name (onepasswordv1.ObjectMeta i)) <$> onePasswordItems out).
Proof.
  intros Hout name.
  destruct (app_build_core lookup app out Hout) as (Hitems & Hd & _).
  destruct (app_defaults_fields app) as (Hname & _ & _ & _ & _ & _ & _ & Hsec).
  assert (Hnames : ((λ i, metav1.Name (onepasswordv1.ObjectMeta i)) <$> onePasswordItems out)
                   = name <$> Secrets (Spec app)).
  { rewrite Hitems, <- list_fmap_compose. apply list_fmap_ext.
    intros _ sec _. cbn. by rewrite Hname. }
  assert (Hpaths : (onepasswordv1.ItemPath <$> onePasswordItems out)
                   = Secret_ItemPath <$> Secrets (Spec app)).
  { rewrite Hitems, <- list_fmap_compose. by apply list_fmap_ext. }
  assert (Hrefs : (corev1.SecretRef_Name <$>
                     (foldl (mountSecret (Name (defaults app))) ([], [], [])
                        (Secrets (Spec (defaults app)))).1.1)
                  = name <$> filter (λ sec, Secret_Environment sec) (Secrets (Spec app))).
  { rewrite foldl_mountSecret, Hname, Hsec. cbn [fst List.app].
    rewrite <- list_fmap_compose. by apply list_fmap_ext. }
  eexists _, _. split; [exact Hd|]. split; [reflexivity|].
  split; [exact Hnames|]. split; [exact Hpaths|]. split; [exact Hrefs|].
  rewrite Hnames. intros n Hn.
  change (n ∈ corev1.SecretRef_Name <$>
                (foldl (mountSecret (Name (defaults app))) ([], [], [])
                   (Secrets (Spec (defaults app)))).1.1) in Hn.
  rewrite Hrefs in Hn. apply list_elem_of_fmap in Hn as (sec & -> & Hin).
  apply list_elem_of_fmap. exists sec. split; [done|].
  by apply list_elem_of_filter in Hin as [_ Hin].
Qed.

(** The volumes [createDeployment] makes for the secrets marked [folder]:
    the volume takes the name of the secret and the mount the name
    [<name>-<secret>], so the mount of a folder secret never carries the
    name of the volume made for it. *)
Theorem X_app_secret_folders (app : App) :
  let name sec := Name app +:+ "-" +:+ Secret_Name sec in
  let folders := filter (λ sec, Secret_Folder sec) (Secrets (Spec app)) in
  let stored := match Storage_ (Spec app) with
                | Some st => if Storage_Enabled st then ["storage"] else []
                | None => []
                end in
  ∃ c,
    corev1.Containers (podSpec (createDeployment app)) = [c] ∧
    (corev1.Volume_Name <$> corev1.Volumes (podSpec (createDeployment app)))
    = (Secret_Name <$> folders) ++ stored ∧
    (corev1.VolumeMount_Name <$> corev1.VolumeMounts c) = (name <$> folders) ++ stored ∧
    ∀ sec, name sec ≠ Secret_Name sec.
Proof.
  intros name folders stored. eexists. split; [reflexivity|].
  cbn [createDeployment podSpec appsv1.Template corev1.Template_Spec corev1.Volumes
       corev1.VolumeMounts].
  rewrite foldl_mountSecret. cbn [fst snd List.app]. fold folders. subst stored.
  split; [|split].
  - destruct (Storage_ (Spec app)) as [st|]; [destruct (Storage_Enabled st)|];
      cbn [fst snd]; rewrite ?fmap_app, <- ?list_fmap_compose, ?app_nil_r; done.
  - destruct (Storage_ (Spec app)) as [st|]; [destruct (Storage_Enabled st)|];
      cbn [fst snd]; rewrite ?fmap_app, <- ?list_fmap_compose, ?app_nil_r; done.
  - intros sec. subst name. cbn beta.
    rewrite <- append_assoc. apply append_ne_r. by destruct (Name app).
Qed.

(** The claims the Deployment of the App flight mounts are the claims the
    flight emits: none unless the storage block is enabled, and then the
    claim [<name>-storage], mounted at the path of the block. *)
Theorem X_app_storage_claim lookup (app : App) out :
  build lookup app = Emitted out →
  ∃ d c,
    deployments out = [d] ∧
    corev1.Containers (podSpec d) = [c] ∧
    claimNames d = (λ pvc, metav1.Name (corev1.PVC_ObjectMeta pvc)) <$> claims out ∧
    match Storage_ (Spec app) with
    | Some st =>
        if Storage_Enabled st
        then claimNames d = [Name app +:+ "-storage"] ∧
             {| corev1.VolumeMount_Name := "storage";
                corev1.VolumeMount_MountPath := Storage_Path st |} ∈ corev1.VolumeMounts c ∧
             (corev1.StorageClassName <$> claims out) = [Storage_StorageClass st]
        else claimNames d = []
    | None => claimNames d = []
    end.
Proof.
  intros Hout.
  destruct (app_build_core lookup app out Hout) as (_ & Hd & _).
  destruct (app_build_kinds lookup app out Hout) as (_ & _ & Hclaims & _).
  destruct (app_defaults_fields app) as (Hname & _ & _ & _ & _ & Hs & _).
  destruct (app_build_shape lookup app) as (? & ? & ? & _ & _ & _ & Hbuild).
  cbv zeta in Hbuild.
  eexists _, _. split; [exact Hd|]. split; [reflexivity|].
  rewrite Hclaims.
  unfold claimNames.
  cbn [createDeployment podSpec appsv1.Template corev1.Template_Spec corev1.Volumes
       corev1.VolumeMounts].
  rewrite foldl_mountSecret, Hs, Hname. cbn [fst snd List.app].
  destruct (Storage_ (Spec app)) as [st|]; [destruct (Storage_Enabled st) eqn:Hen|];
    cbn [fst snd]; rewrite ?omap_app, ?omap_fmap_None by done.
  - unfold createStorage in *.
    destruct (ParseQuantity (Storage_Size st)) as [size|err] eqn:Hsize.
    + cbn. rewrite Hname. repeat split; try done.
      apply elem_of_app. right. by left.
    + congruence.
  - done.
  - done.
Qed.

(** The port of the App flight: the port of the spec, or 3000 when the
    spec gives none, so a number that is never 0. The variables [PORT] and
    [BIND] announce that number. The port of the container and the target
    port of the Service are its conversion to [int32]: the number itself
    when it fits in 32 bits, and 0 exactly when it is a multiple of 2^32.
    The Service takes the traffic on its port 80. The variables of the
    spec follow the three the flight sets. *)
Theorem X_app_port lookup (app : App) out :
  build lookup app = Emitted out →
  let port := cmp_Or_int (Port (Spec app)) 3000 in
  port ≠ 0 ∧
  (inRange 32 port = true → corev1.int32 port = port) ∧
  (corev1.int32 port = 0 ↔ port mod 2 ^ 32 = 0) ∧
  ∃ d c s,
    deployments out = [d] ∧
    corev1.Containers (podSpec d) = [c] ∧
    services out = [s] ∧
    (corev1.ContainerPort_ContainerPort <$> corev1.Ports c) = [corev1.int32 port] ∧
    (corev1.ServicePort_Port <$> corev1.Service_Ports s) = [80] ∧
    (corev1.ServicePort_TargetPort <$> corev1.Service_Ports s)
    = [corev1.IntVal (corev1.int32 port)] ∧
    corev1.Container_Env c =
      [ {| corev1.EnvVar_Name := "PORT"; corev1.EnvVar_Value := Itoa port;
           corev1.EnvVar_ValueFrom := None |};
        {| corev1.EnvVar_Name := "BIND"; corev1.EnvVar_Value := ":" +:+ Itoa port;
           corev1.EnvVar_ValueFrom := None |};
        {| corev1.EnvVar_Name := "SLOG_LEVEL";
           corev1.EnvVar_Value := cmp_Or_string (LogLevel (Spec app)) "info";
           corev1.EnvVar_ValueFrom := None |} ] ++ Env (Spec app).
Proof.
  intros Hout port. split.
  { subst port. unfold cmp_Or_int. by case_bool_decide. }
  split; [apply int32_inRange|]. split; [apply int32_zero|].
  destruct (app_build_core lookup app out Hout) as (_ & Hd & Hs & _).
  eexists _, _, _. split; [exact Hd|]. split; [reflexivity|]. split; [exact Hs|].
  subst port. by destruct app as [? ? []].
Qed.

(** The Ingress and the OnionService of the App flight send their traffic
    to the Service of the flight: to the service of that name, at the port
    the Service calls [http], which is its port 80. *)
Theorem X_app_backends lookup (app : App) out :
  build lookup app = Emitted out →
  ∃ s,
    services out = [s] ∧
    metav1.Name (corev1.Service_ObjectMeta s) = Name app ∧
    ((λ p, (corev1.ServicePort_Name p, corev1.ServicePort_Port p))
       <$> corev1.Service_Ports s) = [("http", 80)] ∧
    Forall (λ ing,
              ingressBackends ing =
                [ {| networkingv1.Backend_Service :=
                       Some {| networkingv1.Backend_Name :=
                                 metav1.Name (corev1.Service_ObjectMeta s);
                               networkingv1.Backend_Port :=
                                 {| networkingv1.Port_Name := "http";
                                    networkingv1.Port_Number := 0 |} |} |} ])
           (ingresses out) ∧
    Forall (λ o,
              onionBackends o =
                [ {| networkingv1.Backend_Service :=
                       Some {| networkingv1.Backend_Name :=
                                 metav1.Name (corev1.Service_ObjectMeta s);
                               networkingv1.Backend_Port :=
                                 {| networkingv1.Port_Name := "http";
                                    networkingv1.Port_Number := 80 |} |} |} ])
           (onionServices out).
Proof.
  intros Hout.
  destruct (app_build_core lookup app out Hout) as (_ & _ & Hs & _).
  destruct (app_build_kinds lookup app out Hout) as (Hing & Honion & _).
  destruct (app_defaults_fields app) as (Hname & _).
  eexists. split; [exact Hs|]. split; [exact Hname|]. split; [done|].
  rewrite Hing, Honion. split.
  - destruct (Ingress_ (Spec app)) as [i|]; [|done].
    destruct (Ingress_Enabled i); [|done].
    unfold createIngress. by repeat constructor.
  - destruct (Onion_ (Spec app)) as [o|]; [|done].
    destruct (Onion_Enabled o); [|done]. by repeat constructor.
Qed.

(** The Role of the App flight: a Role and a RoleBinding are emitted
    whenever the spec has a role block, whether or not the block says
    [enabled]. The binding refers to that Role and binds the
    ServiceAccount the flight emits, the one the pods run as. *)
Theorem X_app_role lookup (app : App) out :
  build lookup app = Emitted out →
  ∃ sa d,
    serviceAccounts out = [sa] ∧
    deployments out = [d] ∧
    corev1.ServiceAccountName (podSpec d)
    = metav1.Name (corev1.ServiceAccount_ObjectMeta sa) ∧
    match Role_ (Spec app) with
    | None => roles out = [] ∧ roleBindings out = []
    | Some r =>
        ∃ role rb,
          roles out = [role] ∧ roleBindings out = [rb] ∧
          rbacv1.Role_Rules role = Role_Rules r ∧
          metav1.Namespace (rbacv1.Role_ObjectMeta role)
          = metav1.Namespace (rbacv1.RoleBinding_ObjectMeta rb) ∧
          rbacv1.RoleBinding_RoleRef rb =
            {| rbacv1.RoleRef_APIGroup := "rbac.authorization.k8s.io";
               rbacv1.RoleRef_Kind := "Role";
               rbacv1.RoleRef_Name := metav1.Name (rbacv1.Role_ObjectMeta role) |} ∧
          rbacv1.RoleBinding_Subjects rb =
            [ {| rbacv1.Subject_Kind := "ServiceAccount";
                 rbacv1.Subject_Name := metav1.Name (corev1.ServiceAccount_ObjectMeta sa);
                 rbacv1.Subject_Namespace :=
                   metav1.Namespace (corev1.ServiceAccount_ObjectMeta sa) |} ]
    end.
Proof.
  intros Hout.
  destruct (app_build_core lookup app out Hout) as (_ & Hd & _ & Hsa).
  destruct (app_build_kinds lookup app out Hout) as (_ & _ & _ & Hroles & Hrbs).
  eexists _, _. split; [exact Hsa|]. split; [exact Hd|]. split; [done|].
  rewrite Hroles, Hrbs.
  destruct (Role_ (Spec app)) as [r|]; [|done].
  by eexists _, _.
Qed.

(** A property of every object the App flight can build holds for every
    object it emits. *)
Lemma app_build_Forall (P : Resource → Prop) lookup (app : App) out :
  let a := defaults app in
  (∀ sec, P (ROnePasswordItem (createOnepasswordSecret a sec))) →
  P (RDeployment (createDeployment a)) →
  P (RService (createService a)) →
  P (RServiceAccount (createServiceAccount a)) →
  (∀ i ing, createIngress lookup a i = Ok ing → P (RIngress ing)) →
  (∀ o, P (ROnionService (createOnion a o))) →
  (∀ st pvc, createStorage a st = Returns pvc → P (RPersistentVolumeClaim pvc)) →
  (∀ r, P (RRole (createRole a r))) →
  P (RRoleBinding (createRoleBinding a)) →
  build lookup app = Emitted out →
  Forall P out.
Proof.
  intros a Hitem Hd Hs Hsa Hing Honion Hpvc Hrole Hrb Hout. subst a.
  unfold build in Hout. rewrite foldl_snoc in Hout.
  destruct (app_defaults_fields app) as (_ & _ & _ & Hi & Ho & Hst & Hr & Hsec).
  rewrite Hi, Ho, Hst, Hr, Hsec in Hout. clear Hi Ho Hst Hr Hsec.
  revert Hitem Hd Hs Hsa Hing Honion Hpvc Hrole Hrb Hout.
  generalize (defaults app). intros a Hitem Hd Hs Hsa Hing Honion Hpvc Hrole Hrb Hout.
  destruct (Ingress_ (Spec app)) as [i|];
    [destruct (Ingress_Enabled i); [destruct (createIngress lookup a i) as [ing|e] eqn:Hi|]|];
    (destruct (Onion_ (Spec app)) as [o|]; [destruct (Onion_Enabled o)|]);
    (destruct (Storage_ (Spec app)) as [st|];
       [destruct (Storage_Enabled st);
        [destruct (createStorage a st) as [pvc|msg] eqn:Hst|]|]);
    (destruct (Role_ (Spec app)) as [r|]);
    try discriminate Hout; injection Hout as <-;
    rewrite ?Forall_app, Forall_fmap; repeat split;
    try (apply Forall_true; intros sec; apply Hitem);
    repeat constructor; eauto.
Qed.

(** Every object of the App flight is put in the namespace of the spec. *)
Lemma app_namespace lookup (app : App) out :
  build lookup app = Emitted out →
  Forall (λ r, metav1.Namespace (metadataOf r) = Namespace app) out.
Proof.
  destruct (app_defaults_fields app) as (Hname & _).
  assert (Hns : Namespace (defaults app) = Namespace app) by by destruct app as [? ? []].
  apply app_build_Forall; try (intros; exact Hns).
  - intros i ing. unfold createIngress. by intros [= <-].
  - intros st pvc. unfold createStorage. case_match; [|done]. by intros [= <-].
Qed.

(** The annotations of the Ingress: an annotation of the spec overrides
    the issuer and the redirect the flight writes first; the annotations
    for the core rules and for gRPC are written last and override the
    spec. *)
Theorem X_app_ingress_annotations lookup (app : App) (i : Ingress) :
  ∃ ing,
    createIngress lookup app i = Ok ing ∧
    let annotations := metav1.Annotations (networkingv1.ObjectMeta ing) in
    let forced k :=
      (Ingress_EnableCoreRules i = true ∧
       (k = "nginx.ingress.kubernetes.io/enable-owasp-core-rules" ∨
        k = "nginx.ingress.kubernetes.io/enable-modsecurity" ∨
        k = "nginx.ingress.kubernetes.io/modsecurity-transaction-id")) ∨
      (Ingress_Kind i = "grpc" ∧ k = "nginx.ingress.kubernetes.io/backend-protocol") in
    (∀ k v, Ingress_Annotations i !! k = Some v → ¬ forced k → annotations !! k = Some v) ∧
    (Ingress_Annotations i !! "cert-manager.io/cluster-issuer" = None →
     annotations !! "cert-manager.io/cluster-issuer" = Some (Ingress_ClusterIssuer i)) ∧
    (Ingress_Annotations i !! "nginx.ingress.kubernetes.io/ssl-redirect" = None →
     annotations !! "nginx.ingress.kubernetes.io/ssl-redirect" = Some "true") ∧
    (Ingress_EnableCoreRules i = true →
     annotations !! "nginx.ingress.kubernetes.io/enable-owasp-core-rules" = Some "true" ∧
     annotations !! "nginx.ingress.kubernetes.io/enable-modsecurity" = Some "true" ∧
     annotations !! "nginx.ingress.kubernetes.io/modsecurity-transaction-id"
     = Some "$request_id") ∧
    (Ingress_Kind i = "grpc" →
     annotations !! "nginx.ingress.kubernetes.io/backend-protocol" = Some "GRPC").
Proof.
  eexists. split; [reflexivity|].
  cbn [networkingv1.ObjectMeta meta metav1.Annotations]. unfold maps_Copy.
  set (base := Ingress_Annotations i ∪ _).
  assert (Hbase : ∀ k v, Ingress_Annotations i !! k = Some v → base !! k = Some v).
  { intros k v Hk. subst base. by apply lookup_union_Some_l. }
  assert (Hissuer : Ingress_Annotations i !! "cert-manager.io/cluster-issuer" = None →
                    base !! "cert-manager.io/cluster-issuer" = Some (Ingress_ClusterIssuer i)).
  { intros Hk. subst base. rewrite lookup_union_r by done. apply lookup_insert_eq. }
  assert (Hredirect :
            Ingress_Annotations i !! "nginx.ingress.kubernetes.io/ssl-redirect" = None →
            base !! "nginx.ingress.kubernetes.io/ssl-redirect" = Some "true").
  { intros Hk. subst base. rewrite lookup_union_r by done.
    rewrite lookup_insert_ne by done. apply lookup_singleton_eq. }
  clearbody base.
  set (withRules := if Ingress_EnableCoreRules i then _ else base).
  assert (Hkeep : ∀ k, (Ingress_EnableCoreRules i = true →
                        k ≠ "nginx.ingress.kubernetes.io/enable-owasp-core-rules" ∧
                        k ≠ "nginx.ingress.kubernetes.io/enable-modsecurity" ∧
                        k ≠ "nginx.ingress.kubernetes.io/modsecurity-transaction-id") →
                       withRules !! k = base !! k).
  { intros k Hk. subst withRules. destruct (Ingress_EnableCoreRules i); [|done].
    destruct Hk as (? & ? & ?); [done|]. by rewrite !lookup_insert_ne. }
  assert (Hrules : Ingress_EnableCoreRules i = true →
            withRules !! "nginx.ingress.kubernetes.io/enable-owasp-core-rules" = Some "true" ∧
            withRules !! "nginx.ingress.kubernetes.io/enable-modsecurity" = Some "true" ∧
            withRules !! "nginx.ingress.kubernetes.io/modsecurity-transaction-id"
            = Some "$request_id").
  { intros Hen. subst withRules. rewrite Hen. split; [|split].
    - rewrite !lookup_insert_ne by done. apply lookup_insert_eq.
    - rewrite lookup_insert_ne by done. apply lookup_insert_eq.
    - apply lookup_insert_eq. }
  clearbody withRules.
  assert (Hlast : ∀ k, (Ingress_Kind i = "grpc" →
                        k ≠ "nginx.ingress.kubernetes.io/backend-protocol") →
                       (if bool_decide (Ingress_Kind i = "grpc")
                        then {[ "nginx.ingress.kubernetes.io/backend-protocol" := "GRPC" ]}
                             ∪ withRules
                        else withRules) !! k = withRules !! k).
  { intros k Hk. case_bool_decide as Hkind; [|done].
    apply lookup_union_r, lookup_singleton_ne. by intros <-; apply Hk. }
  split; [|split; [|split; [|split]]].
  - intros k v Hk Hf. rewrite Hlast, Hkeep; [by apply Hbase| |].
    + intros Hen. repeat split; intros ->; apply Hf; left; auto.
    + intros Hg ->. apply Hf. by right.
  - intros Hk. rewrite Hlast, Hkeep by done. by apply Hissuer.
  - intros Hk. rewrite Hlast, Hkeep by done. by apply Hredirect.
  - intros Hen. rewrite !Hlast by done. by apply Hrules.
  - intros Hg. rewrite bool_decide_eq_true_2 by done.
    apply lookup_union_Some_l, lookup_singleton_eq.
Qed.

End app_more.

Section app_more2.
Import app_v1 app_flight.
Abbreviation Name app := (metav1.Name (ObjectMeta app)).
Abbreviation Labels app := (metav1.Labels (ObjectMeta app)).

Lemma maps_Copy_idemp (labels sel : gmap string string) :
  maps_Copy (maps_Copy labels sel) sel = maps_Copy labels sel.
Proof. unfold maps_Copy. by rewrite (assoc_L (∪)), (idemp_L (∪)). Qed.

Lemma cmp_Or_int_idemp (a b : Z) : cmp_Or_int (cmp_Or_int a b) b = cmp_Or_int a b.
Proof. unfold cmp_Or_int. by repeat case_bool_decide. Qed.

(** The probes of the App flight: they are set when the healthcheck is
    enabled and its kind is [http] or [grpc], and not otherwise. Their port
    is the port of the healthcheck or, when that is 0, the port of the spec
    or 3000: a number that is never 0, converted to [int32], which gives the
    number back when it fits in 32 bits. *)
Theorem X_app_probes lookup (app : App) out :
  build lookup app = Emitted out →
  ∃ d c,
    deployments out = [d] ∧
    corev1.Containers (podSpec d) = [c] ∧
    (is_Some (corev1.LivenessProbe c) ↔ is_Some (corev1.ReadinessProbe c)) ∧
    (is_Some (corev1.LivenessProbe c) ↔
     ∃ hc, Healthcheck_ (Spec app) = Some hc ∧ Healthcheck_Enabled hc = true ∧
           (Healthcheck_Kind hc = "http" ∨ Healthcheck_Kind hc = "grpc")) ∧
    ∀ p, corev1.LivenessProbe c = Some p ∨ corev1.ReadinessProbe c = Some p →
         ∃ hc port,
           Healthcheck_ (Spec app) = Some hc ∧
           port = cmp_Or_int (Healthcheck_Port hc) (cmp_Or_int (Port (Spec app)) 3000) ∧
           port ≠ 0 ∧
           (inRange 32 port = true → corev1.int32 port = port) ∧
           corev1.PeriodSeconds p = 10 ∧
           (corev1.Probe_Handler p
            = corev1.HTTPGet (Healthcheck_Path hc) (corev1.IntVal (corev1.int32 port))
                [ {| corev1.HTTPHeader_Name := "X-Kubernetes";
                     corev1.HTTPHeader_Value := "is kinda okay" |} ] ∨
            corev1.Probe_Handler p = corev1.GRPC (corev1.int32 port)).
Proof.
  intros Hout.
  destruct (app_build_core lookup app out Hout) as (_ & Hd & _).
  eexists _, _. split; [exact Hd|]. split; [reflexivity|].
  assert (Hport : ∀ hp, cmp_Or_int hp (cmp_Or_int (Port (Spec app)) 3000) ≠ 0).
  { intros hp. unfold cmp_Or_int. by repeat case_bool_decide. }
  assert (Hhc : Healthcheck_ (Spec (defaults app)) = Healthcheck_ (Spec app)
                ∧ Port (Spec (defaults app)) = cmp_Or_int (Port (Spec app)) 3000)
    by (by destruct app as [? ? []]).
  destruct Hhc as [Hhc Hp].
  cbn [createDeployment corev1.LivenessProbe corev1.ReadinessProbe].
  rewrite Hhc, Hp.
  destruct (Healthcheck_ (Spec app)) as [hc|].
  2: { cbn. split; [done|]. split.
       - split; [by intros []|]. by intros (hc & ? & _).
       - by intros p [|]. }
  destruct (Healthcheck_Enabled hc) eqn:Hen.
  2: { cbn. split; [done|]. split.
       - split; [by intros []|]. by intros (hc' & [= <-] & ? & _); congruence.
       - by intros p [|]. }
  fold (cmp_Or_int (Healthcheck_Port hc) (cmp_Or_int (Port (Spec app)) 3000)).
  case_bool_decide as Hhttp; [|case_bool_decide as Hgrpc]; cbn.
  - split; [done|]. split.
    + split; [|by eexists]. intros _. exists hc. auto.
    + intros p [[= <-]|[= <-]]; eexists hc, _; (split; [done|]); (split; [reflexivity|]);
        (split; [apply Hport|]); (split; [apply int32_inRange|]); (split; [done|]);
        by left.
  - split; [done|]. split.
    + split; [|by eexists]. intros _. exists hc. auto.
    + intros p [[= <-]|[= <-]]; eexists hc, _; (split; [done|]); (split; [reflexivity|]);
        (split; [apply Hport|]); (split; [apply int32_inRange|]); (split; [done|]);
        by right.
  - split; [done|]. split.
    + split; [by intros []|]. intros (hc' & [= <-] & _ & [|]); congruence.
    + by intros p [|].
Qed.

(** The first step of the App flight is idempotent: a spec that already
    has the default port and the selector label comes out of it unchanged,
    so the flight builds the same list from it. *)
Theorem X_app_defaults_idempotent lookup (app : App) :
  defaults (defaults app) = defaults app ∧
  build lookup (defaults app) = build lookup app.
Proof.
  assert (Hd : defaults (defaults app) = defaults app).
  { destruct app as [type [name ns labels annotations] []]. unfold defaults. cbn.
    unfold selector. cbn. by rewrite maps_Copy_idemp, cmp_Or_int_idemp. }
  split; [done|]. unfold build. by rewrite Hd.
Qed.

End app_more2.

(** ** More of the Valkey flight *)

Section valkey_more.
Import valkey_v1 valkey_flight.
Abbreviation Name app := (metav1.Name (ObjectMeta app)).
Abbreviation Namespace app := (metav1.Namespace (ObjectMeta app)).

(** The output of the Valkey flight. It panics only in [createStorage]. *)
Lemma valkey_build_cases (app : Valkey) :
  let a := defaults app in
  let base :=
    ((λ sec, ROnePasswordItem (createOnepasswordSecret a sec)) <$> Secrets (Spec app))
    ++ [RDeployment (createDeployment a); RService (createService a);
        RServiceAccount (createServiceAccount a)] in
  build app =
    match Storage_ (Spec app) with
    | Some st =>
        if Storage_Enabled st then
          match createStorage a st with
          | Returns pvc => Emitted (base ++ [RPersistentVolumeClaim pvc])
          | Panics msg => Panic msg
          end
        else Emitted base
    | None => Emitted base
    end.
Proof.
  intros a base. subst a base. unfold build. rewrite foldl_snoc.
  change (Spec (defaults app)) with (Spec app).
  destruct (Storage_ (Spec app)) as [st|];
    [destruct (Storage_Enabled st); [destruct (createStorage _ st)|]|];
    by rewrite <- ?app_assoc.
Qed.

Lemma foldl_envFrom {S} (name : S → string) (l : list S) init :
  foldl (λ envFrom sec, envFrom ++ [ {| corev1.SecretRef_Name := name sec |} ]) init l
  = init ++ ((λ sec, {| corev1.SecretRef_Name := name sec |}) <$> l).
Proof. apply (foldl_snoc (λ sec, {| corev1.SecretRef_Name := name sec |})). Qed.

Lemma valkey_build_core (app : Valkey) out :
  build app = Emitted out →
  onePasswordItems out = createOnepasswordSecret (defaults app) <$> Secrets (Spec app) ∧
  deployments out = [createDeployment (defaults app)] ∧
  services out = [createService (defaults app)] ∧
  serviceAccounts out = [createServiceAccount (defaults app)] ∧
  claims out =
    match Storage_ (Spec app) with
    | Some st => if Storage_Enabled st
                 then match createStorage (defaults app) st with
                      | Returns pvc => [pvc]
                      | Panics _ => []
                      end
                 else []
    | None => []
    end.
Proof.
  rewrite valkey_build_cases. cbv zeta.
  unfold onePasswordItems, deployments, services, serviceAccounts, claims.
  destruct (Storage_ (Spec app)) as [st|];
    [destruct (Storage_Enabled st); [destruct (createStorage _ st)|]|];
    intros [= <-]; rewrite !omap_app;
    rewrite (omap_fmap_Some _ _ (createOnepasswordSecret (defaults app))) by done;
    rewrite !omap_fmap_None by done; by rewrite ?app_nil_r.
Qed.

(** The 1Password items of the Valkey flight and the references of the
    Deployment: the item of a secret is called [<name>-valkey-<secret>],
    while the container takes its environment from a secret called
    [<name>-<secret>]. For no secret are the two names the same, and the
    reference made for a secret names an item of the flight only when the
    spec also holds a secret whose name, after the prefix [valkey-], is the
    name of the first. *)
Theorem X_valkey_secret_names (app : Valkey) out :
  build app = Emitted out →
  ∃ d c,
    deployments out = [d] ∧
    corev1.Containers (podSpec d) = [c] ∧
    ((λ i, metav1.Name (onepasswordv1.ObjectMeta i)) <$> onePasswordItems out)
    = (λ sec, Name app +:+ "-valkey-" +:+ Secret_Name sec) <$> Secrets (Spec app) ∧
    (corev1.SecretRef_Name <$> corev1.EnvFrom c)
    = (λ sec, Name app +:+ "-" +:+ Secret_Name sec) <$> Secrets (Spec app) ∧
    (∀ sec, Name app +:+ "-valkey-" +:+ Secret_Name sec
            ≠ Name app +:+ "-" +:+ Secret_Name sec) ∧
    ∀ sec,
      Name app +:+ "-" +:+ Secret_Name sec
        ∈ ((λ i, metav1.Name (onepasswordv1.ObjectMeta i)) <$> onePasswordItems out) ↔
      ∃ other, other ∈ Secrets (Spec app) ∧
               Secret_Name sec = "valkey-" +:+ Secret_Name other.
Proof.
  intros Hout.
  destruct (valkey_build_core app out Hout) as (Hitems & Hd & _).
  assert (Hnames :
            ((λ i, metav1.Name (onepasswordv1.ObjectMeta i)) <$> onePasswordItems out)
            = (λ sec, Name app +:+ "-valkey-" +:+ Secret_Name sec) <$> Secrets (Spec app)).
  { rewrite Hitems, <- list_fmap_compose. by apply list_fmap_ext. }
  eexists _, _. split; [exact Hd|]. split; [reflexivity|].
  split; [exact Hnames|]. split; [|split].
  - cbn [createDeployment corev1.EnvFrom].
    rewrite (foldl_envFrom (λ sec, Name (defaults app) +:+ "-" +:+ Secret_Name sec)).
    cbn [List.app]. rewrite <- list_fmap_compose. by apply list_fmap_ext.
  - intros sec Heq. apply append_cancel_l in Heq.
    change ("-" +:+ ("valkey-" +:+ Secret_Name sec) = "-" +:+ Secret_Name sec) in Heq.
    apply append_cancel_l in Heq. by apply append_ne_r in Heq.
  - intros sec. rewrite Hnames, list_elem_of_fmap. split.
    + intros (other & Heq & Hin). exists other. split; [done|].
      apply append_cancel_l in Heq.
      change ("-" +:+ Secret_Name sec = "-" +:+ ("valkey-" +:+ Secret_Name other)) in Heq.
      by apply append_cancel_l in Heq.
    + intros (other & Hin & Heq). exists other. split; [|done]. by rewrite Heq.
Qed.

(** The Service of the Valkey flight is called [<name>-valkey], selects
    the pods of the Deployment and forwards the port 6379 to the port the
    container listens on and the liveness probe connects to. *)
Theorem X_valkey_service (app : Valkey) out :
  build app = Emitted out →
  ∃ d c s,
    deployments out = [d] ∧
    corev1.Containers (podSpec d) = [c] ∧
    services out = [s] ∧
    metav1.Name (corev1.Service_ObjectMeta s) = Name app +:+ "-valkey" ∧
    corev1.Service_Selector s ⊆ corev1.Template_Labels (appsv1.Template d) ∧
    (corev1.ServicePort_TargetPort <$> corev1.Service_Ports s)
    = corev1.IntVal <$> (corev1.ContainerPort_ContainerPort <$> corev1.Ports c) ∧
    (corev1.ServicePort_Port <$> corev1.Service_Ports s) = [6379] ∧
    (corev1.ContainerPort_ContainerPort <$> corev1.Ports c) = [6379] ∧
    corev1.LivenessProbe c =
      if Healthcheck (Spec app)
      then Some (probe 3 10 (corev1.TCPSocket (corev1.IntVal 6379)))
      else None.
Proof.
  intros Hout.
  destruct (valkey_build_core app out Hout) as (_ & Hd & Hs & _).
  eexists _, _, _. split; [exact Hd|]. split; [reflexivity|]. split; [exact Hs|].
  repeat split; try done.
  cbn. apply selector_subseteq.
Qed.

End valkey_more.

(** ** More of the Postgres flight *)

Section postgres_more.
Import postgres_v1 postgres_flight.
Abbreviation Name app := (metav1.Name (ObjectMeta app)).
Abbreviation Namespace app := (metav1.Namespace (ObjectMeta app)).

Lemma postgres_build_core k8s_Lookup buf (app : Postgres) out :
  build k8s_Lookup buf app = Emitted out →
  ∃ secret,
    createDatabaseSecret k8s_Lookup buf (defaults app) = Returns secret ∧
    onePasswordItems out = createOnepasswordSecret (defaults app) <$> Secrets (Spec app) ∧
    deployments out = [createDeployment (defaults app)] ∧
    services out = [createService (defaults app)] ∧
    secrets out = [secret] ∧
    serviceAccounts out = [createServiceAccount (defaults app)] ∧
    claims out =
      if bool_decide (Storage_Size (Storage_ (Spec app)) ≠ "")
      then match createStorage (defaults app) with
           | Returns pvc => [pvc]
           | Panics _ => []
           end
      else [].
Proof.
  pose proof (postgres_build_shape k8s_Lookup buf app) as Hshape. cbv zeta in Hshape.
  destruct (createDatabaseSecret k8s_Lookup buf (defaults app)) as [secret|msg];
    [|by rewrite Hshape].
  intros Hout. exists secret. split; [done|].
  unfold onePasswordItems, deployments, services, secrets, serviceAccounts, claims.
  destruct (bool_decide _); [destruct (createStorage (defaults app)) as [pvc|msg]|];
    rewrite Hshape in Hout; try done; injection Hout as <-; rewrite !omap_app;
    rewrite (omap_fmap_Some _ _ (createOnepasswordSecret (defaults app))) by done;
    rewrite !omap_fmap_None by done; by rewrite ?app_nil_r.
Qed.

(** The 1Password items of the Postgres flight and the references of the
    Deployment: the item of a secret is called [<name>-postgres-<secret>],
    while the container takes its environment from a secret called
    [<name>-<secret>]; for no secret are the two names the same. *)
Theorem X_postgres_secret_names k8s_Lookup buf (app : Postgres) out :
  build k8s_Lookup buf app = Emitted out →
  ∃ d c,
    deployments out = [d] ∧
    corev1.Containers (podSpec d) = [c] ∧
    ((λ i, metav1.Name (onepasswordv1.ObjectMeta i)) <$> onePasswordItems out)
    = (λ sec, Name app +:+ "-postgres-" +:+ Secret_Name sec) <$> Secrets (Spec app) ∧
    (corev1.SecretRef_Name <$> corev1.EnvFrom c)
    = (λ sec, Name app +:+ "-" +:+ Secret_Name sec) <$> Secrets (Spec app) ∧
    ∀ sec, Name app +:+ "-postgres-" +:+ Secret_Name sec
           ≠ Name app +:+ "-" +:+ Secret_Name sec.
Proof.
  intros Hout.
  destruct (postgres_build_core k8s_Lookup buf app out Hout) as (secret & _ & Hitems & Hd & _).
  eexists _, _. split; [exact Hd|]. split; [reflexivity|].
  split; [|split].
  - rewrite Hitems, <- list_fmap_compose. by apply list_fmap_ext.
  - cbn [createDeployment corev1.EnvFrom].
    rewrite (foldl_envFrom (λ sec, Name (defaults app) +:+ "-" +:+ Secret_Name sec)).
    cbn [List.app]. rewrite <- list_fmap_compose. by apply list_fmap_ext.
  - intros sec Heq. apply append_cancel_l in Heq.
    change ("-" +:+ ("postgres-" +:+ Secret_Name sec) = "-" +:+ Secret_Name sec) in Heq.
    apply append_cancel_l in Heq. by apply append_ne_r in Heq.
Qed.

(** The data volume of the Postgres Deployment always refers to the claim
    [<name>-postgres-storage]. The flight emits that claim when the spec
    gives a storage size and no claim at all when it gives none, in which
    case the Deployment refers to a claim that is not in the list. *)
Theorem X_postgres_storage_claim k8s_Lookup buf (app : Postgres) out :
  build k8s_Lookup buf app = Emitted out →
  ∃ d c,
    deployments out = [d] ∧
    corev1.Containers (podSpec d) = [c] ∧
    claimNames d = [Name app +:+ "-postgres-storage"] ∧
    (corev1.Volume_Name <$> corev1.Volumes (podSpec d)) = ["data"] ∧
    (corev1.VolumeMount_Name <$> corev1.VolumeMounts c) = ["data"] ∧
    ((λ pvc, metav1.Name (corev1.PVC_ObjectMeta pvc)) <$> claims out)
    = if bool_decide (Storage_Size (Storage_ (Spec app)) = "") then []
      else [Name app +:+ "-postgres-storage"].
Proof.
  intros Hout.
  destruct (postgres_build_core k8s_Lookup buf app out Hout)
    as (secret & _ & _ & Hd & _ & _ & _ & Hclaims).
  pose proof (postgres_build_shape k8s_Lookup buf app) as Hshape. cbv zeta in Hshape.
  eexists _, _. split; [exact Hd|]. split; [reflexivity|].
  repeat split; try done.
  rewrite Hclaims.
  destruct (createDatabaseSecret k8s_Lookup buf (defaults app)) as [s|msg];
    [|by rewrite Hshape in Hout].
  case_bool_decide as Hsize.
  - rewrite bool_decide_eq_false_2 by done.
    unfold createStorage in *.
    destruct (ParseQuantity _) as [size|err]; [done|]. by rewrite Hshape in Hout.
  - rewrite bool_decide_eq_true_2; [done|]. by destruct (decide (Storage_Size (Storage_ (Spec app)) = "")).
Qed.

(** The database Secret and the objects that use it: the container reads
    [POSTGRES_PASSWORD] and [DATABASE_URL] from the Secret the flight
    emits, under keys the Secret has, after the variables of the spec; and
    the host and the port in [DATABASE_URL] are those of the Service of the
    flight. *)
Theorem X_postgres_database_secret k8s_Lookup buf (app : Postgres) out :
  build k8s_Lookup buf app = Emitted out →
  ∃ d c s secret password,
    deployments out = [d] ∧
    corev1.Containers (podSpec d) = [c] ∧
    services out = [s] ∧
    secrets out = [secret] ∧
    corev1.Container_Env c =
      [ {| corev1.EnvVar_Name := "POSTGRES_USER"; corev1.EnvVar_Value := "postgres";
           corev1.EnvVar_ValueFrom := None |};
        {| corev1.EnvVar_Name := "PGDATA";
           corev1.EnvVar_Value := "/var/lib/postgresql/data/pgdata";
           corev1.EnvVar_ValueFrom := None |} ]
      ++ Env (Spec app)
      ++ [ secretKeyRef "POSTGRES_PASSWORD"
             (metav1.Name (corev1.Secret_ObjectMeta secret)) "POSTGRES_PASSWORD";
           secretKeyRef "DATABASE_URL"
             (metav1.Name (corev1.Secret_ObjectMeta secret)) "DATABASE_URL" ] ∧
    metav1.Namespace (corev1.Secret_ObjectMeta secret)
    = metav1.Namespace (appsv1.ObjectMeta d) ∧
    corev1.StringData secret !! "POSTGRES_PASSWORD" = Some password ∧
    (corev1.ServicePort_Port <$> corev1.Service_Ports s) = [5432] ∧
    corev1.StringData secret !! "DATABASE_URL" =
      Some ("postgres://postgres:" +:+ password +:+ "@"
            +:+ metav1.Name (corev1.Service_ObjectMeta s) +:+ "."
            +:+ metav1.Namespace (corev1.Service_ObjectMeta s) +:+ ".svc:"
            +:+ Itoa 5432 +:+ "/" +:+ Name app).
Proof.
  intros Hout.
  destruct (postgres_build_core k8s_Lookup buf app out Hout)
    as (secret & Hsecret & _ & Hd & Hs & Hsec & _).
  assert (Hns : metav1.Namespace (corev1.Secret_ObjectMeta secret) = Namespace app).
  { unfold createDatabaseSecret in Hsecret. case_match; [done|]. by injection Hsecret as <-. }
  apply createDatabaseSecret_Returns in Hsecret as (pw & _ & Hpw & Hurl & Hname & _).
  eexists _, _, _, secret, pw.
  split; [exact Hd|]. split; [reflexivity|]. split; [exact Hs|]. split; [exact Hsec|].
  split; [|split; [|split; [|split]]]; try done.
  - cbn [createDeployment corev1.Container_Env]. rewrite Hname.
    by rewrite <- app_assoc.
  - rewrite Hurl. f_equal. cbn.
    rewrite !append_assoc. reflexivity.
Qed.

End postgres_more.

(** ** Namespaces *)

Section namespaces.

Lemma valkey_namespace (app : valkey_v1.Valkey) out :
  valkey_flight.build app = Emitted out →
  Forall (λ r, metav1.Namespace (metadataOf r)
               = metav1.Namespace (valkey_v1.ObjectMeta app)) out.
Proof.
  rewrite valkey_build_cases. cbv zeta.
  destruct (valkey_v1.Storage_ (valkey_v1.Spec app)) as [st|];
    [destruct (valkey_v1.Storage_Enabled st);
     [destruct (valkey_flight.createStorage _ st) as [pvc|msg] eqn:Hpvc|]|];
    intros [= <-]; rewrite ?Forall_app, Forall_fmap; repeat split;
    try (by apply Forall_true); repeat constructor.
  unfold valkey_flight.createStorage in Hpvc. case_match; [|done]. by injection Hpvc as <-.
Qed.

Lemma postgres_namespace k8s_Lookup buf (app : postgres_v1.Postgres) out :
  postgres_flight.build k8s_Lookup buf app = Emitted out →
  Forall (λ r, metav1.Namespace (metadataOf r)
               = metav1.Namespace (postgres_v1.ObjectMeta app)) out.
Proof.
  assert (Hns : ∀ secret,
             postgres_flight.createDatabaseSecret k8s_Lookup buf (postgres_flight.defaults app)
             = Returns secret →
             metav1.Namespace (corev1.Secret_ObjectMeta secret)
             = metav1.Namespace (postgres_v1.ObjectMeta app)).
  { intros secret. unfold postgres_flight.createDatabaseSecret.
    case_match; [done|]. by intros [= <-]. }
  pose proof (postgres_build_shape k8s_Lookup buf app) as Hshape. cbv zeta in Hshape.
  destruct (postgres_flight.createDatabaseSecret k8s_Lookup buf (postgres_flight.defaults app))
    as [secret|msg] eqn:Hsecret; [|by rewrite Hshape].
  specialize (Hns secret eq_refl).
  destruct (bool_decide _);
    [destruct (postgres_flight.createStorage _) as [pvc|msg] eqn:Hpvc|];
    rewrite Hshape; intros [= <-]; rewrite ?Forall_app, Forall_fmap; repeat split;
    try (by apply Forall_true); repeat constructor; try done.
  unfold postgres_flight.createStorage in Hpvc. case_match; [|done]. by injection Hpvc as <-.
Qed.

(** Every object a flight emits is put in the namespace of the spec. *)
Theorem X_namespace :
  (∀ lookup (app : app_v1.App) out,
      app_flight.build lookup app = Emitted out →
      Forall (λ r, metav1.Namespace (metadataOf r)
                   = metav1.Namespace (app_v1.ObjectMeta app)) out) ∧
  (∀ (app : valkey_v1.Valkey) out,
      valkey_flight.build app = Emitted out →
      Forall (λ r, metav1.Namespace (metadataOf r)
                   = metav1.Namespace (valkey_v1.ObjectMeta app)) out) ∧
  (∀ k8s_Lookup buf (app : postgres_v1.Postgres) out,
      postgres_flight.build k8s_Lookup buf app = Emitted out →
      Forall (λ r, metav1.Namespace (metadataOf r)
                   = metav1.Namespace (postgres_v1.ObjectMeta app)) out).
Proof.
  split; [|split].
  - apply app_namespace.
  - apply valkey_namespace.
  - apply postgres_namespace.
Qed.

End namespaces.

(** ** What the decoders of the Valkey and Postgres types accept *)

Ltac field_cases :=
  repeat case_match;
  try (intros (? & ? & ->)%Dec_bind_ret_inv);
  try (intros [= <- <-]).

Section valkey_decoding.
Import valkey_v1.

Lemma valkey_Secret_UnmarshalJSON_valid s data s' :
  Secret_UnmarshalJSON s data = Ok s' → Secret_ItemPath s' ≠ "".
Proof.
  unfold Secret_UnmarshalJSON. destruct (Unmarshal _) as [x|e]; [|done]. cbn.
  case_bool_decide; [done|]. by intros [= <-].
Qed.

Lemma ValkeySpec_setField_valid m s s' e :
  ValkeySpec_valid s → ValkeySpec_setField m s = Done s' e → ValkeySpec_valid s'.
Proof.
  destruct m as [k v], s as [env healthcheck storage secrets].
  unfold ValkeySpec_valid, ValkeySpec_setField. cbn. intros [Hst Hsec].
  field_cases; cbn; try done.
  - split; [|done].
    match goal with Hd : decPtr _ _ _ _ = Done _ _ |- _ => revert Hd end.
    apply (decPtr_inv (λ _, True)); [|done|apply option_Forall_True].
    intros c y s' _ Hy. apply hook_Done in Hy.
    by apply valkey_Storage_UnmarshalJSON_Ok in Hy.
  - split; [done|].
    match goal with Hd : decSlice _ _ _ _ _ = Done _ _ |- _ => revert Hd end.
    apply (decSlice_inv (λ _, True)); [|done|by apply Forall_true|done].
    intros c j y s' _ Hy. apply hook_Done in Hy.
    by apply valkey_Secret_UnmarshalJSON_valid in Hy.
Qed.

Lemma Valkey_UnmarshalJSON_valid v data v' :
  ValkeySpec_valid (Spec v) → Valkey_UnmarshalJSON v data = Ok v' →
  TypeMeta v' = typeMeta APIVersion KindApp ∧ ValkeySpec_valid (Spec v').
Proof.
  intros Hv. unfold Valkey_UnmarshalJSON.
  destruct (Unmarshal _) as [x|e] eqn:Hx; [|done]. cbn.
  apply Unmarshal_Ok in Hx.
  assert (Hx' : ValkeySpec_valid (Spec x)).
  { revert Hx. apply (decStruct_inv (λ a, ValkeySpec_valid (Spec a))); [|done].
    intros [k w] [[kind apiVersion] meta spec] c' s'. unfold Valkey_setField. cbn.
    intros Hspec. field_cases; cbn; try done.
    match goal with Hd : decStruct _ _ _ _ = Done _ _ |- _ => revert Hd end.
    apply (decStruct_inv ValkeySpec_valid); [|done].
    intros m c c'' s''. apply ValkeySpec_setField_valid. }
  case_bool_decide as Hv1; [done|]. case_bool_decide as Hv2; [done|].
  intros [= <-]. split; [|done].
  destruct x as [[kind apiVersion] ? ?]. cbn in *.
  by subst.
Qed.

End valkey_decoding.

Section postgres_decoding.
Import postgres_v1.

Lemma postgres_Storage_UnmarshalJSON_valid s data s' :
  Storage_UnmarshalJSON s data = Ok s' →
  Storage_Size s' ≠ "" ∧ ∃ size, ParseQuantity (Storage_Size s') = inl size.
Proof.
  unfold Storage_UnmarshalJSON. destruct (Unmarshal _) as [x|e]; [|done]. cbn.
  case_bool_decide; [done|].
  destruct (ParseQuantity _) as [size|err] eqn:Hsize; [|done].
  intros [= <-]. split; [done|]. by exists size.
Qed.

Lemma postgres_Secret_UnmarshalJSON_valid s data s' :
  Secret_UnmarshalJSON s data = Ok s' → Secret_ItemPath s' ≠ "".
Proof.
  unfold Secret_UnmarshalJSON. destruct (Unmarshal _) as [x|e]; [|done]. cbn.
  case_bool_decide; [done|]. by intros [= <-].
Qed.

Lemma PostgresSpec_setField_valid m s s' e :
  PostgresSpec_valid s → PostgresSpec_setField m s = Done s' e → PostgresSpec_valid s'.
Proof.
  destruct m as [k v], s as [env healthcheck storage secrets].
  unfold PostgresSpec_valid, PostgresSpec_setField. cbn. intros [Hst Hsec].
  field_cases; cbn; try done.
  - split; [|done].
    match goal with Hd : hook _ = Done _ _ |- _ => apply hook_Done in Hd;
      apply postgres_Storage_UnmarshalJSON_valid in Hd as [_ Hd] end.
    by intros _.
  - split; [done|].
    match goal with Hd : decSlice _ _ _ _ _ = Done _ _ |- _ => revert Hd end.
    apply (decSlice_inv (λ _, True)); [|done|by apply Forall_true|done].
    intros c j y s' _ Hy. apply hook_Done in Hy.
    by apply postgres_Secret_UnmarshalJSON_valid in Hy.
Qed.

Lemma PostgresSpec_zero_valid : PostgresSpec_valid PostgresSpec_zero.
Proof. split; [by intros []|by constructor]. Qed.

Lemma Postgres_UnmarshalJSON_valid v data v' :
  Postgres_UnmarshalJSON v data = Ok v' →
  TypeMeta v' = typeMeta APIVersion KindApp ∧ PostgresSpec_valid (Spec v').
Proof.
  unfold Postgres_UnmarshalJSON.
  destruct (Unmarshal _) as [x|e] eqn:Hx; [|done]. cbn.
  apply Unmarshal_Ok in Hx.
  assert (Hx' : PostgresSpec_valid (Spec x)).
  { revert Hx. apply (decStruct_inv (λ a, PostgresSpec_valid (Spec a)));
      [|apply PostgresSpec_zero_valid].
    intros [k w] [[kind apiVersion] meta spec] c' s'. unfold Postgres_setField. cbn.
    intros Hspec. field_cases; cbn; try done.
    match goal with Hd : decStruct _ _ _ _ = Done _ _ |- _ => revert Hd end.
    apply (decStruct_inv PostgresSpec_valid); [|done].
    intros m c c'' s''. apply PostgresSpec_setField_valid. }
  case_bool_decide as Hv1; [done|]. case_bool_decide as Hv2; [done|].
  intros [= <-]. split; [|done].
  destruct x as [[kind apiVersion] ? ?]. cbn in *.
  by subst.
Qed.

End postgres_decoding.

(** No flight panics because of its input: the hooks have parsed every
    size the builders parse again. The App flight and the Valkey flight
    either emit their list or exit with the error of the decoder; the
    Postgres flight does so unless the lookup of the database secret of the
    spec it works on fails for a reason other than not-found. *)
Theorem X_no_panic_from_input :
  (∀ lookup stdin,
      (∃ out, app_flight.run lookup stdin = Emitted out) ∨
      (∃ err, decoded app_v1.App_UnmarshalJSON app_v1.App_zero stdin = Err err ∧
              app_flight.run lookup stdin = Exit1 err)) ∧
  (∀ stdin,
      (∃ out, valkey_flight.run stdin = Emitted out) ∨
      (∃ err, decoded valkey_v1.Valkey_UnmarshalJSON valkey_v1.Valkey_zero stdin = Err err ∧
              valkey_flight.run stdin = Exit1 err)) ∧
  (∀ k8s_Lookup buf stdin,
      (∀ app msg,
          decoded postgres_v1.Postgres_UnmarshalJSON postgres_v1.Postgres_zero stdin
          = Ok app →
          k8s_Lookup (databaseSecretIdentifier app) ≠ ErrOther msg) →
      (∃ out, postgres_flight.run k8s_Lookup buf stdin = Emitted out) ∨
      (∃ err, decoded postgres_v1.Postgres_UnmarshalJSON postgres_v1.Postgres_zero stdin
              = Err err ∧
              postgres_flight.run k8s_Lookup buf stdin = Exit1 err)).
Proof.
  split; [|split].
  - intros lookup stdin.
    destruct (decoded app_v1.App_UnmarshalJSON app_v1.App_zero stdin) as [app|err] eqn:Hdec.
    + left. destruct (app_run_output lookup stdin app Hdec) as (out & Hout & _).
      by exists out.
    + right. exists err. split; [done|]. by rewrite app_run_decoded, Hdec.
  - intros stdin. rewrite valkey_run_decoded.
    destruct (decoded valkey_v1.Valkey_UnmarshalJSON valkey_v1.Valkey_zero stdin)
      as [app|err] eqn:Hdec; [left|right; by exists err].
    assert (Hvalid : ValkeySpec_valid (valkey_v1.Spec app)).
    { apply decoded_Ok in Hdec as [[-> _]|(data & _ & _ & Hx)]; [split; by constructor|].
      apply Valkey_UnmarshalJSON_valid in Hx as [_ Hx]; [done|].
      split; by constructor. }
    rewrite valkey_build_cases. cbv zeta. destruct Hvalid as [Hst _].
    destruct (valkey_v1.Storage_ (valkey_v1.Spec app)) as [st|]; [|by eexists].
    destruct (valkey_v1.Storage_Enabled st); [|by eexists].
    apply option_Forall_from_option in Hst as [_ [size Hsize]].
    unfold valkey_flight.createStorage. rewrite Hsize. by eexists.
  - intros k8s_Lookup buf stdin Hlookup. rewrite postgres_run_decoded.
    destruct (decoded postgres_v1.Postgres_UnmarshalJSON postgres_v1.Postgres_zero stdin)
      as [app|err] eqn:Hdec; [left|right; by exists err].
    assert (Hvalid : PostgresSpec_valid (postgres_v1.Spec app)).
    { apply decoded_Ok in Hdec as [[-> _]|(data & _ & _ & Hx)];
        [apply PostgresSpec_zero_valid|].
      by apply Postgres_UnmarshalJSON_valid in Hx as [_ Hx]. }
    pose proof (postgres_build_shape k8s_Lookup buf app) as Hshape. cbv zeta in Hshape.
    destruct (createDatabaseSecret_not_fatal k8s_Lookup buf (postgres_flight.defaults app))
      as [secret Hsecret]; [intros msg; by apply (Hlookup app msg)|].
    rewrite Hsecret in Hshape. destruct Hvalid as [Hst _].
    case_bool_decide as Hsize; [|by eexists].
    destruct (Hst Hsize) as [size Hq].
    unfold postgres_flight.createStorage in Hshape.
    change (postgres_v1.Spec (postgres_flight.defaults app)) with (postgres_v1.Spec app)
      in Hshape.
    rewrite Hq in Hshape. by eexists.
Qed.

(** ** Encoding a Valkey or a Postgres spec and decoding it again *)

Section valkey_roundtrip.
Import valkey_v1.

Lemma valkey_Secret_roundtrip (s : Secret) :
  Secret_ItemPath s ≠ "" → Secret_UnmarshalJSON Secret_zero (Secret_enc s) = Ok s.
Proof.
  destruct s as [name itemPath]. cbn. intros Hpath.
  unfold Secret_UnmarshalJSON.
  change (Unmarshal _) with (Ok (Build_Secret name itemPath)).
  cbn [mbind result_bind Secret_ItemPath]. by rewrite bool_decide_eq_false_2.
Qed.

Lemma valkey_Storage_roundtrip (s : Storage) :
  valkey_Storage_valid s → Storage_UnmarshalJSON Storage_zero (Storage_enc s) = Ok s.
Proof.
  destruct s as [enabled size class]. intros [Hen [q Hq]]. cbn in Hen, Hq.
  unfold Storage_UnmarshalJSON.
  assert (Hdec : decStruct "StorageAlt" Storage_setField Storage_zero
                   (Storage_enc (Build_Storage enabled size class))
                 = Done (Build_Storage enabled size class) None).
  { unfold Storage_enc, Storage_zero.
    cbn [decStruct Storage_Enabled Storage_Size Storage_StorageClass List.app].
    apply (foldM_cons_step _ _ (Build_Storage enabled "" None)); [done|].
    apply (foldM_cons_step _ _ (Build_Storage enabled size None)); [done|].
    apply foldM_omitempty_last. by destruct class. }
  rewrite Hdec. cbn. rewrite Hq.
  destruct enabled; cbn; [|done]. by rewrite bool_decide_eq_false_2 by auto.
Qed.

Lemma ValkeySpec_roundtrip (s : ValkeySpec) :
  ValkeySpec_valid s →
  decStruct "ValkeySpec" ValkeySpec_setField ValkeySpec_zero (ValkeySpec_enc s)
  = Done s None.
Proof.
  destruct s as [env healthcheck storage secrets]. intros [Hstorage Hsecrets].
  cbn in Hstorage, Hsecrets.
  unfold ValkeySpec_enc, ValkeySpec_zero.
  cbn [decStruct Env Healthcheck Storage_ Secrets List.app].
  apply (foldM_omitempty_step _ _ (Build_ValkeySpec env false None [])).
  { destruct env as [|x env]; [done|].
    set_field (decSlice_fmap "[]v1.EnvVar" corev1.EnvVar_zero corev1.EnvVar_dec
                 corev1.EnvVar_enc (x :: env) (λ e _, EnvVar_roundtrip e)). }
  apply (foldM_omitempty_step _ _ (Build_ValkeySpec env healthcheck None [])).
  { by destruct healthcheck. }
  apply (foldM_omitempty_step _ _ (Build_ValkeySpec env healthcheck storage [])).
  { destruct storage as [x|]; [|done]. apply option_Forall_from_option in Hstorage.
    set_field (decPtr_hook Storage_zero Storage_UnmarshalJSON Storage_enc x
                 ltac:(done) (valkey_Storage_roundtrip x Hstorage)). }
  apply foldM_omitempty_last.
  destruct secrets as [|x secrets]; [done|].
  set_field (decSlice_hook "[]v1.Secret" Secret_zero Secret_UnmarshalJSON Secret_enc
               (x :: secrets)
               (λ y Hy, valkey_Secret_roundtrip y (proj1 (Forall_forall _ _) Hsecrets y Hy))).
Qed.

Lemma Valkey_alt_roundtrip (v : Valkey) :
  ValkeySpec_valid (Spec v) →
  decStruct "ValkeyAlt" Valkey_setField Valkey_zero (Valkey_MarshalJSON v)
  = Done (Build_Valkey (typeMeta APIVersion KindApp) (ObjectMeta v) (Spec v)) None.
Proof.
  destruct v as [type meta spec]. cbn [Spec ObjectMeta]. intros Hvalid.
  unfold Valkey_MarshalJSON, Valkey_zero. cbn [decStruct Spec ObjectMeta].
  apply (foldM_cons_step _ _
           (Build_Valkey (metav1.Build_TypeMeta KindApp "") metav1.ObjectMeta_zero
              ValkeySpec_zero)); [done|].
  apply (foldM_cons_step _ _
           (Build_Valkey (typeMeta APIVersion KindApp) metav1.ObjectMeta_zero
              ValkeySpec_zero)); [done|].
  apply (foldM_cons_step _ _
           (Build_Valkey (typeMeta APIVersion KindApp) meta ValkeySpec_zero)).
  { set_field (ObjectMeta_roundtrip meta). }
  apply (foldM_cons_step _ _ (Build_Valkey (typeMeta APIVersion KindApp) meta spec));
    [|done].
  set_field (ValkeySpec_roundtrip spec Hvalid).
Qed.

(** Encoding a Valkey whose storage block and secrets are as the hooks
    accept them and decoding the result gives the Valkey back, with the
    kind and the version of the type; a Valkey decoded from a document
    comes back equal. *)
Theorem X_valkey_round_trip :
  (∀ v : Valkey,
      ValkeySpec_valid (Spec v) →
      Valkey_UnmarshalJSON Valkey_zero (Valkey_MarshalJSON v)
      = Ok (Build_Valkey (typeMeta APIVersion KindApp) (ObjectMeta v) (Spec v))) ∧
  (∀ (data : json) (v : Valkey),
      Valkey_UnmarshalJSON Valkey_zero data = Ok v →
      Valkey_UnmarshalJSON Valkey_zero (Valkey_MarshalJSON v) = Ok v).
Proof.
  assert (Hall : ∀ v : Valkey,
             ValkeySpec_valid (Spec v) →
             Valkey_UnmarshalJSON Valkey_zero (Valkey_MarshalJSON v)
             = Ok (Build_Valkey (typeMeta APIVersion KindApp) (ObjectMeta v) (Spec v))).
  { intros v Hvalid. unfold Valkey_UnmarshalJSON.
    by rewrite (Valkey_alt_roundtrip v Hvalid). }
  split; [exact Hall|].
  intros data v Hdata.
  apply Valkey_UnmarshalJSON_valid in Hdata as [Htype Hvalid]; [|split; by constructor].
  rewrite (Hall v Hvalid). destruct v as [type meta spec]. cbn in Htype. by rewrite Htype.
Qed.

End valkey_roundtrip.

Section postgres_roundtrip2.
Import postgres_v1.

Lemma postgres_Secret_roundtrip cur (s : Secret) :
  Secret_ItemPath s ≠ "" → Secret_UnmarshalJSON cur (Secret_enc s) = Ok s.
Proof.
  destruct s as [name itemPath]. cbn. intros Hpath.
  unfold Secret_UnmarshalJSON.
  change (Unmarshal _) with (Ok (Build_Secret name itemPath)).
  cbn [mbind result_bind Secret_ItemPath]. by rewrite bool_decide_eq_false_2.
Qed.

Lemma postgres_Storage_roundtrip cur (s : Storage) size :
  Storage_Size s ≠ "" → ParseQuantity (Storage_Size s) = inl size →
  Storage_UnmarshalJSON cur (Storage_enc s) = Ok s.
Proof.
  destruct s as [sz class]. cbn. intros Hsize Hq.
  unfold Storage_UnmarshalJSON.
  assert (Hdec : decStruct "StorageAlt" Storage_setField Storage_zero
                   (Storage_enc (Build_Storage sz class))
                 = Done (Build_Storage sz class) None).
  { unfold Storage_enc, Storage_zero.
    cbn [decStruct Storage_Size Storage_StorageClass List.app].
    apply (foldM_cons_step _ _ (Build_Storage sz None)); [done|].
    apply foldM_omitempty_last. by destruct class. }
  rewrite Hdec. cbn. by rewrite Hq, bool_decide_eq_false_2.
Qed.

Lemma PostgresSpec_roundtrip (s : PostgresSpec) size :
  Storage_Size (Storage_ s) ≠ "" →
  ParseQuantity (Storage_Size (Storage_ s)) = inl size →
  Forall (λ sec, Secret_ItemPath sec ≠ "") (Secrets s) →
  decStruct "PostgresSpec" PostgresSpec_setField PostgresSpec_zero (PostgresSpec_enc s)
  = Done s None.
Proof.
  destruct s as [env healthcheck storage secrets]. cbn. intros Hsize Hq Hsecrets.
  unfold PostgresSpec_enc, PostgresSpec_zero.
  cbn [decStruct Env Healthcheck Storage_ Secrets List.app].
  apply (foldM_omitempty_step _ _ (Build_PostgresSpec env false Storage_zero [])).
  { destruct env as [|x env]; [done|].
    set_field (decSlice_fmap "[]v1.EnvVar" corev1.EnvVar_zero corev1.EnvVar_dec
                 corev1.EnvVar_enc (x :: env) (λ e _, EnvVar_roundtrip e)). }
  apply (foldM_omitempty_step _ _ (Build_PostgresSpec env healthcheck Storage_zero [])).
  { by destruct healthcheck. }
  apply (foldM_cons_step _ _ (Build_PostgresSpec env healthcheck storage [])).
  { set_field (f_equal hook (postgres_Storage_roundtrip Storage_zero storage size Hsize Hq)). }
  apply foldM_omitempty_last.
  destruct secrets as [|x secrets]; [done|].
  set_field (decSlice_hook "[]v1.Secret" Secret_zero Secret_UnmarshalJSON Secret_enc
               (x :: secrets)
               (λ y Hy, postgres_Secret_roundtrip Secret_zero y
                          (proj1 (Forall_forall _ _) Hsecrets y Hy))).
Qed.

(** Encoding a Postgres that has a storage size (one that parses) and
    secrets with item paths and decoding the result gives the Postgres
    back, with the kind and the version of the type; so a Postgres decoded
    from a document with a storage block comes back equal. *)
Theorem X_postgres_round_trip_with_storage :
  (∀ (p : Postgres) size,
      Storage_Size (Storage_ (Spec p)) ≠ "" →
      ParseQuantity (Storage_Size (Storage_ (Spec p))) = inl size →
      Forall (λ sec, Secret_ItemPath sec ≠ "") (Secrets (Spec p)) →
      Postgres_UnmarshalJSON Postgres_zero (Postgres_MarshalJSON p)
      = Ok (Build_Postgres (typeMeta APIVersion KindApp) (ObjectMeta p) (Spec p))) ∧
  (∀ (data : json) (p : Postgres),
      Postgres_UnmarshalJSON Postgres_zero data = Ok p →
      Storage_Size (Storage_ (Spec p)) ≠ "" →
      Postgres_UnmarshalJSON Postgres_zero (Postgres_MarshalJSON p) = Ok p).
Proof.
  assert (Hall : ∀ (p : Postgres) size,
             Storage_Size (Storage_ (Spec p)) ≠ "" →
             ParseQuantity (Storage_Size (Storage_ (Spec p))) = inl size →
             Forall (λ sec, Secret_ItemPath sec ≠ "") (Secrets (Spec p)) →
             Postgres_UnmarshalJSON Postgres_zero (Postgres_MarshalJSON p)
             = Ok (Build_Postgres (typeMeta APIVersion KindApp) (ObjectMeta p) (Spec p))).
  { intros [type meta spec] size Hsize Hq Hsecrets. cbn [Spec ObjectMeta] in *.
    unfold Postgres_UnmarshalJSON.
    assert (Hdec : decStruct "PostgresAlt" Postgres_setField Postgres_zero
                     (Postgres_MarshalJSON (Build_Postgres type meta spec))
                   = Done (Build_Postgres (typeMeta APIVersion KindApp) meta spec) None).
    { unfold Postgres_MarshalJSON, Postgres_zero. cbn [decStruct Spec ObjectMeta].
      apply (foldM_cons_step _ _
               (Build_Postgres (metav1.Build_TypeMeta KindApp "") metav1.ObjectMeta_zero
                  PostgresSpec_zero)); [done|].
      apply (foldM_cons_step _ _
               (Build_Postgres (typeMeta APIVersion KindApp) metav1.ObjectMeta_zero
                  PostgresSpec_zero)); [done|].
      apply (foldM_cons_step _ _
               (Build_Postgres (typeMeta APIVersion KindApp) meta PostgresSpec_zero)).
      { set_field (ObjectMeta_roundtrip meta). }
      apply (foldM_cons_step _ _ (Build_Postgres (typeMeta APIVersion KindApp) meta spec));
        [|done].
      set_field (PostgresSpec_roundtrip spec size Hsize Hq Hsecrets). }
    by rewrite Hdec. }
  split; [exact Hall|].
  intros data p Hdata Hsize.
  apply Postgres_UnmarshalJSON_valid in Hdata as [Htype [Hstorage Hsecrets]].
  destruct (Hstorage Hsize) as [size Hq].
  rewrite (Hall p size Hsize Hq Hsecrets).
  destruct p as [type meta spec]. cbn in Htype. by rewrite Htype.
Qed.

End postgres_roundtrip2.

(** ** The documents the App flight accepts *)

Section app_documents.
Import app_v1 app_flight.

(** What the decoder of App accepts: a document passes only with the
    version and the kind of the type, and the value it decodes to has a
    replica count other than 0, integers within their Go types, and blocks
    that have passed the checks of their hooks and have their defaults (an
    enabled healthcheck has a path; an enabled ingress has a host, an
    issuer and a class; every secret has an item path and not both flags;
    the size of a storage block parses). *)
Theorem X_app_accepted_documents (data : json) (app : App) :
  App_UnmarshalJSON App_zero data = Ok app → App_valid app.
Proof. apply App_UnmarshalJSON_valid, AppSpec_zero_valid. Qed.

(** The replica count of the Deployment, for every input the App flight
    goes on with: it is the count of the value the flight works on, and it
    is 0 exactly when there is no input or the document is [null], the two
    cases in which the hook does not run. For any other document the hook
    has replaced a count of 0 by 1. *)
Theorem X_app_replicas lookup stdin (app : App) :
  decoded App_UnmarshalJSON App_zero stdin = Ok app →
  ∃ out d,
    run lookup stdin = Emitted out ∧
    deployments out = [d] ∧
    appsv1.Replicas d = Some (Replicas (Spec app)) ∧
    (Replicas (Spec app) = 0 ↔ stdin = EndOfInput ∨ stdin = Document JNull).
Proof.
  intros Hdec.
  destruct (app_run_output lookup stdin app Hdec) as (out & Hout & _).
  pose proof Hout as Hbuild. rewrite app_run_decoded, Hdec in Hbuild.
  destruct (app_build_core lookup app out Hbuild) as (_ & Hd & _).
  eexists out, _. split; [exact Hout|]. split; [exact Hd|].
  split; [by destruct app as [? ? []]|].
  apply decoded_Ok in Hdec as [[-> Hstdin]|(data & -> & Hdata & Hx)]; [done|].
  apply App_UnmarshalJSON_valid in Hx as (_ & Hreplicas & _); [|apply AppSpec_zero_valid].
  split; [done|]. intros [?|[= ->]]; done.
Qed.

(** The name of the TLS secret of the Ingress holds no dot, whatever the
    host is, and is 11 bytes longer than the host. *)
Theorem X_app_tls_secret_name (i : Ingress) :
  Forall (λ c, c ≠ "."%char) (list_ascii_of_string (mkTLSSecretName i)) ∧
  String.length (mkTLSSecretName i) = (String.length (Ingress_Host i) + 11)%nat.
Proof.
  unfold mkTLSSecretName. generalize (Ingress_Host i). intros host. split.
  - induction host as [|c host IH]; [by repeat constructor|].
    cbn [ReplaceAll]. case_bool_decide as Hc.
    + change (Forall (λ c, c ≠ "."%char)
                (list_ascii_of_string
                   (String "-" (ReplaceAll host "." "-" +:+ "-public-tls")))).
      by constructor.
    + change (Forall (λ c, c ≠ "."%char)
                (list_ascii_of_string
                   (String c (ReplaceAll host "." "-" +:+ "-public-tls")))).
      by constructor.
  - rewrite length_append. cbn [String.length]. f_equal.
    induction host as [|c host IH]; [done|].
    cbn [ReplaceAll]. rewrite length_append, IH. by case_bool_decide.
Qed.

End app_documents.

(** ** The generated password *)

Section postgres_password.
Import postgres_flight.

Lemma hexDigit_hex (n : N) :
  (n < 16)%N → hexDigit n ∈ list_ascii_of_string "0123456789abcdef".
Proof.
  intros Hn.
  assert (Hcases : n ∈ N.of_nat <$> seq 0 16).
  { apply list_elem_of_fmap. exists (N.to_nat n). split; [lia|].
    apply elem_of_seq. lia. }
  cbn in Hcases.
  repeat (apply elem_of_cons in Hcases as [->|Hcases]; [vm_compute; set_solver|]).
  by apply elem_of_nil in Hcases.
Qed.

(** The password [RandomString] makes of the random bytes: two characters
    for each byte, all of them lower-case hexadecimal digits, so nothing
    that would need escaping in [DATABASE_URL]. *)
Theorem X_postgres_random_string (buf : string) :
  String.length (RandomString buf) = (2 * String.length buf)%nat ∧
  Forall (λ c, c ∈ list_ascii_of_string "0123456789abcdef")
         (list_ascii_of_string (RandomString buf)).
Proof.
  unfold RandomString. split.
  - induction buf as [|c buf IH]; [done|]. cbn [hex String.length]. rewrite IH. lia.
  - induction buf as [|c buf IH]; [by constructor|].
    cbn [hex list_ascii_of_string].
    assert (Hc : (N_of_ascii c < 256)%N) by apply N_ascii_bounded.
    constructor; [|constructor; [|done]]; apply hexDigit_hex.
    + apply N.Div0.div_lt_upper_bound. lia.
    + by apply N.mod_lt.
Qed.

End postgres_password.

(** ** The checks of the hypercloud configuration *)

Section hypercloud_checks.
Import hypercloud.

Lemma ACMEDirectory_Valid_None (ad : ACMEDirectory) :
  ACMEDirectory_Valid ad = None ↔ URL ad ≠ "" ∧ Name ad ≠ "".
Proof.
  unfold ACMEDirectory_Valid.
  repeat case_bool_decide; cbn; split; try done; try by intros [].
Qed.

Lemma foldl_directories_nil (l : list ACMEDirectory) errs :
  foldl (λ errs directory,
           match ACMEDirectory_Valid directory with
           | Some err =>
               errs ++ [Errorf ("directory " +:+ Name directory +:+ " is invalid: "
                                +:+ Error err)]
           | None => errs
           end) errs l = []
  ↔ errs = [] ∧ Forall (λ ad, ACMEDirectory_Valid ad = None) l.
Proof.
  revert errs. induction l as [|ad l IH]; intros errs; cbn.
  - split; [by intros ->|by intros [-> _]].
  - rewrite IH. destruct (ACMEDirectory_Valid ad) as [err|] eqn:Had.
    + split; [by intros [[]%app_eq_nil _]|].
      intros [_ Hall]. inversion Hall; congruence.
    + split; [intros [-> Hl]; by repeat constructor|].
      intros [-> Hall]. by inversion Hall.
Qed.

(** The checks of [IP], [ACMEDirectory] and [ACME] pass exactly when
    nothing is missing: an address of either family; a URL and a name; an
    email, at least one directory, and a URL and a name in every
    directory. *)
Theorem X_hypercloud_valid :
  (∀ ip : IP, IP_Valid ip = None ↔ is_Some (IPv4 ip) ∨ is_Some (IPv6 ip)) ∧
  (∀ ad : ACMEDirectory, ACMEDirectory_Valid ad = None ↔ URL ad ≠ "" ∧ Name ad ≠ "") ∧
  (∀ acme : ACME,
      ACME_Valid acme = None ↔
      Email acme ≠ "" ∧ Directories acme ≠ [] ∧
      Forall (λ ad, URL ad ≠ "" ∧ Name ad ≠ "") (Directories acme)).
Proof.
  split; [|split].
  - intros [[v4|] [v6|]]; cbn; split; try done; eauto.
    intros [[]|[]]; done.
  - apply ACMEDirectory_Valid_None.
  - intros acme. unfold ACME_Valid.
    set (errs := foldl _ _ _).
    assert (Herrs : errs = [] ↔
              Email acme ≠ "" ∧ Directories acme ≠ [] ∧
              Forall (λ ad, URL ad ≠ "" ∧ Name ad ≠ "") (Directories acme)).
    { subst errs. rewrite foldl_directories_nil.
      setoid_rewrite ACMEDirectory_Valid_None.
      case_bool_decide as Hemail; destruct (Directories acme) as [|ad l]; cbn;
        split; try tauto; try (by intros [[=] _]); try (by intros (? & ? & ?)).
      by intros [_ ?]. }
    rewrite <- Herrs. destruct errs; cbn; split; done.
Qed.

(** The check of [Config] reads the arguments of the external DNS chart
    whether or not the block is there: without the block it panics, whatever
    else the configuration holds, and the message [externalDNS is required]
    is never returned. With the block, it passes exactly when the ACME block
    is there and passes its own check, the chart has some argument, and an
    address is given. *)
Theorem X_hypercloud_config (c : Config) :
  match ExternalDNS c with
  | None => ∃ msg, Config_Valid c = Panics msg
  | Some values =>
      ∃ err, Config_Valid c = Returns err ∧
        (err = None ↔
         (∃ acme, ACME_ c = Some acme ∧ ACME_Valid acme = None) ∧
         ExtraArgs values ≠ [] ∧
         (is_Some (IPv4 (ExternalIP c)) ∨ is_Some (IPv6 (ExternalIP c))))
  end.
Proof.
  unfold Config_Valid.
  destruct (ExternalDNS c) as [values|]; [|by eexists].
  eexists. split; [reflexivity|]. cbn [isNil].
  assert (Hip : IP_Valid (ExternalIP c) = None ↔
                is_Some (IPv4 (ExternalIP c)) ∨ is_Some (IPv6 (ExternalIP c))).
  { destruct (ExternalIP c) as [[v4|] [v6|]]; cbn; split; try done; eauto.
    intros [[]|[]]; done. }
  destruct (ACME_ c) as [acme|] eqn:Hacme;
    [destruct (ACME_Valid acme) as [e|] eqn:Hv|];
    destruct (ExtraArgs values) as [|arg args] eqn:Hargs;
    destruct (IP_Valid (ExternalIP c)) as [e'|] eqn:Hipv; cbn;
    (split; [intros Hnone|intros ((acme' & Ha & Hv') & Hargs' & Hip')]);
    try discriminate Hnone; try done; try congruence;
    try (apply Hip in Hip'; discriminate Hip').
  split; [by exists acme|]. split; [done|]. by apply Hip.
Qed.

End hypercloud_checks.

Section hypercloud_documents.
Import hypercloud.
Context {Unstructured : Type} (GetAPIVersion : Unstructured → string).

Lemma readLoop_Ok (docs read : list Unstructured) :
  readLoop Unstructured GetAPIVersion (Ok <$> docs) read
  = Ok (read ++ filter (λ doc, GetAPIVersion doc ≠ "") docs).
Proof.
  revert read. induction docs as [|doc docs IH]; intros read.
  - cbn. by rewrite app_nil_r.
  - rewrite fmap_cons, filter_cons. cbn [readLoop]. case_bool_decide as Hv.
    + rewrite IH. by rewrite decide_False by auto.
    + rewrite IH. rewrite decide_True by done. by rewrite <- app_assoc.
Qed.

Lemma readLoop_Err (docs read : list Unstructured) err rest :
  err ≠ EOF →
  readLoop Unstructured GetAPIVersion ((Ok <$> docs) ++ Err err :: rest) read = Err err.
Proof.
  intros Herr. revert read. induction docs as [|doc docs IH]; intros read; cbn.
  - by destruct err.
  - case_bool_decide; apply IH.
Qed.

(** [readEveryDocument] gives the documents of the stream that have an
    [apiVersion], in their order, when every document decodes; when one does
    not, it gives the error of the first that does not and none of the
    documents read before it, and reads no further. *)
Theorem X_hypercloud_readEveryDocument :
  (∀ docs : list Unstructured,
      readEveryDocument Unstructured GetAPIVersion (Ok <$> docs)
      = Ok (filter (λ doc, GetAPIVersion doc ≠ "") docs)) ∧
  (∀ (docs : list Unstructured) err rest,
      err ≠ EOF →
      readEveryDocument Unstructured GetAPIVersion ((Ok <$> docs) ++ Err err :: rest)
      = Err err).
Proof.
  split.
  - intros docs. apply readLoop_Ok.
  - intros docs err rest Herr. by apply readLoop_Err.
Qed.

End hypercloud_documents.

(** ** The earlier snapshot of the App type *)

Section earlier_decoding.
Import app_v1_earlier.

Lemma earlier_Ingress_UnmarshalJSON_valid i data i' :
  Ingress_UnmarshalJSON i data = Ok i' → earlier_Ingress_valid i'.
Proof.
  unfold Ingress_UnmarshalJSON.
  destruct (Unmarshal _) as [x|e]; [|done]. cbn.
  destruct x as [enabled host issuer class]. cbn.
  destruct enabled; cbn.
  - case_bool_decide as Hhost; [done|]. intros [= <-]. intros _. cbn.
    split; [done|]. split; case_bool_decide; by subst.
  - by intros [= <-].
Qed.

Lemma earlier_Healthcheck_dec_inRange h j h' s :
  inRange intBits (Healthcheck_Port h) = true →
  Healthcheck_dec h j = Done h' s → inRange intBits (Healthcheck_Port h') = true.
Proof.
  apply (decStruct_inv (λ h, inRange intBits (Healthcheck_Port h) = true)).
  intros [k v] [] c' s' Hc. unfold Healthcheck_setField.
  field_cases; cbn in *; eauto using decInt_inRange.
Qed.

Lemma earlier_AppSpec_setField_valid m s s' e :
  earlier_AppSpec_valid s → AppSpec_setField m s = Done s' e → earlier_AppSpec_valid s'.
Proof.
  destruct m as [k v], s. unfold AppSpec_setField, earlier_AppSpec_valid. cbn.
  intros (Hr & Hp & Hh & Hi).
  field_cases; cbn; repeat split; try done.
  all: match goal with
       | Hd : decInt _ _ _ _ = Done _ _ |- _ => by eapply decInt_inRange
       | Hd : decPtr _ _ _ _ = Done _ _ |- _ => revert Hd
       end.
  - apply (decPtr_inv (λ h, inRange intBits (Healthcheck_Port h) = true)); [|done..].
    intros c y s'. apply earlier_Healthcheck_dec_inRange.
  - apply (decPtr_inv (λ _, True)); [|done|apply option_Forall_True].
    intros c y s' _ Hy%hook_Done. by eapply earlier_Ingress_UnmarshalJSON_valid.
Qed.

Lemma earlier_AppSpec_zero_valid : earlier_AppSpec_valid AppSpec_zero.
Proof. repeat split; by constructor. Qed.

Lemma earlier_App_setField_valid m app app' e :
  earlier_AppSpec_valid (Spec app) → App_setField m app = Done app' e →
  earlier_AppSpec_valid (Spec app').
Proof.
  destruct m as [k v], app as [[kind apiVersion] meta spec]. unfold App_setField. cbn.
  intros Hspec. field_cases; cbn; try done.
  match goal with Hd : decStruct _ _ _ _ = Done _ _ |- _ => revert Hd end.
  apply (decStruct_inv earlier_AppSpec_valid); [|done].
  intros m c c' s'. apply earlier_AppSpec_setField_valid.
Qed.

(** Whatever the hook of the earlier [App] accepts has the kind and the
    version of the type and a valid spec. *)
Lemma earlier_App_UnmarshalJSON_valid app data app' :
  earlier_AppSpec_valid (Spec app) → App_UnmarshalJSON app data = Ok app' →
  TypeMeta app' = typeMeta APIVersion KindApp ∧ earlier_AppSpec_valid (Spec app').
Proof.
  intros Hspec. unfold App_UnmarshalJSON.
  destruct (Unmarshal _) as [x|e] eqn:Hx; [|done]. cbn.
  apply Unmarshal_Ok in Hx.
  assert (Hx' : earlier_AppSpec_valid (Spec x)).
  { revert Hx. apply (decStruct_inv (λ a, earlier_AppSpec_valid (Spec a))); [|done].
    intros m c c' s'. apply earlier_App_setField_valid. }
  destruct x as [[kind apiVersion] meta spec]. cbn in *.
  case_bool_decide as Hv; [done|]. case_bool_decide as Hk; [done|].
  intros [= <-]. cbn. split; [|done]. by subst.
Qed.

Lemma earlier_Healthcheck_roundtrip (h : Healthcheck) :
  inRange intBits (Healthcheck_Port h) = true →
  Healthcheck_dec Healthcheck_zero (Healthcheck_enc h) = Done h None.
Proof.
  destruct h as [enabled path port]. intros Hport. cbn in Hport.
  unfold Healthcheck_dec, Healthcheck_enc, Healthcheck_zero.
  cbn [decStruct Healthcheck_Enabled Healthcheck_Path Healthcheck_Port app].
  apply (foldM_cons_step _ _ (Build_Healthcheck enabled "" 0)); [done|].
  apply (foldM_omitempty_step _ _ (Build_Healthcheck enabled path 0)).
  { case_bool_decide; by subst. }
  apply foldM_omitempty_last.
  case_bool_decide; [by subst|]. set_field (decInt_JNum intBits "int" 0 port Hport).
Qed.

Lemma earlier_Ingress_roundtrip (i : Ingress) :
  earlier_Ingress_valid i → Ingress_UnmarshalJSON Ingress_zero (Ingress_enc i) = Ok i.
Proof.
  destruct i as [enabled host issuer class].
  intros Hvalid. unfold earlier_Ingress_valid in Hvalid. cbn in Hvalid.
  unfold Ingress_UnmarshalJSON.
  assert (Hdec : decStruct "IngressAlt" Ingress_setField Ingress_zero
                   (Ingress_enc (Build_Ingress enabled host issuer class))
                 = Done (Build_Ingress enabled host issuer class) None).
  { unfold Ingress_enc, Ingress_zero.
    cbn [decStruct Ingress_Enabled Ingress_Host Ingress_ClusterIssuer Ingress_ClassName app].
    apply (foldM_cons_step _ _ (Build_Ingress enabled "" "" "")); [done|].
    apply (foldM_cons_step _ _ (Build_Ingress enabled host "" "")); [done|].
    apply (foldM_omitempty_step _ _ (Build_Ingress enabled host issuer "")).
    { case_bool_decide; by subst. }
    apply foldM_omitempty_last. case_bool_decide; by subst. }
  rewrite Hdec. cbn.
  destruct enabled; cbn; [|done].
  destruct Hvalid as (Hhost & Hissuer & Hclass); [done|].
  by rewrite !bool_decide_eq_false_2.
Qed.

Lemma earlier_Secret_roundtrip (s : Secret) :
  Secret_dec Secret_zero (Secret_enc s) = Done s None.
Proof.
  destruct s as [name itemPath environment folder].
  unfold Secret_dec, Secret_enc, Secret_zero.
  cbn [decStruct Secret_Name Secret_ItemPath Secret_Environment Secret_Folder app].
  apply (foldM_cons_step _ _ (Build_Secret name "" false false)); [done|].
  apply (foldM_cons_step _ _ (Build_Secret name itemPath false false)); [done|].
  apply (foldM_omitempty_step _ _ (Build_Secret name itemPath environment false)).
  { by destruct environment. }
  apply foldM_omitempty_last. by destruct folder.
Qed.

Lemma earlier_AppSpec_roundtrip (s : AppSpec) :
  earlier_AppSpec_valid s →
  decStruct "AppSpec" AppSpec_setField AppSpec_zero (AppSpec_enc s) = Done s None.
Proof.
  destruct s as [autoUpdate image logLevel replicas port healthcheck ingress secrets].
  intros (Hreplicas & Hport & Hhealthcheck & Hingress).
  cbn in Hreplicas, Hport, Hhealthcheck, Hingress.
  unfold AppSpec_enc, AppSpec_zero.
  cbn [decStruct AutoUpdate Image LogLevel Replicas Port Healthcheck_ Ingress_ Secrets app].
  apply (foldM_omitempty_step _ _ (Build_AppSpec autoUpdate "" "" 0 0 None None [])).
  { by destruct autoUpdate. }
  apply (foldM_cons_step _ _ (Build_AppSpec autoUpdate image "" 0 0 None None []));
    [done|].
  apply (foldM_omitempty_step _ _ (Build_AppSpec autoUpdate image logLevel 0 0 None None [])).
  { case_bool_decide; by subst. }
  apply (foldM_omitempty_step _ _
           (Build_AppSpec autoUpdate image logLevel replicas 0 None None [])).
  { case_bool_decide; [by subst|]. set_field (decInt_JNum 32 "int32" 0 replicas Hreplicas). }
  apply (foldM_omitempty_step _ _
           (Build_AppSpec autoUpdate image logLevel replicas port None None [])).
  { case_bool_decide; [by subst|]. set_field (decInt_JNum intBits "int" 0 port Hport). }
  apply (foldM_omitempty_step _ _
           (Build_AppSpec autoUpdate image logLevel replicas port healthcheck None [])).
  { destruct healthcheck as [x|]; [|done]. apply option_Forall_from_option in Hhealthcheck.
    set_field (decPtr_encPtr Healthcheck_zero Healthcheck_dec Healthcheck_enc x
                 ltac:(done) (earlier_Healthcheck_roundtrip x Hhealthcheck)). }
  apply (foldM_omitempty_step _ _
           (Build_AppSpec autoUpdate image logLevel replicas port healthcheck ingress [])).
  { destruct ingress as [x|]; [|done]. apply option_Forall_from_option in Hingress.
    set_field (decPtr_hook Ingress_zero Ingress_UnmarshalJSON Ingress_enc x
                 ltac:(done) (earlier_Ingress_roundtrip x Hingress)). }
  apply foldM_omitempty_last.
  destruct secrets as [|x secrets]; [done|].
  set_field (decSlice_fmap "[]v1.Secret" Secret_zero Secret_dec Secret_enc (x :: secrets)
               (λ y _, earlier_Secret_roundtrip y)).
Qed.

Lemma earlier_App_alt_roundtrip (app : App) :
  earlier_AppSpec_valid (Spec app) →
  decStruct "AppAlt" App_setField App_zero (App_MarshalJSON app)
  = Done (Build_App (typeMeta APIVersion KindApp) (ObjectMeta app) (Spec app)) None.
Proof.
  destruct app as [type meta spec]. cbn [Spec ObjectMeta]. intros Hvalid.
  unfold App_MarshalJSON, App_zero. cbn [decStruct Spec ObjectMeta].
  apply (foldM_cons_step _ _
           (Build_App (metav1.Build_TypeMeta KindApp "") metav1.ObjectMeta_zero AppSpec_zero));
    [done|].
  apply (foldM_cons_step _ _
           (Build_App (typeMeta APIVersion KindApp) metav1.ObjectMeta_zero AppSpec_zero));
    [done|].
  apply (foldM_cons_step _ _ (Build_App (typeMeta APIVersion KindApp) meta AppSpec_zero)).
  { set_field (ObjectMeta_roundtrip meta). }
  apply (foldM_cons_step _ _ (Build_App (typeMeta APIVersion KindApp) meta spec)); [|done].
  set_field (earlier_AppSpec_roundtrip spec Hvalid).
Qed.

(** In the earlier snapshot, encoding an App whose integers fit their
    types and whose ingress block is as the hook leaves it and decoding the
    result gives the App back, with the kind and the version of the type
    and nothing else changed: this decoder sets no default replica count
    and checks no secret. An App decoded from a document comes back
    equal. *)
Theorem X_earlier_round_trip :
  (∀ app : App,
      earlier_AppSpec_valid (Spec app) →
      App_UnmarshalJSON App_zero (App_MarshalJSON app)
      = Ok (Build_App (typeMeta APIVersion KindApp) (ObjectMeta app) (Spec app))) ∧
  (∀ (data : json) (app : App),
      App_UnmarshalJSON App_zero data = Ok app →
      App_UnmarshalJSON App_zero (App_MarshalJSON app) = Ok app).
Proof.
  assert (Hall : ∀ app : App,
             earlier_AppSpec_valid (Spec app) →
             App_UnmarshalJSON App_zero (App_MarshalJSON app)
             = Ok (Build_App (typeMeta APIVersion KindApp) (ObjectMeta app) (Spec app))).
  { intros app Hvalid. unfold App_UnmarshalJSON.
    by rewrite (earlier_App_alt_roundtrip app Hvalid). }
  split; [exact Hall|].
  intros data app Hdata.
  destruct (earlier_App_UnmarshalJSON_valid App_zero data app
              earlier_AppSpec_zero_valid Hdata) as (Htype & Hvalid).
  rewrite (Hall app Hvalid).
  destruct app as [type meta spec]. cbn in Htype. by rewrite Htype.
Qed.

End earlier_decoding.

(** ** The earlier App flight *)

Section earlier_flight.
Import app_v1_earlier app_flight_earlier.
Abbreviation Name app := (metav1.Name (ObjectMeta app)).
Abbreviation Namespace app := (metav1.Namespace (ObjectMeta app)).
Abbreviation Labels app := (metav1.Labels (ObjectMeta app)).

Lemma earlier_defaults_fields (app : App) :
  Name (defaults app) = Name app ∧
  Namespace (defaults app) = Namespace app ∧
  Labels (defaults app) = maps_Copy (Labels app) (selector app) ∧
  Port (Spec (defaults app)) = cmp_Or_int (Port (Spec app)) 3000 ∧
  Healthcheck_ (Spec (defaults app)) = Healthcheck_ (Spec app) ∧
  Ingress_ (Spec (defaults app)) = Ingress_ (Spec app) ∧
  Secrets (Spec (defaults app)) = Secrets (Spec app).
Proof. by destruct app as [? ? []]. Qed.

(** The list the earlier flight builds: the items, the Deployment, the
    Service, and the Ingress when the block is enabled. *)
Lemma earlier_build_shape (app : App) :
  let a := defaults app in
  build app =
    ((λ sec, ROnePasswordItem (createOnepasswordSecret a sec)) <$> Secrets (Spec app))
    ++ [RDeployment (createDeployment a); RService (createService a)]
    ++ match Ingress_ (Spec app) with
       | Some i => if Ingress_Enabled i then [RIngress (createIngress a i)] else []
       | None => []
       end.
Proof.
  intros a. unfold build. fold a.
  destruct (earlier_defaults_fields app) as (_ & _ & _ & _ & _ & Hing & Hsec).
  fold a in Hing, Hsec. rewrite Hing, Hsec, foldl_snoc. cbn [List.app].
  destruct (Ingress_ (Spec app)) as [i|]; [destruct (Ingress_Enabled i)|];
    by rewrite <- ?app_assoc.
Qed.

(** The earlier flight fails only when the decoder does. *)
Lemma earlier_run_decoded stdin (app : App) :
  decoded App_UnmarshalJSON App_zero stdin = Ok app → run stdin = Emitted (build app).
Proof.
  unfold decoded, run. destruct (Decode _ _ _) as [v [[]|]]; by intros [= ->].
Qed.

Lemma earlier_decoded_valid stdin (app : App) :
  decoded App_UnmarshalJSON App_zero stdin = Ok app → earlier_AppSpec_valid (Spec app).
Proof.
  intros [[-> _]|(data & _ & _ & Hx)]%decoded_Ok; [apply earlier_AppSpec_zero_valid|].
  by eapply earlier_App_UnmarshalJSON_valid, Hx; apply earlier_AppSpec_zero_valid.
Qed.

Lemma earlier_build_kinds (app : App) :
  let a := defaults app in
  onePasswordItems (build app) = createOnepasswordSecret a <$> Secrets (Spec app) ∧
  deployments (build app) = [createDeployment a] ∧
  services (build app) = [createService a] ∧
  ingresses (build app) =
    match Ingress_ (Spec app) with
    | Some i => if Ingress_Enabled i then [createIngress a i] else []
    | None => []
    end ∧
  serviceAccounts (build app) = [] ∧
  claims (build app) = [] ∧
  onionServices (build app) = [] ∧
  roles (build app) = [] ∧
  roleBindings (build app) = [].
Proof.
  intros a. rewrite (earlier_build_shape app). fold a.
  unfold onePasswordItems, deployments, services, ingresses, serviceAccounts, claims,
    onionServices, roles, roleBindings.
  rewrite !omap_app.
  rewrite (omap_fmap_Some asOnePasswordItem _ (createOnepasswordSecret a)) by done.
  rewrite !omap_fmap_None by done.
  destruct (Ingress_ (Spec app)) as [i|]; [destruct (Ingress_Enabled i)|];
    cbn; by rewrite ?app_nil_r.
Qed.

(** The earlier flight: for every input it decodes it emits its list,
    which holds one Deployment and one Service and no service account,
    claim, onion service or role. Every object is in the namespace of the
    spec and carries the labels of the spec merged with the selector label;
    the Service and the Deployment select on the selector label alone,
    which the pods carry; the Service forwards its port 80 to the port of
    the container, which is the [int32] conversion of the port of the spec
    or of 3000: that number itself when it fits in 32 bits. *)
Theorem X_earlier_output stdin (app : App) :
  decoded App_UnmarshalJSON App_zero stdin = Ok app →
  let merged := maps_Copy (Labels app) (selector app) in
  ∃ out d c s,
    run stdin = Emitted out ∧
    deployments out = [d] ∧
    corev1.Containers (podSpec d) = [c] ∧
    services out = [s] ∧
    serviceAccounts out = [] ∧ claims out = [] ∧ onionServices out = [] ∧
    roles out = [] ∧ roleBindings out = [] ∧
    Forall (λ r, metav1.Labels (metadataOf r) = merged ∧
                 metav1.Namespace (metadataOf r) = Namespace app) out ∧
    appsv1.MatchLabels d = selector app ∧
    corev1.Service_Selector s = selector app ∧
    corev1.Template_Labels (appsv1.Template d) = merged ∧
    selector app ⊆ merged ∧
    (corev1.ServicePort_Port <$> corev1.Service_Ports s) = [80] ∧
    (corev1.ServicePort_TargetPort <$> corev1.Service_Ports s)
    = corev1.IntVal <$> (corev1.ContainerPort_ContainerPort <$> corev1.Ports c) ∧
    (corev1.ContainerPort_ContainerPort <$> corev1.Ports c)
    = [corev1.int32 (cmp_Or_int (Port (Spec app)) 3000)] ∧
    (inRange 32 (cmp_Or_int (Port (Spec app)) 3000) = true →
     corev1.int32 (cmp_Or_int (Port (Spec app)) 3000)
     = cmp_Or_int (Port (Spec app)) 3000).
Proof.
  intros Hdec merged.
  destruct (earlier_defaults_fields app) as (Hname & Hns & Hlabels & Hport & _).
  destruct (earlier_build_kinds app)
    as (_ & Hd & Hs & _ & Hsa & Hclaims & Honion & Hroles & Hbindings).
  assert (Hsel : selector (defaults app) = selector app).
  { unfold selector. by rewrite Hname. }
  eexists (build app), _, _, _.
  split; [by apply earlier_run_decoded|].
  split; [exact Hd|]. split; [reflexivity|]. split; [exact Hs|].
  do 5 (split; [done|]).
  split.
  { rewrite (earlier_build_shape app).
    apply Forall_app. split; [|apply Forall_app; split].
    - apply Forall_fmap, Forall_true. intros sec. cbn. by rewrite Hlabels, Hns.
    - repeat constructor; cbn; by rewrite ?Hlabels, ?Hns.
    - destruct (Ingress_ (Spec app)) as [i|]; [destruct (Ingress_Enabled i)|];
        repeat constructor; cbn; by rewrite ?Hlabels, ?Hns. }
  cbn. rewrite Hsel, Hlabels, Hport.
  repeat split; try done; [apply selector_subseteq|apply int32_inRange].
Qed.

(** The probe of the earlier flight, for every input it decodes: there is
    a liveness probe exactly when the healthcheck block is enabled, and no
    readiness probe at all. The probe is an HTTP GET on the path and the
    port of the block as they were given, the port converted to [int32]: a
    port of 0 is not replaced by the port of the spec or 3000, the number
    the port of the container is converted from, which is never 0 and is
    the port of the container itself when it fits in 32 bits. *)
Theorem X_earlier_probe stdin (app : App) :
  decoded App_UnmarshalJSON App_zero stdin = Ok app →
  ∃ out d c,
    run stdin = Emitted out ∧
    deployments out = [d] ∧
    corev1.Containers (podSpec d) = [c] ∧
    corev1.ReadinessProbe c = None ∧
    corev1.LivenessProbe c =
      match Healthcheck_ (Spec app) with
      | Some hc =>
          if Healthcheck_Enabled hc
          then Some (probe 3 10
                       (corev1.HTTPGet (Healthcheck_Path hc)
                          (corev1.IntVal (corev1.int32 (Healthcheck_Port hc)))
                          [ {| corev1.HTTPHeader_Name := "X-Kubernetes";
                               corev1.HTTPHeader_Value := "is kinda okay" |} ]))
          else None
      | None => None
      end ∧
    (corev1.ContainerPort_ContainerPort <$> corev1.Ports c)
    = [corev1.int32 (cmp_Or_int (Port (Spec app)) 3000)] ∧
    cmp_Or_int (Port (Spec app)) 3000 ≠ 0 ∧
    (inRange 32 (cmp_Or_int (Port (Spec app)) 3000) = true →
     corev1.int32 (cmp_Or_int (Port (Spec app)) 3000)
     = cmp_Or_int (Port (Spec app)) 3000).
Proof.
  intros Hdec.
  destruct (earlier_defaults_fields app) as (_ & _ & _ & Hport & Hhc & _).
  destruct (earlier_build_kinds app) as (_ & Hd & _).
  eexists (build app), _, _.
  split; [by apply earlier_run_decoded|].
  split; [exact Hd|]. split; [reflexivity|]. split; [reflexivity|].
  cbn. rewrite Hhc, Hport. repeat split; try done; [|apply int32_inRange].
  unfold cmp_Or_int. by case_bool_decide.
Qed.

(** The Ingress of the earlier flight, for every input it decodes: none
    when the ingress block is absent or disabled, and one when it is
    enabled. Its rule and its TLS entry name the host of the block, which
    is not empty; its class and the issuer in its one annotation are those
    of the block, which the hook has filled in; the TLS secret is named
    after the host. *)
Theorem X_earlier_ingress stdin (app : App) :
  decoded App_UnmarshalJSON App_zero stdin = Ok app →
  ∃ out,
    run stdin = Emitted out ∧
    match Ingress_ (Spec app) with
    | Some i =>
        if Ingress_Enabled i then
          ∃ ing,
            ingresses out = [ing] ∧
            (networkingv1.Host <$> networkingv1.Rules ing) = [Ingress_Host i] ∧
            networkingv1.TLS ing =
              [ {| networkingv1.Hosts := [Ingress_Host i];
                   networkingv1.SecretName :=
                     ReplaceAll (Ingress_Host i) "." "-" +:+ "-public-tls" |} ] ∧
            metav1.Annotations (networkingv1.ObjectMeta ing)
            = {[ "cert-manager.io/cluster-issuer" := Ingress_ClusterIssuer i ]} ∧
            networkingv1.IngressClassName ing = Some (Ingress_ClassName i) ∧
            Ingress_Host i ≠ "" ∧ Ingress_ClusterIssuer i ≠ "" ∧ Ingress_ClassName i ≠ ""
        else ingresses out = []
    | None => ingresses out = []
    end.
Proof.
  intros Hdec.
  destruct (earlier_decoded_valid stdin app Hdec) as (_ & _ & _ & Hvalid).
  destruct (earlier_build_kinds app) as (_ & _ & _ & Hing & _).
  exists (build app). split; [by apply earlier_run_decoded|].
  destruct (Ingress_ (Spec app)) as [i|]; [|done].
  apply option_Forall_from_option in Hvalid. cbn in Hvalid.
  destruct (Ingress_Enabled i) eqn:Hen; [|done].
  eexists. split; [exact Hing|]. repeat split; try done; by apply Hvalid.
Qed.

Lemma earlier_foldl_mountSecret name envFrom volumes mounts (l : list Secret) :
  foldl (mountSecret name) (envFrom, volumes, mounts) l =
    (envFrom ++ ((λ sec, {| corev1.SecretRef_Name := name +:+ "-" +:+ Secret_Name sec |})
                   <$> filter (λ sec, Secret_Environment sec) l),
     volumes ++ ((λ sec, {| corev1.Volume_Name := Secret_Name sec;
                            corev1.Volume_Source :=
                              corev1.SecretVolumeSource (name +:+ "-" +:+ Secret_Name sec) |})
                   <$> filter (λ sec, Secret_Folder sec) l),
     mounts ++ ((λ sec, {| corev1.VolumeMount_Name := name +:+ "-" +:+ Secret_Name sec;
                           corev1.VolumeMount_MountPath :=
                             "/run/secrets/" +:+ Secret_Name sec |})
                  <$> filter (λ sec, Secret_Folder sec) l)).
Proof.
  revert envFrom volumes mounts.
  induction l as [|sec l IH]; intros envFrom volumes mounts.
  - by rewrite !app_nil_r.
  - cbn [foldl]. unfold mountSecret at 2.
    rewrite !filter_cons.
    destruct (Secret_Environment sec), (Secret_Folder sec); rewrite IH;
      repeat case_decide; try done; by rewrite <- ?app_assoc.
Qed.

(** What the earlier flight builds for a secret of the spec it has decoded,
    whatever the flags of the secret: the type has no hook that would
    check them. *)
Lemma earlier_secret_built stdin (app : App) (sec : Secret) :
  decoded App_UnmarshalJSON App_zero stdin = Ok app →
  sec ∈ Secrets (Spec app) →
  let name := Name app +:+ "-" +:+ Secret_Name sec in
  ∃ out d c,
    run stdin = Emitted out ∧
    deployments out = [d] ∧
    corev1.Containers (podSpec d) = [c] ∧
    name ∈ ((λ i, metav1.Name (onepasswordv1.ObjectMeta i)) <$> onePasswordItems out) ∧
    (Secret_Environment sec = true →
     {| corev1.SecretRef_Name := name |} ∈ corev1.EnvFrom c) ∧
    (Secret_Folder sec = true →
     {| corev1.Volume_Name := Secret_Name sec;
        corev1.Volume_Source := corev1.SecretVolumeSource name |}
       ∈ corev1.Volumes (podSpec d) ∧
     {| corev1.VolumeMount_Name := name;
        corev1.VolumeMount_MountPath := "/run/secrets/" +:+ Secret_Name sec |}
       ∈ corev1.VolumeMounts c).
Proof.
  intros Hdec Hsec name.
  destruct (earlier_defaults_fields app) as (Hname & _ & _ & _ & _ & _ & Hsecrets).
  destruct (earlier_build_kinds app) as (Hitems & Hd & _).
  eexists (build app), _, _.
  split; [by apply earlier_run_decoded|].
  split; [exact Hd|]. split; [reflexivity|].
  split.
  { rewrite Hitems, <- list_fmap_compose. apply list_elem_of_fmap.
    exists sec. split; [|done]. cbn. by rewrite Hname. }
  cbn [createDeployment podSpec appsv1.Template corev1.Template_Spec corev1.Containers
       corev1.EnvFrom corev1.Volumes corev1.VolumeMounts].
  rewrite Hsecrets, Hname, earlier_foldl_mountSecret. cbn [fst snd List.app].
  split.
  - intros Henv. apply list_elem_of_fmap. exists sec. split; [done|].
    apply list_elem_of_filter. split; [by rewrite Henv|done].
  - intros Hfolder. split; apply list_elem_of_fmap; exists sec; (split; [done|]);
      apply list_elem_of_filter; (split; [by rewrite Hfolder|done]).
Qed.

End earlier_flight.

(** ** A secret reference with both flags *)

(** C8 (as amended). In the later snapshot of the App type, the one with
    the hook on [Secret], a document in which some entry of [spec.secrets]
    decodes, if it decodes at all, to a reference with both [environment]
    and [folder] true is never accepted: the decoding fails and the flight
    exits with the error, having built nothing. In the earlier snapshot
    [Secret] has no hook: for every input the earlier flight decodes and
    every secret of the spec with both flags, the flight emits its list,
    with the 1Password item of the secret, the reference of the container
    to it, and the volume and the mount made for it. *)
Theorem C8_secret_both_flags :
  (∀ lookup (pre post spre spost : list (string * json)) (before after : list json)
     (sec : json),
      (∀ cur s,
          Unmarshal (decStruct "SecretAlt" app_v1.Secret_setField cur sec) = Ok s →
          app_v1.Secret_Environment s = true ∧ app_v1.Secret_Folder s = true) →
      let doc :=
        JObj (pre ++ ("spec", JObj (spre ++ ("secrets", JArr (before ++ sec :: after))
                                         :: spost))
                  :: post) in
      ∃ err,
        decoded app_v1.App_UnmarshalJSON app_v1.App_zero (Document doc) = Err err ∧
        app_flight.run lookup (Document doc) = Exit1 err) ∧
  (∀ stdin (app : app_v1_earlier.App) (sec : app_v1_earlier.Secret),
      decoded app_v1_earlier.App_UnmarshalJSON app_v1_earlier.App_zero stdin = Ok app →
      sec ∈ app_v1_earlier.Secrets (app_v1_earlier.Spec app) →
      app_v1_earlier.Secret_Environment sec = true →
      app_v1_earlier.Secret_Folder sec = true →
      let name := metav1.Name (app_v1_earlier.ObjectMeta app) +:+ "-"
                  +:+ app_v1_earlier.Secret_Name sec in
      ∃ out d c,
        app_flight_earlier.run stdin = Emitted out ∧
        deployments out = [d] ∧
        corev1.Containers (podSpec d) = [c] ∧
        name ∈ ((λ i, metav1.Name (onepasswordv1.ObjectMeta i)) <$> onePasswordItems out) ∧
        {| corev1.SecretRef_Name := name |} ∈ corev1.EnvFrom c ∧
        {| corev1.Volume_Name := app_v1_earlier.Secret_Name sec;
           corev1.Volume_Source := corev1.SecretVolumeSource name |}
          ∈ corev1.Volumes (podSpec d) ∧
        {| corev1.VolumeMount_Name := name;
           corev1.VolumeMount_MountPath :=
             "/run/secrets/" +:+ app_v1_earlier.Secret_Name sec |}
          ∈ corev1.VolumeMounts c).
Proof.
  split.
  - intros lookup pre post spre spost before after sec Hsec.
    by apply app_secret_both_flags.
  - intros stdin app sec Hdec Hin Henv Hfolder name.
    destruct (earlier_secret_built stdin app sec Hdec Hin)
      as (out & d & c & Hout & Hd & Hc & Hitem & Href & Hvolume).
    exists out, d, c. split; [done|]. split; [done|]. split; [done|].
    split; [done|]. split; [by apply Href|]. by apply Hvolume.
Qed.

End Properties.

(** * The flights on sample inputs *)

Section Samples.
Import samples.
#[local] Existing Instance reference.library.

Lemma C1_witness :
  decoded app_v1.App_UnmarshalJSON app_v1.App_zero (Document stickers) = Ok stickersApp ∧
  ∃ out ing,
    app_flight.run (ErrNotFound "") (Document stickers) = Emitted out ∧
    ingresses out = [ing] ∧
    (networkingv1.Host <$> networkingv1.Rules ing) = ["stickers.within.website"] ∧
    networkingv1.TLS ing =
      [ {| networkingv1.Hosts := ["stickers.within.website"];
           networkingv1.SecretName := "stickers-within-website-public-tls" |} ].
Proof.
  assert (Hdec : decoded app_v1.App_UnmarshalJSON app_v1.App_zero (Document stickers)
                 = Ok stickersApp) by (vm_compute; reflexivity).
  split; [exact Hdec|].
  destruct (C1_ingress_gate (ErrNotFound "") (Document stickers) stickersApp Hdec)
    as (out & Hout & Hing).
  cbn in Hing. destruct Hing as (ing & Hing & Hrules & Htls).
  exists out, ing.
  split; [exact Hout|]. split; [exact Hing|]. split; [exact Hrules|exact Htls].
Defined.

Lemma C2_witness :
  (∃ secret,
      postgres_flight.createDatabaseSecret emptyCluster "0123456789abcdef" dbPostgres
      = Returns secret ∧
      corev1.StringData secret !! "POSTGRES_PASSWORD"
      = Some "30313233343536373839616263646566") ∧
  (∃ secret,
      postgres_flight.createDatabaseSecret (clusterWith (Found stored))
        "0123456789abcdef" dbPostgres
      = Returns secret ∧
      corev1.StringData secret !! "POSTGRES_PASSWORD" = Some "hunter2") ∧
  postgres_flight.run (clusterWith (ErrOther "connection refused")) "0123456789abcdef"
    (Document db)
  = Panic "failed to lookup secret: connection refused".
Proof.
  destruct C2_database_secret_lookup as (Hnew & _ & Hfound & _ & Hfatal & _).
  split; [|split].
  - destruct (Hnew emptyCluster "secrets not found" "0123456789abcdef" dbPostgres eq_refl)
      as (secret & password & Hsecret & Hpassword & -> & _).
    exists secret. split; [exact Hsecret|exact Hpassword].
  - refine (Hfound (clusterWith (Found stored)) stored "hunter2" "0123456789abcdef"
              dbPostgres eq_refl _).
    vm_compute. reflexivity.
  - refine (Hfatal (clusterWith (ErrOther "connection refused")) "connection refused"
              "0123456789abcdef" (Document db) dbPostgres _ eq_refl).
    vm_compute. reflexivity.
Defined.

(** The document with two violations is answered with the first one
    alone. *)
Lemma C3_counterexample :
  app_flight.run (ErrNotFound "") (Document twoViolations)
  = Exit1 (YAMLSyntaxError (Errorf "host is required when ingress is enabled")).
Proof. vm_compute. reflexivity. Qed.

Lemma C3_witness :
  foldM app_v1.App_setField app_v1.App_zero (header app_v1.APIVersion app_v1.KindApp)
  = Done (app_v1.Build_App (typeMeta app_v1.APIVersion app_v1.KindApp)
            metav1.ObjectMeta_zero app_v1.AppSpec_zero) None ∧
  foldM app_v1.AppSpec_setField app_v1.AppSpec_zero [] = Done app_v1.AppSpec_zero None ∧
  app_v1.AppSpec_setField noHost app_v1.AppSpec_zero
  = Abort (Errorf "host is required when ingress is enabled") ∧
  app_flight.run (ErrNotFound "") (Document twoViolations)
  = Exit1 (YAMLSyntaxError (Errorf "host is required when ingress is enabled")).
Proof.
  assert (Hpre : foldM app_v1.App_setField app_v1.App_zero
                   (header app_v1.APIVersion app_v1.KindApp)
                 = Done (app_v1.Build_App (typeMeta app_v1.APIVersion app_v1.KindApp)
                           metav1.ObjectMeta_zero app_v1.AppSpec_zero) None)
    by (vm_compute; reflexivity).
  assert (Hspre : foldM app_v1.AppSpec_setField app_v1.AppSpec_zero []
                  = Done app_v1.AppSpec_zero None) by reflexivity.
  assert (Hm : app_v1.AppSpec_setField noHost app_v1.AppSpec_zero
               = Abort (Errorf "host is required when ingress is enabled"))
    by (vm_compute; reflexivity).
  split; [exact Hpre|]. split; [exact Hspre|]. split; [exact Hm|].
  exact (C3_first_violation_only (ErrNotFound "")
           (header app_v1.APIVersion app_v1.KindApp) [] [] [noSize] noHost
           _ _ _ _ _ Hpre Hspre Hm).
Defined.

Lemma C4_witness :
  valkey_v1.Storage_ (valkey_v1.Spec cache)
  = Some (valkey_v1.Build_Storage true "1Gi" None) ∧
  ParseQuantity "1Gi" = inl (reference.Build_quantity "1" "Gi") ∧
  ∃ out d pvc,
    valkey_flight.build cache = Emitted out ∧
    deployments out = [d] ∧
    claims out = [pvc] ∧
    storageClaimNames d = ["cache-storage"] ∧
    metav1.Name (corev1.PVC_ObjectMeta pvc) = "cache-valkey-storage".
Proof.
  assert (Hsize : ParseQuantity "1Gi" = inl (reference.Build_quantity "1" "Gi"))
    by (vm_compute; reflexivity).
  split; [reflexivity|]. split; [exact Hsize|].
  destruct (C4_valkey_claim_name_differs cache (valkey_v1.Build_Storage true "1Gi" None)
              (reference.Build_quantity "1" "Gi") eq_refl eq_refl Hsize)
    as (out & d & pvc & Hout & Hd & Hpvc & Hclaim & Hname & _).
  exists out, d, pvc.
  split; [exact Hout|]. split; [exact Hd|]. split; [exact Hpvc|].
  split; [exact Hclaim|exact Hname].
Defined.

(** With no input and a cluster whose lookup fails, the Postgres flight
    panics and emits nothing. *)
Lemma C5_counterexample :
  postgres_flight.run (λ _, ErrOther "connection refused") "0123456789abcdef" EndOfInput
  = Panic "failed to lookup secret: connection refused".
Proof. reflexivity. Qed.

(** With a label of its own in the spec, the selector of the Deployment is
    not the merged label map. *)
Lemma C6_counterexample :
  match app_flight.build (ErrNotFound "") stickersApp with
  | Emitted out =>
      Exists (λ d, appsv1.MatchLabels d
                   ≠ maps_Copy (metav1.Labels (app_v1.ObjectMeta stickersApp))
                               (app_flight.selector stickersApp))
             (deployments out)
  | _ => False
  end.
Proof.
  cbn. apply Exists_cons_hd. intros Heq.
  apply (f_equal (lookup "team")) in Heq. vm_compute in Heq. discriminate Heq.
Qed.

Lemma C6_witness :
  ∃ out,
    app_flight.build (ErrNotFound "") stickersApp = Emitted out ∧
    Forall (λ r, metav1.Labels (metadataOf r)
                 = maps_Copy (metav1.Labels (app_v1.ObjectMeta stickersApp))
                             (app_flight.selector stickersApp)) out ∧
    Forall (λ d, appsv1.MatchLabels d = {[ "app.kubernetes.io/name" := "stickers" ]})
           (deployments out).
Proof.
  eexists. split; [reflexivity|].
  destruct C6_labels_and_selector as (Happ & _).
  destruct (Happ (ErrNotFound "") stickersApp _ eq_refl) as (Hall & Hdep & _).
  split; [exact Hall|].
  eapply Forall_impl; [exact Hdep|]. by intros d [-> _].
Defined.

Lemma C7_witness :
  app_flight.run (ErrNotFound "")
    (Document (JObj (header app_v1.APIVersion app_v1.KindApp
                     ++ [("spec", JObj [("storage", disabledStorage)])])))
  = Exit1 (YAMLSyntaxError (Errorf ("invalid size: " +:+ ErrFormatWrong))) ∧
  valkey_flight.run
    (Document (JObj (header valkey_v1.APIVersion valkey_v1.KindApp
                     ++ [("spec", JObj [("storage", disabledStorage)])])))
  = Exit1 (YAMLSyntaxError (Errorf ("invalid size: " +:+ ErrFormatWrong))).
Proof.
  destruct C7_disabled_storage_empty_size_rejected as [Happ Hvalkey].
  split.
  - refine (Happ (ErrNotFound "") (header app_v1.APIVersion app_v1.KindApp) [] [] []
              disabledStorage
              (app_v1.Build_App (typeMeta app_v1.APIVersion app_v1.KindApp)
                 metav1.ObjectMeta_zero app_v1.AppSpec_zero)
              app_v1.AppSpec_zero None None app_v1.Storage_zero _ _ _ _ _ _);
      try (vm_compute; reflexivity). discriminate.
  - refine (Hvalkey (header valkey_v1.APIVersion valkey_v1.KindApp) [] [] []
              disabledStorage
              (valkey_v1.Build_Valkey (typeMeta valkey_v1.APIVersion valkey_v1.KindApp)
                 metav1.ObjectMeta_zero valkey_v1.ValkeySpec_zero)
              valkey_v1.ValkeySpec_zero None None valkey_v1.Storage_zero _ _ _ _ _ _);
      try (vm_compute; reflexivity). discriminate.
Defined.

(** The earlier flight builds for a secret with both flags. *)
Lemma C8_counterexample :
  ∃ out d c,
    app_flight_earlier.run (Document blog) = Emitted out ∧
    deployments out = [d] ∧
    corev1.Containers (podSpec d) = [c] ∧
    app_v1_earlier.Secrets (app_v1_earlier.Spec blogApp)
    = [app_v1_earlier.Build_Secret "creds" "" true true] ∧
    ((λ i, metav1.Name (onepasswordv1.ObjectMeta i)) <$> onePasswordItems out)
    = ["blog-creds"] ∧
    (corev1.SecretRef_Name <$> corev1.EnvFrom c) = ["blog-creds"] ∧
    (corev1.Volume_Name <$> corev1.Volumes (podSpec d)) = ["creds"].
Proof.
  assert (Hdec : decoded app_v1_earlier.App_UnmarshalJSON app_v1_earlier.App_zero
                   (Document blog) = Ok blogApp) by (vm_compute; reflexivity).
  exists (app_flight_earlier.build blogApp). eexists _, _.
  split; [exact (earlier_run_decoded _ _ Hdec)|].
  split; [reflexivity|]. split; [reflexivity|]. by repeat split.
Qed.

Lemma C8_witness :
  (∀ cur s,
      Unmarshal (decStruct "SecretAlt" app_v1.Secret_setField cur bothFlags) = Ok s →
      app_v1.Secret_Environment s = true ∧ app_v1.Secret_Folder s = true) ∧
  (∃ err,
      app_flight.run (ErrNotFound "")
        (Document (JObj (header app_v1.APIVersion app_v1.KindApp
                         ++ [("spec", JObj [("image", JStr "img");
                                            ("secrets", JArr [bothFlags])])])))
      = Exit1 err) ∧
  decoded app_v1_earlier.App_UnmarshalJSON app_v1_earlier.App_zero (Document blog)
  = Ok blogApp ∧
  ∃ out d c,
    app_flight_earlier.run (Document blog) = Emitted out ∧
    deployments out = [d] ∧
    corev1.Containers (podSpec d) = [c] ∧
    {| corev1.SecretRef_Name := "blog-creds" |} ∈ corev1.EnvFrom c ∧
    {| corev1.Volume_Name := "creds";
       corev1.Volume_Source := corev1.SecretVolumeSource "blog-creds" |}
      ∈ corev1.Volumes (podSpec d).
Proof.
  assert (Hboth : ∀ cur s,
             Unmarshal (decStruct "SecretAlt" app_v1.Secret_setField cur bothFlags) = Ok s →
             app_v1.Secret_Environment s = true ∧ app_v1.Secret_Folder s = true).
  { intros [name itemPath environment folder] s. cbn. by intros [= <-]. }
  assert (Hdec : decoded app_v1_earlier.App_UnmarshalJSON app_v1_earlier.App_zero
                   (Document blog) = Ok blogApp) by (vm_compute; reflexivity).
  destruct C8_secret_both_flags as [Hlater Hearlier].
  split; [exact Hboth|]. split; [|split; [exact Hdec|]].
  - destruct (Hlater (ErrNotFound "")
                (header app_v1.APIVersion app_v1.KindApp) []
                [("image", JStr "img")] [] [] [] bothFlags Hboth)
      as (err & _ & Hrun).
    exists err. exact Hrun.
  - destruct (Hearlier (Document blog) blogApp
                (app_v1_earlier.Build_Secret "creds" "" true true) Hdec
                (list_elem_of_here _ _) eq_refl eq_refl)
      as (out & d & c & Hout & Hd & Hc & _ & Href & Hvolume & _).
    exists out, d, c. split; [exact Hout|]. split; [exact Hd|]. split; [exact Hc|].
    split; [exact Href|exact Hvolume].
Defined.

(** The zero value of App, the Spec of an empty input, does not come back
    equal: its replica count is 0 and the decoder makes it 1. *)
Lemma C9_counterexample :
  AppSpec_valid (app_v1.Spec app_v1.App_zero) ∧
  app_v1.App_UnmarshalJSON app_v1.App_zero (app_v1.App_MarshalJSON app_v1.App_zero)
  ≠ Ok (app_v1.Build_App (typeMeta app_v1.APIVersion app_v1.KindApp)
          (app_v1.ObjectMeta app_v1.App_zero) (app_v1.Spec app_v1.App_zero)).
Proof. split; [repeat split; by constructor|]. vm_compute. discriminate. Qed.

Lemma C9_witness :
  AppSpec_valid (app_v1.Spec stickersApp) ∧
  app_v1.App_UnmarshalJSON app_v1.App_zero stickers = Ok stickersApp ∧
  app_v1.App_UnmarshalJSON app_v1.App_zero (app_v1.App_MarshalJSON stickersApp)
  = Ok stickersApp.
Proof.
  assert (Hvalid : AppSpec_valid (app_v1.Spec stickersApp)).
  { repeat split; by constructor. }
  assert (Hdec : app_v1.App_UnmarshalJSON app_v1.App_zero stickers = Ok stickersApp)
    by (vm_compute; reflexivity).
  split; [exact Hvalid|]. split; [exact Hdec|].
  destruct C9_app_round_trip as [Hall Hdecoded].
  pose proof (Hall stickersApp Hvalid) as Hround.
  exact (Hdecoded stickers stickersApp Hdec).
Defined.

Lemma C10_witness :
  decoded postgres_v1.Postgres_UnmarshalJSON postgres_v1.Postgres_zero (Document db)
  = Ok dbPostgres ∧
  ∃ out,
    postgres_flight.run (clusterWith (Found stored)) "0123456789abcdef" (Document db)
    = Emitted out ∧
    ∃ secret password,
      secrets out = [secret] ∧
      corev1.StringData secret !! "POSTGRES_PASSWORD" = Some password ∧
      corev1.StringData secret !! "DATABASE_URL"
      = Some ("postgres://postgres:" +:+ password +:+ "@db-postgres.prod.svc:5432/db").
Proof.
  assert (Hdec : decoded postgres_v1.Postgres_UnmarshalJSON postgres_v1.Postgres_zero
                   (Document db) = Ok dbPostgres) by (vm_compute; reflexivity).
  split; [exact Hdec|].
  eexists. split; [vm_compute; reflexivity|].
  refine (C10_database_url (clusterWith (Found stored)) "0123456789abcdef" (Document db)
            dbPostgres _ Hdec _).
  vm_compute. reflexivity.
Defined.

End Samples.

(** * More runs on sample inputs *)

Import samples.
#[local] Existing Instance reference.library.

Lemma X_app_secret_items_witness :
  ∃ out d c,
    app_flight.build (ErrNotFound "") web = Emitted out ∧
    deployments out = [d] ∧
    corev1.Containers (podSpec d) = [c] ∧
    ((λ i, metav1.Name (onepasswordv1.ObjectMeta i)) <$> onePasswordItems out)
    = ["web-env"; "web-files"] ∧
    (onepasswordv1.ItemPath <$> onePasswordItems out)
    = ["vaults/v/items/env"; "vaults/v/items/files"] ∧
    (corev1.SecretRef_Name <$> corev1.EnvFrom c) = ["web-env"].
Proof.
  destruct (X_app_secret_items (ErrNotFound "") web _ eq_refl)
    as (d & c & Hd & Hc & Hitems & Hpaths & Henv & _).
  eexists _, d, c. split; [reflexivity|].
  split; [exact Hd|]. split; [exact Hc|]. split; [exact Hitems|].
  split; [exact Hpaths|exact Henv].
Defined.

Lemma X_app_storage_claim_witness :
  ∃ out d,
    app_flight.build (ErrNotFound "") web = Emitted out ∧
    deployments out = [d] ∧
    claimNames d = ["web-storage"] ∧
    ((λ pvc, metav1.Name (corev1.PVC_ObjectMeta pvc)) <$> claims out) = ["web-storage"].
Proof.
  destruct (X_app_storage_claim (ErrNotFound "") web _ eq_refl)
    as (d & c & Hd & Hc & Hsame & Hnames & _).
  eexists _, d. split; [reflexivity|]. split; [exact Hd|].
  split; [exact Hnames|]. exact (eq_trans (eq_sym Hsame) Hnames).
Defined.

Lemma X_app_port_witness :
  ∃ out d c s,
    app_flight.build (ErrNotFound "") web = Emitted out ∧
    deployments out = [d] ∧
    corev1.Containers (podSpec d) = [c] ∧
    services out = [s] ∧
    (corev1.ContainerPort_ContainerPort <$> corev1.Ports c) = [3000] ∧
    (corev1.ServicePort_TargetPort <$> corev1.Service_Ports s) = [corev1.IntVal 3000].
Proof.
  destruct (X_app_port (ErrNotFound "") web _ eq_refl)
    as (_ & _ & _ & d & c & s & Hd & Hc & Hs & Hport & _ & Htarget & _).
  eexists _, d, c, s. split; [reflexivity|].
  split; [exact Hd|]. split; [exact Hc|]. split; [exact Hs|].
  split; [exact Hport|exact Htarget].
Defined.

Lemma X_app_backends_witness :
  ∃ out s,
    app_flight.build (ErrNotFound "") web = Emitted out ∧
    services out = [s] ∧
    metav1.Name (corev1.Service_ObjectMeta s) = "web" ∧
    length (ingresses out) = 1%nat ∧
    length (onionServices out) = 1%nat ∧
    Forall (λ ing, (networkingv1.Backend_Service <$> ingressBackends ing)
                   = [Some (networkingv1.Build_IngressServiceBackend
                              (metav1.Name (corev1.Service_ObjectMeta s))
                              (networkingv1.Build_ServiceBackendPort "http" 0))])
           (ingresses out).
Proof.
  destruct (X_app_backends (ErrNotFound "") web _ eq_refl)
    as (s & Hs & Hname & _ & Hing & _).
  eexists _, s. split; [reflexivity|].
  split; [exact Hs|]. split; [exact Hname|].
  split; [reflexivity|]. split; [reflexivity|].
  eapply Forall_impl; [exact Hing|]. intros ing ->. reflexivity.
Defined.

Lemma X_app_role_witness :
  app_v1.Role_Enabled <$> app_v1.Role_ (app_v1.Spec web) = Some false ∧
  ∃ out role rb,
    app_flight.build (ErrNotFound "") web = Emitted out ∧
    roles out = [role] ∧
    roleBindings out = [rb] ∧
    rbacv1.RoleRef_Name (rbacv1.RoleBinding_RoleRef rb)
    = metav1.Name (rbacv1.Role_ObjectMeta role).
Proof.
  split; [reflexivity|].
  destruct (X_app_role (ErrNotFound "") web _ eq_refl)
    as (sa & d & _ & _ & _ & role & rb & Hrole & Hrb & _ & _ & Href & _).
  eexists _, role, rb. split; [reflexivity|].
  split; [exact Hrole|]. split; [exact Hrb|]. exact (f_equal rbacv1.RoleRef_Name Href).
Defined.

Lemma X_app_ingress_annotations_witness :
  ∃ ing,
    app_flight.createIngress (ErrNotFound "") web webIngress = Ok ing ∧
    metav1.Annotations (networkingv1.ObjectMeta ing) !! "cert-manager.io/cluster-issuer"
    = Some "letsencrypt-staging" ∧
    metav1.Annotations (networkingv1.ObjectMeta ing)
      !! "nginx.ingress.kubernetes.io/ssl-redirect" = Some "true".
Proof.
  destruct (X_app_ingress_annotations (ErrNotFound "") web webIngress)
    as (ing & Hing & Hspec & _ & Hredirect & _).
  exists ing. split; [exact Hing|]. split.
  - apply Hspec; [vm_compute; reflexivity|].
    intros [[Hrules _]|[Hkind _]]; discriminate.
  - apply Hredirect. vm_compute. reflexivity.
Defined.

Lemma X_app_probes_witness :
  ∃ out d c p,
    app_flight.build (ErrNotFound "") web = Emitted out ∧
    deployments out = [d] ∧
    corev1.Containers (podSpec d) = [c] ∧
    corev1.LivenessProbe c = Some p ∧
    is_Some (corev1.ReadinessProbe c) ∧
    corev1.PeriodSeconds p = 10.
Proof.
  destruct (X_app_probes (ErrNotFound "") web _ eq_refl)
    as (d & c & Hd & Hc & Hboth & Hset & Hprobe).
  assert (Hlive : is_Some (corev1.LivenessProbe c)).
  { apply Hset. eexists. split; [reflexivity|]. split; [reflexivity|]. by left. }
  destruct Hlive as [p Hp].
  destruct (Hprobe p (or_introl Hp)) as (hc & port & _ & _ & _ & _ & Hperiod & _).
  eexists _, d, c, p. split; [reflexivity|].
  split; [exact Hd|]. split; [exact Hc|]. split; [exact Hp|].
  split; [|exact Hperiod]. apply Hboth. by exists p.
Defined.

Lemma X_namespace_witness :
  ∃ out1 out2 out3,
    app_flight.build (ErrNotFound "") web = Emitted out1 ∧
    valkey_flight.build session = Emitted out2 ∧
    postgres_flight.build emptyCluster "0123456789abcdef" ledger = Emitted out3 ∧
    Forall (λ r, metav1.Namespace (metadataOf r) = "prod") (out1 ++ out2 ++ out3).
Proof.
  destruct X_namespace as (Happ & Hvalkey & Hpostgres).
  pose proof (Happ (ErrNotFound "") web _ eq_refl) as Hout1.
  pose proof (Hvalkey session _ eq_refl) as Hout2.
  pose proof (Hpostgres emptyCluster "0123456789abcdef" ledger _ eq_refl) as Hout3.
  eexists _, _, _. split; [reflexivity|]. split; [reflexivity|]. split; [reflexivity|].
  apply Forall_app. split; [exact Hout1|].
  apply Forall_app. split; [exact Hout2|exact Hout3].
Defined.

Lemma X_valkey_secret_names_witness :
  ∃ out d c,
    valkey_flight.build session = Emitted out ∧
    deployments out = [d] ∧
    corev1.Containers (podSpec d) = [c] ∧
    ((λ i, metav1.Name (onepasswordv1.ObjectMeta i)) <$> onePasswordItems out)
    = ["session-valkey-auth"] ∧
    (corev1.SecretRef_Name <$> corev1.EnvFrom c) = ["session-auth"].
Proof.
  destruct (X_valkey_secret_names session _ eq_refl)
    as (d & c & Hd & Hc & Hitems & Henv & _).
  eexists _, d, c. split; [reflexivity|].
  split; [exact Hd|]. split; [exact Hc|]. split; [exact Hitems|exact Henv].
Defined.

Lemma X_valkey_service_witness :
  ∃ out d c s,
    valkey_flight.build session = Emitted out ∧
    deployments out = [d] ∧
    corev1.Containers (podSpec d) = [c] ∧
    services out = [s] ∧
    metav1.Name (corev1.Service_ObjectMeta s) = "session-valkey" ∧
    (corev1.ServicePort_Port <$> corev1.Service_Ports s) = [6379] ∧
    corev1.LivenessProbe c = Some (probe 3 10 (corev1.TCPSocket (corev1.IntVal 6379))).
Proof.
  destruct (X_valkey_service session _ eq_refl)
    as (d & c & s & Hd & Hc & Hs & Hname & _ & _ & Hport & _ & Hprobe).
  eexists _, d, c, s. split; [reflexivity|].
  split; [exact Hd|]. split; [exact Hc|]. split; [exact Hs|].
  split; [exact Hname|]. split; [exact Hport|exact Hprobe].
Defined.

Lemma X_postgres_secret_names_witness :
  ∃ out d c,
    postgres_flight.build emptyCluster "0123456789abcdef" ledger = Emitted out ∧
    deployments out = [d] ∧
    corev1.Containers (podSpec d) = [c] ∧
    ((λ i, metav1.Name (onepasswordv1.ObjectMeta i)) <$> onePasswordItems out)
    = ["ledger-postgres-init"] ∧
    (corev1.SecretRef_Name <$> corev1.EnvFrom c) = ["ledger-init"].
Proof.
  destruct (X_postgres_secret_names emptyCluster "0123456789abcdef" ledger _ eq_refl)
    as (d & c & Hd & Hc & Hitems & Henv & _).
  eexists _, d, c. split; [reflexivity|].
  split; [exact Hd|]. split; [exact Hc|]. split; [exact Hitems|exact Henv].
Defined.

(** Without a storage size the Deployment refers to a claim the flight
    does not emit. *)
Lemma X_postgres_storage_claim_witness :
  ∃ out d,
    postgres_flight.build (clusterWith (Found stored)) "0123456789abcdef" dbPostgres = Emitted out ∧
    deployments out = [d] ∧
    claimNames d = ["db-postgres-storage"] ∧
    claims out = [].
Proof.
  destruct (X_postgres_storage_claim (clusterWith (Found stored)) "0123456789abcdef" dbPostgres
              _ eq_refl)
    as (d & c & Hd & Hc & Hclaim & _ & _ & Hclaims).
  eexists _, d. split; [reflexivity|]. split; [exact Hd|]. split; [exact Hclaim|].
  by apply fmap_nil_inv in Hclaims.
Defined.

Lemma X_postgres_database_secret_witness :
  ∃ out c secret,
    postgres_flight.build (clusterWith (Found stored)) "0123456789abcdef" dbPostgres = Emitted out ∧
    secrets out = [secret] ∧
    (corev1.EnvVar_Name <$> corev1.Container_Env c)
    = ["POSTGRES_USER"; "PGDATA"; "POSTGRES_PASSWORD"; "DATABASE_URL"] ∧
    (corev1.EnvVar_ValueFrom <$> drop 2 (corev1.Container_Env c))
    = [ Some (EnvVarSource_SecretKeyRef (metav1.Name (corev1.Secret_ObjectMeta secret))
                "POSTGRES_PASSWORD" (Some false));
        Some (EnvVarSource_SecretKeyRef (metav1.Name (corev1.Secret_ObjectMeta secret))
                "DATABASE_URL" (Some false)) ].
Proof.
  destruct (X_postgres_database_secret (clusterWith (Found stored)) "0123456789abcdef" dbPostgres
              _ eq_refl)
    as (d & c & s & secret & password & _ & _ & _ & Hsecret & Henv & _).
  eexists _, c, secret. split; [reflexivity|]. split; [exact Hsecret|].
  split; [exact (f_equal (fmap corev1.EnvVar_Name) Henv)|].
  exact (f_equal (λ env, corev1.EnvVar_ValueFrom <$> drop 2 env) Henv).
Defined.

Lemma X_no_panic_from_input_witness :
  ∃ out,
    postgres_flight.run (clusterWith (Found stored)) "0123456789abcdef" (Document db)
    = Emitted out.
Proof.
  destruct X_no_panic_from_input as (_ & _ & Hpostgres).
  destruct (Hpostgres (clusterWith (Found stored)) "0123456789abcdef" (Document db))
    as [Hout|(err & Herr & _)]; [|exact Hout|].
  - intros app msg Hdec. vm_compute in Hdec. injection Hdec as <-. discriminate.
  - vm_compute in Herr. discriminate Herr.
Defined.

Lemma X_valkey_round_trip_witness :
  ValkeySpec_valid (valkey_v1.Spec session) ∧
  valkey_v1.Valkey_UnmarshalJSON valkey_v1.Valkey_zero (valkey_v1.Valkey_MarshalJSON session)
  = Ok session.
Proof.
  assert (Hvalid : ValkeySpec_valid (valkey_v1.Spec session)).
  { split; [constructor|]. by repeat constructor. }
  split; [exact Hvalid|].
  destruct X_valkey_round_trip as [Hall _].
  exact (Hall session Hvalid).
Defined.

Lemma X_postgres_round_trip_with_storage_witness :
  ParseQuantity "10Gi" = inl (reference.Build_quantity "10" "Gi") ∧
  postgres_v1.Postgres_UnmarshalJSON postgres_v1.Postgres_zero
    (postgres_v1.Postgres_MarshalJSON ledger)
  = Ok ledger.
Proof.
  assert (Hsize : ParseQuantity "10Gi" = inl (reference.Build_quantity "10" "Gi"))
    by (vm_compute; reflexivity).
  split; [exact Hsize|].
  destruct X_postgres_round_trip_with_storage as [Hall _].
  refine (Hall ledger (reference.Build_quantity "10" "Gi") _ Hsize _).
  - discriminate.
  - by repeat constructor.
Defined.

Lemma X_app_accepted_documents_witness :
  app_v1.App_UnmarshalJSON app_v1.App_zero stickers = Ok stickersApp ∧
  App_valid stickersApp.
Proof.
  assert (Hdec : app_v1.App_UnmarshalJSON app_v1.App_zero stickers = Ok stickersApp)
    by (vm_compute; reflexivity).
  split; [exact Hdec|].
  exact (X_app_accepted_documents stickers stickersApp Hdec).
Defined.

(** A document gives a count other than 0; a document that is [null]
    gives 0. *)
Lemma X_app_replicas_witness :
  decoded app_v1.App_UnmarshalJSON app_v1.App_zero (Document stickers) = Ok stickersApp ∧
  decoded app_v1.App_UnmarshalJSON app_v1.App_zero (Document JNull) = Ok app_v1.App_zero ∧
  (∃ out d,
      app_flight.run (ErrNotFound "") (Document stickers) = Emitted out ∧
      deployments out = [d] ∧
      appsv1.Replicas d = Some 1) ∧
  (∃ out d,
      app_flight.run (ErrNotFound "") (Document JNull) = Emitted out ∧
      deployments out = [d] ∧
      appsv1.Replicas d = Some 0).
Proof.
  assert (Hdec : decoded app_v1.App_UnmarshalJSON app_v1.App_zero (Document stickers)
                 = Ok stickersApp) by (vm_compute; reflexivity).
  assert (Hnull : decoded app_v1.App_UnmarshalJSON app_v1.App_zero (Document JNull)
                  = Ok app_v1.App_zero) by reflexivity.
  split; [exact Hdec|]. split; [exact Hnull|]. split.
  - destruct (X_app_replicas (ErrNotFound "") (Document stickers) stickersApp Hdec)
      as (out & d & Hout & Hd & Hn & _).
    exists out, d. split; [exact Hout|]. split; [exact Hd|exact Hn].
  - destruct (X_app_replicas (ErrNotFound "") (Document JNull) app_v1.App_zero Hnull)
      as (out & d & Hout & Hd & Hn & _).
    exists out, d. split; [exact Hout|]. split; [exact Hd|exact Hn].
Defined.

Lemma X_hypercloud_valid_witness :
  hypercloud.ACME_Valid acme = None ∧
  hypercloud.ACME_Valid (hypercloud.Build_ACME "" (hypercloud.Directories acme)) ≠ None.
Proof.
  destruct X_hypercloud_valid as (_ & _ & Hacme).
  split.
  - apply Hacme. split; [discriminate|]. split; [discriminate|].
    repeat constructor; discriminate.
  - intros Hnone. apply Hacme in Hnone as [Hemail _]. by apply Hemail.
Defined.

Lemma X_hypercloud_config_witness :
  hypercloud.ACME_Valid acme = None ∧
  ∃ msg, hypercloud.Config_Valid noDNS = Panics msg.
Proof.
  split; [vm_compute; reflexivity|].
  exact (X_hypercloud_config noDNS).
Defined.

Lemma X_hypercloud_readEveryDocument_witness :
  Errorf "did not find expected key" ≠ EOF ∧
  hypercloud.readEveryDocument string id (Ok <$> ["v1"; ""; "apps/v1"])
  = Ok ["v1"; "apps/v1"] ∧
  hypercloud.readEveryDocument string id
    ((Ok <$> ["v1"; ""]) ++ Err (Errorf "did not find expected key") :: [Ok "apps/v1"])
  = Err (Errorf "did not find expected key").
Proof.
  assert (Herr : Errorf "did not find expected key" ≠ EOF) by discriminate.
  split; [exact Herr|].
  destruct (X_hypercloud_readEveryDocument (Unstructured := string) id) as [Hall Hfirst].
  split; [exact (Hall ["v1"; ""; "apps/v1"])|].
  exact (Hfirst ["v1"; ""] _ [Ok "apps/v1"] Herr).
Defined.

Lemma X_earlier_round_trip_witness :
  app_v1_earlier.App_UnmarshalJSON app_v1_earlier.App_zero blog = Ok blogApp ∧
  app_v1_earlier.App_UnmarshalJSON app_v1_earlier.App_zero
    (app_v1_earlier.App_MarshalJSON blogApp)
  = Ok blogApp.
Proof.
  assert (Hdec : app_v1_earlier.App_UnmarshalJSON app_v1_earlier.App_zero blog
                 = Ok blogApp) by (vm_compute; reflexivity).
  split; [exact Hdec|].
  destruct X_earlier_round_trip as [_ Hdecoded].
  exact (Hdecoded blog blogApp Hdec).
Defined.

Lemma X_earlier_output_witness :
  decoded app_v1_earlier.App_UnmarshalJSON app_v1_earlier.App_zero (Document blog)
  = Ok blogApp ∧
  ∃ out d s,
    app_flight_earlier.run (Document blog) = Emitted out ∧
    deployments out = [d] ∧
    services out = [s] ∧
    serviceAccounts out = [] ∧
    appsv1.MatchLabels d = {[ "app.kubernetes.io/name" := "blog" ]} ∧
    corev1.Service_Selector s = {[ "app.kubernetes.io/name" := "blog" ]}.
Proof.
  assert (Hdec : decoded app_v1_earlier.App_UnmarshalJSON app_v1_earlier.App_zero
                   (Document blog) = Ok blogApp) by (vm_compute; reflexivity).
  split; [exact Hdec|].
  destruct (X_earlier_output (Document blog) blogApp Hdec)
    as (out & d & c & s & Hout & Hd & _ & Hs & Hsa & _ & _ & _ & _ & _ & Hmatch & Hsel & _).
  exists out, d, s. split; [exact Hout|]. split; [exact Hd|]. split; [exact Hs|].
  split; [exact Hsa|]. split; [exact Hmatch|exact Hsel].
Defined.

(** With a healthcheck that gives no port the probe goes to port 0, while
    the container listens on 3000. *)
Lemma X_earlier_probe_witness :
  decoded app_v1_earlier.App_UnmarshalJSON app_v1_earlier.App_zero (Document blog)
  = Ok blogApp ∧
  ∃ out d c,
    app_flight_earlier.run (Document blog) = Emitted out ∧
    deployments out = [d] ∧
    corev1.Containers (podSpec d) = [c] ∧
    corev1.LivenessProbe c =
      Some (probe 3 10 (corev1.HTTPGet "" (corev1.IntVal 0)
                          [ {| corev1.HTTPHeader_Name := "X-Kubernetes";
                               corev1.HTTPHeader_Value := "is kinda okay" |} ])) ∧
    (corev1.ContainerPort_ContainerPort <$> corev1.Ports c) = [3000].
Proof.
  assert (Hdec : decoded app_v1_earlier.App_UnmarshalJSON app_v1_earlier.App_zero
                   (Document blog) = Ok blogApp) by (vm_compute; reflexivity).
  split; [exact Hdec|].
  destruct (X_earlier_probe (Document blog) blogApp Hdec)
    as (out & d & c & Hout & Hd & Hc & _ & Hprobe & Hport & _).
  exists out, d, c. split; [exact Hout|]. split; [exact Hd|]. split; [exact Hc|].
  split; [exact Hprobe|exact Hport].
Defined.

Lemma X_earlier_ingress_witness :
  decoded app_v1_earlier.App_UnmarshalJSON app_v1_earlier.App_zero (Document blog)
  = Ok blogApp ∧
  ∃ out ing,
    app_flight_earlier.run (Document blog) = Emitted out ∧
    ingresses out = [ing] ∧
    (networkingv1.Host <$> networkingv1.Rules ing) = ["blog.within.website"] ∧
    networkingv1.IngressClassName ing = Some "nginx" ∧
    metav1.Annotations (networkingv1.ObjectMeta ing)
    = {[ "cert-manager.io/cluster-issuer" := "letsencrypt-prod" ]}.
Proof.
  assert (Hdec : decoded app_v1_earlier.App_UnmarshalJSON app_v1_earlier.App_zero
                   (Document blog) = Ok blogApp) by (vm_compute; reflexivity).
  split; [exact Hdec|].
  destruct (X_earlier_ingress (Document blog) blogApp Hdec)
    as (out & Hout & ing & Hing & Hrules & _ & Hann & Hclass & _).
  exists out, ing. split; [exact Hout|]. split; [exact Hing|].
  split; [exact Hrules|]. split; [exact Hclass|exact Hann].
Defined.
